(** * trustydns: a shallow embedding of the proxy, the DoH resolver, the DoH
    server, the local resolver and the best-server managers.

    Go values are modelled as follows.  [int], [uint], [time.Duration] and
    [time.Time] are [Z] (a [time.Time] is an instant in nanoseconds, the zero
    [time.Time] is [0]); conversions that wrap are written out.  [[]byte] and
    [net.IP] are [list byte].  A pointer receiver that is mutated in place is
    returned as an updated value next to the result.  Functions of the
    external library [github.com/miekg/dns] whose result depends on the wire
    encoding ([Len], [Pack], [Unpack], [Truncate]) are the fields of the class
    [dns.Library]; the module [miekg] gives one executable instance. *)

From Stdlib Require Import ZArith List String Ascii Bool Lia.
From Stdlib.Strings Require Import Byte.
From stdpp Require Import base option list gmap strings.

Import ListNotations.
Local Open Scope string_scope.
Local Open Scope list_scope.
Local Open Scope Z_scope.

(** ** Results of fallible functions *)

Inductive result (E A : Type) : Type :=
| Err (e : E)
| Ok (a : A).
Arguments Err {E A} e.
Arguments Ok {E A} a.

Definition is_ok {E A} (r : result E A) : bool :=
  match r with Ok _ => true | Err _ => false end.

(** ** Go integer conversions *)

Definition uint64_of (z : Z) : Z := z mod 2 ^ 64.
Definition uint32_of (z : Z) : Z := z mod 2 ^ 32.
Definition uint16_of (z : Z) : Z := z mod 2 ^ 16.
Definition uint8_of (z : Z) : Z := z mod 2 ^ 8.

(** [int64] arithmetic wraps into [-2^63, 2^63). *)
Definition int64_of (z : Z) : Z := (z + 2 ^ 63) mod 2 ^ 64 - 2 ^ 63.

Definition len {A} (l : list A) : Z := Z.of_nat (length l).

(** ** internal/constants *)

Module consts.
Definition MinimumViableDNSMessage : Z := 16.
Definition DNSTruncateThreshold : Z := 512.
Definition MaximumViableDNSMessage : Z := 65535.
Definition Rfc8467ClientPadModulo : Z := 128.
Definition Rfc8467ServerPadModulo : Z := 468.
Definition Rfc8484AcceptValue : string := "application/dns-message".
Definition Rfc8484QueryParam : string := "dns".
Definition ContentTypeHeader : string := "Content-Type".
Definition AcceptHeader : string := "Accept".
Definition AgeHeader : string := "Age".
Definition TrustyDurationHeader : string := "X-trustydns-Duration".
Definition TrustySynthesizeECSRequestHeader : string := "X-trustydns-Synth".
Definition DNSUDPTransport : string := "udp".
Definition DNSTCPTransport : string := "tcp".
End consts.

(** ** The message type of github.com/miekg/dns, as this repository uses it *)

Module dns.

Definition EDNS0SUBNET : Z := 8.
Definition EDNS0PADDING : Z := 12.
Definition TypeOPT : Z := 41.
Definition TypeTSIG : Z := 250.
Definition ClassINET : Z := 1.
Definition OpcodeQuery : Z := 0.
Definition DefaultMsgSize : Z := 4096.
Definition MinMsgSize : Z := 512.

Definition RcodeSuccess : Z := 0.
Definition RcodeFormatError : Z := 1.
Definition RcodeServerFailure : Z := 2.
Definition RcodeNameError : Z := 3.
Definition RcodeNotImplemented : Z := 4.
Definition RcodeRefused : Z := 5.

(** EDNS0 sub-options.  Every sub-option that is neither ECS nor padding is
    an [EDNS0_LOCAL] carrying its own code. *)
Inductive EDNS0 : Type :=
| EDNS0_SUBNET (Code Family SourceNetmask SourceScope : Z) (Address : list byte)
| EDNS0_PADDING (Padding : list byte)
| EDNS0_LOCAL (Code : Z) (Data : list byte).

(** [EDNS0.Option()]: the option code. *)
Definition Option_ (o : EDNS0) : Z :=
  match o with
  | EDNS0_SUBNET _ _ _ _ _ => EDNS0SUBNET
  | EDNS0_PADDING _ => EDNS0PADDING
  | EDNS0_LOCAL c _ => c
  end.

Record RR_Header : Type := mkHeader {
  Name : string;
  Rrtype : Z;
  Class : Z;
  Ttl : Z
}.

(** Resource records: the OPT pseudo-RR, TSIG, and every other type kept as
    its header with opaque rdata. *)
Inductive RR : Type :=
| OPT (Hdr : RR_Header) (Option : list EDNS0)
| TSIG (Hdr : RR_Header) (Rdata : list byte)
| RFC3597 (Hdr : RR_Header) (Rdata : list byte).

Definition Header (rr : RR) : RR_Header :=
  match rr with OPT h _ | TSIG h _ | RFC3597 h _ => h end.

Record Question_ : Type := mkQuestion {
  QName : string;
  Qtype : Z;
  Qclass : Z
}.

Record MsgHdr : Type := mkMsgHdr {
  Id : Z;
  Response : bool;
  Opcode : Z;
  Authoritative : bool;
  Truncated : bool;
  RecursionDesired : bool;
  RecursionAvailable : bool;
  Rcode : Z
}.

Record Msg : Type := mkMsg {
  Hdr : MsgHdr;
  Compress : bool;
  Question : list Question_;
  Answer : list RR;
  Ns : list RR;
  Extra : list RR
}.

Definition set_Id (m : Msg) (id : Z) : Msg :=
  let h := Hdr m in
  mkMsg (mkMsgHdr id (Response h) (Opcode h) (Authoritative h) (Truncated h)
           (RecursionDesired h) (RecursionAvailable h) (Rcode h))
        (Compress m) (Question m) (Answer m) (Ns m) (Extra m).

Definition set_Truncated (m : Msg) (tc : bool) : Msg :=
  let h := Hdr m in
  mkMsg (mkMsgHdr (Id h) (Response h) (Opcode h) (Authoritative h) tc
           (RecursionDesired h) (RecursionAvailable h) (Rcode h))
        (Compress m) (Question m) (Answer m) (Ns m) (Extra m).

Definition set_Extra (m : Msg) (extra : list RR) : Msg :=
  mkMsg (Hdr m) (Compress m) (Question m) (Answer m) (Ns m) extra.

Definition set_Ttl (rr : RR) (ttl : Z) : RR :=
  let h := Header rr in
  let h' := mkHeader (Name h) (Rrtype h) (Class h) ttl in
  match rr with
  | OPT _ o => OPT h' o
  | TSIG _ d => TSIG h' d
  | RFC3597 _ d => RFC3597 h' d
  end.

(** [Msg.IsTsig]: the TSIG record, which must be the last of Extra. *)
Definition IsTsig (m : Msg) : option RR :=
  match last (Extra m) with
  | Some (TSIG h d) => Some (TSIG h d)
  | _ => None
  end.

(** [Msg.IsEdns0]: the OPT record of Extra, searched from the end. *)
Fixpoint lastOPT (rrs : list RR) : option RR :=
  match rrs with
  | [] => None
  | rr :: tl =>
      match lastOPT tl with
      | Some o => Some o
      | None => match rr with OPT h o => Some (OPT h o) | _ => None end
      end
  end.

Definition IsEdns0 (m : Msg) : option RR := lastOPT (Extra m).

(** [OPT.UDPSize]: the requestor's payload size is kept in the class field. *)
Definition UDPSize (opt : RR) : Z := uint16_of (Class (Header opt)).

(** The functions of the library that depend on the wire encoding. *)
Class Library : Type := {
  Len : Msg -> Z;
  Pack : Msg -> option (list byte);
  Unpack : list byte -> option Msg;
  Truncate : Msg -> Z -> Msg
}.

End dns.

(** ** internal/dnsutil *)

Module dnsutil.
Import dns.

(** [FindOPT]: the first OPT of Extra; its position stands for the pointer
    that the Go function returns. *)
Fixpoint findOPTFrom (ix : nat) (rrs : list RR) : option (nat * RR) :=
  match rrs with
  | [] => None
  | OPT h o :: _ => Some (ix, OPT h o)
  | _ :: tl => findOPTFrom (S ix) tl
  end.

Definition FindOPT (q : Msg) : option (nat * RR) := findOPTFrom 0 (Extra q).

Fixpoint firstSubnet (opts : list EDNS0) : option EDNS0 :=
  match opts with
  | [] => None
  | EDNS0_SUBNET c f n s a :: _ => Some (EDNS0_SUBNET c f n s a)
  | _ :: tl => firstSubnet tl
  end.

Fixpoint findECSIn (rrs : list RR) : option (RR * EDNS0) :=
  match rrs with
  | [] => None
  | OPT h o :: tl =>
      match firstSubnet o with
      | Some e => Some (OPT h o, e)
      | None => findECSIn tl
      end
  | _ :: tl => findECSIn tl
  end.

Definition FindECS (q : Msg) : option (RR * EDNS0) := findECSIn (Extra q).

Fixpoint firstPadding (opts : list EDNS0) : option Z :=
  match opts with
  | [] => None
  | EDNS0_PADDING p :: _ => Some (len p)
  | _ :: tl => firstPadding tl
  end.

Fixpoint findPaddingIn (rrs : list RR) : Z :=
  match rrs with
  | [] => -1
  | OPT _ o :: tl =>
      match firstPadding o with
      | Some n => n
      | None => findPaddingIn tl
      end
  | _ :: tl => findPaddingIn tl
  end.

Definition FindPadding (q : Msg) : Z := findPaddingIn (Extra q).

Definition hasCode (code : Z) (o : EDNS0) : bool := Option_ o =? code.

(** The loop of [RemoveEDNS0FromOPT]: the surviving records and whether a
    sub-option was dropped. *)
Fixpoint removeLoop (code : Z) (rrs : list RR) : list RR * bool :=
  match rrs with
  | [] => ([], false)
  | OPT h opts :: tl =>
      let keep := List.filter (fun o => negb (hasCode code o)) opts in
      let removedHere := existsb (hasCode code) opts in
      let (out, removed) := removeLoop code tl in
      ((if (0 <? len keep) then OPT h keep :: out else out), removedHere || removed)
  | rr :: tl =>
      let (out, removed) := removeLoop code tl in
      (rr :: out, removed)
  end.

Definition RemoveEDNS0FromOPT (msg : Msg) (edns0Code : Z) : bool * Msg :=
  let (outRRs, removed) := removeLoop (uint16_of edns0Code) (Extra msg) in
  (removed, if removed then set_Extra msg outRRs else msg).

Definition NewOPT : RR :=
  OPT (mkHeader "." TypeOPT DefaultMsgSize 0) [].

Definition appendOption (rr : RR) (o : EDNS0) : RR :=
  match rr with
  | OPT h opts => OPT h (opts ++ [o])
  | other => other
  end.

(** [CreateECS]: returns the option and the message with the option
    appended to its first OPT (created at the end of Extra when absent). *)
Definition CreateECS (msg : Msg) (family prefixLength : Z) (ip : list byte)
  : EDNS0 * Msg :=
  let ecs := EDNS0_SUBNET EDNS0SUBNET (uint16_of family) (uint8_of prefixLength) 0 ip in
  let '(ix, optRR, msg1) :=
    match FindOPT msg with
    | Some (ix, o) => (ix, o, msg)
    | None => (length (Extra msg), NewOPT, set_Extra msg (Extra msg ++ [NewOPT]))
    end in
  (ecs, set_Extra msg1 (<[ix := appendOption optRR ecs]> (Extra msg1))).

Definition reduceRR (by_ minimum : Z) (rr : RR) : RR * Z :=
  let ttl := Ttl (Header rr) in
  if minimum <? ttl then
    let ttl1 := ttl - by_ in
    let ttl2 := if ttl1 <? minimum then minimum else ttl1 in
    if uint32_of ttl2 =? ttl then (rr, 0) else (set_Ttl rr (uint32_of ttl2), 1)
  else (rr, 0).

Fixpoint reduceRRSet (rrset : list RR) (by_ minimum : Z) : list RR * Z :=
  match rrset with
  | [] => ([], 0)
  | rr :: tl =>
      let (rr', c) := reduceRR by_ minimum rr in
      let (tl', n) := reduceRRSet tl by_ minimum in
      (rr' :: tl', c + n)
  end.

Definition ReduceTTL (msg : Msg) (by_ minimum : Z) : Z * Msg :=
  let (an, c1) := reduceRRSet (Answer msg) by_ minimum in
  let (ns, c2) := reduceRRSet (Ns msg) by_ minimum in
  let (ex, c3) := reduceRRSet (Extra msg) by_ minimum in
  (c1 + c2 + c3, mkMsg (Hdr msg) (Compress msg) (Question msg) an ns ex).

(** The number of sub-options with a given code in all the OPT records of a
    list of records. *)
Fixpoint countCode (code : Z) (rrs : list RR) : nat :=
  match rrs with
  | [] => O
  | OPT _ opts :: tl => (length (List.filter (hasCode code) opts) + countCode code tl)%nat
  | _ :: tl => countCode code tl
  end.

(** The sub-options of all the OPT records of a list of records, in the
    order in which the loops of this package meet them. *)
Fixpoint optionsOf (rrs : list RR) : list EDNS0 :=
  match rrs with
  | [] => []
  | OPT _ opts :: tl => opts ++ optionsOf tl
  | _ :: tl => optionsOf tl
  end.

Definition isOPT (rr : RR) : bool :=
  match rr with OPT _ _ => true | _ => false end.


(** The type assertions of [FindECS] and [FindPadding]: the sub-option is
    an [EDNS0_SUBNET], an [EDNS0_PADDING]. *)
Definition isSubnet (o : EDNS0) : bool :=
  match o with EDNS0_SUBNET _ _ _ _ _ => true | _ => false end.

Definition isPadding (o : EDNS0) : bool :=
  match o with EDNS0_PADDING _ => true | _ => false end.

(** Where [FindOPT] looks, and what the callers that append a sub-option
    find there: the position [ix] of the first OPT record of [rrs], which is
    Extra itself or Extra with a new OPT at its end. *)
Definition firstOPTAt (extra rrs : list RR) (ix : nat) (h : RR_Header)
    (opts : list EDNS0) : Prop :=
  (rrs = extra \/ (rrs = extra ++ [NewOPT] /\ optionsOf extra = []))
  /\ rrs !! ix = Some (OPT h opts)
  /\ (forall j rr, (j < ix)%nat -> rrs !! j = Some rr -> isOPT rr = false).

(** Two records that differ at most in their TTL: the same kind of record
    with the same name, type, class and rdata. *)
Definition sameButTtl (rr rr' : RR) : Prop :=
  set_Ttl rr' 0 = set_Ttl rr 0.

(** What [reduceRRSet] does to one record, said on the TTLs: a TTL at or
    below the minimum stays, a TTL above it is reduced but not below the
    minimum. *)
Definition ttlReduced (by_ minimum : Z) (rr rr' : RR) : Prop :=
  let ttl := Ttl (Header rr) in
  let ttl' := Ttl (Header rr') in
  sameButTtl rr rr'
  /\ ttl' <= ttl
  /\ (ttl <= minimum -> ttl' = ttl)
  /\ (minimum < ttl -> ttl' = Z.max minimum (ttl - by_)).

(** The number of positions at which two record lists differ in TTL. *)
Fixpoint ttlChanges (rrs rrs' : list RR) : Z :=
  match rrs, rrs' with
  | rr :: tl, rr' :: tl' =>
      (if Ttl (Header rr) =? Ttl (Header rr') then 0 else 1) + ttlChanges tl tl'
  | _, _ => 0
  end.

Inductive PadError : Type :=
| ModuloNotInRange (moduloSize : Z)
| PackFailed
| UnexpectedLength (length moduloSize : Z).

(** Replace the last element of an option list
    ([optRR.Option[len(optRR.Option)-1] = padding]). *)
Definition setLastOption (rr : RR) (o : EDNS0) : RR :=
  match rr with
  | OPT h opts => OPT h (<[pred (length opts) := o]> opts)
  | other => other
  end.

Section WithLibrary.
Context {lib : Library}.

(** [PadAndPack]: the packed bytes or an error, and the message as the
    function leaves it.  [optRR] is the position [ix] of Extra.  A slice
    length is a non-negative [int], so [uint(len(packed))] is the length
    itself; [uint(mLen)] wraps. *)
Definition PadAndPack (msg : Msg) (moduloSize : Z)
  : result PadError (list byte) * Msg :=
  if (moduloSize <? 1) || (consts.MaximumViableDNSMessage <? moduloSize) then
    (Err (ModuloNotInRange moduloSize), msg)
  else
    let msg1 :=
      if 0 <? len (Extra msg) then snd (RemoveEDNS0FromOPT msg EDNS0PADDING)
      else msg in
    let found := if 0 <? len (Extra msg1) then FindOPT msg1 else None in
    let '(ix, optRR, msg2) :=
      match found with
      | Some (ix, o) => (ix, o, msg1)
      | None => (length (Extra msg1), NewOPT, set_Extra msg1 (Extra msg1 ++ [NewOPT]))
      end in
    let optRR1 := appendOption optRR (EDNS0_PADDING []) in
    let msg3 := set_Extra msg2 (<[ix := optRR1]> (Extra msg2)) in
    let mLen := Len msg3 in
    let extraPadding := uint64_of (moduloSize - (uint64_of mLen) mod moduloSize) in
    let msg4 :=
      if 0 <? extraPadding then
        let padding := EDNS0_PADDING (repeat x00 (Z.to_nat extraPadding)) in
        set_Extra msg3 (<[ix := setLastOption optRR1 padding]> (Extra msg3))
      else msg3 in
    match Pack msg4 with
    | None => (Err PackFailed, msg4)
    | Some packed =>
        if negb (len packed mod moduloSize =? 0) then
          (Err (UnexpectedLength (len packed) moduloSize), msg4)
        else (Ok packed, msg4)
    end.
End WithLibrary.

End dnsutil.

(** ** The parts of Go's [net] package that the server relies on *)

Module net.

Definition IPv4len : nat := 4.
Definition IPv6len : nat := 16.

Definition v4InV6Prefix : list byte :=
  [x00; x00; x00; x00; x00; x00; x00; x00; x00; x00; xff; xff].

Fixpoint bytes_eqb (a b : list byte) : bool :=
  match a, b with
  | [], [] => true
  | x :: a', y :: b' => Byte.eqb x y && bytes_eqb a' b'
  | _, _ => false
  end.

(** [IP.To4]: the 4-byte form of an IPv4 address, [None] for Go's nil. *)
Definition To4 (ip : list byte) : option (list byte) :=
  if (length ip =? IPv4len)%nat then Some ip
  else if ((length ip =? IPv6len)%nat && bytes_eqb (take 12 ip) v4InV6Prefix)%bool
       then Some (drop 12 ip)
       else None.

(** [IP.To16]: the 16-byte form; an IPv4 address is mapped into IPv6. *)
Definition To16 (ip : list byte) : option (list byte) :=
  if (length ip =? IPv4len)%nat then Some (v4InV6Prefix ++ ip)
  else if (length ip =? IPv6len)%nat then Some ip
       else None.

Definition byte_of (z : Z) : byte :=
  default x00 (Byte.of_N (Z.to_N (z mod 256))).

Definition Z_of_byte (b : byte) : Z := Z.of_N (Byte.to_N b).

Definition digit (c : ascii) : option Z :=
  let n := Z.of_nat (nat_of_ascii c) in
  if (48 <=? n) && (n <=? 57) then Some (n - 48) else None.

Definition hexdigit (c : ascii) : option Z :=
  let n := Z.of_nat (nat_of_ascii c) in
  if (48 <=? n) && (n <=? 57) then Some (n - 48)
  else if (97 <=? n) && (n <=? 102) then Some (n - 87)
  else if (65 <=? n) && (n <=? 70) then Some (n - 55)
  else None.

(** Fold the digits of a field in a base; [None] on a foreign character. *)
Fixpoint number (dig : ascii -> option Z) (base : Z) (cs : list ascii) (acc : Z)
  : option Z :=
  match cs with
  | [] => Some acc
  | c :: tl =>
      match dig c with
      | Some d => number dig base tl (acc * base + d)
      | None => None
      end
  end.

(** Split on a separator character, as [strings.Split] does for a
    one-character separator. *)
Fixpoint splitOn (sep : ascii) (cs cur : list ascii) : list (list ascii) :=
  match cs with
  | [] => [rev cur]
  | c :: tl =>
      if Ascii.eqb c sep then rev cur :: splitOn sep tl []
      else splitOn sep tl (c :: cur)
  end.

Definition v4field (cs : list ascii) : option Z :=
  match cs with
  | [] => None
  | c :: tl =>
      if ((3 <? length cs)%nat || (Ascii.eqb c "0" && (0 <? length tl)%nat))%bool
      then None
      else match number digit 10 cs 0 with
           | Some n => if n <=? 255 then Some n else None
           | None => None
           end
  end.

Definition parseIPv4 (s : string) : option (list byte) :=
  match map v4field (splitOn "." (list_ascii_of_string s) []) with
  | [Some a; Some b; Some c; Some d] =>
      Some (v4InV6Prefix ++ [byte_of a; byte_of b; byte_of c; byte_of d])
  | _ => None
  end.

Definition v6group (cs : list ascii) : option (list byte) :=
  if ((length cs =? 0)%nat || (4 <? length cs)%nat)%bool then None
  else match number hexdigit 16 cs 0 with
       | Some n => Some [byte_of (n / 256); byte_of n]
       | None => None
       end.

Fixpoint v6groups (gs : list (list ascii)) : option (list byte) :=
  match gs with
  | [] => Some []
  | g :: tl =>
      match v6group g, v6groups tl with
      | Some a, Some b => Some (a ++ b)
      | _, _ => None
      end
  end.

(** Position of the first ["::"] of a character list. *)
Fixpoint ellipsis (cs before : list ascii) : option (list ascii * list ascii) :=
  match cs with
  | c1 :: ((c2 :: tl) as rest) =>
      if (Ascii.eqb c1 ":" && Ascii.eqb c2 ":")%bool then Some (rev before, tl)
      else ellipsis rest (c1 :: before)
  | _ => None
  end.

Definition groupsOf (cs : list ascii) : option (list byte) :=
  match cs with
  | [] => Some []
  | _ => v6groups (splitOn ":" cs [])
  end.

Definition parseIPv6 (s : string) : option (list byte) :=
  let cs := list_ascii_of_string s in
  match ellipsis cs [] with
  | Some (l, r) =>
      match groupsOf l, groupsOf r with
      | Some a, Some b =>
          if (length a + length b <? IPv6len)%nat
          then Some (a ++ repeat x00 (IPv6len - length a - length b) ++ b)
          else None
      | _, _ => None
      end
  | None =>
      match groupsOf cs with
      | Some a => if (length a =? IPv6len)%nat then Some a else None
      | None => None
      end
  end.

(** [net.ParseIP] for dotted-decimal IPv4 and for colon-separated hexadecimal
    IPv6 with at most one ["::"]; an IPv4 address is returned in its 16-byte
    form, as Go does.  Zones and IPv6 text with an embedded dotted quad are
    outside this model and yield [None]. *)
Definition ParseIP (s : string) : option (list byte) :=
  match parseIPv4 s with
  | Some ip => Some ip
  | None => parseIPv6 s
  end.

End net.

(** ** A reference instance of the library

    An executable model of the wire functions of github.com/miekg/dns
    v1.1.62 (the version pinned in go.mod) for RFC 1035 messages without name
    compression.  It is the instance on which the development is run on
    concrete messages; theorems that do not name it hold for every
    [dns.Library]. *)

Module miekg.
Import dns.

Definition byte_of := net.byte_of.
Definition Z_of_byte := net.Z_of_byte.

Definition u16 (z : Z) : list byte := [byte_of (z / 256); byte_of z].
Definition u32 (z : Z) : list byte := u16 (z / 65536) ++ u16 z.

(** *** Sizes *)

Definition nameLen (s : string) : Z :=
  if String.eqb s "." then 1 else Z.of_nat (String.length s) + 1.

Definition subnetAddress (family netmask : Z) (address : list byte) : list byte :=
  let ip :=
    if family =? 1 then default [] (net.To4 address)
    else default [] (net.To16 address) in
  take (Z.to_nat ((netmask + 7) / 8)) ip.

Definition optionData (o : EDNS0) : list byte :=
  match o with
  | EDNS0_SUBNET _ family netmask scope address =>
      u16 family ++ [byte_of netmask; byte_of scope]
        ++ subnetAddress family netmask address
  | EDNS0_PADDING p => p
  | EDNS0_LOCAL _ d => d
  end.

Definition packOption (o : EDNS0) : list byte :=
  u16 (Option_ o) ++ u16 (len (optionData o)) ++ optionData o.

Definition rdata (rr : RR) : list byte :=
  match rr with
  | OPT _ opts => concat (map packOption opts)
  | TSIG _ d => d
  | RFC3597 _ d => d
  end.

(** Length of a record on the wire: name, type, class, ttl, rdlength, rdata. *)
Definition rrLen (rr : RR) : Z := nameLen (Name (Header rr)) + 10 + len (rdata rr).

Definition questionLen (q : Question_) : Z := nameLen (QName q) + 4.

Definition sumZ (l : list Z) : Z := fold_right Z.add 0 l.

Definition headerSize : Z := 12.

Definition msgLen (m : Msg) : Z :=
  headerSize + sumZ (map questionLen (Question m)) + sumZ (map rrLen (Answer m))
    + sumZ (map rrLen (Ns m)) + sumZ (map rrLen (Extra m)).

(** *** Packing *)

Fixpoint splitLabels (cs cur : list ascii) : list (list ascii) :=
  match cs with
  | [] => [rev cur]
  | c :: tl =>
      if Ascii.eqb c "." then rev cur :: splitLabels tl []
      else splitLabels tl (c :: cur)
  end.

Definition packLabel (l : list ascii) : option (list byte) :=
  if ((length l =? 0)%nat || (63 <? length l)%nat)%bool then None
  else Some (byte_of (len l) :: map byte_of_ascii l).

Fixpoint packLabels (ls : list (list ascii)) : option (list byte) :=
  match ls with
  | [] => None
  | [l] => if (length l =? 0)%nat then Some [x00] else None
  | l :: tl =>
      match packLabel l, packLabels tl with
      | Some a, Some b => Some (a ++ b)
      | _, _ => None
      end
  end.

(** A name must be fully qualified and at most 255 octets on the wire. *)
Definition packName (s : string) : option (list byte) :=
  if String.eqb s "." then Some [x00]
  else match packLabels (splitLabels (list_ascii_of_string s) []) with
       | Some b => if len b <=? 255 then Some b else None
       | None => None
       end.

Definition packQuestion (q : Question_) : option (list byte) :=
  match packName (QName q) with
  | Some n => Some (n ++ u16 (Qtype q) ++ u16 (Qclass q))
  | None => None
  end.

Definition packRR (rr : RR) : option (list byte) :=
  let h := Header rr in
  match packName (Name h) with
  | Some n =>
      if 65535 <? len (rdata rr) then None
      else Some (n ++ u16 (Rrtype h) ++ u16 (Class h) ++ u32 (Ttl h)
                   ++ u16 (len (rdata rr)) ++ rdata rr)
  | None => None
  end.

Fixpoint packAll {A} (f : A -> option (list byte)) (l : list A) : option (list byte) :=
  match l with
  | [] => Some []
  | x :: tl =>
      match f x, packAll f tl with
      | Some a, Some b => Some (a ++ b)
      | _, _ => None
      end
  end.

Definition bit (b : bool) (n : Z) : Z := if b then Z.shiftl 1 n else 0.

Definition packFlags (h : MsgHdr) : Z :=
  Z.lor (bit (Response h) 15)
    (Z.lor (Z.shiftl (Z.land (Opcode h) 15) 11)
       (Z.lor (bit (Authoritative h) 10)
          (Z.lor (bit (Truncated h) 9)
             (Z.lor (bit (RecursionDesired h) 8)
                (Z.lor (bit (RecursionAvailable h) 7) (Z.land (Rcode h) 15)))))).

Definition packMsg (m : Msg) : option (list byte) :=
  match packAll packQuestion (Question m), packAll packRR (Answer m),
        packAll packRR (Ns m), packAll packRR (Extra m) with
  | Some q, Some an, Some ns, Some ex =>
      let out :=
        u16 (Id (Hdr m)) ++ u16 (packFlags (Hdr m))
          ++ u16 (len (Question m)) ++ u16 (len (Answer m))
          ++ u16 (len (Ns m)) ++ u16 (len (Extra m))
          ++ q ++ an ++ ns ++ ex in
      if 65535 <? len out then None else Some out
  | _, _, _, _ => None
  end.

(** *** Unpacking *)

Definition parser (A : Type) : Type := list byte -> option (A * list byte).

Definition getU8 : parser Z :=
  fun bs => match bs with b :: r => Some (Z_of_byte b, r) | [] => None end.

Definition getU16 : parser Z :=
  fun bs =>
    '(a, r) ← getU8 bs;
    '(b, r') ← getU8 r;
    Some (a * 256 + b, r').

Definition getU32 : parser Z :=
  fun bs =>
    '(a, r) ← getU16 bs;
    '(b, r') ← getU16 r;
    Some (a * 65536 + b, r').

Definition getBytes (n : nat) : parser (list byte) :=
  fun bs => if (n <=? length bs)%nat then Some (take n bs, drop n bs) else None.

Fixpoint getName (fuel : nat) (acc : string) : parser string :=
  fun bs =>
    match fuel with
    | O => None
    | S f =>
        '(n, r) ← getU8 bs;
        if n =? 0 then Some (if String.eqb acc "" then "." else acc, r)
        else if 63 <? n then None
        else
          '(lbl, r') ← getBytes (Z.to_nat n) r;
          getName f (acc +:+ string_of_list_ascii (map ascii_of_byte lbl) +:+ ".") r'
    end.

Definition unpackOption (code : Z) (d : list byte) : option EDNS0 :=
  if code =? EDNS0SUBNET then
    '(family, r) ← getU16 d;
    '(netmask, r1) ← getU8 r;
    '(scope, r2) ← getU8 r1;
    let width := if family =? 1 then 4%nat else 16%nat in
    Some (EDNS0_SUBNET code family netmask scope
            (r2 ++ repeat x00 (width - length r2)))
  else if code =? EDNS0PADDING then Some (EDNS0_PADDING d)
  else Some (EDNS0_LOCAL code d).

Fixpoint getOptions (fuel : nat) (bs : list byte) : option (list EDNS0) :=
  match fuel with
  | O => None
  | S f =>
      match bs with
      | [] => Some []
      | _ =>
          '(code, r) ← getU16 bs;
          '(n, r1) ← getU16 r;
          '(d, r2) ← getBytes (Z.to_nat n) r1;
          o ← unpackOption code d;
          tl ← getOptions f r2;
          Some (o :: tl)
      end
  end.

Definition getRR : parser RR :=
  fun bs =>
    '(name, r) ← getName (S (length bs)) "" bs;
    '(ty, r1) ← getU16 r;
    '(cl, r2) ← getU16 r1;
    '(ttl, r3) ← getU32 r2;
    '(n, r4) ← getU16 r3;
    '(d, r5) ← getBytes (Z.to_nat n) r4;
    let h := mkHeader name ty cl ttl in
    if ty =? TypeOPT then
      opts ← getOptions (S (length d)) d;
      Some (OPT h opts, r5)
    else if ty =? TypeTSIG then Some (TSIG h d, r5)
    else Some (RFC3597 h d, r5).

Definition getQuestion : parser Question_ :=
  fun bs =>
    '(name, r) ← getName (S (length bs)) "" bs;
    '(ty, r1) ← getU16 r;
    '(cl, r2) ← getU16 r1;
    Some (mkQuestion name ty cl, r2).

Fixpoint getMany {A} (p : parser A) (n : nat) : parser (list A) :=
  fun bs =>
    match n with
    | O => Some ([], bs)
    | S k =>
        '(x, r) ← p bs;
        '(tl, r') ← getMany p k r;
        Some (x :: tl, r')
    end.

Definition unpackHdr (id flags : Z) : MsgHdr :=
  mkMsgHdr id (Z.testbit flags 15) (Z.land (Z.shiftr flags 11) 15)
    (Z.testbit flags 10) (Z.testbit flags 9) (Z.testbit flags 8)
    (Z.testbit flags 7) (Z.land flags 15).

Definition unpackMsg (bs : list byte) : option Msg :=
  '(id, r) ← getU16 bs;
  '(flags, r1) ← getU16 r;
  '(qd, r2) ← getU16 r1;
  '(an, r3) ← getU16 r2;
  '(ns, r4) ← getU16 r3;
  '(ar, r5) ← getU16 r4;
  '(qs, r6) ← getMany getQuestion (Z.to_nat qd) r5;
  '(ans, r7) ← getMany getRR (Z.to_nat an) r6;
  '(nss, r8) ← getMany getRR (Z.to_nat ns) r7;
  '(ars, r9) ← getMany getRR (Z.to_nat ar) r8;
  Some (mkMsg (unpackHdr id flags) false qs ans nss ars).

(** *** Truncation *)

(** [popEdns0]: remove the last OPT of Extra and return it. *)
Fixpoint popLastOPT (rrs : list RR) : option RR * list RR :=
  match rrs with
  | [] => (None, [])
  | rr :: tl =>
      match popLastOPT tl with
      | (Some o, tl') => (Some o, rr :: tl')
      | (None, _) =>
          match rr with
          | OPT h o => (Some (OPT h o), tl)
          | _ => (None, rr :: tl)
          end
      end
  end.

(** [truncateLoop]: the running length and the number of records kept. *)
Fixpoint truncateLoop (rrs : list RR) (size l : Z) (i : nat) : Z * nat :=
  match rrs with
  | [] => (l, i)
  | r :: tl =>
      let l' := l + rrLen r in
      if size <? l' then (size, i)
      else if l' =? size then (l', S i)
      else truncateLoop tl size l' (S i)
  end.

Definition truncateMsg (m : Msg) (size0 : Z) : Msg :=
  match IsTsig m with
  | Some _ => m
  | None =>
      let size := if size0 <? MinMsgSize then MinMsgSize else size0 in
      if msgLen m <=? size then
        mkMsg (Hdr m) false (Question m) (Answer m) (Ns m) (Extra m)
      else
        let (edns0, extra) := popLastOPT (Extra m) in
        let size1 := match edns0 with Some o => size - rrLen o | None => size end in
        let l0 := headerSize + sumZ (map questionLen (Question m)) in
        let '(l1, numAnswer) :=
          if l0 <? size1 then truncateLoop (Answer m) size1 l0 0 else (l0, 0%nat) in
        let '(l2, numNS) :=
          if l1 <? size1 then truncateLoop (Ns m) size1 l1 0 else (l1, 0%nat) in
        let '(_, numExtra) :=
          if l2 <? size1 then truncateLoop extra size1 l2 0 else (l2, 0%nat) in
        let tc :=
          Truncated (Hdr m) || (numAnswer <? length (Answer m))%nat
            || (numNS <? length (Ns m))%nat in
        let extra' :=
          take numExtra extra ++ match edns0 with Some o => [o] | None => [] end in
        set_Truncated
          (mkMsg (Hdr m) true (Question m) (take numAnswer (Answer m))
             (take numNS (Ns m)) extra') tc
  end.

#[export] Instance reference : Library := {
  Len := msgLen;
  Pack := packMsg;
  Unpack := unpackMsg;
  Truncate := truncateMsg
}.

End miekg.

(** ** internal/bestserver *)

Module bestserver.

(** A [Server] is an interface value that holds a pointer: [ptr] is the
    identity that Go compares when the value is used as a map key. *)
Record Server : Type := mkServer {
  ptr : nat;
  Name : string
}.

Definition LatencyAlgorithm : string := "latency".
Definition TraditionalAlgorithm : string := "traditional".

(** Slice indexing by a Go [int]; [None] stands for the run-time panic. *)
Definition index {A} (l : list A) (i : Z) : option A :=
  if i <? 0 then None else l !! Z.to_nat i.

Record baseManager : Type := mkBase {
  algType : string;
  servers : list Server;
  serverCount : Z;
  serverToIndex : gmap nat Z;
  bestIndex : Z
}.

Definition set_bestIndex (t : baseManager) (ix : Z) : baseManager :=
  mkBase (algType t) (servers t) (serverCount t) (serverToIndex t) ix.

Inductive InitError : Type :=
| NoServers
| DuplicateServer (name : string).

Fixpoint initLoop (ss : list Server) (ix : Z) (m : gmap nat Z)
  : result InitError (gmap nat Z) :=
  match ss with
  | [] => Ok m
  | s :: tl =>
      match m !! ptr s with
      | Some _ => Err (DuplicateServer (Name s))
      | None => initLoop tl (ix + 1) (<[ptr s := ix]> m)
      end
  end.

Definition init (alg : string) (ss : list Server) : result InitError baseManager :=
  if len ss =? 0 then Err NoServers
  else match initLoop ss 0 ∅ with
       | Err e => Err e
       | Ok m => Ok (mkBase alg ss (len ss) m 0)
       end.

(** The [Manager] interface.  [Result] is the only method that takes the
    write lock; the others read. *)
Class Manager (T : Type) : Type := {
  Algorithm : T -> string;
  Best : T -> option (Server * Z);
  Result : T -> Server -> bool -> Z -> Z -> bool * T;
  Servers : T -> list Server;
  Len : T -> Z
}.

Definition baseBest (t : baseManager) : option (Server * Z) :=
  match index (servers t) (bestIndex t) with
  | Some s => Some (s, bestIndex t)
  | None => None
  end.

(** *** The traditional algorithm *)

Record traditional : Type := mkTraditional {
  tbase : baseManager
}.

Definition NewTraditional (ss : list Server) : result InitError traditional :=
  match init TraditionalAlgorithm ss with
  | Err e => Err e
  | Ok b => Ok (mkTraditional b)
  end.

Definition traditionalResult (t : traditional) (server : Server) (success : bool)
    (now latency_ : Z) : bool * traditional :=
  match serverToIndex (tbase t) !! ptr server with
  | None => (false, t)
  | Some ix =>
      if success then (true, t)
      else if ix =? bestIndex (tbase t) then
        (true, mkTraditional
                 (set_bestIndex (tbase t)
                    (Z.rem (bestIndex (tbase t) + 1) (serverCount (tbase t)))))
      else (true, t)
  end.

#[global] Instance traditionalManager : Manager traditional := {
  Algorithm t := algType (tbase t);
  Best t := baseBest (tbase t);
  Result := traditionalResult;
  Servers t := servers (tbase t);
  Len t := len (servers (tbase t))
}.

(** *** The latency algorithm *)

Record LatencyConfig : Type := mkLatencyConfig {
  ReassessAfter : Z;
  ReassessCount : Z;
  ResetFailedAfter : Z;
  SampleOthersEvery : Z;
  WeightForLatest : Z
}.

Definition second : Z := 1000000000.
Definition minute : Z := 60 * second.

Definition DefaultLatencyConfig : LatencyConfig :=
  mkLatencyConfig (second * 61) 1061 (minute * 3) 20 67.

Inductive reassessAlgorithm : Type :=
| algNone | algOnlyOne | algFirstCab | algSecondCab | algFastest | algAllBad.

Record latencyServerStats : Type := mkStats {
  lastStatusTime : Z;
  lastStatusWasFailure : bool;
  weightedAverage : Z
}.

Definition zeroStats : latencyServerStats := mkStats 0 false 0.

Record latency : Type := mkLatency {
  config : LatencyConfig;
  lbase : baseManager;
  stats : list latencyServerStats;
  assessCount : Z;
  sampleCount : Z;
  sampleIndex : Z;
  saveBestIndex : Z;
  bestExpires : Z;
  reassessRationale : reassessAlgorithm
}.

Inductive ConfigError : Type :=
| BadServers (e : InitError)
| NegativeReassessAfter | NegativeReassessCount | WeightNotInRange
| NegativeResetFailedAfter | NegativeSampleOthersEvery.

Definition orDefault (v d : Z) : Z := if v =? 0 then d else v.

Definition NewLatency (c : LatencyConfig) (ss : list Server)
  : result ConfigError latency :=
  match init LatencyAlgorithm ss with
  | Err e => Err (BadServers e)
  | Ok b =>
      if ReassessAfter c <? 0 then Err NegativeReassessAfter
      else if ReassessCount c <? 0 then Err NegativeReassessCount
      else if (WeightForLatest c <? 0) || (100 <? WeightForLatest c)
           then Err WeightNotInRange
      else if ResetFailedAfter c <? 0 then Err NegativeResetFailedAfter
      else if SampleOthersEvery c <? 0 then Err NegativeSampleOthersEvery
      else
        let d := DefaultLatencyConfig in
        let c' :=
          mkLatencyConfig (orDefault (ReassessAfter c) (ReassessAfter d))
            (orDefault (ReassessCount c) (ReassessCount d))
            (orDefault (ResetFailedAfter c) (ResetFailedAfter d))
            (orDefault (SampleOthersEvery c) (SampleOthersEvery d))
            (orDefault (WeightForLatest c) (WeightForLatest d)) in
        Ok (mkLatency c' b (repeat zeroStats (Z.to_nat (serverCount b)))
              0 0 0 0 0 algNone)
  end.

(** The state of the loop of [reassessBest]: the statistics, the tentative
    best ([-1] when none) and the rationale. *)
Definition reassessState : Type := (list latencyServerStats * Z * reassessAlgorithm)%type.

Definition averageAt (st : list latencyServerStats) (i : Z) : Z :=
  match index st i with Some s => weightedAverage s | None => 0 end.

(** One iteration of the loop of [reassessBest], for index [ix]. *)
Definition reassessStep (c : LatencyConfig) (now : Z) (acc : reassessState) (ix : nat)
  : reassessState :=
  let '(st, newBest, why) := acc in
  match st !! ix with
  | None => acc
  | Some s =>
      if lastStatusWasFailure s then
        if lastStatusTime s + ResetFailedAfter c <? now
        then (<[ix := zeroStats]> st, newBest, why)
        else acc
      else if newBest =? -1 then (st, Z.of_nat ix, algFirstCab)
      else if weightedAverage s =? 0 then acc
      else if averageAt st newBest =? 0 then (st, Z.of_nat ix, algSecondCab)
      else if weightedAverage s <? averageAt st newBest then (st, Z.of_nat ix, algFastest)
      else acc
  end.

Definition reassessLoop (c : LatencyConfig) (now : Z) (n : nat)
    (st : list latencyServerStats) : reassessState :=
  fold_left (reassessStep c now) (seq 0 n) (st, -1, algNone).

(** What holds of the loop of [reassessBest], started on the statistics [st0]
    at time [now], after its first [n] iterations: the statistics of a server
    that is not failing are untouched, those of a failing server are either
    untouched or reset, and reset only when its last status is older than
    [ResetFailedAfter]; the tentative best is a server that was not failing,
    and there is none only if the first [n] servers are all failing. *)
Definition reassessInv (c : LatencyConfig) (now : Z) (st0 : list latencyServerStats)
    (n : nat) (acc : reassessState) : Prop :=
  let '(st, newBest, why) := acc in
  length st = length st0
  /\ (forall i, (n <= i)%nat -> st !! i = st0 !! i)
  /\ (forall i s, st0 !! i = Some s -> lastStatusWasFailure s = false -> st !! i = Some s)
  /\ (forall i s, st0 !! i = Some s -> lastStatusWasFailure s = true ->
        st !! i = Some s
        \/ (st !! i = Some zeroStats /\ lastStatusTime s + ResetFailedAfter c < now))
  /\ ((newBest = -1
       /\ forall i s, (i < n)%nat -> st0 !! i = Some s -> lastStatusWasFailure s = true)
      \/ (exists s, 0 <= newBest /\ (Z.to_nat newBest < n)%nat
                    /\ st0 !! Z.to_nat newBest = Some s
                    /\ lastStatusWasFailure s = false)).

Definition reassessBest (t : latency) (now : Z) : latency :=
  let b := lbase t in
  if serverCount b =? 1 then
    mkLatency (config t) b (stats t) (assessCount t) (sampleCount t) (sampleIndex t)
      (saveBestIndex t) (bestExpires t) algOnlyOne
  else
    let '(st, newBest, why) :=
      reassessLoop (config t) now (Z.to_nat (serverCount b)) (stats t) in
    let '(newBest', why') :=
      if newBest =? -1 then (Z.rem (bestIndex b + 1) (serverCount b), algAllBad)
      else (newBest, why) in
    mkLatency (config t) (set_bestIndex b newBest') st (assessCount t) (sampleCount t)
      (sampleIndex t) (saveBestIndex t) (now + ReassessAfter (config t)) why'.

Definition failingAt (st : list latencyServerStats) (i : Z) : bool :=
  match index st i with Some s => lastStatusWasFailure s | None => false end.

(** The first half of [assess]: count the call and, when the report is about
    the best server and it failed or a threshold is reached, reassess. *)
Definition reassessIfDue (t0 : latency) (now ix : Z) (success : bool) : latency :=
  let t1 :=
    mkLatency (config t0) (lbase t0) (stats t0) (assessCount t0 + 1) (sampleCount t0)
      (sampleIndex t0) (saveBestIndex t0) (bestExpires t0) (reassessRationale t0) in
  if (ix =? bestIndex (lbase t1))
     && (negb success || (ReassessCount (config t1) <=? assessCount t1)
         || (bestExpires t1 <? now))
  then
    let r := reassessBest t1 now in
    mkLatency (config r) (lbase r) (stats r) 0 (sampleCount r) (sampleIndex r)
      (bestIndex (lbase r)) (bestExpires r) (reassessRationale r)
  else t1.

(** The second half of [assess]: revert to the real best, or make the next
    sample server the best when it is not failing. *)
Definition sampleOthers (t2 : latency) : latency :=
  let sc := sampleCount t2 + 1 in
  if sc <? SampleOthersEvery (config t2) then
    mkLatency (config t2) (set_bestIndex (lbase t2) (saveBestIndex t2)) (stats t2)
      (assessCount t2) sc (sampleIndex t2) (saveBestIndex t2) (bestExpires t2)
      (reassessRationale t2)
  else
    let si := Z.rem (sampleIndex t2 + 1) (serverCount (lbase t2)) in
    if negb (failingAt (stats t2) si) then
      mkLatency (config t2) (set_bestIndex (lbase t2) si) (stats t2) (assessCount t2)
        0 si (saveBestIndex t2) (bestExpires t2) (reassessRationale t2)
    else
      mkLatency (config t2) (lbase t2) (stats t2) (assessCount t2) sc si
        (saveBestIndex t2) (bestExpires t2) (reassessRationale t2).

Definition assess (t0 : latency) (now ix : Z) (success : bool) : latency :=
  sampleOthers (reassessIfDue t0 now ix success).

(** The update of a server's statistics at the head of [latency.Result]. *)
Definition updateStats (c : LatencyConfig) (s : latencyServerStats) (success : bool)
    (now latency_ : Z) : latencyServerStats :=
  let avg :=
    if success then
      if weightedAverage s =? 0 then latency_
      else
        let current := int64_of (latency_ * WeightForLatest c) in
        let historic := int64_of (weightedAverage s * (100 - WeightForLatest c)) in
        Z.quot (int64_of (current + historic)) 100
    else weightedAverage s in
  mkStats now (negb success) avg.

Definition latencyResult (t : latency) (server : Server) (success : bool)
    (now latency_ : Z) : bool * latency :=
  match serverToIndex (lbase t) !! ptr server with
  | None => (false, t)
  | Some ix =>
      match index (stats t) ix with
      | None => (false, t)
      | Some s =>
          let st := <[Z.to_nat ix := updateStats (config t) s success now latency_]> (stats t) in
          let t1 :=
            mkLatency (config t) (lbase t) st (assessCount t) (sampleCount t)
              (sampleIndex t) (saveBestIndex t) (bestExpires t) (reassessRationale t) in
          (true, assess t1 now ix success)
      end
  end.

#[global] Instance latencyManager : Manager latency := {
  Algorithm t := algType (lbase t);
  Best t := baseBest (lbase t);
  Result := latencyResult;
  Servers t := servers (lbase t);
  Len t := len (servers (lbase t))
}.

(** *** What the constructors establish

    [knows b ss]: the manager serves the list [ss], and its map takes the
    pointer of every server of the list to the server's position and holds
    nothing else. *)
Definition knows (b : baseManager) (ss : list Server) : Prop :=
  servers b = ss /\ serverCount b = len ss
  /\ (forall i s, ss !! i = Some s -> serverToIndex b !! ptr s = Some (Z.of_nat i))
  /\ (forall p ix, serverToIndex b !! p = Some ix ->
        exists s, 0 <= ix /\ ss !! Z.to_nat ix = Some s /\ ptr s = p).

Definition inRange (b : baseManager) (ix : Z) : Prop := 0 <= ix < serverCount b.

(** The indexes and the statistics of a latency manager fit its list. *)
Definition latencyInv (t : latency) : Prop :=
  inRange (lbase t) (bestIndex (lbase t))
  /\ inRange (lbase t) (saveBestIndex t)
  /\ inRange (lbase t) (sampleIndex t)
  /\ len (stats t) = serverCount (lbase t).

(** What holds of a traditional and of a latency manager built for [ss]. *)
Definition traditionalInv (ss : list Server) (t : traditional) : Prop :=
  knows (tbase t) ss /\ inRange (tbase t) (bestIndex (tbase t)).

Definition latencyKnows (ss : list Server) (t : latency) : Prop :=
  knows (lbase t) ss /\ latencyInv t.

(** Whether a server, as a pointer, is one of a list. *)
Definition listed (ss : list Server) (s : Server) : bool :=
  existsb (fun s' => (ptr s' =? ptr s)%nat) ss.

(** *** Sequences of calls on a manager *)

Inductive call : Type :=
| CallBest
| CallResult (server : Server) (success : bool) (now latency : Z)
| CallServers
| CallLen
| CallAlgorithm.

Inductive reply : Type :=
| RBest (r : option (Server * Z))
| RResult (found : bool)
| RServers (l : list Server)
| RLen (n : Z)
| RAlgorithm (s : string).

Definition isResult (c : call) : bool :=
  match c with CallResult _ _ _ _ => true | _ => false end.

Section Calls.
Context {T : Type} {M : Manager T}.

Definition exec (t : T) (c : call) : reply * T :=
  match c with
  | CallBest => (RBest (Best t), t)
  | CallResult s ok now l => let (b, t') := Result t s ok now l in (RResult b, t')
  | CallServers => (RServers (Servers t), t)
  | CallLen => (RLen (Len t), t)
  | CallAlgorithm => (RAlgorithm (Algorithm t), t)
  end.

Fixpoint run (t : T) (cs : list call) : list reply * T :=
  match cs with
  | [] => ([], t)
  | c :: tl =>
      let (r, t') := exec t c in
      let (rs, t'') := run t' tl in
      (r :: rs, t'')
  end.
End Calls.

End bestserver.

(** ** The parts of Go's [strings], [strconv], [fmt] and [encoding/base64] in use *)

Module gostd.

(** [strings.Index(s, ".") != -1] *)
Fixpoint containsDot (s : string) : bool :=
  match s with
  | EmptyString => false
  | String c tl => Ascii.eqb c "." || containsDot tl
  end.

(** [strings.Split] for a one-character separator. *)
Definition Split (s : string) (sep : ascii) : list string :=
  map string_of_list_ascii (net.splitOn sep (list_ascii_of_string s) []).

(** [strings.LastIndexByte]; [-1] when the byte is absent. *)
Fixpoint lastIndexFrom (cs : list ascii) (c : ascii) (i last : Z) : Z :=
  match cs with
  | [] => last
  | x :: tl => lastIndexFrom tl c (i + 1) (if Ascii.eqb x c then i else last)
  end.

Definition LastIndexByte (s : string) (c : ascii) : Z :=
  lastIndexFrom (list_ascii_of_string s) c 0 (-1).

(** The slice [s[lo:hi]] of a string. *)
Definition slice (s : string) (lo hi : Z) : string :=
  string_of_list_ascii
    (take (Z.to_nat (hi - lo)) (drop (Z.to_nat lo) (list_ascii_of_string s))).

Definition byteAt (s : string) (i : Z) : option ascii :=
  if i <? 0 then None else list_ascii_of_string s !! Z.to_nat i.

Definition strlen (s : string) : Z := Z.of_nat (String.length s).

(** [strconv.ParseUint(s, 10, bitSize)]: decimal digits only, not empty,
    and below [2^bitSize]; [None] stands for the error. *)
Definition ParseUint (s : string) (bitSize : Z) : option Z :=
  match list_ascii_of_string s with
  | [] => None
  | cs =>
      match net.number net.digit 10 cs 0 with
      | Some n => if n <? 2 ^ bitSize then Some n else None
      | None => None
      end
  end.

(** [%d] of a Go [int]. *)
Fixpoint digitsOf (fuel : nat) (n : Z) (acc : string) : string :=
  match fuel with
  | O => acc
  | S f =>
      let c := ascii_of_nat (Z.to_nat (48 + n mod 10)) in
      if n <? 10 then String c acc else digitsOf f (n / 10) (String c acc)
  end.

Definition itoa (n : Z) : string :=
  if n <? 0 then String "-" (digitsOf (S (Z.to_nat (Z.log2 (- n)))) (- n) EmptyString)
  else digitsOf (S (Z.to_nat (Z.log2 n))) n EmptyString.

(** [base64.URLEncoding]: the URL-safe alphabet, with padding. *)
Definition b64char (v : Z) : ascii :=
  ascii_of_nat
    (Z.to_nat
       (if v <? 26 then 65 + v
        else if v <? 52 then 97 + (v - 26)
        else if v <? 62 then 48 + (v - 52)
        else if v =? 62 then 45 else 95)).

Fixpoint b64encode (bs : list byte) : list ascii :=
  match bs with
  | [] => []
  | [a] =>
      let x := net.Z_of_byte a in
      [b64char (x / 4); b64char ((x mod 4) * 16); "="%char; "="%char]
  | [a; b] =>
      let x := net.Z_of_byte a in
      let y := net.Z_of_byte b in
      [b64char (x / 4); b64char ((x mod 4) * 16 + y / 16);
       b64char ((y mod 16) * 4); "="%char]
  | a :: b :: c :: tl =>
      let x := net.Z_of_byte a in
      let y := net.Z_of_byte b in
      let z := net.Z_of_byte c in
      b64char (x / 4) :: b64char ((x mod 4) * 16 + y / 16)
        :: b64char ((y mod 16) * 4 + z / 64) :: b64char (z mod 64) :: b64encode tl
  end.

Definition EncodeToString (bs : list byte) : string :=
  string_of_list_ascii (b64encode bs).

Definition b64value (c : ascii) : option Z :=
  let n := Z.of_nat (nat_of_ascii c) in
  if (65 <=? n) && (n <=? 90) then Some (n - 65)
  else if (97 <=? n) && (n <=? 122) then Some (n - 97 + 26)
  else if (48 <=? n) && (n <=? 57) then Some (n - 48 + 52)
  else if n =? 45 then Some 62
  else if n =? 95 then Some 63
  else None.

Fixpoint b64decode (cs : list ascii) : option (list byte) :=
  match cs with
  | [] => Some []
  | a :: b :: c :: d :: tl =>
      match b64value a, b64value b with
      | Some x, Some y =>
          let b1 := net.byte_of (x * 4 + y / 16) in
          if Ascii.eqb c "=" then
            if (Ascii.eqb d "=" && (length tl =? 0)%nat)%bool then Some [b1] else None
          else
            match b64value c with
            | Some z =>
                let b2 := net.byte_of ((y mod 16) * 16 + z / 4) in
                if Ascii.eqb d "=" then
                  if (length tl =? 0)%nat then Some [b1; b2] else None
                else
                  match b64value d, b64decode tl with
                  | Some w, Some rest =>
                      Some (b1 :: b2 :: net.byte_of ((z mod 4) * 64 + w) :: rest)
                  | _, _ => None
                  end
            | None => None
            end
      | _, _ => None
      end
  | _ => None
  end.

Definition DecodeString (s : string) : option (list byte) :=
  b64decode (list_ascii_of_string s).

(** The text of an IPv4 address as [net.IP.String] gives it: four decimal
    numbers with dots between them. *)
Definition dotted (a b c d : Z) : string :=
  itoa a +:+ "." +:+ itoa b +:+ "." +:+ itoa c +:+ "." +:+ itoa d.

(** What the decimal text of a number has to be for the parsers of an
    address: a field of [net.ParseIP] that reads back as the number, free of
    dots and colons, and not opening with a bracket. *)
Definition octetOk (n : Z) : bool :=
  let l := list_ascii_of_string (itoa n) in
  match net.v4field l with Some m => m =? n | None => false end
  && forallb (fun ch => negb (Ascii.eqb ch ".") && negb (Ascii.eqb ch ":")) l
  && match l with ch :: _ => negb (Ascii.eqb ch "[") | [] => false end.

(** A decimal digit, and the number that a string of decimal digits
    writes. *)
Definition isDigit (c : ascii) : bool :=
  let n := Z.of_nat (nat_of_ascii c) in (48 <=? n) && (n <=? 57).

Definition decimal (s : string) : Z :=
  fold_left (fun acc c => acc * 10 + (Z.of_nat (nat_of_ascii c) - 48))
    (list_ascii_of_string s) 0.

End gostd.

(** ** internal/resolver *)

Module resolver.

Definition DNSTransportUndefined : string := "".
Definition DNSTransportHTTP : string := "http".
Definition DNSTransportUDP : string := "udp".
Definition DNSTransportTCP : string := "tcp".

Record QueryMetaData : Type := mkQueryMeta {
  qTransportType : string
}.

Record ResponseMetaData : Type := mkResponseMeta {
  TransportType : string;
  TransportDuration : Z;
  ResolutionDuration : Z;
  PayloadSize : Z;
  QueryTries : Z;
  ServerTries : Z;
  FinalServerUsed : string
}.

(** The [Resolver] interface over a resolver state [T].  The query is passed
    by pointer: [Resolve] also yields the query as it leaves it, and the
    resolver's own state. *)
Class Resolver (T E : Type) : Type := {
  InBailiwick : T -> string -> bool;
  Resolve : T -> dns.Msg -> QueryMetaData
            -> result E (dns.Msg * ResponseMetaData) * dns.Msg * T
}.

End resolver.

(** ** internal/resolver/local *)

Module local.
Import dns.
Import resolver.

Inductive gfxInt : Type := gfxTimeout | gfxMaxAttempts.

Inductive sfxInt : Type :=
| sfxExchangeError | sfxFormatError | sfxServerFail | sfxRefused
| sfxNotImplemented | sfxOther.

(** The reporter's counters are kept as the sequence of calls that bump them. *)
Inductive statCall : Type :=
| addGeneralSuccess
| addGeneralFailure (gfx : gfxInt)
| addServerSuccess (bsix : Z) (tcpFallback tcpSuperior : bool) (latency : Z)
| addServerFailure (bsix : Z) (tcpFallback tcpSuperior : bool) (sfx : sfxInt).

(** The fields of [dns.ClientConfig] that [Resolve] reads. *)
Record ClientConfig : Type := mkClientConfig {
  Attempts : Z;
  Timeout : Z
}.

Record local : Type := mkLocal {
  resolverConfig : ClientConfig;
  domains : list string;
  bestServer : bestserver.traditional;
  statCalls : list statCall
}.

Definition set_bestServer (t : local) (b : bestserver.traditional) : local :=
  mkLocal (resolverConfig t) (domains t) b (statCalls t).

Definition addStat (t : local) (c : statCall) : local :=
  mkLocal (resolverConfig t) (domains t) (bestServer t) (statCalls t ++ [c]).

Inductive ResolveError : Type :=
| QueryTimeout (timeout : Z)
| QueryAttemptsExceeded (attempts : Z)
| IndexPanic.

Definition toLowerAscii (c : ascii) : ascii :=
  let n := nat_of_ascii c in
  if ((65 <=? n) && (n <=? 90))%nat then ascii_of_nat (n + 32) else c.

Definition ToLower (s : string) : string :=
  string_of_list_ascii (map toLowerAscii (list_ascii_of_string s)).

Definition HasSuffix (s suffix : string) : bool :=
  let n := String.length s in
  let k := String.length suffix in
  (k <=? n)%nat && String.eqb (String.substring (n - k) k s) suffix.

Definition InBailiwick (t : local) (qName : string) : bool :=
  if negb (gostd.containsDot qName) then (0 <? len (domains t))
  else
    let q1 := "." +:+ ToLower qName in
    let q2 :=
      match gostd.byteAt q1 (gostd.strlen q1 - 1) with
      | Some c => if Ascii.eqb c "." then q1 else q1 +:+ "."
      | None => q1
      end in
    existsb (HasSuffix q2) (domains t).

(** How [Resolve] reads a reply: best-server success, the statistics index
    (if any) and whether to iterate. *)
Definition classify (r : result unit Msg) : bool * option sfxInt * bool :=
  match r with
  | Err _ => (false, Some sfxExchangeError, true)
  | Ok m =>
      let rc := Rcode (Hdr m) in
      if rc =? RcodeSuccess then (true, None, false)
      else if rc =? RcodeFormatError then (true, Some sfxFormatError, false)
      else if rc =? RcodeServerFailure then (false, Some sfxServerFail, true)
      else if rc =? RcodeNameError then (true, None, false)
      else if rc =? RcodeRefused then (false, Some sfxRefused, true)
      else if rc =? RcodeNotImplemented then (true, Some sfxNotImplemented, true)
      else (true, Some sfxOther, false)
  end.

Definition bsSuccessOf (r : result unit Msg) : bool := fst (fst (classify r)).
Definition sfxOf (r : result unit Msg) : option sfxInt := snd (fst (classify r)).
Definition iterateOf (r : result unit Msg) : bool := snd (classify r).

(** The reply that an iteration keeps after a fallback: the TCP reply when it
    is a success, else the UDP reply. *)
Definition keptAfterFallback (udp : Msg) (tcpR : result unit Msg) : Msg :=
  match tcpR with
  | Ok tcp => if Rcode (Hdr tcp) =? RcodeSuccess then tcp else udp
  | Err _ => udp
  end.

Section WithNetwork.
Context {lib : Library}.

(** The network and the clock: [Exchange net q server] is the
    [Exchange] method of the exchanger that
    [NewDNSClientExchangerFunc net] returns; it yields the reply or an
    error, and the round-trip time. *)
Variable W : Type.
Variable Exchange : string -> Msg -> string -> W -> result unit Msg * Z * W.
Variable Now : W -> Z.

Record loopState : Type := mkLoop {
  respMeta : ResponseMetaData;
  timeUsed : Z;
  self : local;
  world : W
}.

Inductive outcome : Type :=
| Returned (r : Msg) (meta : ResponseMetaData)
| Failed (e : ResolveError)
| Next.

(** What one iteration exchanges: the reply kept, the round-trip time, the
    fallback flags, the metadata and the network afterwards. *)
Record exchanged : Type := mkExchanged {
  kept : result unit Msg;
  rtt : Z;
  tcpFallback : bool;
  tcpSuperior : bool;
  metaAfter : ResponseMetaData;
  worldAfter : W
}.

Definition isSuccessReply (r : result unit Msg) : bool :=
  match r with
  | Ok m => Rcode (Hdr m) =? RcodeSuccess
  | Err _ => false
  end.

Definition isTruncatedSuccess (r : result unit Msg) : bool :=
  match r with
  | Ok m => (Rcode (Hdr m) =? RcodeSuccess) && Truncated (Hdr m)
  | Err _ => false
  end.

(** The exchange over UDP and, for a truncated success, over TCP. *)
Definition exchange (q : Msg) (server : string) (m : ResponseMetaData) (w : W)
  : exchanged :=
  let m1 :=
    mkResponseMeta DNSTransportUDP (TransportDuration m) (ResolutionDuration m)
      (PayloadSize m) (QueryTries m + 1) (ServerTries m) server in
  let '(r, rtt0, w1) := Exchange "" q server w in
  if isTruncatedSuccess r then
    let m2 :=
      mkResponseMeta (TransportType m1) (TransportDuration m1) (ResolutionDuration m1)
        (PayloadSize m1) (QueryTries m1 + 1) (ServerTries m1) (FinalServerUsed m1) in
    let '(tcpReply, tcpRtt, w2) := Exchange "tcp" q server w1 in
    if isSuccessReply tcpReply then
      mkExchanged tcpReply (int64_of (rtt0 + tcpRtt)) true true
        (mkResponseMeta DNSTransportTCP (TransportDuration m2) (ResolutionDuration m2)
           (PayloadSize m2) (QueryTries m2) (ServerTries m2) (FinalServerUsed m2))
        w2
    else mkExchanged r (int64_of (rtt0 + tcpRtt)) true false m2 w2
  else mkExchanged r rtt0 false false m1 w1.

(** [respMeta.ServerTries++] *)
Definition countServer (m : ResponseMetaData) : ResponseMetaData :=
  mkResponseMeta (TransportType m) (TransportDuration m) (ResolutionDuration m)
    (PayloadSize m) (QueryTries m) (ServerTries m + 1) (FinalServerUsed m).

(** The exchange of an iteration that starts in state [st] with [server]. *)
Definition exchangeOf (q : Msg) (st : loopState) (server : bestserver.Server)
  : exchanged :=
  exchange q (bestserver.Name server) (countServer (respMeta st)) (world st).

(** The body of the [for] loop of [Resolve]. *)
Definition attempt (q : Msg) (timeAvailable : Z) (st : loopState)
  : outcome * loopState :=
  match bestserver.Best (bestServer (self st)) with
  | None => (Failed IndexPanic, st)
  | Some (server, bsix) =>
      let x := exchangeOf q st server in
      let used := int64_of (timeUsed st + rtt x) in
      let '(_, bs) :=
        bestserver.Result (bestServer (self st)) server (bsSuccessOf (kept x))
          (Now (worldAfter x)) (rtt x) in
      let t1 := set_bestServer (self st) bs in
      let t2 :=
        match sfxOf (kept x) with
        | None => addStat t1 (addServerSuccess bsix (tcpFallback x) (tcpSuperior x) (rtt x))
        | Some sfx => addStat t1 (addServerFailure bsix (tcpFallback x) (tcpSuperior x) sfx)
        end in
      match kept x with
      | Ok r =>
          if negb (iterateOf (kept x)) then
            let mm := metaAfter x in
            (Returned r
               (mkResponseMeta (TransportType mm) (TransportDuration mm) used (Len r)
                  (QueryTries mm) (ServerTries mm) (FinalServerUsed mm)),
             mkLoop (metaAfter x) used (addStat t2 addGeneralSuccess) (worldAfter x))
          else if timeAvailable <? used then
            (Failed (QueryTimeout (Timeout (resolverConfig t2))),
             mkLoop (metaAfter x) used (addStat t2 (addGeneralFailure gfxTimeout))
               (worldAfter x))
          else (Next, mkLoop (metaAfter x) used t2 (worldAfter x))
      | Err _ =>
          if timeAvailable <? used then
            (Failed (QueryTimeout (Timeout (resolverConfig t2))),
             mkLoop (metaAfter x) used (addStat t2 (addGeneralFailure gfxTimeout))
               (worldAfter x))
          else (Next, mkLoop (metaAfter x) used t2 (worldAfter x))
      end
  end.

(** The [for] loop of [Resolve], with [n] iterations left. *)
Fixpoint attempts (q : Msg) (timeAvailable : Z) (n : nat) (st : loopState)
  : result ResolveError (Msg * ResponseMetaData) * loopState :=
  match n with
  | O =>
      (Err (QueryAttemptsExceeded (Attempts (resolverConfig (self st)))),
       mkLoop (respMeta st) (timeUsed st)
         (addStat (self st) (addGeneralFailure gfxMaxAttempts)) (world st))
  | S k =>
      match attempt q timeAvailable st with
      | (Returned r meta, st') => (Ok (r, meta), st')
      | (Failed e, st') => (Err e, st')
      | (Next, st') => attempts q timeAvailable k st'
      end
  end.

(** The state of the loop after [k] iterations from [st] that each ended
    with the loop going round; [None] when one of them returned. *)
Fixpoint retried (q : Msg) (timeAvailable : Z) (k : nat) (st : loopState)
  : option loopState :=
  match k with
  | O => Some st
  | S k' =>
      match attempt q timeAvailable st with
      | (Next, st1) => retried q timeAvailable k' st1
      | _ => None
      end
  end.

Definition timeAvailableOf (t : local) : Z :=
  int64_of (bestserver.second * Timeout (resolverConfig t)).

Definition maxAttemptsOf (t : local) : Z :=
  if bestserver.Len (bestServer t) <? Attempts (resolverConfig t)
  then bestserver.Len (bestServer t)
  else Attempts (resolverConfig t).

Definition initialState (t : local) (qMeta : QueryMetaData) (w : W) : loopState :=
  mkLoop (mkResponseMeta (qTransportType qMeta) 1 0 0 0 0 "") 0 t w.

Definition Resolve (t : local) (q : Msg) (qMeta : QueryMetaData) (w : W)
  : result ResolveError (Msg * ResponseMetaData) * local * W :=
  let '(r, st) :=
    attempts q (timeAvailableOf t) (Z.to_nat (maxAttemptsOf t))
      (initialState t qMeta w) in
  (r, self st, world st).

Definition localResolver : Resolver (local * W) ResolveError := {|
  resolver.InBailiwick := fun tw qName => InBailiwick (fst tw) qName;
  resolver.Resolve := fun tw q qMeta =>
    let '(r, t', w') := Resolve (fst tw) q qMeta (snd tw) in
    (r, q, (t', w'))
|}.
End WithNetwork.

End local.

(** ** internal/resolver/doh *)

Module doh.
Import dns.
Import resolver.

Definition PackageName : string := "Trusty DNS Over HTTPS".
Definition Version : string := "v0.2.1".
Definition PackageURL : string := "https://github.com/markdingo/trustydns".
Definition UserAgentHeader : string := "User-Agent".
Definition MethodGet : string := "GET".
Definition MethodPost : string := "POST".
Definition StatusOK : Z := 200.

Inductive dgxInt : Type := dgxPackDNSQuery | dgxRFFU.

Inductive dexInt : Type :=
| dexCreateHTTPRequest | dexDoRequest | dexNonStatusOk | dexResponseReadAll
| dexContentType | dexUnpackDNSResponse.

Inductive statCall : Type :=
| addSuccessStats (bsIX total server : Z)
    (ecsRemoved ecsSet ecsRequest ecsReturned : bool)
| addGeneralFailure (dgx : dgxInt)
| addServerFailure (bsIX : Z) (dex : dexInt).

(** *** The HTTP messages that the resolver builds and reads *)

Definition header : Type := list (string * string).

Fixpoint headerGet (h : header) (k : string) : string :=
  match h with
  | [] => ""
  | (k', v) :: tl => if String.eqb k' k then v else headerGet tl k
  end.

Fixpoint headerSet (h : header) (k v : string) : header :=
  match h with
  | [] => [(k, v)]
  | (k', v') :: tl =>
      if String.eqb k' k then (k, v) :: tl else (k', v') :: headerSet tl k v
  end.

Record Request : Type := mkRequest {
  Method : string;
  URL : string;
  ReqBody : option (list byte);
  ReqHeader : header
}.

(** [Body] is [None] when reading the body fails. *)
Record Response : Type := mkResponse {
  StatusCode : Z;
  RespHeader : header;
  Body : option (list byte)
}.

Record IPNet : Type := mkIPNet {
  IP : list byte;
  Mask : list byte
}.

Record Config : Type := mkConfig {
  UseGetMethod : bool;
  GeneratePadding : bool;
  ECSRedactResponse : bool;
  ECSRemove : bool;
  ECSRequestIPv4PrefixLen : Z;
  ECSRequestIPv6PrefixLen : Z;
  ECSSetCIDR : option IPNet;
  LatencyConfig : bestserver.LatencyConfig;
  ServerURLs : list string
}.

(** [httpClient] is the [Do] method of the [HTTPClientDo] the resolver was
    built with; [Err] is a transport error. *)
Record remote : Type := mkRemote {
  config : Config;
  httpClient : Request -> result unit Response;
  httpMethod : string;
  ecsFamily : Z;
  ecsPrefixLength : Z;
  ecsIP : list byte;
  ecsRequestData : string;
  bestServer : bestserver.latency;
  statCalls : list statCall
}.

Definition addStat (t : remote) (c : statCall) : remote :=
  mkRemote (config t) (httpClient t) (httpMethod t) (ecsFamily t) (ecsPrefixLength t)
    (ecsIP t) (ecsRequestData t) (bestServer t) (statCalls t ++ [c]).

Definition set_bestServer (t : remote) (b : bestserver.latency) : remote :=
  mkRemote (config t) (httpClient t) (httpMethod t) (ecsFamily t) (ecsPrefixLength t)
    (ecsIP t) (ecsRequestData t) b (statCalls t).

Inductive NewError : Type :=
| ECSWithGet | ECSSetWithRequest | UnknownIPFamily | MaskSizeExceeds (maskSize limit : Z)
| InvalidIPv4PrefixLength (n : Z) | InvalidIPv6PrefixLength (n : Z)
| NoBestServer (e : bestserver.ConfigError).

(** Leading one bits of a byte, [None] when a one follows a zero. *)
Definition onesOf (b : byte) : option Z :=
  let v := net.Z_of_byte b in
  let n := 8 - Z.log2_up (256 - v) in
  if v =? 256 - 2 ^ (8 - n) then Some n else None.

(** [IPMask.Size]: the number of leading ones of a canonical mask, else 0. *)
Fixpoint simpleMaskLength (m : list byte) : option Z :=
  match m with
  | [] => Some 0
  | b :: tl =>
      if Byte.eqb b xff then option_map (Z.add 8) (simpleMaskLength tl)
      else match onesOf b with
           | Some n => if forallb (Byte.eqb x00) tl then Some n else None
           | None => None
           end
  end.

Definition maskSizeOf (m : list byte) : Z := default 0 (simpleMaskLength m).

Fixpoint serversFrom (ix : nat) (names : list string) : list bestserver.Server :=
  match names with
  | [] => []
  | n :: tl => bestserver.mkServer ix n :: serversFrom (S ix) tl
  end.

(** [New]: every server of [ServerURLs] is a freshly allocated [bestServer]. *)
Definition New (c : Config) (client : Request -> result unit Response)
  : result NewError remote :=
  let requestSet :=
    negb (ECSRequestIPv4PrefixLen c =? 0) || negb (ECSRequestIPv6PrefixLen c =? 0) in
  if UseGetMethod c && (bool_decide (is_Some (ECSSetCIDR c)) || requestSet) then Err ECSWithGet
  else
    let method := if UseGetMethod c then MethodGet else MethodPost in
    let ecs : result NewError (Z * Z * list byte) :=
      match ECSSetCIDR c with
      | None => Ok (0, 0, [])
      | Some cidr =>
          if requestSet then Err ECSSetWithRequest
          else
            match (if bool_decide (is_Some (net.To4 (IP cidr))) then Some (1, 32)
                   else if bool_decide (is_Some (net.To16 (IP cidr))) then Some (2, 128)
                   else None) with
            | None => Err UnknownIPFamily
            | Some (family, maxMaskSize) =>
                let maskSize := maskSizeOf (Mask cidr) in
                if (maskSize <? 0) || (maxMaskSize <? maskSize)
                then Err (MaskSizeExceeds maskSize maxMaskSize)
                else Ok (family, maskSize, IP cidr)
            end
      end in
    match ecs with
    | Err e => Err e
    | Ok (family, prefixLength, ip) =>
        if (ECSRequestIPv4PrefixLen c <? 0) || (32 <? ECSRequestIPv4PrefixLen c)
        then Err (InvalidIPv4PrefixLength (ECSRequestIPv4PrefixLen c))
        else if (ECSRequestIPv6PrefixLen c <? 0) || (128 <? ECSRequestIPv6PrefixLen c)
        then Err (InvalidIPv6PrefixLength (ECSRequestIPv6PrefixLen c))
        else
          let data :=
            gostd.itoa (ECSRequestIPv4PrefixLen c) +:+ "/"
              +:+ gostd.itoa (ECSRequestIPv6PrefixLen c) in
          match bestserver.NewLatency (LatencyConfig c) (serversFrom 0 (ServerURLs c)) with
          | Err e => Err (NoBestServer e)
          | Ok bs => Ok (mkRemote c client method family prefixLength ip data bs [])
          end
    end.

(** [dns.IsFqdn]: the name ends in a dot that is not escaped. *)
Fixpoint trailingBackslashes (rev_cs : list ascii) : nat :=
  match rev_cs with
  | c :: tl => if Ascii.eqb c "\" then S (trailingBackslashes tl) else O
  | [] => O
  end.

Definition IsFqdn (s : string) : bool :=
  match rev (list_ascii_of_string s) with
  | c :: before =>
      Ascii.eqb c "." && Nat.even (trailingBackslashes before)
  | [] => false
  end.

(** The state of the scan of [dns.IsDomainName]. *)
Record scan : Type := mkScan {
  off : Z;
  begin : Z;
  wasDot : bool;
  labels : Z
}.

Definition isDigitAscii (c : ascii) : bool :=
  let n := nat_of_ascii c in ((48 <=? n) && (n <=? 57))%nat.

(** The loop of [dns.IsDomainName] from position [i] over the remaining
    characters; [None] when the name is rejected. *)
Fixpoint scanName (fuel : nat) (total : Z) (cs : list ascii) (i : Z) (st : scan)
  : option scan :=
  match fuel with
  | O => None
  | S f =>
      match cs with
      | [] => Some st
      | c :: tl =>
          if Ascii.eqb c "\" then
            if 256 <? off st + 1 then None
            else
              match tl with
              | d1 :: d2 :: d3 :: tl3 =>
                  if isDigitAscii d1 && isDigitAscii d2 && isDigitAscii d3 then
                    scanName f total tl3 (i + 4)
                      (mkScan (off st) (begin st + 3) false (labels st))
                  else
                    scanName f total (d2 :: d3 :: tl3) (i + 2)
                      (mkScan (off st) (begin st + 1) false (labels st))
              | _ :: tl1 =>
                  scanName f total tl1 (i + 2)
                    (mkScan (off st) (begin st + 1) false (labels st))
              | [] => Some (mkScan (off st) (begin st + 1) false (labels st))
              end
          else if Ascii.eqb c "." then
            if (i =? 0) && (1 <? total) then None
            else if wasDot st then None
            else
              let labelLen := i - begin st in
              if 64 <=? labelLen then None
              else
                let off' := off st + 1 + labelLen in
                if 256 <? off' then None
                else scanName f total tl (i + 1) (mkScan off' (i + 1) true (labels st + 1))
          else scanName f total tl (i + 1) (mkScan (off st) (begin st) false (labels st))
      end
  end.

(** [dns.IsDomainName]: whether the string is a syntactically valid domain
    name; the name is first made fully qualified. *)
Definition IsDomainName (s : string) : bool :=
  if (String.length s =? 0)%nat then false
  else
    let s' := if IsFqdn s then s else s +:+ "." in
    let cs := list_ascii_of_string s' in
    bool_decide (is_Some (scanName (S (length cs)) (len cs) cs 0 (mkScan 0 0 false 0))).

(** [InBailiwick] does not read its receiver. *)
Definition InBailiwick (qName : string) : bool :=
  if negb (gostd.containsDot qName) then false
  else IsDomainName qName && IsFqdn qName.

Inductive ResolveError : Type :=
| MsgPackError (e : dnsutil.PadError)
| NewRequestError
| DoError
| BadHTTPStatus (status : Z)
| BodyReadError
| BadContentType (ct : string)
| BelowMinimumViable (length : Z)
| UnpackError
| BestIndexPanic.

(** The flags that the ECS rules of [Resolve] set. *)
Record ecsFlags : Type := mkFlags {
  originalECSRetained : bool;
  requestData : string;
  ecsPresent : bool;
  ecsRemoved : bool;
  ecsSet : bool;
  ecsRequest : bool
}.

Definition noFlags : ecsFlags := mkFlags true "" false false false false.

Definition isINQuery (dnsQ : Msg) : bool :=
  (Opcode (Hdr dnsQ) =? OpcodeQuery)
  && (len (Question dnsQ) =? 1)
  && match Question dnsQ with
     | q :: _ => Qclass q =? ClassINET
     | [] => false
     end.

(** Rules 1 to 3 of [Resolve]. *)
Definition ecsRules (t : remote) (dnsQ : Msg) : Msg * ecsFlags :=
  let present0 := bool_decide (is_Some (dnsutil.FindECS dnsQ)) in
  let '(q1, f1) :=
    if ECSRemove (config t) && present0 then
      let (removed, q) := dnsutil.RemoveEDNS0FromOPT dnsQ EDNS0SUBNET in
      (q, mkFlags false "" false removed false false)
    else (dnsQ, mkFlags true "" present0 false false false) in
  let '(q2, f2) :=
    if bool_decide (is_Some (ECSSetCIDR (config t))) && negb (ecsPresent f1) then
      (snd (dnsutil.CreateECS q1 (ecsFamily t) (ecsPrefixLength t) (ecsIP t)),
       mkFlags false (requestData f1) true (ecsRemoved f1) true (ecsRequest f1))
    else (q1, f1) in
  if (0 <? gostd.strlen (ecsRequestData t)) && negb (ecsPresent f2) then
    (q2, mkFlags false (ecsRequestData t) true (ecsRemoved f2) (ecsSet f2) true)
  else (q2, f2).

Section WithRuntime.
Context {lib : Library}.

(** What [Resolve] takes from the run-time system: whether
    [http.NewRequest] accepts a method and URL, [time.ParseDuration]
    ([None] for an error), and the two readings of the clock. *)
Variable NewRequestOk : string -> string -> bool.
Variable ParseDuration : string -> option Z.
Variable startTime endTime : Z.

(** The query as it is serialised: ECS rules applied, ID zeroed for GET. *)
Definition prepare (t : remote) (dnsQ : Msg) : Msg * ecsFlags :=
  let msgIsMutable := bool_decide (IsTsig dnsQ = None) in
  let '(q1, f) :=
    if isINQuery dnsQ && msgIsMutable then ecsRules t dnsQ else (dnsQ, noFlags) in
  (if String.eqb (httpMethod t) MethodGet then set_Id q1 0 else q1, f).

Definition serialise (t : remote) (q : Msg) (msgIsMutable : bool)
  : result dnsutil.PadError (list byte) * Msg :=
  if GeneratePadding (config t) && msgIsMutable then
    dnsutil.PadAndPack q consts.Rfc8467ClientPadModulo
  else
    match Pack q with
    | Some b => (Ok b, q)
    | None => (Err dnsutil.PackFailed, q)
    end.

Definition buildRequest (t : remote) (url : string) (binary : list byte)
    (f : ecsFlags) (msgIsMutable : bool) : Request :=
  let isGet := String.eqb (httpMethod t) MethodGet in
  let url' :=
    if isGet then
      url +:+ "?" +:+ consts.Rfc8484QueryParam +:+ "=" +:+ gostd.EncodeToString binary
    else url in
  let h1 := headerSet [] consts.AcceptHeader consts.Rfc8484AcceptValue in
  let h2 := headerSet h1 consts.ContentTypeHeader consts.Rfc8484AcceptValue in
  let h3 :=
    headerSet h2 UserAgentHeader
      (PackageName +:+ "/" +:+ Version +:+ " (" +:+ PackageURL +:+ ")") in
  let h4 :=
    if (0 <? gostd.strlen (requestData f)) && msgIsMutable
    then headerSet h3 consts.TrustySynthesizeECSRequestHeader (requestData f)
    else h3 in
  mkRequest (httpMethod t) url' (if isGet then None else Some binary) h4.

(** The reply as it is returned: TTLs reduced by Age, the original ID put
    back, ECS redacted and padding removed when allowed. *)
Definition postProcess (t : remote) (f : ecsFlags) (originalId : Z) (resp : Response)
    (httpR : Msg) : Msg * bool :=
  let msgIsMutable := bool_decide (IsTsig httpR = None) in
  let r1 :=
    if msgIsMutable then
      let ageValue := headerGet (RespHeader resp) consts.AgeHeader in
      if 0 <? gostd.strlen ageValue then
        match gostd.ParseUint ageValue 32 with
        | Some ttlAdjust =>
            if 0 <? ttlAdjust then snd (dnsutil.ReduceTTL httpR (uint32_of ttlAdjust) 1)
            else httpR
        | None => httpR
        end
      else httpR
    else httpR in
  let ecsReturned :=
    ecsPresent f
    && match dnsutil.FindECS r1 with
       | Some (_, EDNS0_SUBNET _ _ _ scope _) => 0 <? scope
       | _ => false
       end in
  let r2 := set_Id r1 originalId in
  let r3 :=
    if msgIsMutable && negb (originalECSRetained f) && ECSRedactResponse (config t)
    then snd (dnsutil.RemoveEDNS0FromOPT r2 EDNS0SUBNET) else r2 in
  let r4 :=
    if msgIsMutable && GeneratePadding (config t)
    then snd (dnsutil.RemoveEDNS0FromOPT r3 EDNS0PADDING) else r3 in
  (r4, ecsReturned).

Definition atLeastOne (d : Z) : Z := if d <=? 0 then 1 else d.

Definition Resolve (t : remote) (dnsQ : Msg) (dnsQMeta : QueryMetaData)
  : result ResolveError (Msg * ResponseMetaData) * Msg * remote :=
  let originalId := Id (Hdr dnsQ) in
  let msgIsMutable := bool_decide (IsTsig dnsQ = None) in
  let '(q1, f) := prepare t dnsQ in
  let '(packed, q2) := serialise t q1 msgIsMutable in
  match packed with
  | Err e => (Err (MsgPackError e), q2, addStat t (addGeneralFailure dgxPackDNSQuery))
  | Ok binary =>
      match bestserver.Best (bestServer t) with
      | None => (Err BestIndexPanic, q2, t)
      | Some (bestURL, bsix) =>
          let req := buildRequest t (bestserver.Name bestURL) binary f msgIsMutable in
          if negb (NewRequestOk (Method req) (URL req)) then
            (Err NewRequestError, q2, addStat t (addServerFailure bsix dexCreateHTTPRequest))
          else
            let totalDuration := int64_of (endTime - startTime) in
            match httpClient t req with
            | Err _ =>
                let t1 := addStat t (addServerFailure bsix dexDoRequest) in
                let '(_, bs) := bestserver.Result (bestServer t1) bestURL false endTime 0 in
                (Err DoError, q2, set_bestServer t1 bs)
            | Ok resp =>
                let '(_, bs) :=
                  bestserver.Result (bestServer t) bestURL true endTime totalDuration in
                let t1 := set_bestServer t bs in
                let ct := headerGet (RespHeader resp) consts.ContentTypeHeader in
                if negb (StatusCode resp =? StatusOK) then
                  (Err (BadHTTPStatus (StatusCode resp)), q2,
                   addStat t1 (addServerFailure bsix dexNonStatusOk))
                else
                  match Body resp with
                  | None =>
                      (Err BodyReadError, q2,
                       addStat t1 (addServerFailure bsix dexResponseReadAll))
                  | Some body =>
                      if negb (String.eqb ct consts.Rfc8484AcceptValue) then
                        (Err (BadContentType ct), q2,
                         addStat t1 (addServerFailure bsix dexContentType))
                      else if len body <? consts.MinimumViableDNSMessage then
                        (Err (BelowMinimumViable (len body)), q2,
                         addStat t1 (addServerFailure bsix dexContentType))
                      else
                        let remoteDurationHeader :=
                          headerGet (RespHeader resp) consts.TrustyDurationHeader in
                        let remoteDuration :=
                          if 0 <? gostd.strlen remoteDurationHeader
                          then default 0 (ParseDuration remoteDurationHeader)
                          else 0 in
                        match Unpack body with
                        | None =>
                            (Err UnpackError, q2,
                             addStat t1 (addServerFailure bsix dexUnpackDNSResponse))
                        | Some httpR0 =>
                            let '(httpR, ecsReturned) :=
                              postProcess t f originalId resp httpR0 in
                            let t2 :=
                              addStat t1
                                (addSuccessStats bsix totalDuration remoteDuration
                                   (ecsRemoved f) (ecsSet f) (ecsRequest f) ecsReturned) in
                            (Ok (httpR,
                                 mkResponseMeta DNSTransportHTTP
                                   (atLeastOne (int64_of (totalDuration - remoteDuration)))
                                   (atLeastOne remoteDuration) (Len httpR) 1 1
                                   (bestserver.Name bestURL)),
                             q2, t2)
                        end
                  end
            end
      end
  end.

Definition dohResolver : Resolver remote ResolveError := {|
  resolver.InBailiwick := fun _ qName => InBailiwick qName;
  resolver.Resolve := Resolve
|}.
End WithRuntime.

End doh.

(** ** cmd/trustydns-server: the ECS stage of the DoH request handler *)

Module dohserver.
Import dns.

Inductive serFailureIndex : Type :=
| serBadContentType | serBadMethod | serBadPrefixLengths | serBadQueryParamDecode
| serBodyReadError | serClientTLSBad | serDNSPackResponseFailed
| serDNSUnpackRequestFailed | serECSSynthesisFailed | serHTTPWriterFailed
| serLocalResolutionFailed | serQueryParamMissing.

Inductive evIndex : Type :=
| evGet | evTsig | evEDNS0Removed | evECSv4Synth | evECSv6Synth | evPadding.

(** The fields of the command-line configuration that the stage reads. *)
Record config : Type := mkConfig {
  ecsRemove : bool;
  ecsSet : bool;
  ecsSetIPv4PrefixLen : Z;
  ecsSetIPv6PrefixLen : Z
}.

Inductive PrefixError : Type :=
| ExpectedTwoLengths
| BadIPv4PrefixLen
| BadIPv6PrefixLen
| IPv4NotInRange (n : Z)
| IPv6NotInRange (n : Z).

Definition extractPrefixLengths (requestData : string) : result PrefixError (Z * Z) :=
  match gostd.Split requestData "/" with
  | [p0; p1] =>
      match gostd.ParseUint p0 8 with
      | None => Err BadIPv4PrefixLen
      | Some ipv4PrefixLen =>
          match gostd.ParseUint p1 8 with
          | None => Err BadIPv6PrefixLen
          | Some ipv6PrefixLen =>
              if 32 <? ipv4PrefixLen then Err (IPv4NotInRange ipv4PrefixLen)
              else if 128 <? ipv6PrefixLen then Err (IPv6NotInRange ipv6PrefixLen)
              else Ok (ipv4PrefixLen, ipv6PrefixLen)
          end
      end
  | _ => Err ExpectedTwoLengths
  end.

Inductive AddrError : Type :=
| NoColon
| TooShort
| InvalidIP (ipString : string).

Definition parseRemoteAddr (ra : string) : result AddrError (list byte) :=
  let colon := gostd.LastIndexByte ra ":" in
  if colon =? -1 then Err NoColon
  else
    let ipString := gostd.slice ra 0 colon in
    if gostd.strlen ipString <? 2 then Err TooShort
    else
      let bracketed :=
        match gostd.byteAt ipString 0, gostd.byteAt ipString (gostd.strlen ipString - 1) with
        | Some a, Some b => Ascii.eqb a "[" && Ascii.eqb b "]"
        | _, _ => false
        end in
      let ipString' :=
        if bracketed then gostd.slice ipString 1 (gostd.strlen ipString - 1)
        else ipString in
      match net.ParseIP ipString' with
      | None => Err (InvalidIP ipString')
      | Some ip => Ok ip
      end.

Inductive SynthError : Type :=
| InvalidPrefixLengths (e : PrefixError)
| InvalidRemoteAddr (e : AddrError).

(** [synthesizeECS]: the event index (its zero value is [evGet]) or the
    failure index and error, next to the query as the function leaves it. *)
Definition synthesizeECS (cfg : config) (dnsQ : Msg) (ecsRequestData remoteAddr : string)
  : result (serFailureIndex * SynthError) evIndex * Msg :=
  let lengths :=
    if 0 <? gostd.strlen ecsRequestData then extractPrefixLengths ecsRequestData
    else Ok (ecsSetIPv4PrefixLen cfg, ecsSetIPv6PrefixLen cfg) in
  match lengths with
  | Err e => (Err (serBadPrefixLengths, InvalidPrefixLengths e), dnsQ)
  | Ok (ipv4PrefixLen, ipv6PrefixLen) =>
      match parseRemoteAddr remoteAddr with
      | Err e => (Err (serECSSynthesisFailed, InvalidRemoteAddr e), dnsQ)
      | Ok ip =>
          if bool_decide (is_Some (net.To4 ip)) && (0 <? ipv4PrefixLen) then
            (Ok evECSv4Synth, snd (dnsutil.CreateECS dnsQ 1 ipv4PrefixLen ip))
          else if bool_decide (is_Some (net.To16 ip)) && (0 <? ipv6PrefixLen) then
            (Ok evECSv6Synth, snd (dnsutil.CreateECS dnsQ 2 ipv6PrefixLen ip))
          else (Ok evGet, dnsQ)
      end
  end.

(** What the ECS and padding stage of [serveDoH] hands on: the query for
    the local resolver, the events set, and [addServerPadding]. *)
Record staged : Type := mkStaged {
  query : Msg;
  evs : list evIndex;
  addServerPadding : Z
}.

(** The stage of [serveDoH] between unpacking the query and resolving it:
    the mutability test, the removal of ECS, the synthesis and the removal
    of padding.  [ecsRequestData] is the value of the X-trustydns-Synth
    header of the request, the empty string when absent. *)
Definition stage (cfg : config) (dnsQ : Msg) (ecsRequestData remoteAddr : string)
  : result (serFailureIndex * SynthError) staged :=
  let msgIsMutable := bool_decide (IsTsig dnsQ = None) in
  if negb msgIsMutable then Ok (mkStaged dnsQ [evTsig] (-1))
  else
    let expunge := ecsRemove cfg || (0 <? gostd.strlen ecsRequestData) || ecsSet cfg in
    let q1 := if expunge then snd (dnsutil.RemoveEDNS0FromOPT dnsQ EDNS0SUBNET) else dnsQ in
    let e1 := if expunge then [evEDNS0Removed] else [] in
    let synth :=
      if (0 <? gostd.strlen ecsRequestData) || ecsSet cfg then
        match synthesizeECS cfg q1 ecsRequestData remoteAddr with
        | (Err e, _) => Err e
        | (Ok evx, q2) => Ok (q2, e1 ++ [evx])
        end
      else Ok (q1, e1) in
    match synth with
    | Err e => Err e
    | Ok (q2, e2) =>
        let pad := dnsutil.FindPadding q2 in
        if 0 <=? pad then
          Ok (mkStaged (snd (dnsutil.RemoveEDNS0FromOPT q2 EDNS0PADDING)) (e2 ++ [evPadding]) pad)
        else Ok (mkStaged q2 e2 pad)
    end.

(** Whether [extractPrefixLengths] reads back what
    [fmt.Sprintf("%d/%d", a, b)] gives. *)
Definition readsBack (a b : Z) : bool :=
  match extractPrefixLengths (gostd.itoa a +:+ "/" +:+ gostd.itoa b) with
  | Ok (x, y) => (x =? a) && (y =? b)
  | Err _ => false
  end.

End dohserver.

(** ** cmd/trustydns-proxy: the DNS front end *)

Module proxy.
Import dns.
Import resolver.

Inductive serIndex : Type := serNoResponse | serDNSWriteFailed.

(** The [events] array: DoH returned TC=1, and the proxy truncated. *)
Record events : Type := mkEvents {
  evInTruncated : bool;
  evOutTruncated : bool
}.

Inductive statCall : Type :=
| addFailureStats (ix : serIndex) (evs : events)
| addSuccessStats (latency : Z) (evs : events).

(** [local] is [None] when no local resolver is configured. *)
Record server (R L : Type) : Type := mkServer {
  remote : R;
  local : option L;
  transport : string
}.
Arguments mkServer {R L}.
Arguments remote {R L}.
Arguments local {R L}.
Arguments transport {R L}.

(** What one call of [ServeDNS] does: the message handed to [WriteMsg] (if
    any), the statistics call, the query as the resolver left it, and the
    server with its resolvers' new states. *)
Record served (R L : Type) : Type := mkServed {
  written : option Msg;
  stat : statCall;
  queryAfter : Msg;
  serverAfter : server R L
}.
Arguments mkServed {R L}.
Arguments written {R L}.
Arguments stat {R L}.
Arguments queryAfter {R L}.
Arguments serverAfter {R L}.

Definition rrCount (m : Msg) : Z := len (Answer m) + len (Ns m) + len (Extra m).

Section WithResolvers.
Context {lib : Library}.
Context {R L ER EL : Type} {remoteResolver : Resolver R ER}
        {localResolver : Resolver L EL}.

(** [WriteMsg] of the response writer ([true] when it returns no error),
    and the measured duration of the resolution. *)
Variable WriteMsg : Msg -> bool.
Variable duration : Z.

(** The limit that applies to a reply for this query. *)
Definition limitOf (query : Msg) : Z :=
  match IsEdns0 query with
  | Some opt =>
      if consts.DNSTruncateThreshold <? UDPSize opt then UDPSize opt
      else consts.DNSTruncateThreshold
  | None => consts.DNSTruncateThreshold
  end.

(** The truncation policy of [ServeDNS]: the reply to write and whether
    [evOutTruncated] is set.  [query] is the query after [Resolve]. *)
Definition truncation (transport_ : string) (query resp : Msg)
    (respMeta : ResponseMetaData) : Msg * bool :=
  if String.eqb transport_ consts.DNSUDPTransport
     && (consts.DNSTruncateThreshold <? PayloadSize respMeta) then
    let limit := limitOf query in
    if limit <? PayloadSize respMeta then
      let preserveTruncated := Truncated (Hdr resp) in
      let beforeCount := rrCount resp in
      let resp' := Truncate resp limit in
      let afterCount := rrCount resp' in
      (set_Truncated resp'
         (Truncated (Hdr resp') || preserveTruncated || negb (beforeCount =? afterCount)),
       true)
    else (resp, false)
  else (resp, false).

Definition finish (t : server R L) (query resp : Msg) (respMeta : ResponseMetaData)
  : served R L :=
  let '(out, outTruncated) := truncation (transport t) query resp respMeta in
  let evs := mkEvents (Truncated (Hdr resp)) outTruncated in
  if WriteMsg out then mkServed (Some out) (addSuccessStats duration evs) query t
  else mkServed (Some out) (addFailureStats serDNSWriteFailed evs) query t.

Definition useLocal (t : server R L) (query : Msg) : option L :=
  match local t, Question query with
  | Some l, q :: _ => if InBailiwick l (QName q) then Some l else None
  | _, _ => None
  end.

(** The reply and metadata that the chosen resolver returns for a query,
    [None] when it returns an error. *)
Definition resolved (t : server R L) (query : Msg) : option (Msg * ResponseMetaData) :=
  let qMeta := mkQueryMeta (transport t) in
  match useLocal t query with
  | Some l =>
      match fst (fst (Resolve l query qMeta)) with Ok x => Some x | Err _ => None end
  | None =>
      match fst (fst (Resolve (remote t) query qMeta)) with Ok x => Some x | Err _ => None end
  end.

Definition ServeDNS (t : server R L) (query : Msg) : served R L :=
  let qMeta := mkQueryMeta (transport t) in
  match useLocal t query with
  | Some l =>
      let '(r, query', l') := Resolve l query qMeta in
      let t' := mkServer (remote t) (Some l') (transport t) in
      match r with
      | Err _ =>
          mkServed None (addFailureStats serNoResponse (mkEvents false false)) query' t'
      | Ok (resp, respMeta) => finish t' query' resp respMeta
      end
  | None =>
      let '(r, query', r') := Resolve (remote t) query qMeta in
      let t' := mkServer r' (local t) (transport t) in
      match r with
      | Err _ =>
          mkServed None (addFailureStats serNoResponse (mkEvents false false)) query' t'
      | Ok (resp, respMeta) => finish t' query' resp respMeta
      end
  end.
End WithResolvers.

End proxy.

(** ** internal/concurrencytracker *)

Module concurrencytracker.

Record Counter : Type := mkCounter {
  current : Z;
  peak : Z
}.

(** A [Counter] is used as its zero value. *)
Definition zero : Counter := mkCounter 0 0.

(** [Add]: whether the peak has increased, and the counter afterwards. *)
Definition Add (t : Counter) : bool * Counter :=
  let c := int64_of (current t + 1) in
  if peak t <? c then (true, mkCounter c c) else (false, mkCounter c (peak t)).

(** [Done]: [None] stands for the panic. *)
Definition Done (t : Counter) : option Counter :=
  if current t =? 0 then None
  else Some (mkCounter (int64_of (current t - 1)) (peak t)).

Definition Peak (t : Counter) (resetCounters : bool) : Z * Counter :=
  (peak t, if resetCounters then mkCounter (current t) (current t) else t).

(** Sequences of calls on one counter, as the handlers and the reporter
    make them. *)
Inductive call : Type := CallAdd | CallDone | CallPeak (resetCounters : bool).

Inductive reply : Type := RAdd (increased : bool) | RDone | RPeak (peak : Z).

Definition exec (t : Counter) (c : call) : option (reply * Counter) :=
  match c with
  | CallAdd => let (b, t') := Add t in Some (RAdd b, t')
  | CallDone => match Done t with Some t' => Some (RDone, t') | None => None end
  | CallPeak r => let (p, t') := Peak t r in Some (RPeak p, t')
  end.

(** [None] when one of the calls panics. *)
Fixpoint run (t : Counter) (cs : list call) : option (list reply * Counter) :=
  match cs with
  | [] => Some ([], t)
  | c :: tl =>
      match exec t c with
      | None => None
      | Some (r, t') =>
          match run t' tl with
          | None => None
          | Some (rs, t'') => Some (r :: rs, t'')
          end
      end
  end.

Definition isAdd (c : call) : bool := match c with CallAdd => true | _ => false end.
Definition isDone (c : call) : bool := match c with CallDone => true | _ => false end.
Definition isReset (c : call) : bool :=
  match c with CallPeak true => true | _ => false end.

(** Every [Done] of the sequence comes after an [Add] that it matches, when
    [n] requests are already under way. *)
Fixpoint matched (n : Z) (cs : list call) : bool :=
  match cs with
  | [] => true
  | CallAdd :: tl => matched (n + 1) tl
  | CallDone :: tl => (0 <? n) && matched (n - 1) tl
  | CallPeak _ :: tl => matched n tl
  end.

(** The highest number of requests under way at any point of the sequence,
    [n] being under way at its start and [hi] the highest so far. *)
Fixpoint highest (n hi : Z) (cs : list call) : Z :=
  match cs with
  | [] => hi
  | CallAdd :: tl => highest (n + 1) (Z.max hi (n + 1)) tl
  | CallDone :: tl => highest (n - 1) hi tl
  | CallPeak _ :: tl => highest n hi tl
  end.

End concurrencytracker.

(** ** internal/connectiontracker *)

Module connectiontracker.

(** [http.ConnState]: the five states of net/http, and any other value of
    the type. *)
Inductive ConnState_ : Type :=
| StateNew | StateActive | StateIdle | StateHijacked | StateClosed
| StateOther (n : Z).

Record connection : Type := mkConnection {
  connStart : Z;
  activeStart : Z;
  activeFor : Z;
  currentSessions : Z;
  peakSessions : Z
}.

Inductive errIx : Type :=
| errNoConnInMap | errNoConnForSession | errDanglingConn
| errNegativeConcurrency | errConnsLost | errUnknownState.

Definition errArSize : nat := 6.

Definition errPos (e : errIx) : nat :=
  match e with
  | errNoConnInMap => 0 | errNoConnForSession => 1 | errDanglingConn => 2
  | errNegativeConcurrency => 3 | errConnsLost => 4 | errUnknownState => 5
  end.

Record trackerStats : Type := mkStats {
  peakConns : Z;
  tPeakSessions : Z;
  connFor : Z;
  tActiveFor : Z;
  errors : list Z
}.

Definition zeroStats : trackerStats := mkStats 0 0 0 0 (repeat 0 errArSize).

Record Tracker : Type := mkTracker {
  name : string;
  connMap : gmap string connection;
  stats : trackerStats
}.

Definition New (name : string) : Tracker := mkTracker name ∅ zeroStats.

(** [t.errors[e]++] *)
Definition bump (e : errIx) (s : trackerStats) : trackerStats :=
  mkStats (peakConns s) (tPeakSessions s) (connFor s) (tActiveFor s)
    (<[errPos e := int64_of (default 0 (errors s !! errPos e) + 1)]> (errors s)).

(** [Time.Sub]: the difference of two instants, kept within the range of a
    [Duration]. *)
Definition Sub (t u : Z) : Z :=
  Z.max (- 2 ^ 63) (Z.min (2 ^ 63 - 1) (t - u)).

(** The active period that ends at [now], added to the sum of a connection
    that is active. *)
Definition closeActive (cs : connection) (now : Z) : Z :=
  if negb (activeStart cs =? 0)
  then int64_of (activeFor cs + Sub now (activeStart cs))
  else activeFor cs.

Definition ConnState (t : Tracker) (key : string) (now : Z) (state : ConnState_)
  : bool * Tracker :=
  let found := connMap t !! key in
  match state with
  | StateNew =>
      let ok := bool_decide (is_Some found) in
      let m := <[key := mkConnection now 0 0 0 0]> (connMap t) in
      let s1 := if ok then bump errDanglingConn (stats t) else stats t in
      let cc := Z.of_nat (size m) in
      let s2 :=
        if peakConns s1 <? cc
        then mkStats cc (tPeakSessions s1) (connFor s1) (tActiveFor s1) (errors s1)
        else s1 in
      (negb ok, mkTracker (name t) m s2)
  | _ =>
      match found with
      | None => (false, mkTracker (name t) (connMap t) (bump errNoConnInMap (stats t)))
      | Some cs =>
          match state with
          | StateActive =>
              (true,
               mkTracker (name t)
                 (<[key := mkConnection (connStart cs) now (activeFor cs)
                             (currentSessions cs) (peakSessions cs)]> (connMap t))
                 (stats t))
          | StateIdle =>
              (true,
               if negb (activeStart cs =? 0) then
                 mkTracker (name t)
                   (<[key := mkConnection (connStart cs) 0 (closeActive cs now)
                               (currentSessions cs) (peakSessions cs)]> (connMap t))
                   (stats t)
               else t)
          | StateHijacked | StateClosed =>
              let s := stats t in
              let s1 :=
                mkStats (peakConns s) (tPeakSessions s)
                  (int64_of (connFor s + Sub now (connStart cs)))
                  (int64_of (tActiveFor s + closeActive cs now)) (errors s) in
              let m := delete key (connMap t) in
              if 0 <? currentSessions cs then
                (false, mkTracker (name t) m (bump errConnsLost s1))
              else
                (true,
                 mkTracker (name t) m
                   (if tPeakSessions s1 <? peakSessions cs
                    then mkStats (peakConns s1) (peakSessions cs) (connFor s1)
                           (tActiveFor s1) (errors s1)
                    else s1))
          | _ => (false, mkTracker (name t) (connMap t) (bump errUnknownState (stats t)))
          end
      end
  end.

Definition SessionAdd (t : Tracker) (key : string) : bool * Tracker :=
  match connMap t !! key with
  | None => (false, mkTracker (name t) (connMap t) (bump errNoConnForSession (stats t)))
  | Some cs =>
      let c := int64_of (currentSessions cs + 1) in
      (true,
       mkTracker (name t)
         (<[key := mkConnection (connStart cs) (activeStart cs) (activeFor cs) c
                     (if peakSessions cs <? c then c else peakSessions cs)]> (connMap t))
         (stats t))
  end.

Definition SessionDone (t : Tracker) (key : string) : bool * Tracker :=
  match connMap t !! key with
  | None => (false, mkTracker (name t) (connMap t) (bump errNoConnForSession (stats t)))
  | Some cs =>
      if currentSessions cs <=? 0 then
        (false, mkTracker (name t) (connMap t) (bump errNegativeConcurrency (stats t)))
      else
        (true,
         mkTracker (name t)
           (<[key := mkConnection (connStart cs) (activeStart cs) (activeFor cs)
                       (int64_of (currentSessions cs - 1)) (peakSessions cs)]> (connMap t))
           (stats t))
  end.

(** What [Report(true)] does to the tracker: the statistics start afresh,
    the connections stay. *)
Definition resetCounters (t : Tracker) : Tracker :=
  mkTracker (name t) (connMap t) zeroStats.

(** The sum that [Report] prints as [errs]. *)
Definition errs (t : Tracker) : Z := fold_right Z.add 0 (errors (stats t)).

Inductive call : Type :=
| CallConnState (key : string) (now : Z) (state : ConnState_)
| CallSessionAdd (key : string)
| CallSessionDone (key : string)
| CallReset.

Definition exec (t : Tracker) (c : call) : bool * Tracker :=
  match c with
  | CallConnState key now state => ConnState t key now state
  | CallSessionAdd key => SessionAdd t key
  | CallSessionDone key => SessionDone t key
  | CallReset => (true, resetCounters t)
  end.

Fixpoint run (t : Tracker) (cs : list call) : list bool * Tracker :=
  match cs with
  | [] => ([], t)
  | c :: tl =>
      let (r, t') := exec t c in
      let (rs, t'') := run t' tl in
      (r :: rs, t'')
  end.

Definition isReset (c : call) : bool :=
  match c with CallReset => true | _ => false end.

(** The number of calls that returned false. *)
Definition refused (rs : list bool) : Z := len (List.filter negb rs).

(** What every call keeps, [n] bounding the number of calls made so far:
    the sessions of each open connection are counted between 0 and the
    connection's peak, and the error counters are six, none negative. *)
Definition tracked (n : Z) (t : Tracker) : Prop :=
  (forall k c, connMap t !! k = Some c ->
     0 <= currentSessions c <= peakSessions c /\ peakSessions c <= n)
  /\ length (errors (stats t)) = errArSize
  /\ Forall (fun e => 0 <= e) (errors (stats t))
  /\ errs t <= n.

(** [peakConns] is at least the number of open connections. *)
Definition peakCovers (t : Tracker) : Prop :=
  Z.of_nat (size (connMap t)) <= peakConns (stats t).

End connectiontracker.

(** ** cmd/trustydns-server: the request handler and its statistics *)

Module dohhandler.
Import dns.
Import resolver.
Import dohserver.

Definition MethodGet : string := "GET".
Definition MethodPost : string := "POST".
Definition StatusOK : Z := 200.
Definition StatusBadRequest : Z := 400.
Definition StatusMethodNotAllowed : Z := 405.
Definition StatusUnsupportedMediaType : Z := 415.
Definition StatusServiceUnavailable : Z := 503.

Definition serArraySize : nat := 12.
Definition evListSize : nat := 6.

(** The values of the two index types. *)
Definition serIx (s : serFailureIndex) : nat :=
  match s with
  | serBadContentType => 0 | serBadMethod => 1 | serBadPrefixLengths => 2
  | serBadQueryParamDecode => 3 | serBodyReadError => 4 | serClientTLSBad => 5
  | serDNSPackResponseFailed => 6 | serDNSUnpackRequestFailed => 7
  | serECSSynthesisFailed => 8 | serHTTPWriterFailed => 9
  | serLocalResolutionFailed => 10 | serQueryParamMissing => 11
  end.

Definition evIx (e : evIndex) : nat :=
  match e with
  | evGet => 0 | evTsig => 1 | evEDNS0Removed => 2
  | evECSv4Synth => 3 | evECSv6Synth => 4 | evPadding => 5
  end.

Record stats : Type := mkStats {
  successCount : Z;
  totalLatency : Z;
  eventCounters : list Z;
  failureCounters : list Z
}.

Definition zeroStats : stats :=
  mkStats 0 0 (repeat 0 evListSize) (repeat 0 serArraySize).

(** The [events] array is held as the list of the indices that are set. *)
Definition isSet (evs : list evIndex) (ix : nat) : bool :=
  existsb (fun e => (evIx e =? ix)%nat) evs.

(** The loop of the two statistics functions over [evs]. *)
Definition countEvents (evs : list evIndex) (counters : list Z) : list Z :=
  imap (fun ix c => if isSet evs ix then int64_of (c + 1) else c) counters.

Definition addSuccessStats (s : stats) (latency : Z) (evs : list evIndex) : stats :=
  mkStats (int64_of (successCount s + 1)) (int64_of (totalLatency s + latency))
    (countEvents evs (eventCounters s)) (failureCounters s).

Definition addFailureStats (s : stats) (ix : serFailureIndex) (evs : list evIndex) : stats :=
  mkStats (successCount s) (totalLatency s) (countEvents evs (eventCounters s))
    (<[serIx ix := int64_of (default 0 (failureCounters s !! serIx ix) + 1)]>
       (failureCounters s)).

(** The numbers that [Report] prints as [errs] and [req]. *)
Definition errs (s : stats) : Z :=
  fold_left (fun acc v => int64_of (acc + v)) (failureCounters s) 0.

Definition req (s : stats) : Z := int64_of (successCount s + errs s).

(** What the handler reads of an [http.Request].  [Header] is read by
    [Header.Get]; [Body] is [None] when [ioutil.ReadAll] fails; [Query] is
    the result of [URL.Query()], each parameter with its first value and the
    further ones. *)
Record Request : Type := mkRequest {
  Method : string;
  Header : doh.header;
  Body : option (list byte);
  Query : gmap string (string * list string);
  RemoteAddr : string;
  Scheme : string
}.

(** What is done with the [http.ResponseWriter]: the body given to [Write]
    after the two headers are set, or the status code given to [t.error]. *)
Inductive answer : Type :=
| Written (body : list byte)
| Refused (statusCode : Z).

Record server (L : Type) : Type := mkServer {
  local : L;
  ccTrk : concurrencytracker.Counter;
  connTrk : option connectiontracker.Tracker;
  st : stats
}.
Arguments mkServer {L}.
Arguments local {L}.
Arguments ccTrk {L}.
Arguments connTrk {L}.
Arguments st {L}.

(** What the body of [serveDoH] does: the answer, the query handed to
    [Resolve] (if the request got that far), and the resolver and the
    statistics afterwards. *)
Record handled (L : Type) : Type := mkHandled {
  answered : answer;
  asked : option Msg;
  localAfter : L;
  statsAfter : stats
}.
Arguments mkHandled {L}.
Arguments answered {L}.
Arguments asked {L}.
Arguments localAfter {L}.
Arguments statsAfter {L}.

Definition validateRequest (r : Request) : result (serFailureIndex * Z) (list byte) :=
  if negb (String.eqb (Method r) MethodPost) && negb (String.eqb (Method r) MethodGet)
  then Err (serBadMethod, StatusMethodNotAllowed)
  else if negb (String.eqb (doh.headerGet (Header r) consts.ContentTypeHeader)
                  consts.Rfc8484AcceptValue)
  then Err (serBadContentType, StatusUnsupportedMediaType)
  else match Body r with
       | None => Err (serBodyReadError, StatusBadRequest)
       | Some body => Ok body
       end.

Definition decodeQueryParam (r : Request) : result serFailureIndex (list byte) :=
  match Query r !! consts.Rfc8484QueryParam with
  | None => Err serQueryParamMissing
  | Some (first, _) =>
      if negb (size (Query r) =? 1)%nat then Err serQueryParamMissing
      else match gostd.DecodeString first with
           | None => Err serBadQueryParamDecode
           | Some body => Ok body
           end
  end.

Section WithRuntime.
Context {lib : Library}.
Context {L EL : Type} {localResolver : Resolver L EL}.

(** The command-line configuration, the value that [dns.Id()] gives, whether
    [writer.Write] succeeds, and the measured duration. *)
Variable cfg : config.
Variable newId : Z.
Variable Write : list byte -> bool.
Variable duration : Z.

Definition failed (t : server L) (hsc : Z) (serx : serFailureIndex) (evs : list evIndex)
    (q : option Msg) (l : L) : handled L :=
  mkHandled (Refused hsc) q l (addFailureStats (st t) serx evs).

(** [serveDoH] between its deferred calls.  When [synthesizeECS] fails the
    events set are those of the method and of the removal of ECS, which
    comes before every synthesis. *)
Definition handle (t : server L) (r : Request) : handled L :=
  match validateRequest r with
  | Err (serx, hsc) => failed t hsc serx [] None (local t)
  | Ok body0 =>
      let isGet := String.eqb (Method r) MethodGet in
      let evs0 := if isGet then [evGet] else [] in
      match (if isGet then decodeQueryParam r else Ok body0) with
      | Err serx => failed t StatusBadRequest serx evs0 None (local t)
      | Ok body =>
          match Unpack body with
          | None =>
              failed t StatusBadRequest serDNSUnpackRequestFailed evs0 None (local t)
          | Some dnsQ0 =>
              let originalId := Id (Hdr dnsQ0) in
              let dnsQ := if originalId =? 0 then set_Id dnsQ0 newId else dnsQ0 in
              let msgIsMutable := bool_decide (IsTsig dnsQ = None) in
              let ecsRequestData :=
                doh.headerGet (Header r) consts.TrustySynthesizeECSRequestHeader in
              match stage cfg dnsQ ecsRequestData (RemoteAddr r) with
              | Err (serx, _) =>
                  failed t StatusBadRequest serx (evs0 ++ [evEDNS0Removed]) None (local t)
              | Ok sg =>
                  let evs := evs0 ++ dohserver.evs sg in
                  let '(res, _, l') :=
                    Resolve (local t) (query sg) (mkQueryMeta (Scheme r)) in
                  match res with
                  | Err _ =>
                      failed t StatusServiceUnavailable serLocalResolutionFailed evs
                        (Some (query sg)) l'
                  | Ok (dnsR0, _) =>
                      let dnsR := set_Id dnsR0 originalId in
                      let packed :=
                        if msgIsMutable && (0 <=? addServerPadding sg) then
                          fst (dnsutil.PadAndPack dnsR consts.Rfc8467ServerPadModulo)
                        else
                          match Pack dnsR with
                          | Some b => Ok b
                          | None => Err dnsutil.PackFailed
                          end in
                      match packed with
                      | Err _ =>
                          failed t StatusServiceUnavailable serDNSPackResponseFailed evs
                            (Some (query sg)) l'
                      | Ok out =>
                          if Write out then
                            mkHandled (Written out) (Some (query sg)) l'
                              (addSuccessStats (st t) duration evs)
                          else
                            failed t StatusServiceUnavailable serHTTPWriterFailed evs
                              (Some (query sg)) l'
                      end
                  end
              end
          end
      end
  end.

(** [serveDoH]: the two trackers are told of the request before it is
    handled and, by the deferred calls, after it; [None] stands for the
    panic of [Counter.Done]. *)
Definition serveDoH (t : server L) (r : Request) : option (handled L * server L) :=
  let cc1 := snd (concurrencytracker.Add (ccTrk t)) in
  let trk1 :=
    option_map (fun k => snd (connectiontracker.SessionAdd k (RemoteAddr r))) (connTrk t) in
  let h := handle t r in
  let trk2 :=
    option_map (fun k => snd (connectiontracker.SessionDone k (RemoteAddr r))) trk1 in
  match concurrencytracker.Done cc1 with
  | None => None
  | Some cc2 => Some (h, mkServer (localAfter h) cc2 trk2 (statsAfter h))
  end.

End WithRuntime.

(** The statistics are in order when [n] requests at most are counted:
    twelve failure counters, none negative, and no more than [n] successes
    and failures together. *)
Definition counted (n : Z) (s : stats) : bool :=
  (length (failureCounters s) =? serArraySize)%nat
  && forallb (fun v => 0 <=? v) (failureCounters s)
  && (0 <=? successCount s)
  && (successCount s + fold_right Z.add 0 (failureCounters s) <=? n).

Definition isWritten (a : answer) : bool :=
  match a with Written _ => true | Refused _ => false end.

End dohhandler.

(** ** cmd/trustydns-server and cmd/trustydns-proxy: the status interval *)

Module statusloop.

(** [Time.Truncate]: the instant rounded down to a multiple of [d] since the
    zero time; the instant itself when [d] is not positive. *)
Definition Truncate (t d : Z) : Z := if d <=? 0 then t else t - t mod d.

(** [Time.Add] *)
Definition Add (t d : Z) : Z := t + d.

Definition nextInterval (now interval : Z) : Z :=
  connectiontracker.Sub (Add (Truncate now interval) interval) now.

End statusloop.

(** ** Concrete messages and configurations *)

Module examples.
Import dns.

(** The query of the basic lookup scenario: ID 23, example.com. NS IN. *)
Definition query23 : Msg :=
  mkMsg (mkMsgHdr 23 false OpcodeQuery false false true false RcodeSuccess) false
    [mkQuestion "example.com." 2 ClassINET] [] [] [].

(** A TXT record of 124 octets on the wire, and a reply with nine of them:
    1145 octets. *)
Definition txtRR : RR :=
  RFC3597 (mkHeader "example.com." 16 ClassINET 300) (x64 :: repeat x61 100).

Definition bigResponse (tc : bool) : Msg :=
  mkMsg (mkMsgHdr 5001 true OpcodeQuery false tc true true RcodeSuccess) false
    [mkQuestion "example.com." 2 ClassINET] (repeat txtRR 9) [] [].

(** The mock resolver of the proxy's tests: it answers every query with the
    same reply and metadata, or with an error. *)
Record mockResolver : Type := mkMock {
  ib : bool;
  response : Msg;
  rMeta : resolver.ResponseMetaData;
  err : bool
}.

Definition mockResolve : resolver.Resolver mockResolver unit := {|
  resolver.InBailiwick := fun t _ => ib t;
  resolver.Resolve := fun t query _ =>
    (if err t then Err tt else Ok (response t, rMeta t), query, t)
|}.

Definition metaOf (m : Msg) : resolver.ResponseMetaData :=
  resolver.mkResponseMeta resolver.DNSTransportHTTP 1 1 (miekg.msgLen m) 1 1 "mock".

(** A proxy on UDP whose resolver answers with the big reply, TC already set. *)
Definition udpProxy (tc : bool) : proxy.server mockResolver mockResolver :=
  proxy.mkServer (mkMock false (bigResponse tc) (metaOf (bigResponse tc)) false) None
    consts.DNSUDPTransport.

(** An upstream DoH server that answers every request with one reply. *)
Definition upstream (m : Msg) : doh.Request -> result unit doh.Response :=
  fun _ =>
    Ok (doh.mkResponse 200 [(consts.ContentTypeHeader, consts.Rfc8484AcceptValue)]
          (miekg.packMsg m)).

Definition serverURL : string := "https://doh.example.net/dns-query".

Definition noLatencyConfig : bestserver.LatencyConfig :=
  bestserver.mkLatencyConfig 0 0 0 0 0.

(** The proxy's resolver with the -p option: POST, padding generated. *)
Definition paddingConfig : doh.Config :=
  doh.mkConfig false true false false 0 0 None noLatencyConfig [serverURL].

(** The run-time system of the examples: every request is well formed, no
    duration header is understood, the exchange takes a millisecond. *)
Definition runtime : resolver.Resolver doh.remote doh.ResolveError :=
  @doh.dohResolver miekg.reference (fun _ _ => true) (fun _ => None) 0 1000000.

Definition dohProxy (r : doh.remote) : proxy.server doh.remote mockResolver :=
  proxy.mkServer r None consts.DNSUDPTransport.

Definition serveThroughDoH (r : doh.remote) (query : Msg) : proxy.served doh.remote mockResolver :=
  @proxy.ServeDNS miekg.reference _ _ _ _ runtime mockResolve (fun _ => true) 1000000
    (dohProxy r) query.

(** Two and three servers, and the managers built for them. *)
Definition s0 : bestserver.Server := bestserver.mkServer 0 "a".
Definition s1 : bestserver.Server := bestserver.mkServer 1 "b".
Definition s2 : bestserver.Server := bestserver.mkServer 2 "c".

Definition emptyBase : bestserver.baseManager := bestserver.mkBase "" [] 0 ∅ 0.

Definition latencyOf (ss : list bestserver.Server) : bestserver.latency :=
  match bestserver.NewLatency noLatencyConfig ss with
  | Ok t => t
  | Err _ =>
      bestserver.mkLatency bestserver.DefaultLatencyConfig emptyBase [] 0 0 0 0 0
        bestserver.algNone
  end.

Definition traditionalOf (ss : list bestserver.Server) : bestserver.traditional :=
  match bestserver.NewTraditional ss with
  | Ok t => t
  | Err _ => bestserver.mkTraditional emptyBase
  end.

(** The latency manager for two servers after the first reported a failure
    at time 10. *)
Definition afterFailure : bestserver.latency :=
  snd (bestserver.run (latencyOf [s0; s1]) [bestserver.CallResult s0 false 10 0]).

(** A scripted network in the manner of the local resolver's tests: every
    exchange takes the next scripted result and logs the transport and the
    server it was sent to. *)
Definition network : Type :=
  (list (result unit Msg * Z) * list (string * string))%type.

Definition scripted (net_ : string) (q : Msg) (server : string) (w : network)
  : result unit Msg * Z * network :=
  match fst w with
  | x :: tl => (x, (tl, snd w ++ [(net_, server)]))
  | [] => (Err tt, 0, ([], snd w ++ [(net_, server)]))
  end.

Definition replyWith (rcode : Z) (tc : bool) (id : Z) : Msg :=
  mkMsg (mkMsgHdr id true OpcodeQuery false tc true true rcode) false
    [mkQuestion "example.com." 2 ClassINET] [] [] [].

Definition ns1 : bestserver.Server := bestserver.mkServer 0 "10.0.0.1:53".
Definition ns2 : bestserver.Server := bestserver.mkServer 1 "10.0.0.2:53".

(** A local resolver for two name servers, two attempts, and a budget of
    [timeout] seconds. *)
Definition localOf (timeout : Z) : local.local :=
  local.mkLocal (local.mkClientConfig 2 timeout) [] (traditionalOf [ns1; ns2]) [].

Definition millisecond : Z := 1000000.

Definition resolveLocal (t : local.local) (w : network)
  : result local.ResolveError (Msg * resolver.ResponseMetaData) * local.local * network :=
  @local.Resolve miekg.reference network scripted (fun _ => 0) t query23
    (resolver.mkQueryMeta resolver.DNSTransportUDP) w.

(** The first server answers SERVFAIL; the second answers a truncated
    success over UDP and a success over TCP. *)
Definition fallbackOnSecond : network :=
  ([(Ok (replyWith RcodeServerFailure false 1), millisecond);
    (Ok (replyWith RcodeSuccess true 2), millisecond);
    (Ok (replyWith RcodeSuccess false 3), 2 * millisecond)], []).

(** The first server answers a truncated success over UDP and a success
    over TCP. *)
Definition fallbackOnFirst : network :=
  ([(Ok (replyWith RcodeSuccess true 2), millisecond);
    (Ok (replyWith RcodeSuccess false 3), 2 * millisecond)], []).

(** The first server answers NXDOMAIN after five seconds. *)
Definition slowAnswer : network :=
  ([(Ok (replyWith RcodeNameError false 4), 5 * bestserver.second)], []).

(** A DoH resolver built by [New]; the fallback is never taken for the
    configurations below. *)
Definition remoteOf (c : doh.Config) (client : doh.Request -> result unit doh.Response)
  : doh.remote :=
  match doh.New c client with
  | Ok r => r
  | Err _ => doh.mkRemote c client "" 0 0 [] "" (latencyOf []) []
  end.

(** The DNS message that a request delivers: the body of a POST, the decoded
    [dns] parameter of a GET. *)
Fixpoint afterQuestionMark (cs : list ascii) : list ascii :=
  match cs with
  | [] => []
  | c :: tl => if Ascii.eqb c "?" then tl else afterQuestionMark tl
  end.

Definition delivered (req : doh.Request) : option (list byte) :=
  if String.eqb (doh.Method req) doh.MethodGet then
    gostd.DecodeString
      (string_of_list_ascii (drop 4 (afterQuestionMark (list_ascii_of_string (doh.URL req)))))
  else doh.ReqBody req.

(** An upstream DoH server that echoes the delivered query verbatim. *)
Definition echo : doh.Request -> result unit doh.Response :=
  fun req =>
    Ok (doh.mkResponse 200 [(consts.ContentTypeHeader, consts.Rfc8484AcceptValue)]
          (delivered req)).

(** The proxy's resolver with the -g option: GET, no padding, no ECS. *)
Definition getConfig : doh.Config :=
  doh.mkConfig true false false false 0 0 None noLatencyConfig [serverURL].

(** The server's configuration without --ecs-set and --ecs-remove. *)
Definition plainServer : dohserver.config := dohserver.mkConfig false false 24 64.

(** A client's query with a padding sub-option of two octets. *)
Definition paddedQuery : Msg :=
  mkMsg (mkMsgHdr 23 false OpcodeQuery false false true false RcodeSuccess) false
    [mkQuestion "example.com." 2 ClassINET] [] []
    [OPT (mkHeader "." TypeOPT DefaultMsgSize 0) [EDNS0_PADDING [x00; x00]]].

(** A POST request for a query, and a request with another method, from
    192.0.2.7. *)
Definition requestWith (method : string) (q : Msg) : dohhandler.Request :=
  dohhandler.mkRequest method
    [(consts.ContentTypeHeader, consts.Rfc8484AcceptValue)]
    (miekg.packMsg q) ∅ "192.0.2.7:51234" "https".

Definition postRequest (q : Msg) : dohhandler.Request := requestWith "POST" q.

(** A DoH server at start-up whose resolver answers every query with the
    reply [m]; the identifier drawn for a query without one is 4242, every
    write succeeds and a resolution takes a millisecond. *)
Definition dohServer (m : Msg) : dohhandler.server mockResolver :=
  dohhandler.mkServer (mkMock true m (metaOf m) false) concurrencytracker.zero None
    dohhandler.zeroStats.

Definition handleExample
  : dohhandler.server mockResolver -> dohhandler.Request -> dohhandler.handled mockResolver :=
  @dohhandler.handle miekg.reference _ _ mockResolve plainServer 4242 (fun _ => true)
    millisecond.

Definition serveExample
  : dohhandler.server mockResolver -> dohhandler.Request
    -> option (dohhandler.handled mockResolver * dohhandler.server mockResolver) :=
  @dohhandler.serveDoH miekg.reference _ _ mockResolve plainServer 4242 (fun _ => true)
    millisecond.

(** The first server answers SERVFAIL after five seconds. *)
Definition slowFailure : network :=
  ([(Ok (replyWith RcodeServerFailure false 4), 5 * bestserver.second)], []).

(** Reports of success for the first server, one a second from the first
    second on, each with a latency of a millisecond. *)
Definition successes (n : nat) : list bestserver.call :=
  map (fun k => bestserver.CallResult s0 true (Z.of_nat k * bestserver.second) millisecond)
    (seq 1 n).

(** A failure of the first server reported at second 21. *)
Definition failureAt21 : bestserver.call :=
  bestserver.CallResult s0 false (21 * bestserver.second) 0.

(** The latency manager for three servers, default configuration, after
    [n] reports of success for the first server and the failure. *)
Definition afterStaleFailure (n : nat) : bestserver.latency :=
  snd (bestserver.run (latencyOf [s0; s1; s2]) (successes n ++ [failureAt21])).

End examples.

(** * Theorems *)

(** ** Pad and pack *)

Section PaddingCount.
Import dns dnsutil.

Lemma filter_keep_none (code : Z) (opts : list EDNS0) :
  List.filter (hasCode code) (List.filter (fun o => negb (hasCode code o)) opts) = [].
Proof.
  induction opts as [|o opts IH]; [reflexivity|].
  cbn. destruct (hasCode code o) eqn:E; cbn; [exact IH|].
  rewrite E. exact IH.
Qed.

Lemma removeLoop_out (code : Z) (rrs : list RR) :
  countCode code (fst (removeLoop code rrs)) = O.
Proof.
  induction rrs as [|rr rrs IH]; [reflexivity|].
  cbn [removeLoop]. destruct (removeLoop code rrs) as [out removed]. cbn [fst] in IH.
  destruct rr as [h opts|h d|h d]; cbn; try exact IH.
  destruct (0 <? len _); cbn; [|exact IH].
  now rewrite filter_keep_none, IH.
Qed.

Lemma existsb_filter_nil (code : Z) (opts : list EDNS0) :
  existsb (hasCode code) opts = false -> List.filter (hasCode code) opts = [].
Proof.
  induction opts as [|o opts IH]; [reflexivity|].
  cbn. destruct (hasCode code o); cbn; [discriminate|exact IH].
Qed.

Lemma removeLoop_kept (code : Z) (rrs : list RR) :
  snd (removeLoop code rrs) = false -> countCode code rrs = O.
Proof.
  induction rrs as [|rr rrs IH]; [reflexivity|].
  cbn [removeLoop]. destruct (removeLoop code rrs) as [out removed]. cbn [snd] in IH.
  destruct rr as [h opts|h d|h d]; cbn; try exact IH.
  intros H. apply orb_false_iff in H as [H1 H2].
  now rewrite (existsb_filter_nil _ _ H1), (IH H2).
Qed.

Lemma RemoveEDNS0FromOPT_count (msg : Msg) (code : Z) :
  0 <= code < 2 ^ 16 ->
  countCode code (Extra (snd (RemoveEDNS0FromOPT msg code))) = O.
Proof.
  intros Hc. unfold RemoveEDNS0FromOPT, uint16_of. rewrite Z.mod_small by exact Hc.
  pose proof (removeLoop_out code (Extra msg)) as Hout.
  pose proof (removeLoop_kept code (Extra msg)) as Hkept.
  destruct (removeLoop code (Extra msg)) as [out removed]. cbn [fst snd] in *.
  destruct removed; [exact Hout|now apply Hkept].
Qed.

Lemma findOPTFrom_lookup (k : nat) (rrs : list RR) (ix : nat) (o : RR) :
  findOPTFrom k rrs = Some (ix, o) ->
  exists h opts, o = OPT h opts /\ (k <= ix)%nat /\ rrs !! (ix - k)%nat = Some o.
Proof.
  revert k. induction rrs as [|rr rrs IH]; intros k; [discriminate|].
  destruct rr as [h opts|h d|h d]; cbn [findOPTFrom].
  - intros [= <- <-]. exists h, opts. rewrite Nat.sub_diag. auto.
  - intros H. destruct (IH _ H) as (h' & opts & -> & Hle & Hl).
    exists h', opts. split; [reflexivity|]. split; [lia|].
    replace (ix - k)%nat with (S (ix - S k)) by lia. exact Hl.
  - intros H. destruct (IH _ H) as (h' & opts & -> & Hle & Hl).
    exists h', opts. split; [reflexivity|]. split; [lia|].
    replace (ix - k)%nat with (S (ix - S k)) by lia. exact Hl.
Qed.

Lemma countCode_app (code : Z) (a b : list RR) :
  countCode code (a ++ b) = (countCode code a + countCode code b)%nat.
Proof.
  induction a as [|rr a IH]; [reflexivity|].
  destruct rr; cbn; rewrite IH; lia.
Qed.

Lemma countCode_insert (code : Z) (rrs : list RR) (ix : nat) (h h' : RR_Header)
    (opts opts' : list EDNS0) :
  rrs !! ix = Some (OPT h opts) ->
  (countCode code (<[ix := OPT h' opts']> rrs) + length (List.filter (hasCode code) opts))%nat
  = (countCode code rrs + length (List.filter (hasCode code) opts'))%nat.
Proof.
  revert ix. induction rrs as [|rr rrs IH]; intros ix; [discriminate|].
  destruct ix as [|ix].
  - intros [= ->]. cbn. lia.
  - intros H. specialize (IH ix H).
    change (<[S ix := OPT h' opts']> (rr :: rrs)) with (rr :: <[ix := OPT h' opts']> rrs).
    destruct rr; cbn [countCode]; lia.
Qed.

Lemma filter_padding_app (opts : list EDNS0) (p : list byte) :
  List.filter (hasCode EDNS0PADDING) (opts ++ [EDNS0_PADDING p])
  = List.filter (hasCode EDNS0PADDING) opts ++ [EDNS0_PADDING p].
Proof. now rewrite List.filter_app. Qed.

Lemma insert_last (opts : list EDNS0) (o o' : EDNS0) :
  <[pred (length (opts ++ [o])) := o']> (opts ++ [o]) = opts ++ [o'].
Proof.
  rewrite length_app. cbn [length]. replace (pred (length opts + 1)) with (length opts + 0)%nat by lia.
  now rewrite insert_app_r.
Qed.

Context {lib : Library}.

(** Whenever the modulo is in range, the message that [PadAndPack] packs
    holds exactly one PADDING sub-option: those it arrived with are stripped
    and one is added. *)
Lemma PadAndPack_one_padding (msg : Msg) (M : Z) :
  1 <= M <= consts.MaximumViableDNSMessage ->
  countCode EDNS0PADDING (Extra (snd (PadAndPack msg M))) = 1%nat.
Proof.
  intros HM. unfold PadAndPack.
  replace (M <? 1) with false by (symmetry; apply Z.ltb_ge; lia).
  replace (consts.MaximumViableDNSMessage <? M) with false by (symmetry; apply Z.ltb_ge; lia).
  cbn [orb].
  set (msg1 := if 0 <? len (Extra msg) then snd (RemoveEDNS0FromOPT msg EDNS0PADDING) else msg).
  assert (H1 : countCode EDNS0PADDING (Extra msg1) = O).
  { subst msg1. destruct (0 <? len (Extra msg)) eqn:E.
    - apply RemoveEDNS0FromOPT_count. unfold EDNS0PADDING. lia.
    - apply Z.ltb_ge in E. unfold len in E. destruct (Extra msg); [reflexivity|cbn in E; lia]. }
  assert (Hfinal : forall (ix : nat) (rrs : list RR) (h : RR_Header) (opts : list EDNS0) n,
             rrs !! ix = Some (OPT h opts) ->
             countCode EDNS0PADDING rrs = O ->
             countCode EDNS0PADDING
               (<[ix := appendOption (OPT h opts) (EDNS0_PADDING [])]> rrs) = 1%nat
             /\ countCode EDNS0PADDING
                  (<[ix := setLastOption (appendOption (OPT h opts) (EDNS0_PADDING []))
                             (EDNS0_PADDING (repeat x00 n))]>
                     (<[ix := appendOption (OPT h opts) (EDNS0_PADDING [])]> rrs)) = 1%nat).
  { intros ix rrs h opts n Hl H0. cbn [appendOption setLastOption].
    pose proof (countCode_insert EDNS0PADDING rrs ix h h opts (opts ++ [EDNS0_PADDING []]) Hl) as Hc.
    rewrite filter_padding_app, length_app in Hc. cbn [length] in Hc.
    assert (Hl3 : <[ix := OPT h (opts ++ [EDNS0_PADDING []])]> rrs !! ix
                  = Some (OPT h (opts ++ [EDNS0_PADDING []]))).
    { apply list_lookup_insert_eq. now apply lookup_lt_Some in Hl. }
    pose proof (countCode_insert EDNS0PADDING _ ix h h _
                  (opts ++ [EDNS0_PADDING (repeat x00 n)]) Hl3) as Hc3.
    rewrite !filter_padding_app, !length_app in Hc3. cbn [length] in Hc3.
    rewrite insert_last. split; lia. }
  destruct (if 0 <? len (Extra msg1) then FindOPT msg1 else None) as [[ix o]|] eqn:Hfound.
  - assert (Hf : FindOPT msg1 = Some (ix, o))
      by (destruct (0 <? len (Extra msg1)); [exact Hfound|discriminate]).
    destruct (findOPTFrom_lookup 0 _ _ _ Hf) as (h & opts & -> & _ & Hl).
    rewrite Nat.sub_0_r in Hl.
    cbv zeta.
    match goal with
    | |- context [0 <? uint64_of ?x] => destruct (0 <? uint64_of x)
    end;
      match goal with |- context [Pack ?m] => destruct (Pack m) end;
      try match goal with |- context [negb ?b] => destruct (negb b) end;
      cbn [snd set_Extra Extra];
      first [ exact (proj2 (Hfinal ix (Extra msg1) h opts _ Hl H1))
            | exact (proj1 (Hfinal ix (Extra msg1) h opts O Hl H1)) ].
  - assert (Hl : (Extra msg1 ++ [NewOPT]) !! length (Extra msg1) = Some NewOPT).
    { rewrite lookup_app_r by lia. now rewrite Nat.sub_diag. }
    assert (H0 : countCode EDNS0PADDING (Extra msg1 ++ [NewOPT]) = O).
    { rewrite countCode_app, H1. reflexivity. }
    unfold NewOPT in Hl, H0 |- *.
    cbv zeta.
    match goal with
    | |- context [0 <? uint64_of ?x] => destruct (0 <? uint64_of x)
    end;
      match goal with |- context [Pack ?m] => destruct (Pack m) end;
      try match goal with |- context [negb ?b] => destruct (negb b) end;
      cbn [snd set_Extra Extra];
      first [ exact (proj2 (Hfinal _ _ _ _ _ Hl H0))
            | exact (proj1 (Hfinal _ _ _ _ O Hl H0)) ].
Qed.
End PaddingCount.

Section PadAndPackFacts.
Context {lib : dns.Library}.

Lemma PadAndPack_range (msg msg' : dns.Msg) (M : Z) (packed : list byte) :
  dnsutil.PadAndPack msg M = (Ok packed, msg') -> 1 <= M <= 65535.
Proof.
  unfold dnsutil.PadAndPack, consts.MaximumViableDNSMessage.
  destruct (M <? 1) eqn:Hlo; [discriminate|].
  destruct (65535 <? M) eqn:Hhi; [discriminate|].
  intros _. apply Z.ltb_ge in Hlo, Hhi. lia.
Qed.

(** C3: whenever [PadAndPack msg M] returns a byte array without error, the
    modulo is in 1..65535, the array is what [Pack] gives for the message as
    padded, that message holds exactly one PADDING sub-option, and the length
    of the array is divisible by [M]. *)
Theorem PadAndPack_length_multiple (msg msg' : dns.Msg) (M : Z) (packed : list byte) :
  dnsutil.PadAndPack msg M = (Ok packed, msg') ->
  1 <= M <= 65535
  /\ dnsutil.countCode dns.EDNS0PADDING (dns.Extra msg') = 1%nat
  /\ dns.Pack msg' = Some packed
  /\ (M | len packed).
Proof.
  intros H. pose proof (PadAndPack_range _ _ _ _ H) as Hrange.
  split; [exact Hrange|].
  split; [pose proof (PadAndPack_one_padding msg M Hrange) as Hone;
          now rewrite H in Hone|].
  revert H. unfold dnsutil.PadAndPack, consts.MaximumViableDNSMessage.
  destruct (M <? 1) eqn:Hlo; [discriminate|].
  destruct (65535 <? M) eqn:Hhi; [discriminate|]. cbn [orb].
  repeat match goal with
         | |- context [let '(_, _) := ?x in _] => destruct x as [[? ?] ?]
         end.
  match goal with
  | |- context [dns.Pack ?m] => destruct (dns.Pack m) as [p|] eqn:Hpack
  end; [|discriminate].
  destruct (len p mod M =? 0) eqn:Hmod; cbn [negb]; [|discriminate].
  intros [= <- <-]. split; [exact Hpack|].
  apply Z.eqb_eq in Hmod. apply Z.mod_divide; lia.
Qed.
End PadAndPackFacts.

Lemma PadAndPack_length_multiple_witness :
  exists packed msg',
    @dnsutil.PadAndPack miekg.reference examples.query23 128 = (Ok packed, msg')
    /\ (128 | len packed).
Proof.
  eexists _, _. split.
  - vm_compute. reflexivity.
  - eapply (@PadAndPack_length_multiple miekg.reference examples.query23).
    vm_compute. reflexivity.
Defined.

(** ** The proxy's truncation policy *)

Section ProxyFacts.
Context {lib : dns.Library}.
Context {R L ER EL : Type} {remoteResolver : resolver.Resolver R ER}
        {localResolver : resolver.Resolver L EL}.
Variable WriteMsg : dns.Msg -> bool.
Variable duration : Z.

Lemma Truncated_set_Truncated (m : dns.Msg) (tc : bool) :
  dns.Truncated (dns.Hdr (dns.set_Truncated m tc)) = tc.
Proof. reflexivity. Qed.

(** The reply that the policy yields carries TC when the reply given to it
    does, whatever the library's [Truncate] does to the flag. *)
Lemma truncation_keeps_TC (tr : string) (query resp : dns.Msg)
    (respMeta : resolver.ResponseMetaData) :
  dns.Truncated (dns.Hdr resp) = true ->
  dns.Truncated (dns.Hdr (fst (proxy.truncation tr query resp respMeta))) = true.
Proof.
  intros Htc. unfold proxy.truncation.
  destruct (_ && _); [|exact Htc].
  destruct (_ <? _); [|exact Htc].
  cbn [fst]. rewrite Truncated_set_Truncated, Htc.
  now rewrite orb_true_r.
Qed.

(** When the policy truncates, TC is what the library left, or what the
    reply had, or set because the number of records changed. *)
Lemma truncation_sets_TC (query resp : dns.Msg) (respMeta : resolver.ResponseMetaData) :
  proxy.limitOf query < resolver.PayloadSize respMeta ->
  fst (proxy.truncation consts.DNSUDPTransport query resp respMeta)
  = dns.set_Truncated (dns.Truncate resp (proxy.limitOf query))
      (dns.Truncated (dns.Hdr (dns.Truncate resp (proxy.limitOf query)))
       || dns.Truncated (dns.Hdr resp)
       || negb (proxy.rrCount resp =? proxy.rrCount (dns.Truncate resp (proxy.limitOf query)))).
Proof.
  intros Hlim. unfold proxy.truncation.
  assert (Hthr : consts.DNSTruncateThreshold <= proxy.limitOf query).
  { unfold proxy.limitOf. destruct (dns.IsEdns0 query); [|lia].
    destruct (_ <? _) eqn:E; [apply Z.ltb_lt in E|]; lia. }
  replace (String.eqb consts.DNSUDPTransport consts.DNSUDPTransport) with true by reflexivity.
  replace (consts.DNSTruncateThreshold <? resolver.PayloadSize respMeta) with true
    by (symmetry; apply Z.ltb_lt; lia).
  replace (proxy.limitOf query <? resolver.PayloadSize respMeta) with true
    by (symmetry; apply Z.ltb_lt; lia).
  reflexivity.
Qed.

Lemma finish_written (t : proxy.server R L) (query resp : dns.Msg)
    (respMeta : resolver.ResponseMetaData) :
  proxy.written (proxy.finish WriteMsg duration t query resp respMeta)
  = Some (fst (proxy.truncation (proxy.transport t) query resp respMeta)).
Proof.
  unfold proxy.finish.
  destruct (proxy.truncation _ _ _ _) as [out o]. cbn [fst].
  destruct (WriteMsg out); reflexivity.
Qed.

(** C1: if the reply that the chosen resolver returns has TC=1, the message
    that [ServeDNS] hands to the client's writer has TC=1, for every
    transport, every query and every behaviour of the library's [Truncate]. *)
Theorem ServeDNS_preserves_TC (t : proxy.server R L) (query resp : dns.Msg)
    (respMeta : resolver.ResponseMetaData) :
  proxy.resolved t query = Some (resp, respMeta) ->
  dns.Truncated (dns.Hdr resp) = true ->
  exists out,
    proxy.written (proxy.ServeDNS WriteMsg duration t query) = Some out
    /\ dns.Truncated (dns.Hdr out) = true.
Proof.
  unfold proxy.resolved, proxy.ServeDNS. intros Hres Htc.
  destruct (proxy.useLocal t query) as [l|].
  - destruct (resolver.Resolve l query _) as [[r q'] l'].
    cbn [fst] in Hres. destruct r as [e|[resp0 meta0]]; [discriminate|].
    injection Hres as -> ->.
    eexists. split; [apply finish_written|].
    now apply truncation_keeps_TC.
  - destruct (resolver.Resolve (proxy.remote t) query _) as [[r q'] r'].
    cbn [fst] in Hres. destruct r as [e|[resp0 meta0]]; [discriminate|].
    injection Hres as -> ->.
    eexists. split; [apply finish_written|].
    now apply truncation_keeps_TC.
Qed.

End ProxyFacts.

Lemma ServeDNS_preserves_TC_witness :
  exists out,
    proxy.written
      (@proxy.ServeDNS miekg.reference _ _ _ _ examples.mockResolve examples.mockResolve
         (fun _ => true) 1000000 (examples.udpProxy true) examples.query23) = Some out
    /\ dns.Truncated (dns.Hdr out) = true.
Proof.
  apply (@ServeDNS_preserves_TC miekg.reference _ _ _ _ examples.mockResolve
           examples.mockResolve (fun _ => true) 1000000 (examples.udpProxy true)
           examples.query23 (examples.bigResponse true)
           (examples.metaOf (examples.bigResponse true))).
  - reflexivity.
  - reflexivity.
Defined.

(** With the mock resolver of the tests, which leaves the query alone, the
    1145-octet reply to a UDP query without EDNS0 is cut to fit 512 octets
    and TC is set. *)
Example ServeDNS_truncates_for_plain_query :
  exists out,
    proxy.written
      (@proxy.ServeDNS miekg.reference _ _ _ _ examples.mockResolve examples.mockResolve
         (fun _ => true) 1000000 (examples.udpProxy false) examples.query23) = Some out
    /\ dns.Truncated (dns.Hdr out) = true
    /\ miekg.msgLen out = 401
    /\ length (dns.Answer out) = 3%nat.
Proof. eexists. split; [vm_compute; reflexivity|]. vm_compute. auto. Qed.

(** C2 (a reply to a UDP client that is larger than max(512, UDP size of the
    inbound query's EDNS0) is written with TC=1), evaluated on an input where
    the code does otherwise.  The proxy runs its DoH resolver with padding
    on; the UDP query carries no EDNS0, so the limit is 512; the upstream
    reply has 1145 octets.  [Resolve] pads the caller's query in place, which
    adds an OPT with UDP size 4096; [ServeDNS] reads the limit from that
    query, finds 1145 <= 4096, and writes the whole reply with TC=0. *)
Theorem ServeDNS_limit_from_padded_query :
  exists r out,
    doh.New examples.paddingConfig (examples.upstream (examples.bigResponse false)) = Ok r
    /\ dns.IsEdns0 examples.query23 = None
    /\ proxy.limitOf (proxy.queryAfter (examples.serveThroughDoH r examples.query23)) = 4096
    /\ proxy.written (examples.serveThroughDoH r examples.query23) = Some out
    /\ miekg.msgLen out = 1145
    /\ dns.Truncated (dns.Hdr out) = false.
Proof.
  eexists _, _. split; [vm_compute; reflexivity|].
  split; [reflexivity|].
  split; [vm_compute; reflexivity|].
  split; [vm_compute; reflexivity|].
  split; vm_compute; reflexivity.
Qed.

(** The effect that [ServeDNS] meets above, for every DNS library and every
    query without additional records. *)

Section PaddedLimit.
Context {lib : dns.Library}.
(** A message without additional records leaves [PadAndPack] with a fresh
    OPT record, whose UDP size is 4096. *)
Lemma PadAndPack_adds_OPT (msg : dns.Msg) (M : Z) :
  dns.Extra msg = [] ->
  1 <= M <= consts.MaximumViableDNSMessage ->
  exists p,
    dns.Extra (snd (dnsutil.PadAndPack msg M))
    = [dns.OPT (dns.mkHeader "." dns.TypeOPT dns.DefaultMsgSize 0) [dns.EDNS0_PADDING p]].
Proof.
  intros Hex HM. destruct msg as [h c q an ns ex]. cbn in Hex. subst ex.
  unfold dnsutil.PadAndPack.
  replace (M <? 1) with false by (symmetry; apply Z.ltb_ge; lia).
  replace (consts.MaximumViableDNSMessage <? M) with false
    by (symmetry; apply Z.ltb_ge; lia).
  cbn -[uint64_of Z.sub Z.modulo Z.ltb].
  repeat (change (0 <? len (@nil dns.RR)) with false;
          cbn -[uint64_of Z.sub Z.modulo Z.ltb]).
  match goal with
  | |- context [0 <? uint64_of ?x] => destruct (0 <? uint64_of x)
  end;
    match goal with |- context [dns.Pack ?m] => destruct (dns.Pack m) end;
    try match goal with |- context [negb ?b] => destruct (negb b) end;
    cbn; eexists; reflexivity.
Qed.

(** After [PadAndPack], such a message advertises 4096 octets to whoever
    reads its EDNS0 record. *)
Lemma PadAndPack_raises_limit (msg : dns.Msg) (M : Z) :
  dns.Extra msg = [] ->
  1 <= M <= consts.MaximumViableDNSMessage ->
  proxy.limitOf msg = 512
  /\ proxy.limitOf (snd (dnsutil.PadAndPack msg M)) = 4096.
Proof.
  intros Hex HM. split.
  - unfold proxy.limitOf, dns.IsEdns0. now rewrite Hex.
  - destruct (PadAndPack_adds_OPT msg M Hex HM) as [p Hp].
    unfold proxy.limitOf, dns.IsEdns0. rewrite Hp. reflexivity.
Qed.
End PaddedLimit.

(** ** The DoH resolver's bailiwick *)

(** [dns.IsFqdn] implies that the name has a dot. *)
Lemma IsFqdn_containsDot (s : string) :
  doh.IsFqdn s = true -> gostd.containsDot s = true.
Proof.
  unfold doh.IsFqdn.
  assert (Hin : forall cs c, In c cs -> Ascii.eqb c "." = true ->
                             gostd.containsDot (string_of_list_ascii cs) = true).
  { induction cs as [|x cs IH]; intros c Hc Hdot; [destruct Hc|].
    cbn. destruct Hc as [->|Hc]; [now rewrite Hdot|].
    rewrite (IH c Hc Hdot). apply orb_true_r. }
  destruct (rev (list_ascii_of_string s)) as [|c before] eqn:Hrev; [discriminate|].
  intros H. apply andb_true_iff in H as [Hdot _].
  rewrite <- (string_of_list_ascii_of_string s).
  apply (Hin _ c); [|exact Hdot].
  apply in_rev. rewrite Hrev. now left.
Qed.

(** C5, as the code has it: [InBailiwick] is true exactly for the names that
    contain a dot, are syntactically valid domain names and are fully
    qualified (end in an unescaped dot). *)
Theorem InBailiwick_iff (name : string) :
  doh.InBailiwick name = true
  <-> gostd.containsDot name = true /\ doh.IsDomainName name = true
      /\ doh.IsFqdn name = true.
Proof.
  unfold doh.InBailiwick.
  destruct (gostd.containsDot name) eqn:Hdot; cbn [negb].
  - rewrite andb_true_iff. tauto.
  - split; [discriminate|]. intros [H _]. discriminate.
Qed.

(** C5 as stated fails: "zun.zun" contains a dot and is a valid domain name,
    yet [InBailiwick] rejects it because it lacks the trailing dot. *)
Lemma InBailiwick_rejects_unqualified :
  ~ (forall name : string,
       doh.InBailiwick name = true
       <-> gostd.containsDot name = true /\ doh.IsDomainName name = true).
Proof.
  intros H. specialize (H "zun.zun").
  assert (Hv : gostd.containsDot "zun.zun" = true /\ doh.IsDomainName "zun.zun" = true)
    by (split; reflexivity).
  apply H in Hv. discriminate Hv.
Qed.

(** ** Best server: reads do not move the best *)

Section ManagerFacts.
Context {T : Type} {M : bestserver.Manager T}.

Lemma exec_read_state (t : T) (c : bestserver.call) :
  bestserver.isResult c = false -> snd (bestserver.exec t c) = t.
Proof. destruct c; cbn; intros H; try reflexivity; discriminate. Qed.

Lemma run_reads_state (t : T) (cs : list bestserver.call) :
  Forall (fun c => bestserver.isResult c = false) cs ->
  snd (bestserver.run t cs) = t.
Proof.
  induction 1 as [|c cs Hc _ IH]; [reflexivity|].
  cbn [bestserver.run].
  pose proof (exec_read_state t c Hc) as Hst.
  destruct (bestserver.exec t c) as [r t']. cbn [snd] in Hst. subst t'.
  destruct (bestserver.run t cs) as [rs t'']. cbn [snd] in IH |- *. exact IH.
Qed.

Lemma run_app (t : T) (cs ds : list bestserver.call) :
  bestserver.run t (cs ++ ds)
  = (fst (bestserver.run t cs) ++ fst (bestserver.run (snd (bestserver.run t cs)) ds),
     snd (bestserver.run (snd (bestserver.run t cs)) ds)).
Proof.
  revert t. induction cs as [|c cs IH]; intros t.
  - cbn. now destruct (bestserver.run t ds).
  - cbn [app bestserver.run]. destruct (bestserver.exec t c) as [r t'].
    rewrite IH. destruct (bestserver.run t' cs) as [rs t'']. reflexivity.
Qed.

End ManagerFacts.

(** C6: for the latency and for the traditional manager, after any sequence
    of calls, two calls of [Best] with no call of [Result] between them
    return the same (server, index), and the calls in between leave the
    manager's state as it was: only [Result] moves the best. *)
Theorem Best_stable_without_Result (pre mid : list bestserver.call) :
  Forall (fun c => bestserver.isResult c = false) mid ->
  (forall t0 : bestserver.latency,
     let after := snd (bestserver.run t0 pre) in
     bestserver.run t0 (pre ++ bestserver.CallBest :: mid ++ [bestserver.CallBest])
     = (fst (bestserver.run t0 pre)
          ++ bestserver.RBest (bestserver.baseBest (bestserver.lbase after))
          :: fst (bestserver.run after mid)
          ++ [bestserver.RBest (bestserver.baseBest (bestserver.lbase after))],
        after))
  /\ (forall t0 : bestserver.traditional,
        let after := snd (bestserver.run t0 pre) in
        bestserver.run t0 (pre ++ bestserver.CallBest :: mid ++ [bestserver.CallBest])
        = (fst (bestserver.run t0 pre)
             ++ bestserver.RBest (bestserver.baseBest (bestserver.tbase after))
             :: fst (bestserver.run after mid)
             ++ [bestserver.RBest (bestserver.baseBest (bestserver.tbase after))],
           after)).
Proof.
  intros Hmid. split; intros t0 after.
  - rewrite run_app. fold after.
    cbn [bestserver.run bestserver.exec]. rewrite run_app.
    rewrite (run_reads_state after mid Hmid).
    cbn [bestserver.run bestserver.exec fst snd]. reflexivity.
  - rewrite run_app. fold after.
    cbn [bestserver.run bestserver.exec]. rewrite run_app.
    rewrite (run_reads_state after mid Hmid).
    cbn [bestserver.run bestserver.exec fst snd]. reflexivity.
Qed.

Lemma Best_stable_without_Result_witness :
  fst (bestserver.run (examples.latencyOf [examples.s0; examples.s1])
         ([bestserver.CallResult examples.s0 false 10 0]
            ++ bestserver.CallBest
            :: [bestserver.CallLen; bestserver.CallBest; bestserver.CallServers]
            ++ [bestserver.CallBest]))
  = [bestserver.RResult true; bestserver.RBest (Some (examples.s1, 1));
     bestserver.RLen 2; bestserver.RBest (Some (examples.s1, 1));
     bestserver.RServers [examples.s0; examples.s1];
     bestserver.RBest (Some (examples.s1, 1))].
Proof.
  assert (Hmid : Forall (fun c => bestserver.isResult c = false)
                   [bestserver.CallLen; bestserver.CallBest; bestserver.CallServers])
    by (repeat constructor).
  rewrite (proj1 (Best_stable_without_Result
                    [bestserver.CallResult examples.s0 false 10 0] _ Hmid)
             (examples.latencyOf [examples.s0; examples.s1])).
  vm_compute. reflexivity.
Defined.

(** ** Best server: the latency policy and failed servers *)

Section ReassessFacts.
Import bestserver.
Variable c : LatencyConfig.
Variable now : Z.
Variable st0 : list latencyServerStats.

Lemma reassessInv_start : reassessInv c now st0 0 (st0, -1, algNone).
Proof.
  split; [reflexivity|]. split; [reflexivity|]. split; [auto|]. split; [auto|].
  left. split; [reflexivity|]. intros i s Hi. lia.
Qed.

Lemma reassessInv_step (n : nat) (acc : reassessState) :
  reassessInv c now st0 n acc -> reassessInv c now st0 (S n) (reassessStep c now acc n).
Proof.
  destruct acc as [[st nb] why]. intros (Hlen & Hrest & Hgood & Hbad & Hbest).
  assert (Hnew : forall why', lastStatusWasFailure <$> (st0 !! n) = Some false ->
                              reassessInv c now st0 (S n) (st, Z.of_nat n, why')).
  { intros why' Hn. destruct (st0 !! n) as [s|] eqn:Hs; [|discriminate].
    injection Hn as Hn.
    split; [exact Hlen|]. split; [intros i Hi; apply Hrest; lia|].
    split; [exact Hgood|]. split; [exact Hbad|].
    right. exists s. rewrite Nat2Z.id. repeat split; auto; lia. }
  assert (Hkeep : forall st',
             length st' = length st0 ->
             (forall i, (S n <= i)%nat -> st' !! i = st0 !! i) ->
             (forall i s, st0 !! i = Some s -> lastStatusWasFailure s = false ->
                          st' !! i = Some s) ->
             (forall i s, st0 !! i = Some s -> lastStatusWasFailure s = true ->
                st' !! i = Some s
                \/ (st' !! i = Some zeroStats
                    /\ lastStatusTime s + ResetFailedAfter c < now)) ->
             (nb = -1 -> forall s, st0 !! n = Some s -> lastStatusWasFailure s = true) ->
             reassessInv c now st0 (S n) (st', nb, why)).
  { intros st' H1 H2 H3 H4 H5.
    split; [exact H1|]. split; [exact H2|]. split; [exact H3|]. split; [exact H4|].
    destruct Hbest as [[Hnb Hall]|(s & Hs)].
    - left. split; [exact Hnb|]. intros i s Hi Hsi.
      destruct (decide (i = n)) as [->|Hne]; [now apply H5|].
      apply (Hall i s); [lia|exact Hsi].
    - right. exists s. destruct Hs as (? & ? & ? & ?). repeat split; auto; lia. }
  unfold reassessStep.
  destruct (st !! n) as [s|] eqn:Hs.
  2:{ apply Hkeep; auto.
      - intros i Hi. apply Hrest. lia.
      - intros _ s Hs0. rewrite <- (Hrest n (le_n n)) in Hs0. congruence. }
  assert (Hs0 : st0 !! n = Some s) by (rewrite <- (Hrest n (le_n n)); exact Hs).
  destruct (lastStatusWasFailure s) eqn:Hfail.
  - destruct (lastStatusTime s + ResetFailedAfter c <? now) eqn:Hreset.
    + apply Z.ltb_lt in Hreset. apply Hkeep.
      * now rewrite length_insert.
      * intros i Hi. rewrite list_lookup_insert_ne by lia. apply Hrest. lia.
      * intros i s' Hi Hg. destruct (decide (i = n)) as [->|Hne]; [congruence|].
        rewrite list_lookup_insert_ne by auto. now apply Hgood.
      * intros i s' Hi Hb. destruct (decide (i = n)) as [->|Hne].
        -- right. assert (s' = s) by congruence. subst s'. split; [|exact Hreset].
           apply list_lookup_insert_eq. apply lookup_lt_Some in Hs. exact Hs.
        -- rewrite list_lookup_insert_ne by auto. now apply Hbad.
      * intros _ s' Hs'. congruence.
    + apply Hkeep; auto.
      * intros i Hi. apply Hrest. lia.
      * intros _ s' Hs'. congruence.
  - destruct (nb =? -1) eqn:Hnb; [apply Hnew; now rewrite Hs0; cbn; rewrite Hfail|].
    apply Z.eqb_neq in Hnb.
    assert (Hsame : reassessInv c now st0 (S n) (st, nb, why)).
    { apply Hkeep; auto; try (intros i Hi; apply Hrest; lia).
      all: intros Hc; contradiction. }
    destruct (weightedAverage s =? 0); [exact Hsame|].
    destruct (averageAt st nb =? 0); [apply Hnew; now rewrite Hs0; cbn; rewrite Hfail|].
    destruct (weightedAverage s <? averageAt st nb);
      [apply Hnew; now rewrite Hs0; cbn; rewrite Hfail|exact Hsame].
Qed.

Lemma reassessLoop_inv (n : nat) : reassessInv c now st0 n (reassessLoop c now n st0).
Proof.
  unfold reassessLoop. induction n as [|n IH].
  - apply reassessInv_start.
  - rewrite seq_S, fold_left_app. cbn [fold_left plus].
    now apply reassessInv_step.
Qed.
End ReassessFacts.

Lemma index_lookup {A} (l : list A) (i : Z) (x : A) :
  0 <= i -> l !! Z.to_nat i = Some x -> bestserver.index l i = Some x.
Proof.
  intros Hi Hl. unfold bestserver.index.
  destruct (i <? 0) eqn:E; [apply Z.ltb_lt in E; lia|exact Hl].
Qed.

(** The sampling step moves the best to the saved best, or leaves it, or
    moves it to a sample server that is not failing. *)
Lemma sampleOthers_best (u : bestserver.latency) :
  bestserver.bestIndex (bestserver.lbase (bestserver.sampleOthers u))
  = bestserver.saveBestIndex u
  \/ bestserver.bestIndex (bestserver.lbase (bestserver.sampleOthers u))
     = bestserver.bestIndex (bestserver.lbase u)
  \/ (bestserver.bestIndex (bestserver.lbase (bestserver.sampleOthers u))
      = bestserver.sampleIndex (bestserver.sampleOthers u)
      /\ bestserver.failingAt (bestserver.stats (bestserver.sampleOthers u))
           (bestserver.sampleIndex (bestserver.sampleOthers u)) = false).
Proof.
  unfold bestserver.sampleOthers.
  destruct (_ <? _); [left; reflexivity|].
  destruct (bestserver.failingAt _ _) eqn:Hf; cbn [negb].
  - right. left. reflexivity.
  - right. right. cbn. split; [reflexivity|exact Hf].
Qed.

(** What the two steps of [assess] do with failed servers.  For a latency
    manager with more than one server: [reassessBest] leaves the record of a
    failing server as it is, or resets it, and resets it only when its last
    status time plus [ResetFailedAfter] is strictly before [now]; if some
    server is not failing, the best it selects is a server that is not
    failing; if every server is failing, the best advances to the next index
    all the same.  The sampling step makes a sample server the best only
    when that server is not failing. *)
Theorem latency_failed_server_policy (t : bestserver.latency) (now : Z) :
  bestserver.serverCount (bestserver.lbase t) <> 1 ->
  bestserver.serverCount (bestserver.lbase t) = len (bestserver.stats t) ->
  (forall i s,
     bestserver.stats t !! i = Some s -> bestserver.lastStatusWasFailure s = true ->
     bestserver.stats (bestserver.reassessBest t now) !! i = Some s
     \/ (bestserver.stats (bestserver.reassessBest t now) !! i = Some bestserver.zeroStats
         /\ bestserver.lastStatusTime s
            + bestserver.ResetFailedAfter (bestserver.config t) < now))
  /\ ((exists i s, bestserver.stats t !! i = Some s
                  /\ bestserver.lastStatusWasFailure s = false) ->
      exists s,
        bestserver.index (bestserver.stats (bestserver.reassessBest t now))
          (bestserver.bestIndex (bestserver.lbase (bestserver.reassessBest t now))) = Some s
        /\ bestserver.lastStatusWasFailure s = false)
  /\ ((forall i s, bestserver.stats t !! i = Some s
                  -> bestserver.lastStatusWasFailure s = true) ->
      bestserver.bestIndex (bestserver.lbase (bestserver.reassessBest t now))
      = Z.rem (bestserver.bestIndex (bestserver.lbase t) + 1)
          (bestserver.serverCount (bestserver.lbase t)))
  /\ (forall u : bestserver.latency,
        bestserver.bestIndex (bestserver.lbase (bestserver.sampleOthers u))
        = bestserver.saveBestIndex u
        \/ bestserver.bestIndex (bestserver.lbase (bestserver.sampleOthers u))
           = bestserver.bestIndex (bestserver.lbase u)
        \/ (bestserver.bestIndex (bestserver.lbase (bestserver.sampleOthers u))
            = bestserver.sampleIndex (bestserver.sampleOthers u)
            /\ bestserver.failingAt (bestserver.stats (bestserver.sampleOthers u))
                 (bestserver.sampleIndex (bestserver.sampleOthers u)) = false)).
Proof.
  intros Hmany Hlen.
  pose proof (reassessLoop_inv (bestserver.config t) now (bestserver.stats t)
                (Z.to_nat (bestserver.serverCount (bestserver.lbase t)))) as Hinv.
  unfold bestserver.reassessBest.
  destruct (bestserver.serverCount (bestserver.lbase t) =? 1) eqn:E;
    [apply Z.eqb_eq in E; contradiction|].
  destruct (bestserver.reassessLoop _ _ _ _) as [[st nb] why].
  destruct Hinv as (Hl & _ & Hgood & Hbad & Hbest).
  assert (Hn : Z.to_nat (bestserver.serverCount (bestserver.lbase t))
               = length (bestserver.stats t)).
  { rewrite Hlen. unfold len. apply Nat2Z.id. }
  split; [|split; [|split]].
  - intros i s Hi Hf. destruct (nb =? -1); cbn; now apply Hbad.
  - intros (i & s & Hi & Hf).
    destruct Hbest as [[_ Hall]|(s' & Hpos & Hlt & Hs' & Hf')].
    + assert (Hi' : (i < Z.to_nat (bestserver.serverCount (bestserver.lbase t)))%nat).
      { rewrite Hn. now apply lookup_lt_Some in Hi. }
      rewrite (Hall i s Hi' Hi) in Hf. discriminate.
    + destruct (nb =? -1) eqn:Hnb; [apply Z.eqb_eq in Hnb; lia|].
      cbn. exists s'. split; [|exact Hf'].
      apply index_lookup; [exact Hpos|]. now apply Hgood.
  - intros Hall.
    destruct Hbest as [[-> _]|(s' & _ & _ & Hs' & Hf')]; [reflexivity|].
    rewrite (Hall _ _ Hs') in Hf'. discriminate.
  - apply sampleOthers_best.
Qed.

Lemma latency_failed_server_policy_witness :
  exists s,
    bestserver.index (bestserver.stats (bestserver.reassessBest examples.afterFailure 20))
      (bestserver.bestIndex
         (bestserver.lbase (bestserver.reassessBest examples.afterFailure 20))) = Some s
    /\ bestserver.lastStatusWasFailure s = false.
Proof.
  apply (latency_failed_server_policy examples.afterFailure 20).
  - vm_compute. discriminate.
  - reflexivity.
  - exists 1%nat, bestserver.zeroStats. split; reflexivity.
Defined.

(** The rotation kept for the case that every server is failing.  Two
    servers, default configuration ([ResetFailedAfter] is three minutes): the
    first fails at time 10, the second at time 20.  Every server is failing,
    so the reassessment at time 20 advances the best to the next index, and
    [Best] returns the first server although its last result was a failure
    at time 10 and 10 + [ResetFailedAfter] is far ahead. *)
Lemma failed_server_returned_when_all_fail :
  bestserver.run (examples.latencyOf [examples.s0; examples.s1])
    [bestserver.CallResult examples.s0 false 10 0;
     bestserver.CallResult examples.s1 false 20 0;
     bestserver.CallBest]
  = ([bestserver.RResult true; bestserver.RResult true;
      bestserver.RBest (Some (examples.s0, 0))],
     snd (bestserver.run (examples.latencyOf [examples.s0; examples.s1])
            [bestserver.CallResult examples.s0 false 10 0;
             bestserver.CallResult examples.s1 false 20 0]))
  /\ bestserver.stats
       (snd (bestserver.run (examples.latencyOf [examples.s0; examples.s1])
               [bestserver.CallResult examples.s0 false 10 0;
                bestserver.CallResult examples.s1 false 20 0])) !! 0%nat
     = Some (bestserver.mkStats 10 true 0)
  /\ 20 < 10 + bestserver.ResetFailedAfter
                 (bestserver.config (examples.latencyOf [examples.s0; examples.s1])).
Proof. split; [|split]; vm_compute; reflexivity. Qed.

(** A failure reported for the saved best while a sample server is the
    best, before the sampling counter is due: the report is recorded, no
    reassessment runs because the report is not about the server that is the
    best at that moment, and the best reverts to the saved best, whatever the
    state of the other servers. *)
Lemma stale_failure_reverts_to_saved_best (t : bestserver.latency)
    (server : bestserver.Server) (s : bestserver.latencyServerStats) (now latency_ : Z) :
  bestserver.serverToIndex (bestserver.lbase t) !! bestserver.ptr server
  = Some (bestserver.saveBestIndex t) ->
  bestserver.index (bestserver.stats t) (bestserver.saveBestIndex t) = Some s ->
  bestserver.saveBestIndex t <> bestserver.bestIndex (bestserver.lbase t) ->
  bestserver.sampleCount t + 1 < bestserver.SampleOthersEvery (bestserver.config t) ->
  fst (bestserver.latencyResult t server false now latency_) = true
  /\ bestserver.bestIndex
       (bestserver.lbase (snd (bestserver.latencyResult t server false now latency_)))
     = bestserver.saveBestIndex t
  /\ bestserver.index
       (bestserver.stats (snd (bestserver.latencyResult t server false now latency_)))
       (bestserver.saveBestIndex t)
     = Some (bestserver.mkStats now true (bestserver.weightedAverage s)).
Proof.
  intros Hix Hs Hne Hsc. unfold bestserver.latencyResult. rewrite Hix, Hs.
  cbn [fst snd]. split; [reflexivity|].
  unfold bestserver.assess, bestserver.reassessIfDue.
  cbn [bestserver.lbase bestserver.config bestserver.stats bestserver.assessCount
       bestserver.sampleCount bestserver.saveBestIndex].
  replace (bestserver.saveBestIndex t =? bestserver.bestIndex (bestserver.lbase t))
    with false by (symmetry; now apply Z.eqb_neq).
  cbn [andb]. unfold bestserver.sampleOthers.
  cbn [bestserver.lbase bestserver.config bestserver.stats bestserver.assessCount
       bestserver.sampleCount bestserver.saveBestIndex].
  replace (bestserver.sampleCount t + 1 <? bestserver.SampleOthersEvery (bestserver.config t))
    with true by (symmetry; now apply Z.ltb_lt).
  cbn [bestserver.lbase bestserver.stats bestserver.bestIndex bestserver.set_bestIndex].
  split; [reflexivity|].
  unfold bestserver.index in *.
  destruct (bestserver.saveBestIndex t <? 0); [discriminate|].
  rewrite list_lookup_insert_eq by (now apply lookup_lt_Some in Hs).
  reflexivity.
Qed.

(** C7: the code returns a failed server while other servers are in good
    order.  Three servers, default configuration ([SampleOthersEvery] 20,
    [ResetFailedAfter] three minutes).  Twenty reports of success for the
    first server make the second one the best, as a sample, with the first
    kept as the saved best.  A failure of the first server is then reported
    at second 21, by a caller that took it from [Best] earlier.  [Best] now
    returns the first server, whose last result is the failure at second 21,
    although the two others are not failing and second 201 is far ahead.  The
    same report made one call earlier, when the first server is the best,
    moves the best to the second server. *)
Theorem stale_failure_keeps_failed_best :
  bestserver.run (examples.latencyOf [examples.s0; examples.s1; examples.s2])
    (examples.successes 20 ++ [bestserver.CallBest; examples.failureAt21; bestserver.CallBest])
  = (repeat (bestserver.RResult true) 20
       ++ [bestserver.RBest (Some (examples.s1, 1)); bestserver.RResult true;
           bestserver.RBest (Some (examples.s0, 0))],
     examples.afterStaleFailure 20)
  /\ bestserver.saveBestIndex
       (snd (bestserver.run (examples.latencyOf [examples.s0; examples.s1; examples.s2])
               (examples.successes 20))) = 0
  /\ bestserver.stats (examples.afterStaleFailure 20)
     = [bestserver.mkStats (21 * bestserver.second) true examples.millisecond;
        bestserver.zeroStats; bestserver.zeroStats]
  /\ 21 * bestserver.second
     < 21 * bestserver.second
       + bestserver.ResetFailedAfter (bestserver.config (examples.afterStaleFailure 20))
  /\ bestserver.Best (examples.afterStaleFailure 19) = Some (examples.s1, 1).
Proof.
  split; [vm_compute; reflexivity|].
  split; [vm_compute; reflexivity|].
  split; [vm_compute; reflexivity|].
  split; vm_compute; reflexivity.
Qed.

(** ** The local resolver: TCP fallback and the time budget *)

Section LocalFacts.
Context {lib : dns.Library}.
Variable W : Type.
Variable Exchange : string -> dns.Msg -> string -> W -> result unit dns.Msg * Z * W.
Variable Now : W -> Z.

Local Abbreviation exchange := (local.exchange W Exchange).
Local Abbreviation exchangeOf := (local.exchangeOf W Exchange).
Local Abbreviation attempt := (local.attempt W Exchange Now).
Local Abbreviation attempts := (local.attempts W Exchange Now).
Local Abbreviation retried := (local.retried W Exchange Now).

Lemma iterateOf_Ok_false (r : dns.Msg) :
  dns.Rcode (dns.Hdr r) = dns.RcodeSuccess -> local.iterateOf (Ok r) = false.
Proof. unfold local.iterateOf, local.classify. intros ->. reflexivity. Qed.

(** An iteration whose reply does not call for a retry returns that reply,
    with the metadata of the exchange, whatever the time used. *)
Lemma attempt_returns (q : dns.Msg) (tA : Z) (st : local.loopState W)
    (server : bestserver.Server) (bsix : Z) (r : dns.Msg) :
  bestserver.Best (local.bestServer (local.self _ st)) = Some (server, bsix) ->
  local.kept _ (exchangeOf q st server) = Ok r ->
  local.iterateOf (Ok r) = false ->
  exists meta st',
    attempt q tA st = (local.Returned r meta, st')
    /\ resolver.TransportType meta
       = resolver.TransportType (local.metaAfter _ (exchangeOf q st server))
    /\ resolver.QueryTries meta
       = resolver.QueryTries (local.metaAfter _ (exchangeOf q st server))
    /\ resolver.ServerTries meta
       = resolver.ServerTries (local.metaAfter _ (exchangeOf q st server))
    /\ resolver.FinalServerUsed meta
       = resolver.FinalServerUsed (local.metaAfter _ (exchangeOf q st server))
    /\ local.world _ st' = local.worldAfter _ (exchangeOf q st server).
Proof.
  intros Hbest Hkept Hiter. unfold local.attempt. rewrite Hbest.
  destruct (bestserver.Result _ _ _ _ _) as [found bs].
  rewrite Hkept, Hiter. cbn [negb].
  eexists _, _. split; [reflexivity|]. cbn. repeat split.
Qed.

(** The exchange of an iteration whose UDP reply is a truncated success. *)
Lemma exchange_fallback (q : dns.Msg) (server : string) (m : resolver.ResponseMetaData)
    (w w1 w2 : W) (udp : dns.Msg) (rtt0 tcpRtt : Z) (tcpR : result unit dns.Msg) :
  Exchange "" q server w = (Ok udp, rtt0, w1) ->
  dns.Rcode (dns.Hdr udp) = dns.RcodeSuccess ->
  dns.Truncated (dns.Hdr udp) = true ->
  Exchange "tcp" q server w1 = (tcpR, tcpRtt, w2) ->
  let x := exchange q server m w in
  local.kept _ x = (if local.isSuccessReply tcpR then tcpR else Ok udp)
  /\ resolver.TransportType (local.metaAfter _ x)
     = (if local.isSuccessReply tcpR then resolver.DNSTransportTCP
        else resolver.DNSTransportUDP)
  /\ resolver.QueryTries (local.metaAfter _ x) = resolver.QueryTries m + 2
  /\ resolver.ServerTries (local.metaAfter _ x) = resolver.ServerTries m
  /\ resolver.FinalServerUsed (local.metaAfter _ x) = server
  /\ local.tcpFallback _ x = true
  /\ local.tcpSuperior _ x = local.isSuccessReply tcpR
  /\ local.rtt _ x = int64_of (rtt0 + tcpRtt)
  /\ local.worldAfter _ x = w2.
Proof.
  intros Hudp Hrc Htc Htcp. unfold local.exchange.
  rewrite Hudp. unfold local.isTruncatedSuccess. rewrite Hrc, Htc. cbn [Z.eqb andb].
  rewrite Htcp. destruct (local.isSuccessReply tcpR); cbn; repeat split; lia.
Qed.

(** An iteration that falls back to TCP returns at once. *)
Lemma attempt_tcp_fallback (q : dns.Msg) (tA : Z) (st : local.loopState W)
    (server : bestserver.Server) (bsix : Z) (udp : dns.Msg) (rtt0 tcpRtt : Z)
    (w1 w2 : W) (tcpR : result unit dns.Msg) :
  bestserver.Best (local.bestServer (local.self _ st)) = Some (server, bsix) ->
  Exchange "" q (bestserver.Name server) (local.world _ st) = (Ok udp, rtt0, w1) ->
  dns.Rcode (dns.Hdr udp) = dns.RcodeSuccess ->
  dns.Truncated (dns.Hdr udp) = true ->
  Exchange "tcp" q (bestserver.Name server) w1 = (tcpR, tcpRtt, w2) ->
  exists meta st',
    attempt q tA st = (local.Returned (local.keptAfterFallback udp tcpR) meta, st')
    /\ resolver.TransportType meta
       = (if local.isSuccessReply tcpR then resolver.DNSTransportTCP
          else resolver.DNSTransportUDP)
    /\ resolver.QueryTries meta = resolver.QueryTries (local.respMeta _ st) + 2
    /\ resolver.ServerTries meta = resolver.ServerTries (local.respMeta _ st) + 1
    /\ resolver.FinalServerUsed meta = bestserver.Name server
    /\ local.world _ st' = w2.
Proof.
  intros Hbest Hudp Hrc Htc Htcp.
  pose proof (exchange_fallback q (bestserver.Name server)
                (local.countServer (local.respMeta _ st)) _ _ _ _ _ _ _
                Hudp Hrc Htc Htcp) as Hx.
  cbv zeta in Hx. fold (exchangeOf q st server) in Hx.
  destruct Hx as (Hkept & Htr & Hq & Hs & Hf & _ & _ & _ & Hw).
  assert (Hk : local.kept _ (exchangeOf q st server) = Ok (local.keptAfterFallback udp tcpR)
               /\ local.iterateOf (Ok (local.keptAfterFallback udp tcpR)) = false).
  { rewrite Hkept. unfold local.keptAfterFallback, local.isSuccessReply.
    destruct tcpR as [e|tcp].
    - split; [reflexivity|]. now apply iterateOf_Ok_false.
    - destruct (dns.Rcode (dns.Hdr tcp) =? dns.RcodeSuccess) eqn:E.
      + split; [reflexivity|]. apply iterateOf_Ok_false. now apply Z.eqb_eq.
      + split; [reflexivity|]. now apply iterateOf_Ok_false. }
  destruct Hk as [Hk Hiter].
  destruct (attempt_returns q tA st server bsix _ Hbest Hk Hiter)
    as (meta & st' & Hat & H1 & H2 & H3 & H4 & H5).
  exists meta, st'. split; [exact Hat|].
  rewrite H1, H2, H3, H4, H5, Htr, Hq, Hs, Hf, Hw. cbn. repeat split.
Qed.

(** C8, as the code has it.  In any iteration of [Resolve] (with the
    counters of the earlier iterations in [st]): if the UDP exchange with the
    best server yields a success with TC=1, the same query is exchanged over
    TCP with the same server, on the network as the UDP exchange left it; the
    loop then returns at once: the TCP reply with transport TCP when it is a
    success, else the UDP reply with transport UDP.  QueryTries is two more
    and ServerTries one more than before the iteration. *)
Theorem Resolve_tcp_fallback (q : dns.Msg) (tA : Z) (k : nat) (st : local.loopState W)
    (server : bestserver.Server) (bsix : Z) (udp : dns.Msg) (rtt0 tcpRtt : Z)
    (w1 w2 : W) (tcpR : result unit dns.Msg) :
  bestserver.Best (local.bestServer (local.self _ st)) = Some (server, bsix) ->
  Exchange "" q (bestserver.Name server) (local.world _ st) = (Ok udp, rtt0, w1) ->
  dns.Rcode (dns.Hdr udp) = dns.RcodeSuccess ->
  dns.Truncated (dns.Hdr udp) = true ->
  Exchange "tcp" q (bestserver.Name server) w1 = (tcpR, tcpRtt, w2) ->
  exists meta st',
    attempts q tA (S k) st = (Ok (local.keptAfterFallback udp tcpR, meta), st')
    /\ resolver.TransportType meta
       = (if local.isSuccessReply tcpR then resolver.DNSTransportTCP
          else resolver.DNSTransportUDP)
    /\ resolver.QueryTries meta = resolver.QueryTries (local.respMeta _ st) + 2
    /\ resolver.ServerTries meta = resolver.ServerTries (local.respMeta _ st) + 1
    /\ resolver.FinalServerUsed meta = bestserver.Name server
    /\ local.world _ st' = w2.
Proof.
  intros Hbest Hudp Hrc Htc Htcp.
  destruct (attempt_tcp_fallback q tA st server bsix udp rtt0 tcpRtt w1 w2 tcpR
              Hbest Hudp Hrc Htc Htcp)
    as (meta & st' & Hat & Htr & Hq & Hs & Hf & Hw).
  exists meta, st'. cbn [local.attempts]. rewrite Hat.
  split; [reflexivity|]. split; [exact Htr|]. split; [exact Hq|].
  split; [exact Hs|]. split; [exact Hf|exact Hw].
Qed.

(** An iteration ends in the time-out error only after a reply that calls
    for a retry, when the time used exceeds the budget. *)
Lemma attempt_timeout (q : dns.Msg) (tA : Z) (st st' : local.loopState W) (e : Z) :
  attempt q tA st = (local.Failed (local.QueryTimeout e), st') ->
  exists server bsix,
    bestserver.Best (local.bestServer (local.self _ st)) = Some (server, bsix)
    /\ local.iterateOf (local.kept _ (exchangeOf q st server)) = true
    /\ tA < int64_of (local.timeUsed _ st + local.rtt _ (exchangeOf q st server)).
Proof.
  unfold local.attempt.
  destruct (bestserver.Best _) as [[server bsix]|]; [|discriminate].
  destruct (bestserver.Result _ _ _ _ _) as [found bs].
  intros H. exists server, bsix. split; [reflexivity|].
  destruct (local.kept _ (exchangeOf q st server)) as [err|r] eqn:Hk.
  - split; [reflexivity|].
    destruct (tA <? _) eqn:Hlt; [|discriminate]. now apply Z.ltb_lt in Hlt.
  - destruct (local.iterateOf (Ok r)) eqn:Hit; cbn [negb] in H; [|discriminate].
    split; [reflexivity|].
    destruct (tA <? _) eqn:Hlt; [|discriminate]. now apply Z.ltb_lt in Hlt.
Qed.

(** A reply calls for a retry exactly when there was a transport error or
    its RCODE is SERVFAIL, REFUSED or NOTIMPL. *)
Lemma iterateOf_table (r : result unit dns.Msg) :
  local.iterateOf r = false
  <-> exists m, r = Ok m
                /\ dns.Rcode (dns.Hdr m) <> dns.RcodeServerFailure
                /\ dns.Rcode (dns.Hdr m) <> dns.RcodeRefused
                /\ dns.Rcode (dns.Hdr m) <> dns.RcodeNotImplemented.
Proof.
  unfold local.iterateOf, local.classify.
  destruct r as [e|m].
  - split; [discriminate|]. intros (m & H & _). discriminate.
  - unfold dns.RcodeSuccess, dns.RcodeFormatError, dns.RcodeServerFailure,
      dns.RcodeNameError, dns.RcodeRefused, dns.RcodeNotImplemented.
    split.
    + intros H. exists m. split; [reflexivity|].
      repeat split; intros E; rewrite E in H; discriminate.
    + intros (m' & [= <-] & H2 & H5 & H4).
      repeat match goal with
             | |- context [?a =? ?b] =>
                 destruct (Z.eqb_spec a b); cbn [snd]; try reflexivity; try contradiction
             end.
Qed.

(** A reply calls for a retry exactly when the exchange failed or the RCODE
    is SERVFAIL, REFUSED or NOTIMPL. *)
Lemma iterateOf_true (r : result unit dns.Msg) :
  local.iterateOf r = true ->
  (exists err, r = Err err)
  \/ exists m, r = Ok m
               /\ (dns.Rcode (dns.Hdr m) = dns.RcodeServerFailure
                   \/ dns.Rcode (dns.Hdr m) = dns.RcodeRefused
                   \/ dns.Rcode (dns.Hdr m) = dns.RcodeNotImplemented).
Proof.
  destruct r as [err|m]; [left; eauto|]. intros H. right. exists m. split; [reflexivity|].
  destruct (Z.eq_dec (dns.Rcode (dns.Hdr m)) dns.RcodeServerFailure) as [|H2]; [auto|].
  destruct (Z.eq_dec (dns.Rcode (dns.Hdr m)) dns.RcodeRefused) as [|H5]; [auto|].
  destruct (Z.eq_dec (dns.Rcode (dns.Hdr m)) dns.RcodeNotImplemented) as [|H4]; [auto|].
  assert (Hf : local.iterateOf (Ok m) = false) by (apply iterateOf_table; eauto).
  congruence.
Qed.

(** An iteration lets the loop go round only after a reply that calls for a
    retry, when the time used is within the budget. *)
Lemma attempt_next (q : dns.Msg) (tA : Z) (st st' : local.loopState W) :
  attempt q tA st = (local.Next, st') ->
  exists server bsix,
    bestserver.Best (local.bestServer (local.self _ st)) = Some (server, bsix)
    /\ local.iterateOf (local.kept _ (exchangeOf q st server)) = true
    /\ int64_of (local.timeUsed _ st + local.rtt _ (exchangeOf q st server)) <= tA
    /\ local.timeUsed _ st'
       = int64_of (local.timeUsed _ st + local.rtt _ (exchangeOf q st server)).
Proof.
  unfold local.attempt.
  destruct (bestserver.Best _) as [[server bsix]|]; [|discriminate].
  destruct (bestserver.Result _ _ _ _ _) as [found bs].
  intros H. exists server, bsix. split; [reflexivity|].
  destruct (local.kept _ (exchangeOf q st server)) as [err|r] eqn:Hk.
  - split; [reflexivity|].
    destruct (tA <? _) eqn:Hlt; [discriminate|]. apply Z.ltb_ge in Hlt.
    injection H as <-. now split.
  - destruct (local.iterateOf (Ok r)) eqn:Hit; cbn [negb] in H; [|discriminate].
    split; [reflexivity|].
    destruct (tA <? _) eqn:Hlt; [discriminate|]. apply Z.ltb_ge in Hlt.
    injection H as <-. now split.
Qed.

(** The loop ends in the time-out error at one of its own iterations, which
    the iterations before it reached by going round. *)
Lemma attempts_timeout (q : dns.Msg) (tA : Z) (n : nat) :
  forall (st st' : local.loopState W) (e : Z),
    attempts q tA n st = (Err (local.QueryTimeout e), st') ->
    exists (k : nat) (st1 : local.loopState W),
      (k < n)%nat
      /\ retried q tA k st = Some st1
      /\ attempt q tA st1 = (local.Failed (local.QueryTimeout e), st').
Proof.
  induction n as [|n IH]; intros st st' e H; [discriminate H|].
  cbn [local.attempts] in H.
  destruct (attempt q tA st) as [[r meta|e0|] st1] eqn:Hat.
  - discriminate H.
  - injection H as -> ->. exists 0%nat, st. split; [lia|]. split; [reflexivity|exact Hat].
  - destruct (IH st1 st' e H) as (k & st2 & Hk & Hr & Ha).
    exists (S k), st2. split; [lia|]. split; [|exact Ha].
    cbn [local.retried]. now rewrite Hat.
Qed.

(** C10: an iteration whose reply does not call for a retry (no transport
    error, and an RCODE other than SERVFAIL, REFUSED and NOTIMPL) makes
    [Resolve] return that reply, whatever the time budget and the time used.
    When the loop, started in any state, ends in the time-out error, it does
    so at one of its own iterations: the state [st1] of that iteration is
    reached from the start by iterations that each went round, the exchange
    of that iteration, with the best server of [st1], failed or brought
    SERVFAIL, REFUSED or NOTIMPL, and the time used with it exceeds the
    budget.  An iteration goes round only after such a reply as well, with
    the time used within the budget.  The same is said of [Resolve] itself,
    whose loop starts in [initialState]. *)
Theorem Resolve_budget_after_retry_only (q : dns.Msg) (tA : Z) :
  (forall (k : nat) (st : local.loopState W) (server : bestserver.Server) (bsix : Z)
          (r : dns.Msg),
      bestserver.Best (local.bestServer (local.self _ st)) = Some (server, bsix) ->
      local.kept _ (exchangeOf q st server) = Ok r ->
      dns.Rcode (dns.Hdr r) <> dns.RcodeServerFailure ->
      dns.Rcode (dns.Hdr r) <> dns.RcodeRefused ->
      dns.Rcode (dns.Hdr r) <> dns.RcodeNotImplemented ->
      exists meta st', attempts q tA (S k) st = (Ok (r, meta), st'))
  /\ (forall (n : nat) (st st' : local.loopState W) (e : Z),
        attempts q tA n st = (Err (local.QueryTimeout e), st') ->
        exists (k : nat) (st1 : local.loopState W) server bsix,
          (k < n)%nat
          /\ retried q tA k st = Some st1
          /\ attempt q tA st1 = (local.Failed (local.QueryTimeout e), st')
          /\ bestserver.Best (local.bestServer (local.self _ st1)) = Some (server, bsix)
          /\ local.iterateOf (local.kept _ (exchangeOf q st1 server)) = true
          /\ ((exists err, local.kept _ (exchangeOf q st1 server) = Err err)
              \/ exists m, local.kept _ (exchangeOf q st1 server) = Ok m
                           /\ (dns.Rcode (dns.Hdr m) = dns.RcodeServerFailure
                               \/ dns.Rcode (dns.Hdr m) = dns.RcodeRefused
                               \/ dns.Rcode (dns.Hdr m) = dns.RcodeNotImplemented))
          /\ tA < int64_of (local.timeUsed _ st1 + local.rtt _ (exchangeOf q st1 server)))
  /\ (forall (st st' : local.loopState W),
        attempt q tA st = (local.Next, st') ->
        exists server bsix,
          bestserver.Best (local.bestServer (local.self _ st)) = Some (server, bsix)
          /\ local.iterateOf (local.kept _ (exchangeOf q st server)) = true
          /\ int64_of (local.timeUsed _ st + local.rtt _ (exchangeOf q st server)) <= tA)
  /\ (forall (t t' : local.local) (qMeta : resolver.QueryMetaData) (w w' : W) (e : Z),
        tA = local.timeAvailableOf t ->
        local.Resolve W Exchange Now t q qMeta w = (Err (local.QueryTimeout e), t', w') ->
        exists (k : nat) (st1 : local.loopState W) server bsix,
          (Z.of_nat k < local.maxAttemptsOf t)
          /\ retried q tA k (local.initialState W t qMeta w) = Some st1
          /\ bestserver.Best (local.bestServer (local.self _ st1)) = Some (server, bsix)
          /\ local.iterateOf (local.kept _ (exchangeOf q st1 server)) = true
          /\ tA < int64_of (local.timeUsed _ st1 + local.rtt _ (exchangeOf q st1 server))).
Proof.
  split; [|split; [|split]].
  - intros k st server bsix r Hbest Hk H2 H5 H4.
    assert (Hiter : local.iterateOf (Ok r) = false)
      by (apply iterateOf_table; exists r; auto).
    destruct (attempt_returns q tA st server bsix r Hbest Hk Hiter)
      as (meta & st' & Hat & _).
    exists meta, st'. cbn [local.attempts]. now rewrite Hat.
  - intros n st st' e H.
    destruct (attempts_timeout q tA n st st' e H) as (k & st1 & Hk & Hr & Ha).
    destruct (attempt_timeout q tA st1 st' e Ha) as (server & bsix & Hb & Hi & Ht).
    exists k, st1, server, bsix. repeat (split; [assumption|]).
    split; [now apply iterateOf_true|exact Ht].
  - intros st st' H.
    destruct (attempt_next q tA st st' H) as (server & bsix & Hb & Hi & Ht & _).
    exists server, bsix. auto.
  - intros t t' qMeta w w' e -> H. unfold local.Resolve in H.
    destruct (attempts q _ _ _) as [res st] eqn:Ha. injection H as -> <- <-.
    destruct (attempts_timeout q _ _ _ _ e Ha) as (k & st1 & Hk & Hr & Hat).
    destruct (attempt_timeout q _ st1 st e Hat) as (server & bsix & Hb & Hi & Ht).
    exists k, st1, server, bsix. split; [lia|]. auto.
Qed.

End LocalFacts.

(** The fallback scenario at its simplest: the fallback happens in the first
    iteration, so [Resolve] returns with QueryTries 2 and ServerTries 1. *)
Lemma Resolve_tcp_fallback_first {lib : dns.Library} (W : Type)
    (Exchange : string -> dns.Msg -> string -> W -> result unit dns.Msg * Z * W)
    (Now : W -> Z) (t : local.local) (q : dns.Msg) (qMeta : resolver.QueryMetaData)
    (w w1 w2 : W) (server : bestserver.Server) (bsix : Z) (udp : dns.Msg)
    (rtt0 tcpRtt : Z) (tcpR : result unit dns.Msg) :
  1 <= local.maxAttemptsOf t ->
  bestserver.Best (local.bestServer t) = Some (server, bsix) ->
  Exchange "" q (bestserver.Name server) w = (Ok udp, rtt0, w1) ->
  dns.Rcode (dns.Hdr udp) = dns.RcodeSuccess ->
  dns.Truncated (dns.Hdr udp) = true ->
  Exchange "tcp" q (bestserver.Name server) w1 = (tcpR, tcpRtt, w2) ->
  exists meta t',
    local.Resolve W Exchange Now t q qMeta w
    = (Ok (local.keptAfterFallback udp tcpR, meta), t', w2)
    /\ resolver.TransportType meta
       = (if local.isSuccessReply tcpR then resolver.DNSTransportTCP
          else resolver.DNSTransportUDP)
    /\ resolver.QueryTries meta = 2
    /\ resolver.ServerTries meta = 1.
Proof.
  intros Hmax Hbest Hudp Hrc Htc Htcp. unfold local.Resolve.
  destruct (Z.to_nat (local.maxAttemptsOf t)) as [|k] eqn:Hk; [lia|].
  destruct (attempt_tcp_fallback W Exchange Now q (local.timeAvailableOf t)
              (local.initialState W t qMeta w) server bsix udp rtt0 tcpRtt w1 w2 tcpR
              Hbest Hudp Hrc Htc Htcp)
    as (meta & st' & Hat & Htr & Hq & Hs & _ & Hw).
  cbn [local.attempts]. rewrite Hat. exists meta, (local.self _ st'). rewrite Hw.
  split; [reflexivity|]. split; [exact Htr|]. split; [exact Hq|exact Hs].
Qed.

Lemma Resolve_tcp_fallback_witness :
  exists meta st',
    @local.attempts miekg.reference examples.network examples.scripted (fun _ => 0)
      examples.query23
      (local.timeAvailableOf (examples.localOf 5)) 2
      (local.initialState examples.network (examples.localOf 5)
         (resolver.mkQueryMeta resolver.DNSTransportUDP) examples.fallbackOnFirst)
    = (Ok (examples.replyWith dns.RcodeSuccess false 3, meta), st')
    /\ resolver.TransportType meta = resolver.DNSTransportTCP
    /\ resolver.QueryTries meta = 2
    /\ resolver.ServerTries meta = 1.
Proof.
  destruct (@Resolve_tcp_fallback miekg.reference examples.network examples.scripted
              (fun _ => 0) examples.query23 (local.timeAvailableOf (examples.localOf 5))
              1%nat
              (local.initialState examples.network (examples.localOf 5)
                 (resolver.mkQueryMeta resolver.DNSTransportUDP) examples.fallbackOnFirst)
              examples.ns1 0 (examples.replyWith dns.RcodeSuccess true 2)
              examples.millisecond (2 * examples.millisecond)
              ([(Ok (examples.replyWith dns.RcodeSuccess false 3), 2 * examples.millisecond)],
               [("", "10.0.0.1:53")])
              ([], [("", "10.0.0.1:53"); ("tcp", "10.0.0.1:53")])
              (Ok (examples.replyWith dns.RcodeSuccess false 3))
              eq_refl eq_refl eq_refl eq_refl eq_refl)
    as (meta & st' & Hat & Htr & Hq & Hs & _).
  exists meta, st'. split; [exact Hat|]. split; [exact Htr|]. split; [exact Hq|exact Hs].
Defined.

(** C8 as stated fails for an iteration after the first.  The first name
    server answers SERVFAIL, so [Resolve] iterates; the second answers a
    truncated success over UDP and a success over TCP.  The TCP reply is
    returned with transport TCP, but QueryTries is 3 and ServerTries is 2. *)
Lemma fallback_after_retry_counts :
  exists meta t,
    examples.resolveLocal (examples.localOf 5) examples.fallbackOnSecond
    = (Ok (examples.replyWith dns.RcodeSuccess false 3, meta), t,
       ([], [("", "10.0.0.1:53"); ("", "10.0.0.2:53"); ("tcp", "10.0.0.2:53")]))
    /\ resolver.TransportType meta = resolver.DNSTransportTCP
    /\ resolver.QueryTries meta = 3
    /\ resolver.ServerTries meta = 2.
Proof. eexists _, _. split; [vm_compute; reflexivity|]. repeat split. Qed.

Lemma Resolve_budget_after_retry_only_witness :
  (local.timeAvailableOf (examples.localOf 1) < 5 * bestserver.second
   /\ exists meta st',
        @local.attempts miekg.reference examples.network examples.scripted (fun _ => 0)
          examples.query23
          (local.timeAvailableOf (examples.localOf 1)) 2
          (local.initialState examples.network (examples.localOf 1)
             (resolver.mkQueryMeta resolver.DNSTransportUDP) examples.slowAnswer)
        = (Ok (examples.replyWith dns.RcodeNameError false 4, meta), st'))
  /\ exists t' w' (k : nat) st1 server bsix,
       examples.resolveLocal (examples.localOf 1) examples.slowFailure
       = (Err (local.QueryTimeout 1), t', w')
       /\ @local.retried miekg.reference examples.network examples.scripted (fun _ => 0)
            examples.query23 (local.timeAvailableOf (examples.localOf 1)) k
            (local.initialState examples.network (examples.localOf 1)
               (resolver.mkQueryMeta resolver.DNSTransportUDP) examples.slowFailure)
          = Some st1
       /\ bestserver.Best (local.bestServer (local.self _ st1)) = Some (server, bsix)
       /\ local.iterateOf
            (local.kept _
               (@local.exchangeOf examples.network examples.scripted examples.query23 st1
                  server)) = true.
Proof.
  split.
  - split; [vm_compute; reflexivity|].
    apply (proj1 (@Resolve_budget_after_retry_only miekg.reference examples.network
                    examples.scripted (fun _ => 0) examples.query23
                    (local.timeAvailableOf (examples.localOf 1)))
             1%nat
             (local.initialState examples.network (examples.localOf 1)
                (resolver.mkQueryMeta resolver.DNSTransportUDP) examples.slowAnswer)
             examples.ns1 0 (examples.replyWith dns.RcodeNameError false 4)).
    + reflexivity.
    + reflexivity.
    + vm_compute. discriminate.
    + vm_compute. discriminate.
    + vm_compute. discriminate.
  - destruct (proj2 (proj2 (proj2
               (@Resolve_budget_after_retry_only miekg.reference examples.network
                  examples.scripted (fun _ => 0) examples.query23
                  (local.timeAvailableOf (examples.localOf 1)))))
               (examples.localOf 1)
               (snd (fst (examples.resolveLocal (examples.localOf 1) examples.slowFailure)))
               (resolver.mkQueryMeta resolver.DNSTransportUDP) examples.slowFailure
               (snd (examples.resolveLocal (examples.localOf 1) examples.slowFailure)) 1)
      as (k & st1 & server & bsix & _ & Hr & Hb & Hi & _);
      [reflexivity|vm_compute; reflexivity|].
    eexists _, _, k, st1, server, bsix.
    split; [vm_compute; reflexivity|]. split; [exact Hr|]. split; [exact Hb|exact Hi].
Defined.

(** ** The DoH resolver restores the message ID *)

Lemma Hdr_RemoveEDNS0FromOPT (m : dns.Msg) (code : Z) :
  dns.Hdr (snd (dnsutil.RemoveEDNS0FromOPT m code)) = dns.Hdr m.
Proof.
  unfold dnsutil.RemoveEDNS0FromOPT.
  destruct (dnsutil.removeLoop _ _) as [out removed]. now destruct removed.
Qed.

Section DohFacts.
Context {lib : dns.Library}.
Variable NewRequestOk : string -> string -> bool.
Variable ParseDuration : string -> option Z.
Variable startTime endTime : Z.

Local Abbreviation Resolve := (doh.Resolve NewRequestOk ParseDuration startTime endTime).

(** The reply leaves the post-processing with the ID that was saved. *)
Lemma postProcess_Id (t : doh.remote) (f : doh.ecsFlags) (originalId : Z)
    (resp : doh.Response) (httpR : dns.Msg) :
  dns.Id (dns.Hdr (fst (doh.postProcess t f originalId resp httpR))) = originalId.
Proof.
  unfold doh.postProcess. cbn [fst].
  repeat match goal with
         | |- context [if ?b then snd (dnsutil.RemoveEDNS0FromOPT ?m ?c) else ?m] =>
             replace (dns.Hdr (if b then snd (dnsutil.RemoveEDNS0FromOPT m c) else m))
               with (dns.Hdr m)
               by (destruct b; [now rewrite Hdr_RemoveEDNS0FromOPT|reflexivity])
         end.
  reflexivity.
Qed.

(** In GET mode the query that is serialised has ID zero. *)
Lemma prepare_Id_GET (t : doh.remote) (dnsQ : dns.Msg) :
  doh.httpMethod t = doh.MethodGet ->
  dns.Id (dns.Hdr (fst (doh.prepare t dnsQ))) = 0.
Proof.
  intros Hget. unfold doh.prepare. rewrite Hget.
  destruct (_ && _); [destruct (doh.ecsRules t dnsQ)|]; reflexivity.
Qed.

(** Whatever the upstream server answers, a reply that [Resolve] returns
    carries the ID of the caller's query. *)
Lemma Resolve_Id (t : doh.remote) (dnsQ resp : dns.Msg) (qm : resolver.QueryMetaData)
    (meta : resolver.ResponseMetaData) :
  fst (fst (Resolve t dnsQ qm)) = Ok (resp, meta) ->
  dns.Id (dns.Hdr resp) = dns.Id (dns.Hdr dnsQ).
Proof.
  unfold doh.Resolve.
  destruct (doh.prepare t dnsQ) as [q1 f].
  destruct (doh.serialise t q1 _) as [[e|binary] q2]; [discriminate|].
  destruct (bestserver.Best _) as [[bestURL bsix]|]; [|discriminate].
  destruct (negb (NewRequestOk _ _)); [discriminate|].
  destruct (doh.httpClient t _) as [e|r].
  { destruct (bestserver.Result _ _ _ _ _). discriminate. }
  destruct (bestserver.Result _ _ _ _ _) as [found bs].
  destruct (negb (doh.StatusCode r =? doh.StatusOK)); [discriminate|].
  destruct (doh.Body r) as [body|]; [|discriminate].
  destruct (negb (String.eqb _ _)); [discriminate|].
  destruct (len body <? _); [discriminate|].
  destruct (dns.Unpack body) as [httpR0|]; [|discriminate].
  pose proof (postProcess_Id t f (dns.Id (dns.Hdr dnsQ)) r httpR0) as Hid.
  destruct (doh.postProcess t f _ r httpR0) as [httpR ecsReturned].
  cbn [fst] in *. intros [= <- <-]. exact Hid.
Qed.

(** With an upstream that echoes the delivered bytes, every check of
    [Resolve] passes and a reply is returned. *)
Lemma Resolve_echo_returns (t : doh.remote) (dnsQ q2 echoed : dns.Msg)
    (qm : resolver.QueryMetaData) (binary : list byte) (bestURL : bestserver.Server)
    (bsix : Z) (hdrs : doh.header) :
  doh.serialise t (fst (doh.prepare t dnsQ)) (bool_decide (dns.IsTsig dnsQ = None))
  = (Ok binary, q2) ->
  bestserver.Best (doh.bestServer t) = Some (bestURL, bsix) ->
  NewRequestOk
    (doh.Method (doh.buildRequest t (bestserver.Name bestURL) binary
                   (snd (doh.prepare t dnsQ)) (bool_decide (dns.IsTsig dnsQ = None))))
    (doh.URL (doh.buildRequest t (bestserver.Name bestURL) binary
                (snd (doh.prepare t dnsQ)) (bool_decide (dns.IsTsig dnsQ = None))))
  = true ->
  doh.httpClient t
    (doh.buildRequest t (bestserver.Name bestURL) binary (snd (doh.prepare t dnsQ))
       (bool_decide (dns.IsTsig dnsQ = None)))
  = Ok (doh.mkResponse doh.StatusOK hdrs (Some binary)) ->
  doh.headerGet hdrs consts.ContentTypeHeader = consts.Rfc8484AcceptValue ->
  consts.MinimumViableDNSMessage <= len binary ->
  dns.Unpack binary = Some echoed ->
  exists resp meta, fst (fst (Resolve t dnsQ qm)) = Ok (resp, meta).
Proof.
  intros Hser Hbest Hreq Hdo Hct Hlen Hun.
  unfold doh.Resolve.
  destruct (doh.prepare t dnsQ) as [q1 f]. cbn [fst snd] in *.
  rewrite Hser, Hbest, Hreq. cbn [negb]. rewrite Hdo.
  destruct (bestserver.Result _ _ _ _ _) as [found bs].
  cbn [doh.StatusCode doh.Body doh.RespHeader]. rewrite Hct.
  replace (doh.StatusOK =? doh.StatusOK) with true by reflexivity.
  replace (String.eqb consts.Rfc8484AcceptValue consts.Rfc8484AcceptValue) with true
    by reflexivity.
  cbn [negb].
  replace (len binary <? consts.MinimumViableDNSMessage) with false
    by (symmetry; apply Z.ltb_ge; lia).
  rewrite Hun.
  destruct (doh.postProcess t f _ _ echoed) as [httpR ecsReturned].
  eexists _, _. reflexivity.
Qed.

(** C9: whatever the upstream DoH server answers, a reply that [Resolve]
    returns has the ID of the caller's query, although in GET mode the query
    goes on the wire with ID zero; and if the upstream answers with status
    200, the DNS content type and, as body, the very bytes of the query that
    were delivered to it (at least the 16 octets of a viable message, which
    unpack), then [Resolve] does return a reply, with that ID. *)
Theorem Resolve_echo_restores_Id (t : doh.remote) (dnsQ : dns.Msg)
    (qm : resolver.QueryMetaData) :
  (forall resp meta,
      fst (fst (Resolve t dnsQ qm)) = Ok (resp, meta) ->
      dns.Id (dns.Hdr resp) = dns.Id (dns.Hdr dnsQ))
  /\ (doh.httpMethod t = doh.MethodGet ->
      dns.Id (dns.Hdr (fst (doh.prepare t dnsQ))) = 0)
  /\ (forall (q2 echoed : dns.Msg) (binary : list byte) (bestURL : bestserver.Server)
             (bsix : Z) (hdrs : doh.header),
        doh.serialise t (fst (doh.prepare t dnsQ)) (bool_decide (dns.IsTsig dnsQ = None))
        = (Ok binary, q2) ->
        bestserver.Best (doh.bestServer t) = Some (bestURL, bsix) ->
        NewRequestOk
          (doh.Method (doh.buildRequest t (bestserver.Name bestURL) binary
                         (snd (doh.prepare t dnsQ))
                         (bool_decide (dns.IsTsig dnsQ = None))))
          (doh.URL (doh.buildRequest t (bestserver.Name bestURL) binary
                      (snd (doh.prepare t dnsQ))
                      (bool_decide (dns.IsTsig dnsQ = None))))
        = true ->
        doh.httpClient t
          (doh.buildRequest t (bestserver.Name bestURL) binary (snd (doh.prepare t dnsQ))
             (bool_decide (dns.IsTsig dnsQ = None)))
        = Ok (doh.mkResponse doh.StatusOK hdrs (Some binary)) ->
        doh.headerGet hdrs consts.ContentTypeHeader = consts.Rfc8484AcceptValue ->
        consts.MinimumViableDNSMessage <= len binary ->
        dns.Unpack binary = Some echoed ->
        exists resp meta,
          fst (fst (Resolve t dnsQ qm)) = Ok (resp, meta)
          /\ dns.Id (dns.Hdr resp) = dns.Id (dns.Hdr dnsQ)).
Proof.
  split; [|split].
  - intros resp meta. apply Resolve_Id.
  - apply prepare_Id_GET.
  - intros q2 echoed binary bestURL bsix hdrs Hser Hbest Hreq Hdo Hct Hlen Hun.
    destruct (Resolve_echo_returns t dnsQ q2 echoed qm binary bestURL bsix hdrs
                Hser Hbest Hreq Hdo Hct Hlen Hun) as (resp & meta & Hok).
    exists resp, meta. split; [exact Hok|].
    now apply (Resolve_Id t dnsQ resp qm meta).
Qed.

End DohFacts.

Lemma Resolve_echo_restores_Id_witness :
  exists resp meta,
    fst (fst (@doh.Resolve miekg.reference (fun _ _ => true) (fun _ => None) 0 1000000
                (examples.remoteOf examples.getConfig examples.echo) examples.query23
                (resolver.mkQueryMeta resolver.DNSTransportUDP)))
    = Ok (resp, meta)
    /\ dns.Id (dns.Hdr resp) = 23.
Proof.
  eapply (proj2 (proj2 (@Resolve_echo_restores_Id miekg.reference (fun _ _ => true)
                          (fun _ => None) 0 1000000
                          (examples.remoteOf examples.getConfig examples.echo)
                          examples.query23
                          (resolver.mkQueryMeta resolver.DNSTransportUDP)))).
  - vm_compute. reflexivity.
  - vm_compute. reflexivity.
  - reflexivity.
  - vm_compute. reflexivity.
  - reflexivity.
  - vm_compute. discriminate.
  - vm_compute. reflexivity.
Defined.

(** In that run the caller's query is left with ID zero, as it went on the
    wire, and the reply has the ID 23 and the question of the caller's query. *)
Example Resolve_GET_wire_and_reply :
  match @doh.Resolve miekg.reference (fun _ _ => true) (fun _ => None) 0 1000000
          (examples.remoteOf examples.getConfig examples.echo) examples.query23
          (resolver.mkQueryMeta resolver.DNSTransportUDP) with
  | (Ok (resp, _), q, _) =>
      dns.Id (dns.Hdr q) = 0
      /\ dns.Id (dns.Hdr resp) = 23
      /\ dns.Question resp = dns.Question examples.query23
  | _ => False
  end.
Proof. vm_compute. repeat split. Qed.

(** ** ECS synthesis on the DoH server *)

(** Every address with a 4-byte form also has a 16-byte form. *)
Lemma To4_To16 (ip : list byte) : is_Some (net.To4 ip) -> is_Some (net.To16 ip).
Proof.
  unfold net.To4, net.To16.
  destruct (length ip =? net.IPv4len)%nat; [intros _; eexists; reflexivity|].
  destruct (length ip =? net.IPv6len)%nat; cbn [andb]; [intros _; eexists; reflexivity|].
  intros [x Hx]. discriminate.
Qed.

(** What [synthesizeECS] inserts, by the peer address and the prefix lengths
    in force [(p4, p6)]. *)
Lemma synthesizeECS_cases (cfg : dohserver.config) (dnsQ : dns.Msg)
    (ecsRequestData remoteAddr : string) (ip : list byte) (p4 p6 : Z) :
  (if 0 <? gostd.strlen ecsRequestData
   then dohserver.extractPrefixLengths ecsRequestData
   else Ok (dohserver.ecsSetIPv4PrefixLen cfg, dohserver.ecsSetIPv6PrefixLen cfg))
  = Ok (p4, p6) ->
  dohserver.parseRemoteAddr remoteAddr = Ok ip ->
  dohserver.synthesizeECS cfg dnsQ ecsRequestData remoteAddr
  = if bool_decide (is_Some (net.To4 ip)) && (0 <? p4)
    then (Ok dohserver.evECSv4Synth, snd (dnsutil.CreateECS dnsQ 1 p4 ip))
    else if bool_decide (is_Some (net.To16 ip)) && (0 <? p6)
         then (Ok dohserver.evECSv6Synth, snd (dnsutil.CreateECS dnsQ 2 p6 ip))
         else (Ok dohserver.evGet, dnsQ).
Proof.
  intros Hlen Haddr. unfold dohserver.synthesizeECS. now rewrite Hlen, Haddr.
Qed.

(** For an IPv4 peer, a zero IPv4 length and a positive IPv6 length the
    second case of the switch fires: an ECS option of family 2 with the IPv6
    length is inserted, holding the IPv4 address. *)
Lemma synthesizeECS_v4_peer_falls_through (cfg : dohserver.config) (dnsQ : dns.Msg)
    (ecsRequestData remoteAddr : string) (ip : list byte) (p6 : Z) :
  (if 0 <? gostd.strlen ecsRequestData
   then dohserver.extractPrefixLengths ecsRequestData
   else Ok (dohserver.ecsSetIPv4PrefixLen cfg, dohserver.ecsSetIPv6PrefixLen cfg))
  = Ok (0, p6) ->
  dohserver.parseRemoteAddr remoteAddr = Ok ip ->
  is_Some (net.To4 ip) ->
  0 < p6 ->
  dohserver.synthesizeECS cfg dnsQ ecsRequestData remoteAddr
  = (Ok dohserver.evECSv6Synth, snd (dnsutil.CreateECS dnsQ 2 p6 ip)).
Proof.
  intros Hlen Haddr H4 Hp6.
  rewrite (synthesizeECS_cases cfg dnsQ _ _ ip 0 p6 Hlen Haddr).
  rewrite andb_false_r.
  rewrite (bool_decide_eq_true_2 _ (To4_To16 ip H4)).
  now replace (0 <? p6) with true by (symmetry; apply Z.ltb_lt; lia).
Qed.

(** C4 (ECS is synthesised with family 1 for an IPv4 peer when the IPv4
    length is positive, with family 2 for an IPv6 peer when the IPv6 length
    is positive, and not at all otherwise), evaluated on an input where the
    code does otherwise.  The request carries X-trustydns-Synth: 0/64 and the
    HTTPS peer is the IPv4 address 192.0.2.7.  The code inserts an option of
    family 2 with prefix length 64 that holds the IPv4-mapped address, and
    records an IPv6 synthesis. *)
Theorem stage_v4_peer_zero_v4_length :
  dohserver.stage examples.plainServer examples.query23 "0/64" "192.0.2.7:51234"
  = Ok (dohserver.mkStaged
          (dns.set_Extra examples.query23
             [dns.OPT (dns.mkHeader "." dns.TypeOPT dns.DefaultMsgSize 0)
                [dns.EDNS0_SUBNET dns.EDNS0SUBNET 2 64 0
                   (net.v4InV6Prefix ++ [xc0; x00; x02; x07])]])
          [dohserver.evEDNS0Removed; dohserver.evECSv6Synth] (-1))
  /\ is_Some (net.To4 (net.v4InV6Prefix ++ [xc0; x00; x02; x07])).
Proof. split; [vm_compute; reflexivity|]. eexists. vm_compute. reflexivity. Qed.

(** The cases in which the code synthesises as specified. *)
Example stage_synthesis_by_family :
  (exists q e,
      dohserver.stage examples.plainServer examples.query23 "24/64" "192.0.2.7:51234"
      = Ok (dohserver.mkStaged q e (-1))
      /\ dnsutil.FindECS q
         = Some (dns.OPT (dns.mkHeader "." dns.TypeOPT dns.DefaultMsgSize 0)
                   [dns.EDNS0_SUBNET dns.EDNS0SUBNET 1 24 0
                      (net.v4InV6Prefix ++ [xc0; x00; x02; x07])],
                 dns.EDNS0_SUBNET dns.EDNS0SUBNET 1 24 0
                   (net.v4InV6Prefix ++ [xc0; x00; x02; x07])))
  /\ (exists q e a,
         dohserver.stage examples.plainServer examples.query23 "24/64" "[2001:db8::1]:443"
         = Ok (dohserver.mkStaged q e (-1))
         /\ option_map snd (dnsutil.FindECS q)
            = Some (dns.EDNS0_SUBNET dns.EDNS0SUBNET 2 64 0 a))
  /\ (exists q e,
         dohserver.stage examples.plainServer examples.query23 "0/0" "192.0.2.7:51234"
         = Ok (dohserver.mkStaged q e (-1))
         /\ dnsutil.FindECS q = None)
  /\ (exists q e,
         dohserver.stage examples.plainServer examples.query23 "24/0" "[2001:db8::1]:443"
         = Ok (dohserver.mkStaged q e (-1))
         /\ dnsutil.FindECS q = None).
Proof.
  split; [|split; [|split]].
  - eexists _, _. split; vm_compute; reflexivity.
  - eexists _, _, _. split; vm_compute; reflexivity.
  - eexists _, _. split; vm_compute; reflexivity.
  - eexists _, _. split; vm_compute; reflexivity.
Qed.

(** ** The EDNS0 helpers of internal/dnsutil *)

Section Edns0Facts.
Import dns dnsutil.

Lemma countCode_optionsOf (code : Z) (rrs : list RR) :
  countCode code rrs = length (List.filter (hasCode code) (optionsOf rrs)).
Proof.
  induction rrs as [|rr rrs IH]; [reflexivity|].
  destruct rr; cbn; try exact IH.
  now rewrite List.filter_app, length_app, IH.
Qed.

Lemma removeLoop_optionsOf (code : Z) (rrs : list RR) :
  optionsOf (fst (removeLoop code rrs))
  = List.filter (fun o => negb (hasCode code o)) (optionsOf rrs).
Proof.
  induction rrs as [|rr rrs IH]; [reflexivity|].
  cbn [removeLoop]. destruct (removeLoop code rrs) as [out removed]. cbn [fst] in IH.
  destruct rr as [h opts|h d|h d]; cbn; try exact IH.
  rewrite List.filter_app, <- IH.
  destruct (List.filter _ opts) as [|o keep] eqn:E; reflexivity.
Qed.



Lemma removeLoop_removed (code : Z) (rrs : list RR) :
  snd (removeLoop code rrs) = negb (countCode code rrs =? 0)%nat.
Proof.
  induction rrs as [|rr rrs IH]; [reflexivity|].
  cbn [removeLoop]. destruct (removeLoop code rrs) as [out removed]. cbn [snd] in IH.
  destruct rr as [h opts|h d|h d]; cbn; try exact IH.
  rewrite IH. clear IH.
  induction opts as [|o opts IHo]; [reflexivity|].
  cbn. destruct (hasCode code o); cbn; [reflexivity|exact IHo].
Qed.

Lemma findECSIn_None (rrs : list RR) :
  findECSIn rrs = None <-> existsb isSubnet (optionsOf rrs) = false.
Proof.
  assert (H1 : forall opts, firstSubnet opts = None <-> existsb isSubnet opts = false).
  { induction opts as [|o opts IH]; [easy|]. destruct o; cbn; easy. }
  induction rrs as [|rr rrs IH]; [easy|].
  destruct rr as [h opts|h d|h d]; cbn; try exact IH.
  rewrite existsb_app, orb_false_iff, <- IH, <- H1.
  destruct (firstSubnet opts); [|tauto].
  split; [discriminate|intros [? _]; discriminate].
Qed.

Lemma findPaddingIn_none (rrs : list RR) :
  existsb isPadding (optionsOf rrs) = false -> findPaddingIn rrs = -1.
Proof.
  assert (H1 : forall opts, existsb isPadding opts = false -> firstPadding opts = None).
  { induction opts as [|o opts IH]; [easy|]. destruct o; cbn; easy. }
  induction rrs as [|rr rrs IH]; [easy|].
  destruct rr as [h opts|h d|h d]; cbn; try exact IH.
  rewrite existsb_app, orb_false_iff. intros [Ha Hb].
  rewrite (H1 _ Ha). now apply IH.
Qed.

Lemma findPaddingIn_some (rrs : list RR) :
  existsb isPadding (optionsOf rrs) = true -> 0 <= findPaddingIn rrs.
Proof.
  assert (H1 : forall opts, existsb isPadding opts = true ->
                            exists n, firstPadding opts = Some n /\ 0 <= n).
  { induction opts as [|o opts IH]; [easy|]. destruct o; cbn; try exact IH.
    intros _. eexists. split; [reflexivity|]. unfold len. lia. }
  assert (H2 : forall opts, existsb isPadding opts = false -> firstPadding opts = None).
  { induction opts as [|o opts IH]; [easy|]. destruct o; cbn; easy. }
  induction rrs as [|rr rrs IH]; [easy|].
  destruct rr as [h opts|h d|h d]; cbn; try exact IH.
  rewrite existsb_app. destruct (existsb isPadding opts) eqn:E.
  - intros _. destruct (H1 _ E) as (n & -> & Hn). exact Hn.
  - cbn. rewrite (H2 _ E). exact IH.
Qed.

Lemma existsb_filter_out {A} (f g : A -> bool) (l : list A) :
  (forall x, f x = true -> g x = true) ->
  existsb f (List.filter (fun x => negb (g x)) l) = false.
Proof.
  intros H. induction l as [|x l IH]; [reflexivity|].
  cbn. destruct (g x) eqn:Eg; cbn; [exact IH|].
  rewrite IH, orb_false_r. destruct (f x) eqn:Ef; [|reflexivity].
  apply H in Ef. congruence.
Qed.

Lemma existsb_filter_keep {A} (f g : A -> bool) (l : list A) :
  (forall x, f x = true -> g x = false) ->
  existsb f (List.filter (fun x => negb (g x)) l) = existsb f l.
Proof.
  intros H. induction l as [|x l IH]; [reflexivity|].
  cbn. destruct (g x) eqn:Eg; cbn.
  - rewrite IH. destruct (f x) eqn:Ef; [|reflexivity].
    apply H in Ef. congruence.
  - now rewrite IH.
Qed.

Lemma RemoveEDNS0FromOPT_Extra (msg : Msg) (code : Z) :
  Extra (snd (RemoveEDNS0FromOPT msg code))
  = if snd (removeLoop (uint16_of code) (Extra msg))
    then fst (removeLoop (uint16_of code) (Extra msg)) else Extra msg.
Proof.
  unfold RemoveEDNS0FromOPT.
  destruct (removeLoop (uint16_of code) (Extra msg)) as [out removed].
  now destruct removed.
Qed.

Lemma filter_none {A} (f : A -> bool) (l : list A) :
  List.filter f l = [] -> List.filter (fun x => negb (f x)) l = l.
Proof.
  induction l as [|x l IH]; [reflexivity|].
  cbn. destruct (f x); [discriminate|]. cbn. intros H. now rewrite IH.
Qed.

(** The sub-options that [RemoveEDNS0FromOPT] leaves are those with another
    code, in their order. *)
Lemma RemoveEDNS0FromOPT_optionsOf (msg : Msg) (code : Z) :
  optionsOf (Extra (snd (RemoveEDNS0FromOPT msg code)))
  = List.filter (fun o => negb (hasCode (uint16_of code) o)) (optionsOf (Extra msg)).
Proof.
  rewrite RemoveEDNS0FromOPT_Extra.
  destruct (snd (removeLoop _ _)) eqn:E; [apply removeLoop_optionsOf|].
  rewrite removeLoop_removed in E. apply negb_false_iff, Nat.eqb_eq in E.
  rewrite countCode_optionsOf in E. apply length_zero_iff_nil in E.
  now rewrite filter_none.
Qed.

Lemma RemoveEDNS0FromOPT_other (msg : Msg) (code : Z) :
  Hdr (snd (RemoveEDNS0FromOPT msg code)) = Hdr msg
  /\ Compress (snd (RemoveEDNS0FromOPT msg code)) = Compress msg
  /\ Question (snd (RemoveEDNS0FromOPT msg code)) = Question msg
  /\ Answer (snd (RemoveEDNS0FromOPT msg code)) = Answer msg
  /\ Ns (snd (RemoveEDNS0FromOPT msg code)) = Ns msg.
Proof.
  unfold RemoveEDNS0FromOPT.
  destruct (removeLoop (uint16_of code) (Extra msg)) as [out removed].
  destruct removed; cbn; auto.
Qed.

Lemma RemoveEDNS0FromOPT_no_subnet (msg : Msg) :
  FindECS (snd (RemoveEDNS0FromOPT msg EDNS0SUBNET)) = None.
Proof.
  unfold FindECS. apply findECSIn_None. rewrite RemoveEDNS0FromOPT_optionsOf.
  apply existsb_filter_out. now intros [].
Qed.

Lemma RemoveEDNS0FromOPT_no_padding (msg : Msg) :
  FindPadding (snd (RemoveEDNS0FromOPT msg EDNS0PADDING)) = -1.
Proof.
  unfold FindPadding. apply findPaddingIn_none. rewrite RemoveEDNS0FromOPT_optionsOf.
  apply existsb_filter_out. now intros [].
Qed.

(** X1: [RemoveEDNS0FromOPT] returns true exactly when some OPT record of
    Extra holds a sub-option with the code, and the message it leaves holds
    none. *)
Theorem RemoveEDNS0FromOPT_removes_all (msg : Msg) (code : Z) :
  countCode (uint16_of code) (Extra (snd (RemoveEDNS0FromOPT msg code))) = O
  /\ (fst (RemoveEDNS0FromOPT msg code) = true
      <-> countCode (uint16_of code) (Extra msg) <> O).
Proof.
  split.
  - rewrite countCode_optionsOf, RemoveEDNS0FromOPT_optionsOf.
    now rewrite filter_keep_none.
  - unfold RemoveEDNS0FromOPT.
    pose proof (removeLoop_removed (uint16_of code) (Extra msg)) as H.
    destruct (removeLoop (uint16_of code) (Extra msg)) as [out removed].
    cbn [fst snd] in *. rewrite H.
    rewrite negb_true_iff, Nat.eqb_neq. reflexivity.
Qed.

(** X2: once [RemoveEDNS0FromOPT] has run for the ECS code, [FindECS] finds
    nothing; once it has run for the padding code, [FindPadding] returns -1. *)
Theorem finders_after_RemoveEDNS0FromOPT (msg : Msg) :
  FindECS (snd (RemoveEDNS0FromOPT msg EDNS0SUBNET)) = None
  /\ FindPadding (snd (RemoveEDNS0FromOPT msg EDNS0PADDING)) = -1.
Proof.
  split; [apply RemoveEDNS0FromOPT_no_subnet|apply RemoveEDNS0FromOPT_no_padding].
Qed.


(** X4: [RemoveEDNS0FromOPT] is idempotent: run again on the message it
    left, it returns false and changes nothing. *)
Theorem RemoveEDNS0FromOPT_idempotent (msg : Msg) (code : Z) :
  RemoveEDNS0FromOPT (snd (RemoveEDNS0FromOPT msg code)) code
  = (false, snd (RemoveEDNS0FromOPT msg code)).
Proof.
  set (msg' := snd (RemoveEDNS0FromOPT msg code)).
  assert (H0 : countCode (uint16_of code) (Extra msg') = O).
  { subst msg'. rewrite countCode_optionsOf, RemoveEDNS0FromOPT_optionsOf.
    now rewrite filter_keep_none. }
  unfold RemoveEDNS0FromOPT at 1.
  pose proof (removeLoop_removed (uint16_of code) (Extra msg')) as H.
  destruct (removeLoop (uint16_of code) (Extra msg')) as [out removed].
  cbn [snd] in H. rewrite H0 in H. cbn in H. now subst removed.
Qed.

End Edns0Facts.

Section CreateFacts.
Import dns dnsutil.

Lemma findOPTFrom_first (k : nat) (rrs : list RR) (ix : nat) (o : RR) :
  findOPTFrom k rrs = Some (ix, o) ->
  forall j rr, (j < ix - k)%nat -> rrs !! j = Some rr -> isOPT rr = false.
Proof.
  revert k. induction rrs as [|r rrs IH]; intros k; [discriminate|].
  destruct r as [h opts|h d|h d]; cbn [findOPTFrom].
  - intros [= <- <-] j rr Hj. lia.
  - intros H j rr Hj Hl. destruct j as [|j]; [now injection Hl as <-|].
    apply (IH _ H j); [|exact Hl].
    apply findOPTFrom_lookup in H as (_ & _ & _ & Hle & _). lia.
  - intros H j rr Hj Hl. destruct j as [|j]; [now injection Hl as <-|].
    apply (IH _ H j); [|exact Hl].
    apply findOPTFrom_lookup in H as (_ & _ & _ & Hle & _). lia.
Qed.

Lemma findOPTFrom_None (k : nat) (rrs : list RR) :
  findOPTFrom k rrs = None -> forallb (fun rr => negb (isOPT rr)) rrs = true.
Proof.
  revert k. induction rrs as [|r rrs IH]; intros k; [reflexivity|].
  destruct r as [h opts|h d|h d]; cbn; [discriminate| |]; apply IH.
Qed.

Lemma optionsOf_no_OPT (rrs : list RR) :
  forallb (fun rr => negb (isOPT rr)) rrs = true -> optionsOf rrs = [].
Proof.
  induction rrs as [|r rrs IH]; [reflexivity|].
  destruct r; cbn; [discriminate| |]; exact IH.
Qed.

Lemma FindOPT_firstOPTAt (msg : Msg) :
  exists rrs ix h opts,
    firstOPTAt (Extra msg) rrs ix h opts
    /\ match FindOPT msg with
       | Some (i, o) => (i, o, msg)
       | None => (length (Extra msg), NewOPT, set_Extra msg (Extra msg ++ [NewOPT]))
       end = (ix, OPT h opts, set_Extra msg rrs).
Proof.
  unfold FindOPT. destruct (findOPTFrom 0 (Extra msg)) as [[ix o]|] eqn:E.
  - destruct (findOPTFrom_lookup _ _ _ _ E) as (h & opts & -> & _ & Hl).
    rewrite Nat.sub_0_r in Hl.
    exists (Extra msg), ix, h, opts. split.
    + split; [now left|]. split; [exact Hl|].
      intros j rr Hj. apply (findOPTFrom_first _ _ _ _ E). lia.
    + now destruct msg.
  - pose proof (findOPTFrom_None _ _ E) as Hno.
    exists (Extra msg ++ [NewOPT]), (length (Extra msg)), (mkHeader "." TypeOPT DefaultMsgSize 0), [].
    split; [|reflexivity].
    split; [right; split; [reflexivity|now apply optionsOf_no_OPT]|].
    split.
    + rewrite lookup_app_r by lia. now rewrite Nat.sub_diag.
    + intros j rr Hj Hl. rewrite lookup_app_l in Hl by exact Hj.
      rewrite forallb_forall in Hno.
      apply negb_true_iff, Hno. eapply list_elem_of_In, list_elem_of_lookup_2, Hl.
Qed.

Lemma optionsOf_app (a b : list RR) :
  optionsOf (a ++ b) = optionsOf a ++ optionsOf b.
Proof.
  induction a as [|r a IH]; [reflexivity|].
  destruct r; cbn; rewrite ?IH, ?app_assoc; reflexivity.
Qed.

(** Replacing the options of the OPT record at a position by the same
    options followed by one more: for a test on sub-options, as the finders
    make, the new list passes when the old one did or the new option does. *)
Lemma existsb_optionsOf_insert (f : EDNS0 -> bool) (rrs : list RR) (ix : nat)
    (h h' : RR_Header) (opts : list EDNS0) (o : EDNS0) :
  rrs !! ix = Some (OPT h opts) ->
  existsb f (optionsOf (<[ix := OPT h' (opts ++ [o])]> rrs))
  = existsb f (optionsOf rrs) || f o.
Proof.
  revert ix. induction rrs as [|r rrs IH]; intros ix; [discriminate|].
  destruct ix as [|ix].
  - intros [= ->]. cbn. rewrite !existsb_app. cbn.
    rewrite orb_false_r. now rewrite <- !orb_assoc, (orb_comm (f o)).
  - intros H. specialize (IH ix H).
    change (<[S ix := ?x]> (r :: rrs)) with (r :: <[ix := x]> rrs).
    destruct r; cbn [optionsOf]; rewrite ?existsb_app, IH; try reflexivity.
    now rewrite orb_assoc.
Qed.

Lemma firstOPTAt_optionsOf (extra rrs : list RR) (ix : nat) (h : RR_Header)
    (opts : list EDNS0) :
  firstOPTAt extra rrs ix h opts -> optionsOf rrs = optionsOf extra.
Proof.
  intros ([->|[-> Hno]] & _); [reflexivity|].
  rewrite optionsOf_app. cbn. now rewrite app_nil_r.
Qed.

(** The first OPT record's options lead the list of all sub-options. *)
Lemma firstOPTAt_head (extra rrs : list RR) (ix : nat) (h : RR_Header)
    (opts : list EDNS0) :
  firstOPTAt extra rrs ix h opts ->
  exists rest, optionsOf rrs = opts ++ rest
               /\ forall h' opts', optionsOf (<[ix := OPT h' opts']> rrs) = opts' ++ rest.
Proof.
  intros (_ & Hl & Hfirst). revert ix Hl Hfirst.
  induction rrs as [|r rrs IH]; intros ix Hl Hfirst; [discriminate|].
  destruct ix as [|ix].
  - injection Hl as ->. exists (optionsOf rrs). split; reflexivity.
  - assert (Hr : isOPT r = false) by (apply (Hfirst O); [lia|reflexivity]).
    destruct (IH ix Hl) as (rest & H1 & H2).
    { intros j rr Hj Hlj. apply (Hfirst (S j)); [lia|exact Hlj]. }
    exists rest. destruct r; try discriminate; cbn; auto.
Qed.

Lemma CreateECS_shape (msg : Msg) (family prefixLength : Z) (ip : list byte) :
  exists rrs ix h opts,
    firstOPTAt (Extra msg) rrs ix h opts
    /\ CreateECS msg family prefixLength ip
       = (EDNS0_SUBNET EDNS0SUBNET (uint16_of family) (uint8_of prefixLength) 0 ip,
          set_Extra msg
            (<[ix := OPT h (opts ++ [EDNS0_SUBNET EDNS0SUBNET (uint16_of family)
                                        (uint8_of prefixLength) 0 ip])]> rrs)).
Proof.
  destruct (FindOPT_firstOPTAt msg) as (rrs & ix & h & opts & Hat & Heq).
  exists rrs, ix, h, opts. split; [exact Hat|].
  unfold CreateECS. rewrite Heq. reflexivity.
Qed.

Lemma firstSubnet_app (opts : list EDNS0) (e : EDNS0) :
  existsb isSubnet opts = false -> isSubnet e = true ->
  firstSubnet (opts ++ [e]) = Some e.
Proof.
  induction opts as [|o opts IH]; cbn.
  - intros _ He. destruct e; try discriminate. reflexivity.
  - destruct o; cbn; try discriminate; exact IH.
Qed.

Lemma findECSIn_at (rrs : list RR) (ix : nat) (h : RR_Header) (opts : list EDNS0)
    (e : EDNS0) :
  (forall j rr, (j < ix)%nat -> rrs !! j = Some rr -> isOPT rr = false) ->
  rrs !! ix = Some (OPT h opts) ->
  firstSubnet opts = Some e ->
  findECSIn rrs = Some (OPT h opts, e).
Proof.
  revert ix. induction rrs as [|r rrs IH]; intros ix Hfirst Hl He; [discriminate|].
  destruct ix as [|ix].
  - injection Hl as ->. cbn. now rewrite He.
  - assert (Hr : isOPT r = false) by (apply (Hfirst O); [lia|reflexivity]).
    destruct r; try discriminate; cbn; apply (IH ix); auto;
      intros j rr Hj Hlj; (apply (Hfirst (S j)); [lia|exact Hlj]).
Qed.

Lemma firstOPTAt_insert (extra rrs : list RR) (ix : nat) (h h' : RR_Header)
    (opts opts' : list EDNS0) :
  firstOPTAt extra rrs ix h opts ->
  (forall j rr, (j < ix)%nat -> <[ix := OPT h' opts']> rrs !! j = Some rr -> isOPT rr = false)
  /\ <[ix := OPT h' opts']> rrs !! ix = Some (OPT h' opts').
Proof.
  intros (_ & Hl & Hfirst). split.
  - intros j rr Hj. rewrite list_lookup_insert_ne by lia. now apply Hfirst.
  - apply list_lookup_insert_eq. now apply lookup_lt_Some in Hl.
Qed.

Lemma findOPTFrom_at (k : nat) (rrs : list RR) (ix : nat) (h : RR_Header)
    (opts : list EDNS0) :
  (forall j rr, (j < ix)%nat -> rrs !! j = Some rr -> isOPT rr = false) ->
  rrs !! ix = Some (OPT h opts) ->
  findOPTFrom k rrs = Some ((k + ix)%nat, OPT h opts).
Proof.
  revert k ix. induction rrs as [|r rrs IH]; intros k ix Hfirst Hl; [discriminate|].
  destruct ix as [|ix].
  - injection Hl as ->. cbn. now rewrite Nat.add_0_r.
  - assert (Hr : isOPT r = false) by (apply (Hfirst O); [lia|reflexivity]).
    replace (k + S ix)%nat with (S k + ix)%nat by lia.
    destruct r; try discriminate; cbn [findOPTFrom]; apply IH; auto;
      intros j rr Hj Hlj; (apply (Hfirst (S j)); [lia|exact Hlj]).
Qed.

(** X5: on a query in which [FindECS] finds nothing, [CreateECS] followed by
    [FindECS] gives back the sub-option that [CreateECS] returned, as the
    last sub-option of the first OPT record of Extra: the record at the
    position before which Extra holds no OPT, the one that [FindOPT] finds.
    The sub-option holds the family, the prefix length and the address it
    was given, and scope 0. *)
Theorem CreateECS_then_FindECS (msg : Msg) (family prefixLength : Z) (ip : list byte) :
  FindECS msg = None ->
  0 <= family < 2 ^ 16 -> 0 <= prefixLength < 2 ^ 8 ->
  fst (CreateECS msg family prefixLength ip)
  = EDNS0_SUBNET EDNS0SUBNET family prefixLength 0 ip
  /\ exists ix h opts,
       Extra (snd (CreateECS msg family prefixLength ip)) !! ix = Some (OPT h opts)
       /\ (forall j rr, (j < ix)%nat ->
             Extra (snd (CreateECS msg family prefixLength ip)) !! j = Some rr ->
             isOPT rr = false)
       /\ FindOPT (snd (CreateECS msg family prefixLength ip)) = Some (ix, OPT h opts)
       /\ FindECS (snd (CreateECS msg family prefixLength ip))
          = Some (OPT h opts, fst (CreateECS msg family prefixLength ip))
       /\ last opts = Some (fst (CreateECS msg family prefixLength ip)).
Proof.
  intros Hnone Hf Hp.
  destruct (CreateECS_shape msg family prefixLength ip) as (rrs & ix & h & opts & Hat & ->).
  unfold uint16_of, uint8_of. rewrite !Z.mod_small by lia.
  cbn [fst snd]. split; [reflexivity|].
  exists ix, h, (opts ++ [EDNS0_SUBNET EDNS0SUBNET family prefixLength 0 ip]).
  destruct (firstOPTAt_insert _ _ _ _ h _ (opts ++ [EDNS0_SUBNET EDNS0SUBNET family prefixLength 0 ip]) Hat)
    as [Hfirst' Hl'].
  cbn [Extra set_Extra].
  split; [exact Hl'|]. split; [exact Hfirst'|].
  split; [unfold FindOPT; cbn [Extra set_Extra]; now apply (findOPTFrom_at 0)|].
  split; [|now rewrite last_snoc].
  unfold FindECS. cbn [Extra set_Extra].
  apply (findECSIn_at _ ix); [exact Hfirst'|exact Hl'|].
  apply firstSubnet_app; [|reflexivity].
  apply findECSIn_None in Hnone.
  rewrite <- (firstOPTAt_optionsOf _ _ _ _ _ Hat) in Hnone.
  destruct (firstOPTAt_head _ _ _ _ _ Hat) as (rest & Hopts & _).
  rewrite Hopts, existsb_app in Hnone. now apply orb_false_iff in Hnone.
Qed.

End CreateFacts.

Lemma CreateECS_then_FindECS_witness :
  dnsutil.FindECS examples.query23 = None
  /\ exists ix h opts,
       dnsutil.FindOPT (snd (dnsutil.CreateECS examples.query23 1 24 [xc0; x00; x02; x07]))
       = Some (ix, dns.OPT h opts)
       /\ dnsutil.FindECS (snd (dnsutil.CreateECS examples.query23 1 24 [xc0; x00; x02; x07]))
          = Some (dns.OPT h opts,
                  dns.EDNS0_SUBNET dns.EDNS0SUBNET 1 24 0 [xc0; x00; x02; x07]).
Proof.
  split; [reflexivity|].
  destruct (CreateECS_then_FindECS examples.query23 1 24 [xc0; x00; x02; x07])
    as (He & ix & h & opts & _ & _ & Hopt & Hfind & _); [reflexivity|lia|lia|].
  exists ix, h, opts. split; [exact Hopt|]. rewrite Hfind, He. reflexivity.
Defined.

Section ReduceFacts.
Import dns dnsutil.

Lemma sameButTtl_set_Ttl (rr : RR) (ttl : Z) : sameButTtl rr (set_Ttl rr ttl).
Proof. unfold sameButTtl. now destruct rr. Qed.

Lemma Ttl_set_Ttl (rr : RR) (ttl : Z) : Ttl (Header (set_Ttl rr ttl)) = ttl.
Proof. now destruct rr. Qed.

Lemma reduceRR_spec (by_ minimum : Z) (rr : RR) :
  0 <= by_ < 2 ^ 32 -> 0 <= minimum < 2 ^ 32 -> 0 <= Ttl (Header rr) < 2 ^ 32 ->
  ttlReduced by_ minimum rr (fst (reduceRR by_ minimum rr))
  /\ snd (reduceRR by_ minimum rr)
     = if Ttl (Header rr) =? Ttl (Header (fst (reduceRR by_ minimum rr))) then 0 else 1.
Proof.
  intros Hb Hm Ht. unfold reduceRR, ttlReduced. cbv zeta.
  destruct (minimum <? Ttl (Header rr)) eqn:E.
  - apply Z.ltb_lt in E.
    set (ttl2 := if Ttl (Header rr) - by_ <? minimum then minimum else Ttl (Header rr) - by_).
    assert (H2 : ttl2 = Z.max minimum (Ttl (Header rr) - by_)).
    { subst ttl2. destruct (_ <? _) eqn:E2; [apply Z.ltb_lt in E2|apply Z.ltb_ge in E2]; lia. }
    assert (Hu : uint32_of ttl2 = ttl2).
    { unfold uint32_of. apply Z.mod_small. lia. }
    rewrite Hu. destruct (ttl2 =? Ttl (Header rr)) eqn:E3; cbn [fst snd].
    + apply Z.eqb_eq in E3. rewrite Z.eqb_refl.
      repeat split; try reflexivity; lia.
    + apply Z.eqb_neq in E3. rewrite Ttl_set_Ttl.
      replace (Ttl (Header rr) =? ttl2) with false by (symmetry; apply Z.eqb_neq; lia).
      split; [|reflexivity].
      split; [apply sameButTtl_set_Ttl|]. lia.
  - apply Z.ltb_ge in E. cbn [fst snd]. rewrite Z.eqb_refl.
    repeat split; try reflexivity; lia.
Qed.

Lemma reduceRRSet_spec (by_ minimum : Z) (rrs : list RR) :
  0 <= by_ < 2 ^ 32 -> 0 <= minimum < 2 ^ 32 ->
  (forall rr, In rr rrs -> 0 <= Ttl (Header rr) < 2 ^ 32) ->
  Forall2 (ttlReduced by_ minimum) rrs (fst (reduceRRSet rrs by_ minimum))
  /\ snd (reduceRRSet rrs by_ minimum)
     = ttlChanges rrs (fst (reduceRRSet rrs by_ minimum)).
Proof.
  intros Hb Hm. induction rrs as [|rr rrs IH]; intros Ht.
  - split; [constructor|reflexivity].
  - destruct IH as [IH1 IH2]; [intros r Hr; apply Ht; now right|].
    destruct (reduceRR_spec by_ minimum rr Hb Hm) as [H1 H2]; [apply Ht; now left|].
    cbn [reduceRRSet].
    destruct (reduceRR by_ minimum rr) as [rr' c].
    destruct (reduceRRSet rrs by_ minimum) as [tl' n].
    cbn [fst snd] in *. split; [now constructor|].
    cbn [ttlChanges]. now rewrite H2, IH2.
Qed.

(** X6: [ReduceTTL] never raises a TTL, leaves a TTL at or below the minimum
    alone and takes a TTL above the minimum down by [by], but not below the
    minimum; it changes nothing else of the records, keeps their number and
    order, and returns the number of records whose TTL it changed. *)
Theorem ReduceTTL_reduces (msg : Msg) (by_ minimum : Z) :
  0 <= by_ < 2 ^ 32 -> 0 <= minimum < 2 ^ 32 ->
  (forall rr, In rr (Answer msg ++ Ns msg ++ Extra msg) -> 0 <= Ttl (Header rr) < 2 ^ 32) ->
  let n := fst (ReduceTTL msg by_ minimum) in
  let msg' := snd (ReduceTTL msg by_ minimum) in
  Hdr msg' = Hdr msg /\ Question msg' = Question msg
  /\ Forall2 (ttlReduced by_ minimum) (Answer msg) (Answer msg')
  /\ Forall2 (ttlReduced by_ minimum) (Ns msg) (Ns msg')
  /\ Forall2 (ttlReduced by_ minimum) (Extra msg) (Extra msg')
  /\ n = ttlChanges (Answer msg) (Answer msg') + ttlChanges (Ns msg) (Ns msg')
         + ttlChanges (Extra msg) (Extra msg').
Proof.
  intros Hb Hm Ht. cbv zeta. unfold ReduceTTL.
  destruct (reduceRRSet_spec by_ minimum (Answer msg) Hb Hm) as [A1 A2].
  { intros rr Hr. apply Ht. apply in_or_app. now left. }
  destruct (reduceRRSet_spec by_ minimum (Ns msg) Hb Hm) as [N1 N2].
  { intros rr Hr. apply Ht. apply in_or_app. right. apply in_or_app. now left. }
  destruct (reduceRRSet_spec by_ minimum (Extra msg) Hb Hm) as [E1 E2].
  { intros rr Hr. apply Ht. apply in_or_app. right. apply in_or_app. now right. }
  destruct (reduceRRSet (Answer msg) by_ minimum) as [an c1].
  destruct (reduceRRSet (Ns msg) by_ minimum) as [ns c2].
  destruct (reduceRRSet (Extra msg) by_ minimum) as [ex c3].
  cbn [fst snd Hdr Question Answer Ns Extra] in *.
  repeat split; try assumption. now rewrite A2, N2, E2.
Qed.

End ReduceFacts.

Lemma ReduceTTL_reduces_witness :
  fst (dnsutil.ReduceTTL (examples.bigResponse false) 299 1) = 9
  /\ Forall2 (dnsutil.ttlReduced 299 1) (dns.Answer (examples.bigResponse false))
       (dns.Answer (snd (dnsutil.ReduceTTL (examples.bigResponse false) 299 1))).
Proof.
  destruct (ReduceTTL_reduces (examples.bigResponse false) 299 1) as (_ & _ & H & _ & _ & Hn).
  - lia.
  - lia.
  - intros rr Hr. vm_compute in Hr.
    repeat (destruct Hr as [<-|Hr]; [vm_compute; split; [discriminate|reflexivity]|]).
    destruct Hr.
  - split; [reflexivity|exact H].
Defined.

Section PadShape.
Import dns dnsutil.
Context {lib : Library}.

Lemma RemoveEDNS0FromOPT_nil (msg : Msg) (code : Z) :
  Extra msg = [] -> snd (RemoveEDNS0FromOPT msg code) = msg.
Proof. intros H. unfold RemoveEDNS0FromOPT. now rewrite H. Qed.

Lemma len_pos_nil {A} (l : list A) : (0 <? len l) = false -> l = [].
Proof.
  intros H. apply Z.ltb_ge in H. unfold len in H.
  destruct l; [reflexivity|cbn in H; lia].
Qed.

(** The message that [PadAndPack] leaves, for a modulo in range: the message
    without its padding, with one padding sub-option appended to its first
    OPT record. *)
Lemma PadAndPack_shape (msg : Msg) (M : Z) :
  1 <= M <= consts.MaximumViableDNSMessage ->
  exists rrs ix h opts p,
    firstOPTAt (Extra (snd (RemoveEDNS0FromOPT msg EDNS0PADDING))) rrs ix h opts
    /\ snd (PadAndPack msg M)
       = set_Extra (snd (RemoveEDNS0FromOPT msg EDNS0PADDING))
           (<[ix := OPT h (opts ++ [EDNS0_PADDING p])]> rrs).
Proof.
  intros HM. unfold PadAndPack.
  replace (M <? 1) with false by (symmetry; apply Z.ltb_ge; lia).
  replace (consts.MaximumViableDNSMessage <? M) with false by (symmetry; apply Z.ltb_ge; lia).
  cbn [orb].
  replace (if 0 <? len (Extra msg) then snd (RemoveEDNS0FromOPT msg EDNS0PADDING) else msg)
    with (snd (RemoveEDNS0FromOPT msg EDNS0PADDING)).
  2:{ destruct (0 <? len (Extra msg)) eqn:E; [reflexivity|].
      apply RemoveEDNS0FromOPT_nil. now apply len_pos_nil. }
  set (msg1 := snd (RemoveEDNS0FromOPT msg EDNS0PADDING)).
  replace (if 0 <? len (Extra msg1) then FindOPT msg1 else None) with (FindOPT msg1).
  2:{ destruct (0 <? len (Extra msg1)) eqn:E; [reflexivity|].
      apply len_pos_nil in E. unfold FindOPT. now rewrite E. }
  destruct (FindOPT_firstOPTAt msg1) as (rrs & ix & h & opts & Hat & Heq).
  rewrite Heq. cbv zeta.
  assert (Hlt : (ix < length rrs)%nat).
  { destruct Hat as (_ & Hl & _). now apply lookup_lt_Some in Hl. }
  exists rrs, ix, h, opts.
  match goal with
  | |- context [0 <? uint64_of ?x] => destruct (0 <? uint64_of x); [exists (repeat x00 (Z.to_nat (uint64_of x)))|exists []]
  end;
    (split; [exact Hat|]);
    match goal with |- context [Pack ?m] => destruct (Pack m) end;
    try match goal with |- context [negb ?b] => destruct (negb b) end;
    cbn [snd set_Extra Extra appendOption setLastOption Hdr Compress Question Answer Ns];
    rewrite ?insert_last, ?list_insert_insert_eq; reflexivity.
Qed.

Lemma filter_drop_last {A} (f : A -> bool) (a b : list A) (x : A) :
  f x = false -> List.filter f ((a ++ [x]) ++ b) = List.filter f (a ++ b).
Proof.
  intros H. rewrite !List.filter_app. cbn. now rewrite H, app_nil_r.
Qed.

Lemma PadAndPack_fields (msg : Msg) (M : Z) :
  Hdr (snd (PadAndPack msg M)) = Hdr msg
  /\ Question (snd (PadAndPack msg M)) = Question msg
  /\ Answer (snd (PadAndPack msg M)) = Answer msg
  /\ Ns (snd (PadAndPack msg M)) = Ns msg.
Proof.
  destruct (Z.ltb_spec M 1) as [Hlo|Hlo];
    [unfold PadAndPack; apply Z.ltb_lt in Hlo; rewrite Hlo; cbn; auto|].
  destruct (Z.ltb_spec consts.MaximumViableDNSMessage M) as [Hhi|Hhi];
    [unfold PadAndPack; apply Z.ltb_lt in Hhi; rewrite Hhi, orb_true_r; cbn; auto|].
  destruct (PadAndPack_shape msg M) as (rrs & ix & h & opts & p & Hat & ->); [lia|].
  destruct (RemoveEDNS0FromOPT_other msg EDNS0PADDING) as (H1 & _ & H2 & H3 & H4).
  cbn [Hdr Question Answer Ns Extra set_Extra]. auto.
Qed.

Lemma filter_filter_same {A} (f : A -> bool) (l : list A) :
  List.filter f (List.filter f l) = List.filter f l.
Proof.
  induction l as [|x l IH]; [reflexivity|].
  cbn. destruct (f x) eqn:E; cbn; rewrite ?E, IH; reflexivity.
Qed.

Lemma PadAndPack_optionsOf (msg : Msg) (M : Z) :
  List.filter (fun o => negb (hasCode EDNS0PADDING o)) (optionsOf (Extra (snd (PadAndPack msg M))))
  = List.filter (fun o => negb (hasCode EDNS0PADDING o)) (optionsOf (Extra msg)).
Proof.
  destruct (Z.ltb_spec M 1) as [Hlo|Hlo];
    [unfold PadAndPack; apply Z.ltb_lt in Hlo; rewrite Hlo; cbn; auto|].
  destruct (Z.ltb_spec consts.MaximumViableDNSMessage M) as [Hhi|Hhi];
    [unfold PadAndPack; apply Z.ltb_lt in Hhi; rewrite Hhi, orb_true_r; cbn; auto|].
  destruct (PadAndPack_shape msg M) as (rrs & ix & h & opts & p & Hat & ->); [lia|].
  cbn [Extra set_Extra].
  destruct (firstOPTAt_head _ _ _ _ _ Hat) as (rest & Hopts & Hins).
  rewrite Hins, filter_drop_last by reflexivity.
  rewrite <- Hopts, (firstOPTAt_optionsOf _ _ _ _ _ Hat), RemoveEDNS0FromOPT_optionsOf.
  apply filter_filter_same.
Qed.

(** A test on sub-options that padding does not pass gives the same answer
    before and after [PadAndPack]. *)
Lemma PadAndPack_existsb (f : EDNS0 -> bool) (msg : Msg) (M : Z) :
  (forall o, f o = true -> hasCode EDNS0PADDING o = false) ->
  existsb f (optionsOf (Extra (snd (PadAndPack msg M))))
  = existsb f (optionsOf (Extra msg)).
Proof.
  intros Hf.
  rewrite <- (existsb_filter_keep f (hasCode EDNS0PADDING) (optionsOf (Extra msg))) by exact Hf.
  rewrite <- (PadAndPack_optionsOf msg M).
  now rewrite existsb_filter_keep by exact Hf.
Qed.


End PadShape.

(** ** Best server: what the constructors establish and every call keeps *)

Section ManagerInvariants.
Import bestserver.

Lemma initLoop_Ok (ss : list Server) :
  forall (ix : Z) (m m' : gmap nat Z),
    initLoop ss ix m = Ok m' ->
    List.NoDup (map ptr ss)
    /\ (forall s, In s ss -> m !! ptr s = None)
    /\ (forall p z, m !! p = Some z -> m' !! p = Some z)
    /\ (forall i s, ss !! i = Some s -> m' !! ptr s = Some (ix + Z.of_nat i))
    /\ (forall p z, m' !! p = Some z ->
          m !! p = Some z
          \/ exists i s, ss !! i = Some s /\ ptr s = p /\ z = ix + Z.of_nat i).
Proof.
  induction ss as [|s ss IH]; intros ix m m'; cbn [initLoop].
  - intros [= <-]. split; [constructor|]. split; [intros s []|].
    split; [auto|]. split; [intros i s; discriminate|]. auto.
  - destruct (m !! ptr s) eqn:Hs; [discriminate|]. intros H.
    destruct (IH _ _ _ H) as (Hnd & Hfresh & Hmono & Hidx & Hrev).
    assert (Hne : forall s', In s' ss -> ptr s' <> ptr s).
    { intros s' Hin Heq. specialize (Hfresh s' Hin).
      rewrite Heq, lookup_insert_eq in Hfresh. discriminate. }
    split; [|split; [|split; [|split]]].
    + cbn. constructor; [|exact Hnd].
      intros Hin. apply in_map_iff in Hin as (s' & Heq & Hin).
      now apply (Hne s' Hin).
    + intros s' [<-|Hin]; [exact Hs|].
      specialize (Hfresh s' Hin). rewrite lookup_insert_ne in Hfresh; [exact Hfresh|].
      intros Heq. now apply (Hne s' Hin).
    + intros p z Hp. apply Hmono. rewrite lookup_insert_ne; [exact Hp|].
      intros <-. congruence.
    + intros [|i] s'.
      * intros [= <-]. rewrite Z.add_0_r. apply Hmono, lookup_insert_eq.
      * intros Hl. rewrite (Hidx i s' Hl). f_equal. lia.
    + intros p z Hp. destruct (Hrev p z Hp) as [Hm|(i & s' & Hl & Hptr & Hz)].
      * apply lookup_insert_Some in Hm as [[<- <-]|[_ Hm]]; [|now left].
        right. exists O, s. split; [reflexivity|]. split; [reflexivity|]. lia.
      * right. exists (S i), s'. split; [exact Hl|]. split; [exact Hptr|]. lia.
Qed.

Lemma initLoop_total (ss : list Server) :
  forall (ix : Z) (m : gmap nat Z),
    List.NoDup (map ptr ss) -> (forall s, In s ss -> m !! ptr s = None) ->
    is_ok (initLoop ss ix m) = true.
Proof.
  induction ss as [|s ss IH]; intros ix m Hnd Hfresh; [reflexivity|].
  cbn [initLoop]. rewrite (Hfresh s) by now left.
  cbn in Hnd. apply List.NoDup_cons_iff in Hnd as [Hnotin Hnd].
  apply IH; [exact Hnd|].
  intros s' Hin. rewrite lookup_insert_ne; [apply Hfresh; now right|].
  intros Heq. apply Hnotin. rewrite Heq. now apply in_map.
Qed.

Lemma init_knows (alg : string) (ss : list Server) (b : baseManager) :
  init alg ss = Ok b ->
  knows b ss /\ algType b = alg /\ bestIndex b = 0 /\ ss <> [] /\ List.NoDup (map ptr ss).
Proof.
  unfold init. destruct (len ss =? 0) eqn:E; [discriminate|].
  destruct (initLoop ss 0 ∅) as [e|m] eqn:Hloop; [discriminate|].
  intros [= <-]. destruct (initLoop_Ok _ _ _ _ Hloop) as (Hnd & _ & _ & Hidx & Hrev).
  split; [|split; [reflexivity|split; [reflexivity|split; [|exact Hnd]]]].
  - split; [reflexivity|]. split; [reflexivity|]. split.
    + intros i s Hl. cbn. now rewrite (Hidx i s Hl).
    + intros p ix Hp. cbn in Hp.
      destruct (Hrev p ix Hp) as [Hm|(i & s & Hl & Hptr & ->)];
        [now rewrite lookup_empty in Hm|].
      exists s. split; [lia|]. split; [|exact Hptr].
      now rewrite Z.add_0_l, Nat2Z.id.
  - intros ->. discriminate.
Qed.

Lemma knows_listed (b : baseManager) (ss : list Server) (s : Server) :
  knows b ss -> bool_decide (is_Some (serverToIndex b !! ptr s)) = listed ss s.
Proof.
  intros (_ & _ & Hidx & Hrev). unfold listed.
  destruct (existsb _ ss) eqn:E.
  - apply existsb_exists in E as (s' & Hin & Heq). apply Nat.eqb_eq in Heq.
    apply list_elem_of_In, list_elem_of_lookup_1 in Hin as (i & Hl).
    apply bool_decide_eq_true. rewrite <- Heq, (Hidx i s' Hl). eauto.
  - apply bool_decide_eq_false. intros [ix Hix].
    destruct (Hrev _ _ Hix) as (s' & _ & Hl & Hptr).
    assert (Hex : existsb (fun s' => (ptr s' =? ptr s)%nat) ss = true).
    { apply existsb_exists. exists s'. split.
      - eapply list_elem_of_In, list_elem_of_lookup_2, Hl.
      - now apply Nat.eqb_eq. }
    congruence.
Qed.

Lemma knows_index (b : baseManager) (ss : list Server) (s : Server) (ix : Z) :
  knows b ss -> serverToIndex b !! ptr s = Some ix -> inRange b ix.
Proof.
  intros (_ & Hc & _ & Hrev) H. destruct (Hrev _ _ H) as (s' & Hpos & Hl & _).
  apply lookup_lt_Some in Hl. unfold inRange, len. rewrite Hc. unfold len. lia.
Qed.

Lemma knows_Best (b : baseManager) (ss : list Server) :
  knows b ss -> inRange b (bestIndex b) ->
  exists s, baseBest b = Some (s, bestIndex b) /\ ss !! Z.to_nat (bestIndex b) = Some s.
Proof.
  intros (Hs & Hc & _) [Hlo Hhi]. unfold baseBest, index.
  destruct (bestIndex b <? 0) eqn:E; [apply Z.ltb_lt in E; lia|].
  rewrite Hs. destruct (ss !! Z.to_nat (bestIndex b)) as [s|] eqn:Hl; [eauto|].
  apply lookup_ge_None in Hl. rewrite Hc in Hhi. unfold len in Hhi. lia.
Qed.

Lemma rem_range (n ix : Z) : 0 <= ix < n -> 0 <= Z.rem (ix + 1) n < n.
Proof.
  intros H. rewrite Z.rem_mod_nonneg by lia.
  apply Z.mod_pos_bound. lia.
Qed.

Lemma knows_set_bestIndex (b : baseManager) (ss : list Server) (ix : Z) :
  knows b ss -> knows (set_bestIndex b ix) ss.
Proof. intros H. exact H. Qed.

(** Any property of a manager that [Result] keeps holds after any sequence
    of calls. *)
Lemma run_invariant {T : Type} {M : Manager T} (P : T -> Prop) :
  (forall t s ok now l, P t -> P (snd (Result t s ok now l))) ->
  forall cs t, P t -> P (snd (run t cs)).
Proof.
  intros Hkeep. induction cs as [|c cs IH]; intros t Ht; [exact Ht|].
  cbn [run].
  destruct (exec t c) as [r t'] eqn:He.
  assert (Ht' : P t').
  { destruct c as [|sv ok now lat| | |]; cbn in He; try (injection He as _ <-; exact Ht).
    specialize (Hkeep t sv ok now lat Ht).
    destruct (Result t sv ok now lat). injection He as _ <-. exact Hkeep. }
  specialize (IH t' Ht'). destruct (run t' cs). exact IH.
Qed.

(** *** The traditional algorithm *)


Lemma NewTraditional_inv (ss : list Server) (t : traditional) :
  NewTraditional ss = Ok t -> traditionalInv ss t.
Proof.
  unfold NewTraditional. destruct (init TraditionalAlgorithm ss) as [e|b] eqn:Hi; [discriminate|].
  intros [= <-]. destruct (init_knows _ _ _ Hi) as (Hk & _ & Hb & Hne & _).
  split; [exact Hk|]. cbn. unfold inRange. rewrite Hb.
  destruct Hk as (_ & -> & _). unfold len. destruct ss; [contradiction|cbn; lia].
Qed.

Lemma traditionalResult_inv (ss : list Server) (t : traditional) s ok now l :
  traditionalInv ss t -> traditionalInv ss (snd (traditionalResult t s ok now l)).
Proof.
  intros [Hk Hr]. unfold traditionalResult.
  destruct (serverToIndex (tbase t) !! ptr s) as [ix|]; [|now split].
  destruct ok; [now split|].
  destruct (ix =? bestIndex (tbase t)); [|now split].
  split; [exact Hk|]. unfold inRange in *. cbn. now apply rem_range.
Qed.

Lemma traditional_run_inv (ss : list Server) (t : traditional) (cs : list call) :
  traditionalInv ss t -> traditionalInv ss (snd (run t cs)).
Proof.
  apply (run_invariant (traditionalInv ss)).
  intros t0 s ok now l. apply traditionalResult_inv.
Qed.

(** *** The latency algorithm *)


Lemma NewLatency_inv (c : LatencyConfig) (ss : list Server) (t : latency) :
  NewLatency c ss = Ok t -> latencyKnows ss t.
Proof.
  unfold NewLatency. destruct (init LatencyAlgorithm ss) as [e|b] eqn:Hi; [discriminate|].
  destruct (init_knows _ _ _ Hi) as (Hk & _ & Hb & Hne & _).
  repeat (destruct (_ <? _) || destruct (_ || _); [discriminate|]).
  intros [= <-].
  assert (Hpos : 0 < serverCount b).
  { destruct Hk as (_ & -> & _). unfold len. destruct ss; [contradiction|cbn; lia]. }
  split; [exact Hk|]. unfold latencyInv, inRange. cbn. rewrite Hb.
  repeat split; try lia.
  unfold len. rewrite repeat_length. lia.
Qed.

Lemma reassessBest_inv (ss : list Server) (t : latency) (now : Z) :
  latencyKnows ss t -> latencyKnows ss (reassessBest t now).
Proof.
  intros (Hk & Hb & Hs & Hi & Hl). unfold reassessBest.
  destruct (serverCount (lbase t) =? 1); [split; [exact Hk|]; unfold latencyInv, inRange in *; cbn; auto|].
  pose proof (reassessLoop_inv (config t) now (stats t)
                (Z.to_nat (serverCount (lbase t)))) as Hinv.
  destruct (reassessLoop _ _ _ _) as [[st nb] why].
  destruct Hinv as (Hlen & _ & _ & _ & Hbest).
  assert (Hnb : (if nb =? -1
                 then (Z.rem (bestIndex (lbase t) + 1) (serverCount (lbase t)), algAllBad)
                 else (nb, why)) = (if nb =? -1
                 then Z.rem (bestIndex (lbase t) + 1) (serverCount (lbase t)) else nb,
                                    if nb =? -1 then algAllBad else why))
    by now destruct (nb =? -1).
  rewrite Hnb. split; [exact Hk|]. unfold latencyInv, inRange in *. cbn.
  split; [|split; [exact Hs|split; [exact Hi|]]].
  - destruct (nb =? -1) eqn:E; [now apply rem_range|].
    apply Z.eqb_neq in E. destruct Hbest as [[-> _]|(s & Hpos & Hlt & _)]; lia.
  - unfold len in *. rewrite Hlen. exact Hl.
Qed.

Lemma reassessIfDue_inv (ss : list Server) (t : latency) (now ix : Z) (ok : bool) :
  latencyKnows ss t -> latencyKnows ss (reassessIfDue t now ix ok).
Proof.
  intros H. unfold reassessIfDue.
  match goal with |- context [if ?c then _ else _] => destruct c end.
  - match goal with |- context [reassessBest ?u now] =>
      assert (Hu : latencyKnows ss u) by exact H;
      pose proof (reassessBest_inv ss u now Hu) as (Hk & Hb & Hs & Hi & Hl)
    end.
    split; [exact Hk|]. unfold latencyInv, inRange in *. cbn. auto.
  - exact H.
Qed.

Lemma sampleOthers_inv (ss : list Server) (t : latency) :
  latencyKnows ss t -> latencyKnows ss (sampleOthers t).
Proof.
  intros (Hk & Hb & Hs & Hi & Hl). unfold sampleOthers.
  destruct (_ <? _); [split; [exact Hk|]; unfold latencyInv, inRange in *; cbn; auto|].
  pose proof (rem_range _ (sampleIndex t) Hi) as Hrem.
  destruct (negb _); (split; [exact Hk|]); unfold latencyInv, inRange in *; cbn; auto.
Qed.

Lemma latencyResult_inv (ss : list Server) (t : latency) s ok now l :
  latencyKnows ss t -> latencyKnows ss (snd (latencyResult t s ok now l)).
Proof.
  intros H. unfold latencyResult.
  destruct (serverToIndex (lbase t) !! ptr s) as [ix|]; [|exact H].
  destruct (index (stats t) ix) as [st|]; [|exact H].
  cbn [snd]. unfold assess. apply sampleOthers_inv, reassessIfDue_inv.
  destruct H as (Hk & Hb & Hs & Hi & Hl).
  split; [exact Hk|]. unfold latencyInv, inRange in *. cbn.
  repeat split; try tauto. unfold len in *. now rewrite length_insert.
Qed.

Lemma latency_run_inv (ss : list Server) (t : latency) (cs : list call) :
  latencyKnows ss t -> latencyKnows ss (snd (run t cs)).
Proof.
  apply (run_invariant (latencyKnows ss)).
  intros t0 s ok now l. apply latencyResult_inv.
Qed.

Lemma latencyResult_found (ss : list Server) (t : latency) s ok now l :
  latencyKnows ss t -> fst (latencyResult t s ok now l) = listed ss s.
Proof.
  intros (Hk & Hb & Hs & Hi & Hl). rewrite <- (knows_listed _ _ s Hk).
  unfold latencyResult.
  destruct (serverToIndex (lbase t) !! ptr s) as [ix|] eqn:E.
  - pose proof (knows_index _ _ _ _ Hk E) as [Hlo Hhi].
    unfold index. destruct (ix <? 0) eqn:E0; [apply Z.ltb_lt in E0; lia|].
    destruct (stats t !! Z.to_nat ix) eqn:El.
    + cbn. first [reflexivity|symmetry; apply bool_decide_eq_true; eauto].
    + apply lookup_ge_None in El. unfold len in Hl. lia.
  - cbn. first [reflexivity|symmetry; apply bool_decide_eq_false; now intros [? ?]].
Qed.

Lemma traditionalResult_found (ss : list Server) (t : traditional) s ok now l :
  traditionalInv ss t -> fst (traditionalResult t s ok now l) = listed ss s.
Proof.
  intros [Hk _]. rewrite <- (knows_listed _ _ s Hk). unfold traditionalResult.
  destruct (serverToIndex (tbase t) !! ptr s) as [ix|] eqn:E.
  - replace (bool_decide _) with true by (symmetry; apply bool_decide_eq_true; eauto).
    destruct ok; [reflexivity|]. now destruct (_ =? _).
  - cbn. first [reflexivity|symmetry; apply bool_decide_eq_false; now intros [? ?]].
Qed.

End ManagerInvariants.

Section ManagerTheorems.
Import bestserver.

(** X8: [init], the constructor that both algorithms share, fails exactly
    when the list is empty or holds the same server twice; when it succeeds
    the manager serves the list as given and its best server is the first of
    the list, at index 0. *)
Theorem init_succeeds (alg : string) (ss : list Server) :
  (is_ok (init alg ss) = true <-> ss <> [] /\ List.NoDup (map ptr ss))
  /\ init alg [] = Err NoServers
  /\ forall b, init alg ss = Ok b ->
       algType b = alg /\ servers b = ss /\ serverCount b = len ss
       /\ baseBest b = option_map (fun s => (s, 0)) (head ss).
Proof.
  split; [|split; [reflexivity|]].
  - split.
    + destruct (init alg ss) as [e|b] eqn:Hi; [discriminate|]. intros _.
      destruct (init_knows _ _ _ Hi) as (_ & _ & _ & Hne & Hnd). now split.
    + intros [Hne Hnd]. unfold init.
      destruct (len ss =? 0) eqn:E.
      { apply Z.eqb_eq in E. unfold len in E. destruct ss; [contradiction|cbn in E; lia]. }
      pose proof (initLoop_total ss 0 ∅ Hnd (fun s _ => lookup_empty (ptr s))) as Hok.
      now destruct (initLoop ss 0 ∅).
  - intros b Hi. destruct (init_knows _ _ _ Hi) as ((Hs & Hc & _) & Ha & Hb & Hne & _).
    repeat split; try assumption.
    unfold baseBest, index. rewrite Hb, Hs. now destruct ss.
Qed.

(** X9: a traditional manager, after any sequence of calls: [Servers] is the
    list it was built with, [Best] returns a server of that list together
    with its index (it never indexes outside the list), and [Result] returns
    true exactly for the servers of the list. *)
Theorem traditional_any_history (ss : list Server) (t : traditional) (cs : list call) :
  NewTraditional ss = Ok t ->
  Servers (snd (run t cs)) = ss
  /\ (exists s ix, Best (snd (run t cs)) = Some (s, ix)
                   /\ 0 <= ix /\ ss !! Z.to_nat ix = Some s)
  /\ forall s ok now l, fst (Result (snd (run t cs)) s ok now l) = listed ss s.
Proof.
  intros Hnew.
  pose proof (traditional_run_inv ss t cs (NewTraditional_inv _ _ Hnew)) as Hinv.
  destruct Hinv as [Hk Hr]. split; [apply Hk|]. split.
  - destruct (knows_Best _ _ Hk Hr) as (s & HB & Hl).
    exists s, (bestIndex (tbase (snd (run t cs)))). split; [exact HB|].
    split; [apply Hr|exact Hl].
  - intros s ok now l. apply traditionalResult_found. now split.
Qed.

(** X10: a latency manager, after any sequence of calls: [Servers] is the
    list it was built with, [Best] returns a server of that list together
    with its index, whatever reassessment and sampling have done, and
    [Result] returns true exactly for the servers of the list. *)
Theorem latency_any_history (c : LatencyConfig) (ss : list Server) (t : latency)
    (cs : list call) :
  NewLatency c ss = Ok t ->
  Servers (snd (run t cs)) = ss
  /\ (exists s ix, Best (snd (run t cs)) = Some (s, ix)
                   /\ 0 <= ix /\ ss !! Z.to_nat ix = Some s)
  /\ forall s ok now l, fst (Result (snd (run t cs)) s ok now l) = listed ss s.
Proof.
  intros Hnew.
  pose proof (latency_run_inv ss t cs (NewLatency_inv _ _ _ Hnew)) as Hinv.
  destruct Hinv as (Hk & Hb & Hrest). split; [apply Hk|]. split.
  - destruct (knows_Best _ _ Hk Hb) as (s & HB & Hl).
    exists s, (bestIndex (lbase (snd (run t cs)))). split; [exact HB|].
    split; [apply Hb|exact Hl].
  - intros s ok now l. apply latencyResult_found. now split.
Qed.

(** X11: the traditional algorithm, after any sequence of calls: a failure
    reported for the server that [Best] returns makes the next server of the
    list the best, the first one after the last; a success, or a report for
    any other server, leaves the best server as it is. *)
Theorem traditional_next_on_failure (ss : list Server) (t : traditional)
    (cs : list call) (s : Server) (ix : Z) (s' : Server) (ok : bool) (now l : Z) :
  NewTraditional ss = Ok t ->
  Best (snd (run t cs)) = Some (s, ix) ->
  Best (snd (Result (snd (run t cs)) s' ok now l))
  = if negb ok && (ptr s' =? ptr s)%nat
    then option_map (fun x => (x, (ix + 1) mod len ss))
           (ss !! Z.to_nat ((ix + 1) mod len ss))
    else Some (s, ix).
Proof.
  intros Hnew HB.
  pose proof (traditional_run_inv ss t cs (NewTraditional_inv _ _ Hnew)) as [Hk Hr].
  set (t' := snd (run t cs)) in *.
  destruct (knows_Best _ _ Hk Hr) as (s0 & HB0 & Hl).
  cbn [Best traditionalManager] in HB. rewrite HB0 in HB. injection HB as -> <-.
  destruct Hk as (Hs & Hc & Hidx & Hrev).
  assert (Hsix : serverToIndex (tbase t') !! ptr s = Some (bestIndex (tbase t'))).
  { rewrite (Hidx _ _ Hl). f_equal. apply Z2Nat.id, Hr. }
  cbn [Result Best traditionalManager]. unfold traditionalResult.
  destruct (serverToIndex (tbase t') !! ptr s') as [ix'|] eqn:E.
  - destruct ok; cbn [negb andb snd]; [exact HB0|].
    destruct (Hrev _ _ E) as (s'' & Hpos & Hl'' & Hptr).
    destruct (ix' =? bestIndex (tbase t')) eqn:Eix.
    + apply Z.eqb_eq in Eix. subst ix'.
      rewrite Hl in Hl''. injection Hl'' as <-.
      rewrite Hptr, Nat.eqb_refl. cbn [snd].
      unfold baseBest, index. cbn [tbase servers bestIndex set_bestIndex].
      unfold inRange in Hr.
      rewrite Z.rem_mod_nonneg by lia. rewrite Hc, Hs.
      assert (Hm : 0 <= (bestIndex (tbase t') + 1) mod len ss < len ss)
        by (apply Z.mod_pos_bound; lia).
      replace (_ <? 0) with false by (symmetry; apply Z.ltb_ge; lia).
      now destruct (ss !! _).
    + apply Z.eqb_neq in Eix.
      replace (ptr s' =? ptr s)%nat with false; [exact HB0|].
      symmetry. apply Nat.eqb_neq. intros Heq. rewrite Heq, Hsix in E. congruence.
  - replace (ptr s' =? ptr s)%nat with false; [now rewrite andb_false_r|].
    symmetry. apply Nat.eqb_neq. intros Heq. rewrite Heq, Hsix in E. congruence.
Qed.

End ManagerTheorems.

Lemma traditional_any_history_witness :
  exists s ix,
    bestserver.Best
      (snd (bestserver.run (examples.traditionalOf [examples.s0; examples.s1; examples.s2])
              [bestserver.CallResult examples.s0 false 1 0;
               bestserver.CallResult examples.s1 false 2 0;
               bestserver.CallResult examples.s2 false 3 0;
               bestserver.CallResult examples.s0 false 4 0]))
    = Some (s, ix)
    /\ 0 <= ix /\ [examples.s0; examples.s1; examples.s2] !! Z.to_nat ix = Some s.
Proof.
  apply (traditional_any_history [examples.s0; examples.s1; examples.s2]).
  reflexivity.
Defined.

Lemma latency_any_history_witness :
  exists s ix,
    bestserver.Best
      (snd (bestserver.run (examples.latencyOf [examples.s0; examples.s1])
              [bestserver.CallResult examples.s0 false 10 0;
               bestserver.CallResult examples.s1 false 20 0;
               bestserver.CallResult examples.s0 true 30 5]))
    = Some (s, ix)
    /\ 0 <= ix /\ [examples.s0; examples.s1] !! Z.to_nat ix = Some s.
Proof.
  apply (latency_any_history examples.noLatencyConfig [examples.s0; examples.s1]).
  reflexivity.
Defined.

Lemma traditional_next_on_failure_witness :
  bestserver.Best
    (snd (bestserver.Result
            (snd (bestserver.run
                    (examples.traditionalOf [examples.s0; examples.s1; examples.s2])
                    [bestserver.CallResult examples.s0 false 1 0;
                     bestserver.CallResult examples.s1 false 2 0]))
            examples.s2 false 3 0))
  = Some (examples.s0, 0).
Proof.
  rewrite (traditional_next_on_failure [examples.s0; examples.s1; examples.s2]
             (examples.traditionalOf [examples.s0; examples.s1; examples.s2])
             _ examples.s2 2); reflexivity.
Defined.

Lemma int64_of_small (z : Z) : - 2 ^ 63 <= z < 2 ^ 63 -> int64_of z = z.
Proof.
  intros H. unfold int64_of. rewrite Z.mod_small by lia. lia.
Qed.

(** X12: the statistics that [latency.Result] keeps for a server: the time
    and the outcome of the report are recorded; a failure leaves the weighted
    average alone; a success moves it to a value between the previous average
    and the reported latency (to the latency itself when there was no
    average), for a weight of 1 to 100 percent and durations below 2^56
    nanoseconds. *)
Theorem updateStats_average (c : bestserver.LatencyConfig)
    (s : bestserver.latencyServerStats) (ok : bool) (now lat : Z) :
  1 <= bestserver.WeightForLatest c <= 100 ->
  0 <= lat < 2 ^ 56 -> 0 <= bestserver.weightedAverage s < 2 ^ 56 ->
  let s' := bestserver.updateStats c s ok now lat in
  bestserver.lastStatusTime s' = now
  /\ bestserver.lastStatusWasFailure s' = negb ok
  /\ (ok = false -> bestserver.weightedAverage s' = bestserver.weightedAverage s)
  /\ (ok = true -> bestserver.weightedAverage s = 0 -> bestserver.weightedAverage s' = lat)
  /\ (ok = true ->
      Z.min (bestserver.weightedAverage s) lat <= bestserver.weightedAverage s'
      <= Z.max (bestserver.weightedAverage s) lat).
Proof.
  intros Hw Hl Ha. cbv zeta. unfold bestserver.updateStats.
  cbn [bestserver.lastStatusTime bestserver.lastStatusWasFailure bestserver.weightedAverage].
  split; [reflexivity|]. split; [reflexivity|].
  destruct ok; (split; [intros; congruence|]).
  - destruct (Z.eqb_spec (bestserver.weightedAverage s) 0) as [E|E].
    + split; [reflexivity|]. intros _. lia.
    + split; [intros _ H; contradiction|]. intros _.
      set (W := bestserver.WeightForLatest c) in *.
      set (a := bestserver.weightedAverage s) in *.
      assert (H56 : 2 ^ 56 * 100 < 2 ^ 63) by (vm_compute; reflexivity).
      rewrite (int64_of_small (lat * W)) by nia.
      rewrite (int64_of_small (a * (100 - W))) by nia.
      rewrite int64_of_small by nia.
      rewrite Z.quot_div_nonneg by nia.
      split.
      * apply Z.div_le_lower_bound; [lia|]. nia.
      * apply Z.div_le_upper_bound; [lia|]. nia.
  - split; discriminate.
Qed.

Lemma updateStats_average_witness :
  bestserver.weightedAverage
    (bestserver.updateStats bestserver.DefaultLatencyConfig
       (bestserver.mkStats 5 false 30000000) true 9 60000000) = 50100000
  /\ Z.min 30000000 60000000
     <= bestserver.weightedAverage
          (bestserver.updateStats bestserver.DefaultLatencyConfig
             (bestserver.mkStats 5 false 30000000) true 9 60000000)
     <= Z.max 30000000 60000000.
Proof.
  split; [reflexivity|].
  apply (updateStats_average bestserver.DefaultLatencyConfig
           (bestserver.mkStats 5 false 30000000) true 9 60000000);
    [vm_compute; split; discriminate|lia|cbn; lia|reflexivity].
Defined.

(** ** The concurrency counter *)


Section CounterFacts.
Import concurrencytracker.

Lemma Counter_run (cs : list call) :
  forall t : Counter,
    0 <= current t <= peak t -> current t + len cs < 2 ^ 63 ->
    (is_Some (run t cs) <-> matched (current t) cs = true)
    /\ forall rs t', run t cs = Some (rs, t') ->
         0 <= current t' <= peak t'
         /\ current t' = current t + len (List.filter isAdd cs) - len (List.filter isDone cs)
         /\ (forallb (fun c => negb (isReset c)) cs = true ->
             peak t' = highest (current t) (peak t) cs).
Proof.
  induction cs as [|c cs IH]; intros t Hinv Hlen.
  - split; [split; [reflexivity|intros _; cbn; eauto]|].
    intros rs t' [= <- <-]. cbn. repeat split; try lia.
  - assert (Hl : len (c :: cs) = len cs + 1) by (unfold len; cbn [length]; lia).
    rewrite Hl in Hlen. cbn [run].
    assert (Hnn : 0 <= len cs) by (unfold len; lia).
    destruct c as [| |r]; cbn [exec matched highest].
    + unfold Add. rewrite int64_of_small by lia.
      set (t1 := if peak t <? current t + 1
                 then mkCounter (current t + 1) (current t + 1)
                 else mkCounter (current t + 1) (peak t)).
      assert (H1 : current t1 = current t + 1 /\ peak t1 = Z.max (peak t) (current t + 1)).
      { subst t1. destruct (Z.ltb_spec (peak t) (current t + 1)); cbn; lia. }
      destruct H1 as [Hc Hp].
      replace (let (b, t') := if peak t <? current t + 1
                              then (true, mkCounter (current t + 1) (current t + 1))
                              else (false, mkCounter (current t + 1) (peak t))
               in Some (RAdd b, t'))
        with (Some (RAdd (peak t <? current t + 1), t1))
        by (subst t1; now destruct (peak t <? current t + 1)).
      destruct (IH t1) as [IH1 IH2]; [lia|lia|].
      rewrite Hc, Hp in *. split.
      * rewrite <- IH1. destruct (run t1 cs) as [[rs t2]|]; [split; eauto|].
        split; intros [x Hx]; discriminate.
      * intros rs t'. destruct (run t1 cs) as [[rs' t2]|] eqn:E; [|discriminate].
        intros [= <- <-]. destruct (IH2 _ _ eq_refl) as (Ha & Hb & Hc').
        cbn [List.filter isAdd isDone forallb isReset negb andb].
        split; [exact Ha|]. split; [|exact Hc'].
        rewrite Hb. unfold len. cbn [length]. lia.
    + unfold Done. destruct (Z.eqb_spec (current t) 0) as [E0|E0].
      * replace (0 <? current t) with false by (symmetry; apply Z.ltb_ge; lia).
        split; [split; [intros [x Hx]; discriminate|discriminate]|]. discriminate.
      * replace (0 <? current t) with true by (symmetry; apply Z.ltb_lt; lia).
        rewrite int64_of_small by lia. cbn [andb].
        set (t1 := mkCounter (current t - 1) (peak t)).
        destruct (IH t1) as [IH1 IH2]; [cbn; lia|cbn; lia|].
        cbn [current peak t1] in IH1, IH2. split.
        -- rewrite <- IH1. destruct (run t1 cs) as [[rs t2]|]; [split; eauto|].
           split; intros [x Hx]; discriminate.
        -- intros rs t'. destruct (run t1 cs) as [[rs' t2]|] eqn:E; [|discriminate].
           intros [= <- <-]. destruct (IH2 _ _ eq_refl) as (Ha & Hb & Hc').
           cbn [List.filter isAdd isDone forallb isReset negb andb].
           split; [exact Ha|]. split; [|exact Hc'].
           rewrite Hb. unfold len. cbn [length]. lia.
    + unfold Peak.
      set (t1 := if r then mkCounter (current t) (current t) else t).
      assert (H1 : current t1 = current t /\ 0 <= current t1 <= peak t1
                   /\ (r = false -> peak t1 = peak t)).
      { subst t1. destruct r; cbn; repeat split; try lia; discriminate. }
      destruct H1 as (Hc & Hi & Hp).
      destruct (IH t1) as [IH1 IH2]; [lia|lia|].
      rewrite Hc in *. split.
      * rewrite <- IH1. destruct (run t1 cs) as [[rs t2]|]; [split; eauto|].
        split; intros [x Hx]; discriminate.
      * intros rs t'. destruct (run t1 cs) as [[rs' t2]|] eqn:E; [|discriminate].
        intros [= <- <-]. destruct (IH2 _ _ eq_refl) as (Ha & Hb & Hc').
        cbn [List.filter isAdd isDone forallb isReset].
        split; [exact Ha|]. split; [exact Hb|].
        destruct r; cbn [negb andb]; [discriminate|].
        intros Hno. rewrite (Hc' Hno), Hp; reflexivity.
Qed.

(** X13: a sequence of fewer than 2^63 calls on a new counter runs without
    panic exactly when every [Done] has an [Add] before it that it matches;
    it then leaves [current] at the number of [Add] less the number of
    [Done], between 0 and [peak]. *)
Theorem Counter_matched (cs : list call) :
  len cs < 2 ^ 63 ->
  (is_Some (run zero cs) <-> matched 0 cs = true)
  /\ forall rs t, run zero cs = Some (rs, t) ->
       0 <= current t <= peak t
       /\ current t = len (List.filter isAdd cs) - len (List.filter isDone cs).
Proof.
  intros Hlen. destruct (Counter_run cs zero) as [H1 H2]; [cbn; lia|cbn; lia|].
  split; [exact H1|]. intros rs t Hrun.
  destruct (H2 _ _ Hrun) as (Ha & Hb & _). cbn in Hb. split; [exact Ha|lia].
Qed.

(** X14: [Peak] with reset, then calls of [Add] and [Done], then [Peak]: the
    second [Peak] returns the highest number of requests that were under way
    at any point since the reset, the number under way at the reset
    included. *)
Theorem Counter_peak_since_reset (t : Counter) (cs : list call) (r : bool)
    (rs : list reply) (t' : Counter) :
  0 <= current t <= peak t -> current t + len cs < 2 ^ 63 ->
  forallb (fun c => isAdd c || isDone c) cs = true ->
  run t (CallPeak true :: cs ++ [CallPeak r]) = Some (rs, t') ->
  last rs = Some (RPeak (highest (current t) (current t) cs)).
Proof.
  intros Hinv Hlen Hops. cbn [run exec Peak].
  set (t1 := mkCounter (current t) (current t)).
  assert (Hsplit : forall (u : Counter) (a b : list call),
             run u (a ++ b)
             = match run u a with
               | None => None
               | Some (ra, u') =>
                   match run u' b with
                   | None => None
                   | Some (rb, u'') => Some (ra ++ rb, u'')
                   end
               end).
  { intros u a. revert u. induction a as [|x a IHa]; intros u b.
    - cbn. now destruct (run u b) as [[? ?]|].
    - cbn [run app]. destruct (exec u x) as [[rx ux]|]; [|reflexivity].
      rewrite IHa. destruct (run ux a) as [[ra ua]|]; [|reflexivity].
      now destruct (run ua b) as [[rb ub]|]. }
  rewrite Hsplit.
  destruct (run t1 cs) as [[rcs t2]|] eqn:E; [|discriminate].
  destruct (Counter_run cs t1) as [_ H2]; [cbn; lia|cbn; lia|].
  destruct (H2 _ _ E) as (_ & _ & Hpk).
  cbn [run exec Peak]. intros [= <- <-].
  rewrite last_cons, last_snoc. f_equal. f_equal. apply Hpk.
  clear - Hops. induction cs as [|c cs IH]; [reflexivity|].
  cbn in Hops. apply andb_true_iff in Hops as [Hc Hcs].
  destruct c as [| |r]; cbn; auto. discriminate.
Qed.

End CounterFacts.

Lemma Counter_matched_witness :
  is_Some (concurrencytracker.run concurrencytracker.zero
             [concurrencytracker.CallAdd; concurrencytracker.CallAdd;
              concurrencytracker.CallDone; concurrencytracker.CallPeak true;
              concurrencytracker.CallDone])
  <-> concurrencytracker.matched 0
        [concurrencytracker.CallAdd; concurrencytracker.CallAdd;
         concurrencytracker.CallDone; concurrencytracker.CallPeak true;
         concurrencytracker.CallDone] = true.
Proof.
  apply (Counter_matched
           [concurrencytracker.CallAdd; concurrencytracker.CallAdd;
            concurrencytracker.CallDone; concurrencytracker.CallPeak true;
            concurrencytracker.CallDone]).
  vm_compute. reflexivity.
Defined.

Lemma Counter_peak_since_reset_witness :
  exists rs t',
    concurrencytracker.run (concurrencytracker.mkCounter 1 5)
      (concurrencytracker.CallPeak true
         :: [concurrencytracker.CallAdd; concurrencytracker.CallAdd;
             concurrencytracker.CallDone; concurrencytracker.CallAdd]
         ++ [concurrencytracker.CallPeak false]) = Some (rs, t')
    /\ last rs = Some (concurrencytracker.RPeak 3).
Proof.
  eexists _, _. split; [vm_compute; reflexivity|].
  apply (Counter_peak_since_reset (concurrencytracker.mkCounter 1 5)
           [concurrencytracker.CallAdd; concurrencytracker.CallAdd;
            concurrencytracker.CallDone; concurrencytracker.CallAdd] false _
           (concurrencytracker.mkCounter 3 3)).
  - cbn. lia.
  - vm_compute. reflexivity.
  - reflexivity.
  - vm_compute. reflexivity.
Defined.

(** ** The connection tracker *)

Section TrackerFacts.
Import connectiontracker.

Lemma sum_insert (l : list Z) (i : nat) (x y : Z) :
  l !! i = Some x ->
  fold_right Z.add 0 (<[i := y]> l) = fold_right Z.add 0 l - x + y.
Proof.
  revert i. induction l as [|a l IH]; intros i; [discriminate|].
  destruct i as [|i].
  - intros [= ->]. cbn. lia.
  - intros H. change (<[S i := y]> (a :: l)) with (a :: <[i := y]> l).
    cbn [fold_right]. rewrite (IH i H). lia.
Qed.

Lemma sum_nonneg (l : list Z) :
  Forall (fun e => 0 <= e) l -> 0 <= fold_right Z.add 0 l.
Proof. induction 1; cbn; lia. Qed.

Lemma sum_bound (l : list Z) (i : nat) (x : Z) :
  Forall (fun e => 0 <= e) l -> l !! i = Some x -> 0 <= x <= fold_right Z.add 0 l.
Proof.
  intros H. revert i. induction H as [|a l Ha Hl IH]; intros i; [discriminate|].
  pose proof (sum_nonneg l Hl). destruct i as [|i]; cbn.
  - intros [= ->]. lia.
  - intros Hi. specialize (IH i Hi). lia.
Qed.

(** [t.errors[e]++] adds one to the sum of the counters and keeps them in
    shape. *)
Lemma bump_errs (e : errIx) (n : Z) (s : trackerStats) :
  length (errors s) = errArSize -> Forall (fun x => 0 <= x) (errors s) ->
  fold_right Z.add 0 (errors s) <= n -> n + 1 < 2 ^ 63 ->
  length (errors (bump e s)) = errArSize
  /\ Forall (fun x => 0 <= x) (errors (bump e s))
  /\ fold_right Z.add 0 (errors (bump e s)) = fold_right Z.add 0 (errors s) + 1
  /\ peakConns (bump e s) = peakConns s.
Proof.
  intros Hlen Hpos Hsum Hn. unfold bump. cbn [errors peakConns].
  destruct (errors s !! errPos e) as [x|] eqn:Hx.
  2:{ apply lookup_ge_None in Hx. rewrite Hlen in Hx. unfold errArSize in Hx.
      destruct e; cbn in Hx; lia. }
  pose proof (sum_bound _ _ _ Hpos Hx) as Hb.
  change (default 0 (Some x)) with x. rewrite int64_of_small by lia.
  split; [now rewrite length_insert|]. split.
  - apply Forall_insert; [exact Hpos|lia].
  - split; [|reflexivity]. rewrite (sum_insert _ _ x) by exact Hx. lia.
Qed.

Lemma tracked_bump (e : errIx) (n : Z) (t : Tracker) :
  tracked n t -> n + 1 < 2 ^ 63 ->
  tracked (n + 1) (mkTracker (name t) (connMap t) (bump e (stats t)))
  /\ errs (mkTracker (name t) (connMap t) (bump e (stats t))) = errs t + 1.
Proof.
  intros (Hc & Hlen & Hpos & Hsum) Hn.
  destruct (bump_errs e n (stats t) Hlen Hpos Hsum Hn) as (H1 & H2 & H3 & _).
  unfold tracked, errs in *. cbn [connMap stats].
  split; [|exact H3].
  split; [intros k c Hk; specialize (Hc k c Hk); lia|].
  split; [exact H1|]. split; [exact H2|]. lia.
Qed.

Lemma tracked_insert (n : Z) (t : Tracker) (key : string) (c : connection) :
  tracked n t -> 0 <= currentSessions c <= peakSessions c -> peakSessions c <= n + 1 ->
  tracked (n + 1) (mkTracker (name t) (<[key := c]> (connMap t)) (stats t)).
Proof.
  intros (Hc & Hlen & Hpos & Hsum) H1 H2. unfold tracked, errs in *. cbn [connMap stats].
  split; [|split; [exact Hlen|split; [exact Hpos|lia]]].
  intros k c' Hk. apply lookup_insert_Some in Hk as [[_ <-]|[_ Hk]]; [lia|].
  specialize (Hc k c' Hk). lia.
Qed.

Lemma tracked_stats (n : Z) (t : Tracker) (m : gmap string connection)
    (s : trackerStats) :
  tracked n t -> errors s = errors (stats t) ->
  (forall k c, m !! k = Some c ->
     0 <= currentSessions c <= peakSessions c /\ peakSessions c <= n + 1) ->
  tracked (n + 1) (mkTracker (name t) m s).
Proof.
  intros (Hc & Hlen & Hpos & Hsum) He Hm. unfold tracked, errs in *. cbn [connMap stats].
  rewrite He. split; [exact Hm|]. split; [exact Hlen|]. split; [exact Hpos|lia].
Qed.

(** One call: the shape is kept, and the sum of the error counters grows by
    one exactly when the call returns false. *)
Lemma exec_tracked (n : Z) (t : Tracker) (c : call) :
  tracked n t -> n + 1 < 2 ^ 63 -> isReset c = false ->
  tracked (n + 1) (snd (exec t c))
  /\ errs (snd (exec t c)) = errs t + (if fst (exec t c) then 0 else 1).
Proof.
  intros Ht Hn Hc. pose proof Ht as (Hconn & Hlen & Hpos & Hsum).
  assert (Hn0 : 0 <= n) by (pose proof (sum_nonneg _ Hpos); unfold errs in Hsum; lia).
  assert (Hsame : tracked (n + 1) t).
  { unfold tracked in *. split; [intros k c' Hk; specialize (Hconn k c' Hk); lia|].
    split; [exact Hlen|]. split; [exact Hpos|lia]. }
  destruct c as [key now state|key|key|]; [| | |discriminate]; cbn [exec].
  - unfold ConnState. destruct state.
    + (* StateNew *)
      destruct (connMap t !! key) as [cs|] eqn:Hk.
      * replace (bool_decide (is_Some (Some cs))) with true
          by (symmetry; apply bool_decide_eq_true; eauto).
        cbn [negb fst snd].
        destruct (bump_errs errDanglingConn n (stats t) Hlen Hpos Hsum Hn)
          as (H1 & H2 & H3 & H4).
        match goal with |- context [if ?b then mkStats ?a _ _ _ ?e else ?s] =>
          assert (He : errors (if b then mkStats a (tPeakSessions s) (connFor s)
                                           (tActiveFor s) e else s) = errors s)
            by (destruct b; reflexivity)
        end.
        unfold tracked, errs. cbn [connMap stats]. rewrite He.
        split; [|exact H3].
        split; [|split; [exact H1|split; [exact H2|unfold errs in Hsum; lia]]].
        intros k c' Hk'. apply lookup_insert_Some in Hk' as [[_ <-]|[_ Hk']]; [cbn; lia|].
        specialize (Hconn k c' Hk'). lia.
      * replace (bool_decide (is_Some None)) with false
          by (symmetry; apply bool_decide_eq_false; now intros [? ?]).
        cbn [negb fst snd].
        match goal with |- context [if ?b then mkStats ?a _ _ _ ?e else ?s] =>
          assert (He : errors (if b then mkStats a (tPeakSessions s) (connFor s)
                                           (tActiveFor s) e else s) = errors s)
            by (destruct b; reflexivity)
        end.
        unfold tracked, errs. cbn [connMap stats]. rewrite He.
        split; [|lia].
        split; [|split; [exact Hlen|split; [exact Hpos|unfold errs in Hsum; lia]]].
        intros k c' Hk'. apply lookup_insert_Some in Hk' as [[_ <-]|[_ Hk']]; [cbn; lia|].
        specialize (Hconn k c' Hk'). lia.
    + (* StateActive *)
      destruct (connMap t !! key) as [cs|] eqn:Hk;
        [|cbn [fst snd]; apply tracked_bump; assumption].
      cbn [fst snd]. split; [|unfold errs; cbn; lia].
      specialize (Hconn _ _ Hk). apply tracked_insert; [exact Ht|cbn; lia|cbn; lia].
    + (* StateIdle *)
      destruct (connMap t !! key) as [cs|] eqn:Hk;
        [|cbn [fst snd]; apply tracked_bump; assumption].
      cbn [fst snd]. specialize (Hconn _ _ Hk).
      destruct (negb (activeStart cs =? 0)); (split; [|unfold errs; cbn; lia]);
        [apply tracked_insert; [exact Ht|cbn; lia|cbn; lia]|exact Hsame].
    + (* StateHijacked *)
      destruct (connMap t !! key) as [cs|] eqn:Hk;
        [|cbn [fst snd]; apply tracked_bump; assumption].
      cbv zeta. specialize (Hconn _ _ Hk).
      set (s1 := mkStats _ _ _ _ _).
      assert (Hdel : forall k c', delete key (connMap t) !! k = Some c' ->
                       0 <= currentSessions c' <= peakSessions c' /\ peakSessions c' <= n + 1).
      { intros k c' Hk'. apply lookup_delete_Some in Hk' as [_ Hk'].
        destruct Ht as (Hconn' & _). specialize (Hconn' k c' Hk'). lia. }
      destruct (0 <? currentSessions cs); cbn [fst snd].
      * destruct (bump_errs errConnsLost n s1) as (H1 & H2 & H3 & _); try assumption.
        unfold tracked, errs. cbn [connMap stats].
        split; [|exact H3]. split; [exact Hdel|]. split; [exact H1|].
        split; [exact H2|]. subst s1. cbn [errors] in H3. unfold errs in Hsum. lia.
      * split; [|unfold errs; cbn [stats]; destruct (_ <? _); cbn; lia].
        apply tracked_stats; [exact Ht| |exact Hdel]. now destruct (_ <? _).
    + (* StateClosed *)
      destruct (connMap t !! key) as [cs|] eqn:Hk;
        [|cbn [fst snd]; apply tracked_bump; assumption].
      cbv zeta. specialize (Hconn _ _ Hk).
      set (s1 := mkStats _ _ _ _ _).
      assert (Hdel : forall k c', delete key (connMap t) !! k = Some c' ->
                       0 <= currentSessions c' <= peakSessions c' /\ peakSessions c' <= n + 1).
      { intros k c' Hk'. apply lookup_delete_Some in Hk' as [_ Hk'].
        destruct Ht as (Hconn' & _). specialize (Hconn' k c' Hk'). lia. }
      destruct (0 <? currentSessions cs); cbn [fst snd].
      * destruct (bump_errs errConnsLost n s1) as (H1 & H2 & H3 & _); try assumption.
        unfold tracked, errs. cbn [connMap stats].
        split; [|exact H3]. split; [exact Hdel|]. split; [exact H1|].
        split; [exact H2|]. subst s1. cbn [errors] in H3. unfold errs in Hsum. lia.
      * split; [|unfold errs; cbn [stats]; destruct (_ <? _); cbn; lia].
        apply tracked_stats; [exact Ht| |exact Hdel]. now destruct (_ <? _).
    + (* any other state *)
      destruct (connMap t !! key) as [cs|] eqn:Hk;
        cbn [fst snd]; apply tracked_bump; assumption.
  - unfold SessionAdd. destruct (connMap t !! key) as [cs|] eqn:Hk;
      [|cbn [fst snd]; apply tracked_bump; assumption].
    specialize (Hconn _ _ Hk). cbn [fst snd]. rewrite int64_of_small by lia.
    split; [|unfold errs; cbn; lia].
    apply tracked_insert; [exact Ht| |];
      cbn; destruct (Z.ltb_spec (peakSessions cs) (currentSessions cs + 1)); lia.
  - unfold SessionDone. destruct (connMap t !! key) as [cs|] eqn:Hk;
      [|cbn [fst snd]; apply tracked_bump; assumption].
    specialize (Hconn _ _ Hk).
    destruct (Z.leb_spec (currentSessions cs) 0);
      [cbn [fst snd]; apply tracked_bump; assumption|].
    cbn [fst snd]. rewrite int64_of_small by lia.
    split; [|unfold errs; cbn; lia].
    apply tracked_insert; [exact Ht|cbn; lia|cbn; lia].
Qed.

Lemma run_tracked (cs : list call) :
  forall (n : Z) (t : Tracker),
    tracked n t -> n + len cs < 2 ^ 63 -> forallb (fun c => negb (isReset c)) cs = true ->
    tracked (n + len cs) (snd (run t cs))
    /\ errs (snd (run t cs)) = errs t + refused (fst (run t cs)).
Proof.
  induction cs as [|c cs IH]; intros n t Ht Hn Hno.
  - cbn [run fst snd]. change (len (@nil call)) with 0. rewrite Z.add_0_r.
    split; [exact Ht|]. change (refused []) with 0. lia.
  - assert (Hl : len (c :: cs) = len cs + 1) by (unfold len; cbn [length]; lia).
    assert (Hnn : 0 <= len cs) by (unfold len; lia).
    rewrite Hl in *. cbn in Hno. apply andb_true_iff in Hno as [Hc Hcs].
    apply negb_true_iff in Hc.
    destruct (exec_tracked n t c Ht) as [H1 H2]; [lia|exact Hc|].
    cbn [run]. destruct (exec t c) as [r t1]. cbn [fst snd] in H1, H2.
    destruct (IH (n + 1) t1 H1) as [H3 H4]; [lia|exact Hcs|].
    destruct (run t1 cs) as [rs t2]. cbn [fst snd] in *.
    split; [now replace (n + (len cs + 1)) with (n + 1 + len cs) by lia|].
    rewrite H4, H2. unfold refused, len. destruct r; cbn; lia.
Qed.

Lemma tracked_reset (n : Z) (t : Tracker) :
  tracked n t -> tracked (n + 1) (resetCounters t).
Proof.
  intros (Hconn & Hlen & Hpos & Hsum).
  assert (Hn0 : 0 <= n) by (pose proof (sum_nonneg _ Hpos); unfold errs in Hsum; lia).
  unfold tracked, errs. cbn.
  split; [intros k c Hk; specialize (Hconn k c Hk); lia|].
  split; [reflexivity|]. split; [repeat constructor; lia|lia].
Qed.

Lemma run_tracked_any (cs : list call) :
  forall (n : Z) (t : Tracker),
    tracked n t -> n + len cs < 2 ^ 63 -> tracked (n + len cs) (snd (run t cs)).
Proof.
  induction cs as [|c cs IH]; intros n t Ht Hn.
  - cbn [run fst snd]. change (len (@nil call)) with 0. now rewrite Z.add_0_r.
  - assert (Hl : len (c :: cs) = len cs + 1) by (unfold len; cbn [length]; lia).
    assert (Hnn : 0 <= len cs) by (unfold len; lia).
    rewrite Hl in *.
    assert (H1 : tracked (n + 1) (snd (exec t c))).
    { destruct (isReset c) eqn:Hc.
      - destruct c; try discriminate. cbn. now apply tracked_reset.
      - apply exec_tracked; [exact Ht|lia|exact Hc]. }
    cbn [run]. destruct (exec t c) as [r t1]. cbn [snd] in H1.
    specialize (IH (n + 1) t1 H1). destruct (run t1 cs) as [rs t2]. cbn [snd] in *.
    replace (n + (len cs + 1)) with (n + 1 + len cs) by lia. apply IH. lia.
Qed.


Lemma peakConns_bump (e : errIx) (s : trackerStats) : peakConns (bump e s) = peakConns s.
Proof. reflexivity. Qed.

Lemma exec_peakCovers (t : Tracker) (c : call) :
  peakCovers t -> isReset c = false -> peakCovers (snd (exec t c)).
Proof.
  unfold peakCovers. intros Hp Hc.
  assert (Hins : forall key cs v, connMap t !! key = Some cs ->
                   size (<[key := v]> (connMap t)) = size (connMap t)).
  { intros key cs v Hk. apply map_size_insert_Some. eauto. }
  destruct c as [key now state|key|key|]; [| | |discriminate]; cbn [exec].
  - unfold ConnState. destruct state;
      destruct (connMap t !! key) as [cs|] eqn:Hk; cbv zeta; cbn [fst snd connMap stats];
      rewrite ?peakConns_bump; try exact Hp.
    + match goal with |- context [if ?b then _ else _] => destruct b eqn:E end;
        cbn [peakConns]; rewrite ?peakConns_bump; [lia|].
      apply Z.ltb_ge in E. rewrite ?peakConns_bump in E. exact E.
    + match goal with |- context [if ?b then _ else _] => destruct b eqn:E end;
        cbn [peakConns]; [lia|]. apply Z.ltb_ge in E. exact E.
    + rewrite (Hins _ _ _ Hk). exact Hp.
    + destruct (negb _); cbn [connMap stats]; [rewrite (Hins _ _ _ Hk)|]; exact Hp.
    + assert (Hd : (size (delete key (connMap t)) <= size (connMap t))%nat)
        by (rewrite map_size_delete, Hk; cbn; lia).
      destruct (0 <? currentSessions cs); cbn [snd connMap stats];
        rewrite ?peakConns_bump; [cbn [peakConns]; lia|].
      destruct (_ <? _); cbn [peakConns]; lia.
    + assert (Hd : (size (delete key (connMap t)) <= size (connMap t))%nat)
        by (rewrite map_size_delete, Hk; cbn; lia).
      destruct (0 <? currentSessions cs); cbn [snd connMap stats];
        rewrite ?peakConns_bump; [cbn [peakConns]; lia|].
      destruct (_ <? _); cbn [peakConns]; lia.
  - unfold SessionAdd. destruct (connMap t !! key) as [cs|] eqn:Hk;
      cbn [snd connMap stats]; rewrite ?peakConns_bump; [|exact Hp].
    rewrite (Hins _ _ _ Hk). exact Hp.
  - unfold SessionDone. destruct (connMap t !! key) as [cs|] eqn:Hk;
      [destruct (_ <=? _)|]; cbn [snd connMap stats]; rewrite ?peakConns_bump;
      try exact Hp.
    rewrite (Hins _ _ _ Hk). exact Hp.
Qed.

Lemma run_peakCovers (cs : list call) :
  forall t : Tracker,
    peakCovers t -> forallb (fun c => negb (isReset c)) cs = true ->
    peakCovers (snd (run t cs)).
Proof.
  induction cs as [|c cs IH]; intros t Hp Hno; [exact Hp|].
  cbn in Hno. apply andb_true_iff in Hno as [Hc Hcs]. apply negb_true_iff in Hc.
  pose proof (exec_peakCovers t c Hp Hc) as H1.
  cbn [run]. destruct (exec t c) as [r t1]. cbn [snd] in H1.
  specialize (IH t1 H1 Hcs). now destruct (run t1 cs).
Qed.

Lemma tracked_New (nm : string) : tracked 0 (New nm).
Proof.
  split; [intros k c Hk; cbn in Hk; now apply lookup_empty_Some in Hk|].
  split; [reflexivity|]. split; [repeat constructor; lia|]. cbn. lia.
Qed.

(** X16: on a tracker made by [New], after fewer than 2^63 calls: every open
    connection has a number of sessions between 0 and the peak kept for that
    connection; and until the first report that resets the counters,
    [peakConns] is at least the number of connections that are open. *)
Theorem Tracker_sessions_and_peak (nm : string) (cs : list call) :
  len cs < 2 ^ 63 ->
  (forall k c, connMap (snd (run (New nm) cs)) !! k = Some c ->
     0 <= currentSessions c <= peakSessions c)
  /\ (forallb (fun c => negb (isReset c)) cs = true ->
      Z.of_nat (size (connMap (snd (run (New nm) cs))))
      <= peakConns (stats (snd (run (New nm) cs)))).
Proof.
  intros Hlen. split.
  - destruct (run_tracked_any cs 0 (New nm) (tracked_New nm)) as (Hconn & _); [lia|].
    intros k c Hk. now destruct (Hconn k c Hk).
  - intros Hno. apply run_peakCovers; [|exact Hno].
    unfold peakCovers. cbn. rewrite map_size_empty. lia.
Qed.

(** X15: between two reports that reset the counters, the sum of the error
    counters, which [Report] prints as [errs], is the number of calls of
    [ConnState], [SessionAdd] and [SessionDone] that returned false: every
    such call counts one error and no other call counts any. *)
Theorem Tracker_errors_are_refusals (nm : string) (cs : list call) :
  len cs < 2 ^ 63 ->
  forallb (fun c => negb (isReset c)) cs = true ->
  errs (snd (run (New nm) cs)) = refused (fst (run (New nm) cs)).
Proof.
  intros Hlen Hno.
  destruct (run_tracked cs 0 (New nm) (tracked_New nm)) as [_ H]; [lia|exact Hno|].
  rewrite H. cbn. lia.
Qed.

End TrackerFacts.

Lemma Tracker_errors_are_refusals_witness :
  connectiontracker.errs
    (snd (connectiontracker.run (connectiontracker.New "listener")
            [connectiontracker.CallConnState "198.51.100.7:4000" 10 connectiontracker.StateNew;
             connectiontracker.CallSessionAdd "198.51.100.7:4000";
             connectiontracker.CallSessionAdd "198.51.100.9:4000";
             connectiontracker.CallConnState "198.51.100.7:4000" 30 connectiontracker.StateClosed;
             connectiontracker.CallSessionDone "198.51.100.7:4000"]))
  = 3.
Proof.
  rewrite (Tracker_errors_are_refusals "listener"); [reflexivity|vm_compute; reflexivity|reflexivity].
Defined.

Lemma Tracker_sessions_and_peak_witness :
  Z.of_nat
    (size (connectiontracker.connMap
             (snd (connectiontracker.run (connectiontracker.New "listener")
                     [connectiontracker.CallConnState "a:1" 10 connectiontracker.StateNew;
                      connectiontracker.CallConnState "b:2" 11 connectiontracker.StateNew;
                      connectiontracker.CallConnState "a:1" 12 connectiontracker.StateClosed]))))
  <= connectiontracker.peakConns
       (connectiontracker.stats
          (snd (connectiontracker.run (connectiontracker.New "listener")
                  [connectiontracker.CallConnState "a:1" 10 connectiontracker.StateNew;
                   connectiontracker.CallConnState "b:2" 11 connectiontracker.StateNew;
                   connectiontracker.CallConnState "a:1" 12 connectiontracker.StateClosed]))).
Proof.
  apply (Tracker_sessions_and_peak "listener"); [vm_compute; reflexivity|reflexivity].
Defined.

(** ** The DoH server: prefix lengths, peer addresses and the ECS stage *)

Lemma number_nonneg (cs : list ascii) :
  forall acc n, 0 <= acc -> net.number net.digit 10 cs acc = Some n -> 0 <= n.
Proof.
  induction cs as [|c cs IH]; intros acc n Hacc; cbn.
  - intros [= <-]. exact Hacc.
  - destruct (net.digit c) as [d|] eqn:Hd; [|discriminate].
    apply IH. unfold net.digit in Hd.
    destruct (_ && _) eqn:E; [|discriminate]. injection Hd as <-.
    apply andb_true_iff in E as [E1 E2]. apply Z.leb_le in E1. lia.
Qed.

Lemma ParseUint_nonneg (s : string) (bitSize n : Z) :
  gostd.ParseUint s bitSize = Some n -> 0 <= n.
Proof.
  unfold gostd.ParseUint. destruct (list_ascii_of_string s) as [|c cs]; [discriminate|].
  destruct (net.number net.digit 10 (c :: cs) 0) as [m|] eqn:E; [|discriminate].
  destruct (m <? 2 ^ bitSize); [|discriminate]. intros [= <-].
  now apply (number_nonneg _ 0 m) in E.
Qed.

(** A boolean test that holds of the first [k] naturals holds of every
    integer from 0 below [k]. *)
Lemma forallb_range (P : Z -> bool) (k : nat) :
  forallb P (map Z.of_nat (seq 0 k)) = true ->
  forall z, 0 <= z < Z.of_nat k -> P z = true.
Proof.
  intros H z Hz. rewrite forallb_forall in H. apply H.
  apply in_map_iff. exists (Z.to_nat z). split; [lia|].
  apply in_seq. lia.
Qed.

Lemma readsBack_all (a b : Z) : 0 <= a <= 32 -> 0 <= b <= 128 -> dohserver.readsBack a b = true.
Proof.
  intros Ha Hb.
  assert (H : forallb (fun x => forallb (dohserver.readsBack x) (map Z.of_nat (seq 0 129)))
                (map Z.of_nat (seq 0 33)) = true) by (vm_compute; reflexivity).
  pose proof (forallb_range _ 33 H a ltac:(lia)) as H1. cbv beta in H1.
  apply (forallb_range _ 129 H1 b). lia.
Qed.


Section PeerAddress.

Lemma octetOk_all (n : Z) : 0 <= n <= 255 -> gostd.octetOk n = true.
Proof.
  intros Hn.
  assert (H : forallb gostd.octetOk (map Z.of_nat (seq 0 256)) = true) by (vm_compute; reflexivity).
  apply (forallb_range _ 256 H). lia.
Qed.

Lemma list_ascii_app (a b : string) :
  list_ascii_of_string (a +:+ b) = list_ascii_of_string a ++ list_ascii_of_string b.
Proof.
  induction a as [|c a IH]; [reflexivity|].
  simpl. now rewrite IH.
Qed.

Lemma length_list_ascii (s : string) :
  length (list_ascii_of_string s) = String.length s.
Proof. induction s as [|c s IH]; [reflexivity|]. simpl. now rewrite IH. Qed.

Lemma splitOn_none (sep : ascii) (s cur : list ascii) :
  forallb (fun ch => negb (Ascii.eqb ch sep)) s = true ->
  net.splitOn sep s cur = [rev cur ++ s].
Proof.
  revert cur. induction s as [|c s IH]; intros cur H; cbn.
  - now rewrite app_nil_r.
  - cbn in H. apply andb_true_iff in H as [Hc Hs]. apply negb_true_iff in Hc.
    rewrite Hc, (IH _ Hs). cbn. now rewrite <- app_assoc.
Qed.

Lemma splitOn_app (sep : ascii) (s rest cur : list ascii) :
  forallb (fun ch => negb (Ascii.eqb ch sep)) s = true ->
  net.splitOn sep (s ++ sep :: rest) cur = (rev cur ++ s) :: net.splitOn sep rest [].
Proof.
  revert cur. induction s as [|c s IH]; intros cur H; cbn.
  - now rewrite Ascii.eqb_refl, app_nil_r.
  - cbn in H. apply andb_true_iff in H as [Hc Hs]. apply negb_true_iff in Hc.
    rewrite Hc, (IH _ Hs). cbn. now rewrite <- app_assoc.
Qed.

Lemma lastIndexFrom_app (a b : list ascii) (c : ascii) (i last : Z) :
  gostd.lastIndexFrom (a ++ b) c i last
  = gostd.lastIndexFrom b c (i + len a) (gostd.lastIndexFrom a c i last).
Proof.
  revert i last. induction a as [|x a IH]; intros i last; cbn.
  - f_equal. unfold len. cbn. lia.
  - rewrite IH. f_equal. unfold len. cbn [length]. lia.
Qed.

Lemma lastIndexFrom_none (p : list ascii) (c : ascii) (i last : Z) :
  forallb (fun ch => negb (Ascii.eqb ch c)) p = true ->
  gostd.lastIndexFrom p c i last = last.
Proof.
  revert i last. induction p as [|x p IH]; intros i last H; [reflexivity|].
  cbn in H. apply andb_true_iff in H as [Hx Hp]. apply negb_true_iff in Hx.
  cbn. rewrite Hx. now apply IH.
Qed.

Lemma forallb_weaken {A} (f g : A -> bool) (l : list A) :
  (forall x, f x = true -> g x = true) -> forallb f l = true -> forallb g l = true.
Proof.
  intros H. induction l as [|x l IH]; [reflexivity|]. cbn.
  intros Hl. apply andb_true_iff in Hl as [Hx Hl]. now rewrite (H _ Hx), IH.
Qed.

Lemma parseRemoteAddr_dotted (a b c d : Z) (port : string) :
  0 <= a <= 255 -> 0 <= b <= 255 -> 0 <= c <= 255 -> 0 <= d <= 255 ->
  forallb (fun ch => negb (Ascii.eqb ch ":")) (list_ascii_of_string port) = true ->
  dohserver.parseRemoteAddr (gostd.dotted a b c d +:+ ":" +:+ port)
  = Ok (net.v4InV6Prefix ++ [net.byte_of a; net.byte_of b; net.byte_of c; net.byte_of d]).
Proof.
  intros Ha Hb Hc Hd Hport.
  pose proof (octetOk_all a Ha) as Oa. pose proof (octetOk_all b Hb) as Ob.
  pose proof (octetOk_all c Hc) as Oc. pose proof (octetOk_all d Hd) as Od.
  unfold gostd.octetOk in Oa, Ob, Oc, Od. cbv zeta in Oa, Ob, Oc, Od.
  set (la := list_ascii_of_string (gostd.itoa a)) in *.
  set (lb := list_ascii_of_string (gostd.itoa b)) in *.
  set (lc := list_ascii_of_string (gostd.itoa c)) in *.
  set (ld := list_ascii_of_string (gostd.itoa d)) in *.
  apply andb_true_iff in Oa as [Oa Fa]. apply andb_true_iff in Oa as [Va Na].
  apply andb_true_iff in Ob as [Ob _]. apply andb_true_iff in Ob as [Vb Nb].
  apply andb_true_iff in Oc as [Oc _]. apply andb_true_iff in Oc as [Vc Nc].
  apply andb_true_iff in Od as [Od _]. apply andb_true_iff in Od as [Vd Nd].
  assert (Hdot : forall l, forallb (fun ch => negb (Ascii.eqb ch ".") && negb (Ascii.eqb ch ":")) l = true ->
                           forallb (fun ch => negb (Ascii.eqb ch ".")) l = true).
  { intros l. apply forallb_weaken. intros x Hx. now apply andb_true_iff in Hx as [? ?]. }
  assert (Hcol : forall l, forallb (fun ch => negb (Ascii.eqb ch ".") && negb (Ascii.eqb ch ":")) l = true ->
                           forallb (fun ch => negb (Ascii.eqb ch ":")) l = true).
  { intros l. apply forallb_weaken. intros x Hx. now apply andb_true_iff in Hx as [? ?]. }
  set (ip := la ++ "."%char :: lb ++ "."%char :: lc ++ "."%char :: ld).
  assert (Hip : list_ascii_of_string (gostd.dotted a b c d) = ip).
  { unfold gostd.dotted. rewrite !list_ascii_app. subst ip la lb lc ld. reflexivity. }
  clearbody la lb lc ld.
  assert (Hipcol : forallb (fun ch => negb (Ascii.eqb ch ":")) ip = true).
  { subst ip. rewrite !forallb_app. cbn. rewrite !forallb_app. cbn.
    rewrite !forallb_app. cbn.
    now rewrite (Hcol _ Na), (Hcol _ Nb), (Hcol _ Nc), (Hcol _ Nd). }
  assert (Hra : list_ascii_of_string (gostd.dotted a b c d +:+ ":" +:+ port)
                = ip ++ ":"%char :: list_ascii_of_string port).
  { now rewrite !list_ascii_app, Hip. }
  assert (Hlen : (2 <= length ip)%nat).
  { subst ip. rewrite !length_app. cbn. rewrite !length_app. cbn.
    rewrite !length_app. cbn. lia. }
  unfold dohserver.parseRemoteAddr.
  assert (Hcolon : gostd.LastIndexByte (gostd.dotted a b c d +:+ ":" +:+ port) ":" = len ip).
  { unfold gostd.LastIndexByte. rewrite Hra, lastIndexFrom_app. cbn.
    now rewrite lastIndexFrom_none. }
  rewrite Hcolon.
  replace (len ip =? -1) with false by (symmetry; apply Z.eqb_neq; unfold len; lia).
  assert (Hslice : gostd.slice (gostd.dotted a b c d +:+ ":" +:+ port) 0 (len ip)
                   = gostd.dotted a b c d).
  { unfold gostd.slice. rewrite Hra. change (Z.to_nat 0) with 0%nat. rewrite drop_0.
    rewrite Z.sub_0_r. unfold len. rewrite Nat2Z.id, take_app_length.
    now rewrite <- Hip, string_of_list_ascii_of_string. }
  rewrite Hslice.
  assert (Hstrlen : gostd.strlen (gostd.dotted a b c d) = len ip).
  { unfold gostd.strlen, len. now rewrite <- Hip, length_list_ascii. }
  rewrite Hstrlen.
  replace (len ip <? 2) with false by (symmetry; apply Z.ltb_ge; unfold len; lia).
  assert (Hfirst : gostd.byteAt (gostd.dotted a b c d) 0 = head la).
  { unfold gostd.byteAt. change (0 <? 0) with false. cbv iota.
    change (Z.to_nat 0) with 0%nat. rewrite Hip. subst ip. now destruct la. }
  rewrite Hfirst. clear Hfirst.
  destruct la as [|x la']; [discriminate Fa|]. cbn [head].
  apply negb_true_iff in Fa.
  replace (match gostd.byteAt (gostd.dotted a b c d) (len ip - 1) with
           | Some y => Ascii.eqb x "[" && Ascii.eqb y "]"
           | None => false
           end) with false by (rewrite Fa; destruct (gostd.byteAt _ _); reflexivity).
  unfold net.ParseIP, net.parseIPv4. rewrite Hip. subst ip.
  rewrite (splitOn_app "." (x :: la') _ []) by now apply Hdot.
  rewrite (splitOn_app "." lb _ []) by now apply Hdot.
  rewrite (splitOn_app "." lc _ []) by now apply Hdot.
  rewrite (splitOn_none "." ld []) by now apply Hdot.
  cbn [rev app map].
  destruct (net.v4field (x :: la')) as [xa|]; [|discriminate]. apply Z.eqb_eq in Va. subst xa.
  destruct (net.v4field lb) as [xb|]; [|discriminate]. apply Z.eqb_eq in Vb. subst xb.
  destruct (net.v4field lc) as [xc|]; [|discriminate]. apply Z.eqb_eq in Vc. subst xc.
  destruct (net.v4field ld) as [xd|]; [|discriminate]. apply Z.eqb_eq in Vd. subst xd.
  reflexivity.
Qed.

Lemma parseRemoteAddr_no_colon (ra : string) :
  forallb (fun ch => negb (Ascii.eqb ch ":")) (list_ascii_of_string ra) = true ->
  dohserver.parseRemoteAddr ra = Err dohserver.NoColon.
Proof.
  intros H. unfold dohserver.parseRemoteAddr, gostd.LastIndexByte.
  now rewrite lastIndexFrom_none.
Qed.

(** X18: [parseRemoteAddr] on the remote address of an IPv4 peer, written as
    net/http writes it (dotted decimal, a colon, the port): the address is
    returned, in the 16-byte form that [net.ParseIP] gives, whatever follows
    the last colon.  A remote address without any colon is refused. *)
Theorem parseRemoteAddr_ipv4 (a b c d : Z) (port : string) :
  0 <= a <= 255 -> 0 <= b <= 255 -> 0 <= c <= 255 -> 0 <= d <= 255 ->
  forallb (fun ch => negb (Ascii.eqb ch ":")) (list_ascii_of_string port) = true ->
  dohserver.parseRemoteAddr (gostd.dotted a b c d +:+ ":" +:+ port)
  = Ok (net.v4InV6Prefix ++ [net.byte_of a; net.byte_of b; net.byte_of c; net.byte_of d])
  /\ dohserver.parseRemoteAddr (gostd.dotted a b c d +:+ port) = Err dohserver.NoColon.
Proof.
  intros Ha Hb Hc Hd Hport. split; [now apply parseRemoteAddr_dotted|].
  apply parseRemoteAddr_no_colon.
  pose proof (octetOk_all a Ha) as Oa. pose proof (octetOk_all b Hb) as Ob.
  pose proof (octetOk_all c Hc) as Oc. pose proof (octetOk_all d Hd) as Od.
  unfold gostd.octetOk in Oa, Ob, Oc, Od. cbv zeta in Oa, Ob, Oc, Od.
  apply andb_true_iff in Oa as [Oa _]. apply andb_true_iff in Oa as [_ Na].
  apply andb_true_iff in Ob as [Ob _]. apply andb_true_iff in Ob as [_ Nb].
  apply andb_true_iff in Oc as [Oc _]. apply andb_true_iff in Oc as [_ Nc].
  apply andb_true_iff in Od as [Od _]. apply andb_true_iff in Od as [_ Nd].
  assert (Hcol : forall l, forallb (fun ch => negb (Ascii.eqb ch ".") && negb (Ascii.eqb ch ":")) l = true ->
                           forallb (fun ch => negb (Ascii.eqb ch ":")) l = true).
  { intros l. apply forallb_weaken. intros x Hx. now apply andb_true_iff in Hx as [? ?]. }
  unfold gostd.dotted. rewrite !list_ascii_app, !forallb_app.
  rewrite (Hcol _ Na), (Hcol _ Nb), (Hcol _ Nc), (Hcol _ Nd), Hport. reflexivity.
Qed.

End PeerAddress.

Lemma parseRemoteAddr_ipv4_witness :
  dohserver.parseRemoteAddr "192.0.2.7:51234"
  = Ok (net.v4InV6Prefix ++ [xc0; x00; x02; x07])
  /\ dohserver.parseRemoteAddr "192.0.2.751234" = Err dohserver.NoColon.
Proof.
  apply (parseRemoteAddr_ipv4 192 0 2 7 "51234"); [lia|lia|lia|lia|reflexivity].
Defined.

Section StageFacts.
Import dns dnsutil.

Lemma firstSubnet_app_gen (a b : list EDNS0) :
  firstSubnet (a ++ b)
  = match firstSubnet a with Some e => Some e | None => firstSubnet b end.
Proof. induction a as [|o a IH]; [reflexivity|]. destruct o; cbn; auto. Qed.

Lemma firstPadding_app_gen (a b : list EDNS0) :
  firstPadding (a ++ b)
  = match firstPadding a with Some n => Some n | None => firstPadding b end.
Proof. induction a as [|o a IH]; [reflexivity|]. destruct o; cbn; auto. Qed.

(** The finders read the list of all sub-options from its head. *)
Lemma findECSIn_optionsOf (rrs : list RR) :
  option_map snd (findECSIn rrs) = firstSubnet (optionsOf rrs).
Proof.
  induction rrs as [|rr rrs IH]; [reflexivity|].
  destruct rr as [h opts|h d|h d]; cbn; try exact IH.
  rewrite firstSubnet_app_gen. destruct (firstSubnet opts); [reflexivity|exact IH].
Qed.

Lemma findPaddingIn_optionsOf (rrs : list RR) :
  findPaddingIn rrs = default (-1) (firstPadding (optionsOf rrs)).
Proof.
  induction rrs as [|rr rrs IH]; [reflexivity|].
  destruct rr as [h opts|h d|h d]; cbn; try exact IH.
  rewrite firstPadding_app_gen. destruct (firstPadding opts); [reflexivity|exact IH].
Qed.

Lemma firstPadding_nonneg (opts : list EDNS0) (n : Z) :
  firstPadding opts = Some n -> 0 <= n.
Proof.
  induction opts as [|o opts IH]; [discriminate|].
  destruct o; cbn; try exact IH. intros [= <-]. unfold len. lia.
Qed.

Lemma firstPadding_filter (g : EDNS0 -> bool) (l : list EDNS0) :
  (forall o, isPadding o = true -> g o = false) ->
  firstPadding (List.filter (fun o => negb (g o)) l) = firstPadding l.
Proof.
  intros Hg. induction l as [|o l IH]; [reflexivity|].
  cbn. destruct (g o) eqn:E; cbn.
  - destruct o; try exact IH. rewrite Hg in E by reflexivity. discriminate.
  - destruct o; cbn; auto.
Qed.

Lemma filter_filter_keep {A} (f g : A -> bool) (l : list A) :
  (forall x, f x = true -> g x = false) ->
  List.filter f (List.filter (fun x => negb (g x)) l) = List.filter f l.
Proof.
  intros H. induction l as [|x l IH]; [reflexivity|].
  cbn. destruct (g x) eqn:Eg; cbn.
  - rewrite IH. destruct (f x) eqn:Ef; [|reflexivity]. apply H in Ef. congruence.
  - now rewrite IH.
Qed.

Lemma CreateECS_optionsOf (msg : Msg) (family prefixLength : Z) (ip : list byte) :
  exists a b,
    optionsOf (Extra msg) = a ++ b
    /\ optionsOf (Extra (snd (CreateECS msg family prefixLength ip)))
       = (a ++ [EDNS0_SUBNET EDNS0SUBNET (uint16_of family) (uint8_of prefixLength) 0 ip])
           ++ b.
Proof.
  destruct (CreateECS_shape msg family prefixLength ip) as (rrs & ix & h & opts & Hat & ->).
  destruct (firstOPTAt_head _ _ _ _ _ Hat) as (rest & Hopts & Hins).
  exists opts, rest. cbn [snd Extra set_Extra].
  rewrite <- (firstOPTAt_optionsOf _ _ _ _ _ Hat). split; [exact Hopts|apply Hins].
Qed.

Lemma CreateECS_FindPadding (msg : Msg) (family prefixLength : Z) (ip : list byte) :
  FindPadding (snd (CreateECS msg family prefixLength ip)) = FindPadding msg.
Proof.
  destruct (CreateECS_optionsOf msg family prefixLength ip) as (a & b & H1 & H2).
  unfold FindPadding. rewrite !findPaddingIn_optionsOf, H1, H2.
  rewrite <- app_assoc, !firstPadding_app_gen. cbn.
  now destruct (firstPadding a).
Qed.

Lemma RemoveSubnet_FindPadding (msg : Msg) :
  FindPadding (snd (RemoveEDNS0FromOPT msg EDNS0SUBNET)) = FindPadding msg.
Proof.
  unfold FindPadding. rewrite !findPaddingIn_optionsOf, RemoveEDNS0FromOPT_optionsOf.
  rewrite firstPadding_filter; [reflexivity|]. now intros [].
Qed.

Lemma FindPadding_negative (msg : Msg) : FindPadding msg < 0 -> FindPadding msg = -1.
Proof.
  unfold FindPadding. rewrite findPaddingIn_optionsOf.
  destruct (firstPadding _) as [n|] eqn:E; [|reflexivity].
  apply firstPadding_nonneg in E. cbn. lia.
Qed.

Lemma IsTsig_mutable (dnsQ : Msg) :
  IsTsig dnsQ = None -> bool_decide (IsTsig dnsQ = None) = true.
Proof. intros H. now apply bool_decide_eq_true. Qed.

(** What [synthesizeECS] leaves of a query: the query itself, or the query
    with one ECS sub-option for the peer's address appended by [CreateECS]. *)
Lemma synthesizeECS_query (cfg : dohserver.config) (q : Msg) (hdr remote : string)
    (evx : dohserver.evIndex) (q' : Msg) :
  dohserver.synthesizeECS cfg q hdr remote = (Ok evx, q') ->
  (q' = q /\ evx = dohserver.evGet)
  \/ exists fam plen ip,
       dohserver.parseRemoteAddr remote = Ok ip
       /\ ((fam = 1 /\ evx = dohserver.evECSv4Synth)
           \/ (fam = 2 /\ evx = dohserver.evECSv6Synth))
       /\ q' = snd (CreateECS q fam plen ip).
Proof.
  unfold dohserver.synthesizeECS.
  match goal with |- context [match ?l with Err _ => _ | Ok _ => _ end] =>
    destruct l as [e|[p4 p6]] end; [discriminate|].
  destruct (dohserver.parseRemoteAddr remote) as [e|ip]; [discriminate|].
  destruct (_ && _).
  - intros [= <- <-]. right. exists 1, p4, ip. auto.
  - destruct (_ && _).
    + intros [= <- <-]. right. exists 2, p6, ip. auto.
    + intros [= <- <-]. now left.
Qed.

(** The stage of [serveDoH] on a query without TSIG, step by step. *)
Lemma stage_mutable (cfg : dohserver.config) (dnsQ : Msg) (hdr remote : string)
    (st : dohserver.staged) :
  IsTsig dnsQ = None ->
  dohserver.stage cfg dnsQ hdr remote = Ok st ->
  let expunge := dohserver.ecsRemove cfg || (0 <? gostd.strlen hdr) || dohserver.ecsSet cfg in
  let q1 := if expunge then snd (RemoveEDNS0FromOPT dnsQ EDNS0SUBNET) else dnsQ in
  exists q2,
    (q2 = q1
     \/ exists fam plen ip,
          expunge = true
          /\ dohserver.parseRemoteAddr remote = Ok ip
          /\ ((fam = 1 /\ In dohserver.evECSv4Synth (dohserver.evs st))
              \/ (fam = 2 /\ In dohserver.evECSv6Synth (dohserver.evs st)))
          /\ q2 = snd (CreateECS q1 fam plen ip))
    /\ dohserver.addServerPadding st = FindPadding q2
    /\ dohserver.query st
       = if 0 <=? FindPadding q2 then snd (RemoveEDNS0FromOPT q2 EDNS0PADDING) else q2.
Proof.
  intros Hmut. unfold dohserver.stage. rewrite (IsTsig_mutable _ Hmut). cbn [negb].
  cbv zeta.
  set (expunge := dohserver.ecsRemove cfg || (0 <? gostd.strlen hdr) || dohserver.ecsSet cfg).
  set (q1 := if expunge then snd (RemoveEDNS0FromOPT dnsQ EDNS0SUBNET) else dnsQ).
  destruct ((0 <? gostd.strlen hdr) || dohserver.ecsSet cfg) eqn:Esyn.
  - assert (Hex : expunge = true).
    { subst expunge. rewrite <- orb_assoc, Esyn. apply orb_true_r. }
    destruct (dohserver.synthesizeECS cfg q1 hdr remote) as [[e|evx] q2] eqn:Hs; [discriminate|].
    apply synthesizeECS_query in Hs.
    destruct (0 <=? FindPadding q2) eqn:Ep; intros [= <-]; cbn [dohserver.addServerPadding dohserver.query dohserver.evs];
      exists q2; (split; [|split; [reflexivity|now rewrite ?Ep]]);
      (destruct Hs as [[-> _]|(fam & plen & ip & Hip & Hfam & ->)]; [now left|]);
      right; exists fam, plen, ip; (split; [exact Hex|]); (split; [exact Hip|]);
      (split; [|reflexivity]);
      (destruct Hfam as [[-> ->]|[-> ->]]; [left|right]; (split; [reflexivity|]);
       rewrite ?in_app_iff; cbn; tauto).
  - destruct (0 <=? FindPadding q1) eqn:Ep; intros [= <-]; cbn [dohserver.addServerPadding dohserver.query];
      exists q1; (split; [now left|]); (split; [reflexivity|now rewrite ?Ep]).
Qed.

Lemma stage_FindPadding (cfg : dohserver.config) (dnsQ : Msg) (hdr remote : string)
    (st : dohserver.staged) :
  IsTsig dnsQ = None ->
  dohserver.stage cfg dnsQ hdr remote = Ok st ->
  dohserver.addServerPadding st = FindPadding dnsQ
  /\ FindPadding (dohserver.query st) = -1.
Proof.
  intros Hmut Hst. destruct (stage_mutable _ _ _ _ _ Hmut Hst) as (q2 & Hq2 & Hpad & Hq).
  cbv zeta in Hq2.
  assert (H1 : FindPadding q2 = FindPadding dnsQ).
  { assert (H0 : FindPadding (if dohserver.ecsRemove cfg || (0 <? gostd.strlen hdr)
                                  || dohserver.ecsSet cfg
                               then snd (RemoveEDNS0FromOPT dnsQ EDNS0SUBNET) else dnsQ)
                 = FindPadding dnsQ).
    { destruct (_ || _); [apply RemoveSubnet_FindPadding|reflexivity]. }
    destruct Hq2 as [->|(fam & plen & ip & _ & _ & _ & ->)]; [exact H0|].
    now rewrite CreateECS_FindPadding. }
  split; [now rewrite Hpad|]. rewrite Hq.
  destruct (Z.leb_spec 0 (FindPadding q2)); [apply RemoveEDNS0FromOPT_no_padding|].
  now apply FindPadding_negative.
Qed.

(** X19: the stage of [serveDoH] between unpacking and resolving, on a query
    without TSIG: the padding length it remembers is what [FindPadding] gives
    for the query as received (-1 when there is none), and the query that it
    hands on to the resolver holds no padding.  A query with TSIG is handed
    on untouched, and no padding is remembered. *)
Theorem stage_padding_is_hop_by_hop (cfg : dohserver.config) (dnsQ : Msg)
    (hdr remote : string) :
  (IsTsig dnsQ <> None ->
   dohserver.stage cfg dnsQ hdr remote
   = Ok (dohserver.mkStaged dnsQ [dohserver.evTsig] (-1)))
  /\ (IsTsig dnsQ = None ->
      forall st, dohserver.stage cfg dnsQ hdr remote = Ok st ->
        dohserver.addServerPadding st = FindPadding dnsQ
        /\ FindPadding (dohserver.query st) = -1).
Proof.
  split.
  - intros Htsig. unfold dohserver.stage.
    replace (bool_decide (IsTsig dnsQ = None)) with false; [reflexivity|].
    symmetry. now apply bool_decide_eq_false.
  - intros Hmut st. now apply stage_FindPadding.
Qed.

Lemma stage_subnets (cfg : dohserver.config) (dnsQ : Msg) (hdr remote : string)
    (st : dohserver.staged) :
  IsTsig dnsQ = None ->
  dohserver.ecsRemove cfg || (0 <? gostd.strlen hdr) || dohserver.ecsSet cfg = true ->
  dohserver.stage cfg dnsQ hdr remote = Ok st ->
  List.filter isSubnet (optionsOf (Extra (dohserver.query st))) = []
  \/ exists fam mask ip,
       dohserver.parseRemoteAddr remote = Ok ip
       /\ ((fam = 1 /\ In dohserver.evECSv4Synth (dohserver.evs st))
           \/ (fam = 2 /\ In dohserver.evECSv6Synth (dohserver.evs st)))
       /\ ((0 <? gostd.strlen hdr) || dohserver.ecsSet cfg = true)
       /\ List.filter isSubnet (optionsOf (Extra (dohserver.query st)))
          = [EDNS0_SUBNET EDNS0SUBNET fam mask 0 ip].
Proof.
  intros Hmut Hex Hst. destruct (stage_mutable _ _ _ _ _ Hmut Hst) as (q2 & Hq2 & _ & Hq).
  cbv zeta in Hq2. rewrite Hex in Hq2.
  assert (Hq1 : List.filter isSubnet
                  (optionsOf (Extra (snd (RemoveEDNS0FromOPT dnsQ EDNS0SUBNET)))) = []).
  { rewrite RemoveEDNS0FromOPT_optionsOf.
    clear. induction (optionsOf (Extra dnsQ)) as [|o l IH]; [reflexivity|].
    cbn. destruct o; cbn; auto.
    destruct (hasCode _ _) eqn:E; cbn; auto. }
  assert (Hsame : List.filter isSubnet (optionsOf (Extra (dohserver.query st)))
                  = List.filter isSubnet (optionsOf (Extra q2))).
  { rewrite Hq. destruct (0 <=? FindPadding q2); [|reflexivity].
    rewrite RemoveEDNS0FromOPT_optionsOf. apply filter_filter_keep. now intros []. }
  rewrite Hsame.
  destruct Hq2 as [->|(fam & plen & ip & _ & Hip & Hfam & ->)]; [now left|].
  right.
  destruct (CreateECS_optionsOf (snd (RemoveEDNS0FromOPT dnsQ EDNS0SUBNET)) fam plen ip)
    as (a & b & H1 & H2).
  rewrite H1, List.filter_app in Hq1. apply app_eq_nil in Hq1 as [Ha Hb].
  exists fam, (uint8_of plen), ip. split; [exact Hip|]. split; [exact Hfam|].
  split.
  - unfold dohserver.stage in Hst. rewrite (IsTsig_mutable _ Hmut) in Hst. cbn [negb] in Hst.
    cbv zeta in Hst.
    destruct ((0 <? gostd.strlen hdr) || dohserver.ecsSet cfg) eqn:E; [reflexivity|].
    exfalso. destruct (0 <=? _) in Hst; injection Hst as <-;
      cbn [dohserver.evs] in Hfam; rewrite Hex in Hfam;
      destruct Hfam as [[_ Hin]|[_ Hin]]; cbn in Hin;
      repeat (destruct Hin as [Hin|Hin]; try discriminate); auto.
  - rewrite H2, !List.filter_app, Ha, Hb. cbn.
    destruct Hfam as [[-> _]|[-> _]]; reflexivity.
Qed.

(** X20: when the server is run with --ecs-remove or --ecs-set, or the
    request carries the X-trustydns-Synth header, no ECS sub-option of the
    client reaches the resolver in a query without TSIG: the query handed on
    holds no ECS sub-option, or exactly one, which the server made from the
    address of the HTTPS peer, with family 1 or 2 and source scope 0; with
    --ecs-remove alone it holds none. *)
Theorem stage_no_client_ECS (cfg : dohserver.config) (dnsQ : Msg) (hdr remote : string)
    (st : dohserver.staged) :
  IsTsig dnsQ = None ->
  dohserver.ecsRemove cfg || (0 <? gostd.strlen hdr) || dohserver.ecsSet cfg = true ->
  dohserver.stage cfg dnsQ hdr remote = Ok st ->
  (List.filter isSubnet (optionsOf (Extra (dohserver.query st))) = []
   \/ exists fam mask ip,
        dohserver.parseRemoteAddr remote = Ok ip
        /\ (fam = 1 \/ fam = 2)
        /\ List.filter isSubnet (optionsOf (Extra (dohserver.query st)))
           = [EDNS0_SUBNET EDNS0SUBNET fam mask 0 ip])
  /\ ((0 <? gostd.strlen hdr) || dohserver.ecsSet cfg = false ->
      FindECS (dohserver.query st) = None).
Proof.
  intros Hmut Hex Hst.
  destruct (stage_subnets _ _ _ _ _ Hmut Hex Hst)
    as [Hnone|(fam & mask & ip & Hip & Hfam & Hsyn & Hl)].
  - split; [now left|]. intros _. unfold FindECS. apply findECSIn_None.
    clear - Hnone. induction (optionsOf _) as [|o l IH]; [reflexivity|].
    cbn in *. destruct (isSubnet o); [discriminate|]. cbn. auto.
  - split; [|intros Hno; congruence].
    right. exists fam, mask, ip. split; [exact Hip|]. split; [|exact Hl].
    destruct Hfam as [[-> _]|[-> _]]; auto.
Qed.

End StageFacts.

Lemma stage_no_client_ECS_witness :
  exists st,
    dohserver.stage (dohserver.mkConfig true false 24 64)
      (snd (dnsutil.CreateECS examples.query23 1 24 [xcb; x00; x71; x09])) "" "192.0.2.7:51234"
    = Ok st
    /\ dnsutil.FindECS (dohserver.query st) = None.
Proof.
  eexists. split; [vm_compute; reflexivity|].
  eapply (stage_no_client_ECS (dohserver.mkConfig true false 24 64)
            (snd (dnsutil.CreateECS examples.query23 1 24 [xcb; x00; x71; x09]))
            "" "192.0.2.7:51234");
    reflexivity.
Defined.

Section StageSynthesis.
Import dns dnsutil.

Lemma firstSubnet_head (l : list EDNS0) : firstSubnet l = head (List.filter isSubnet l).
Proof. induction l as [|o l IH]; [reflexivity|]. destruct o; cbn; auto. Qed.

Lemma subnets_after_CreateECS (dnsQ : Msg) (fam plen : Z) (ip : list byte) :
  List.filter isSubnet
    (optionsOf (Extra (snd (CreateECS (snd (RemoveEDNS0FromOPT dnsQ EDNS0SUBNET)) fam plen ip))))
  = [EDNS0_SUBNET EDNS0SUBNET (uint16_of fam) (uint8_of plen) 0 ip].
Proof.
  assert (Hq1 : List.filter isSubnet
                  (optionsOf (Extra (snd (RemoveEDNS0FromOPT dnsQ EDNS0SUBNET)))) = []).
  { rewrite RemoveEDNS0FromOPT_optionsOf.
    clear. induction (optionsOf (Extra dnsQ)) as [|o l IH]; [reflexivity|].
    cbn. destruct o; cbn; auto.
    destruct (hasCode _ _) eqn:E; cbn; auto. }
  destruct (CreateECS_optionsOf (snd (RemoveEDNS0FromOPT dnsQ EDNS0SUBNET)) fam plen ip)
    as (a & b & H1 & H2).
  rewrite H1, List.filter_app in Hq1. apply app_eq_nil in Hq1 as [Ha Hb].
  now rewrite H2, !List.filter_app, Ha, Hb.
Qed.

Lemma strlen_app (a b : string) : gostd.strlen (a +:+ b) = gostd.strlen a + gostd.strlen b.
Proof.
  unfold gostd.strlen. induction a as [|c a IH]; [reflexivity|].
  simpl String.length. lia.
Qed.

(** X21: the case of the DoH server that the X-trustydns-Synth header is
    for.  A request with the header p4/p6 (p4 from 1 to 32, p6 up to 128)
    from an IPv4 peer a.b.c.d, carrying a query without TSIG: the stage
    succeeds, sets the event for IPv4 synthesis, and hands on a query with
    exactly one ECS sub-option, of family 1, source netmask p4, scope 0 and
    the peer's address; this is what [FindECS] finds in it. *)
Theorem stage_synthesizes_for_ipv4_peer (cfg : dohserver.config) (dnsQ : Msg)
    (p4 p6 a b c d : Z) (port : string) :
  IsTsig dnsQ = None ->
  1 <= p4 <= 32 -> 0 <= p6 <= 128 ->
  0 <= a <= 255 -> 0 <= b <= 255 -> 0 <= c <= 255 -> 0 <= d <= 255 ->
  forallb (fun ch => negb (Ascii.eqb ch ":")) (list_ascii_of_string port) = true ->
  let ecs := EDNS0_SUBNET EDNS0SUBNET 1 p4 0
               (net.v4InV6Prefix
                  ++ [net.byte_of a; net.byte_of b; net.byte_of c; net.byte_of d]) in
  exists st,
    dohserver.stage cfg dnsQ (gostd.itoa p4 +:+ "/" +:+ gostd.itoa p6)
      (gostd.dotted a b c d +:+ ":" +:+ port) = Ok st
    /\ In dohserver.evECSv4Synth (dohserver.evs st)
    /\ List.filter isSubnet (optionsOf (Extra (dohserver.query st))) = [ecs]
    /\ option_map snd (FindECS (dohserver.query st)) = Some ecs.
Proof.
  intros Hmut Hp4 Hp6 Ha Hb Hc Hd Hport ecs.
  set (hdr := gostd.itoa p4 +:+ "/" +:+ gostd.itoa p6).
  set (remote := gostd.dotted a b c d +:+ ":" +:+ port).
  set (ip := net.v4InV6Prefix ++ [net.byte_of a; net.byte_of b; net.byte_of c; net.byte_of d]).
  assert (Hhdr : (0 <? gostd.strlen hdr) = true).
  { apply Z.ltb_lt. subst hdr. rewrite !strlen_app. unfold gostd.strlen. cbn. lia. }
  assert (Hlen : dohserver.extractPrefixLengths hdr = Ok (p4, p6)).
  { pose proof (readsBack_all p4 p6 ltac:(lia) Hp6) as H. unfold dohserver.readsBack in H.
    fold hdr in H. destruct (dohserver.extractPrefixLengths hdr) as [e|[x y]]; [discriminate|].
    apply andb_true_iff in H as [Hx Hy]. apply Z.eqb_eq in Hx, Hy. now subst. }
  assert (Hip : dohserver.parseRemoteAddr remote = Ok ip)
    by now apply parseRemoteAddr_dotted.
  assert (Hsyn : forall q, dohserver.synthesizeECS cfg q hdr remote
                           = (Ok dohserver.evECSv4Synth, snd (CreateECS q 1 p4 ip))).
  { intros q. unfold dohserver.synthesizeECS. rewrite Hhdr, Hlen, Hip.
    replace (0 <? p4) with true by (symmetry; apply Z.ltb_lt; lia).
    reflexivity. }
  assert (Hecs : forall q, List.filter isSubnet
             (optionsOf (Extra (snd (CreateECS (snd (RemoveEDNS0FromOPT q EDNS0SUBNET)) 1 p4 ip))))
             = [ecs]).
  { intros q. rewrite subnets_after_CreateECS. subst ecs. unfold uint8_of, uint16_of.
    rewrite (Z.mod_small p4) by lia. reflexivity. }
  unfold dohserver.stage. rewrite (IsTsig_mutable _ Hmut). cbn [negb]. cbv zeta.
  rewrite Hhdr, orb_true_r. cbn [orb]. rewrite Hsyn.
  set (q2 := snd (CreateECS (snd (RemoveEDNS0FromOPT dnsQ EDNS0SUBNET)) 1 p4 ip)).
  assert (Hfind : forall q, List.filter isSubnet (optionsOf (Extra q)) = [ecs] ->
                            option_map snd (FindECS q) = Some ecs).
  { intros q Hq. unfold FindECS. now rewrite findECSIn_optionsOf, firstSubnet_head, Hq. }
  destruct (0 <=? FindPadding q2); eexists; (split; [reflexivity|]);
    cbn [dohserver.evs dohserver.query].
  - assert (Hk : List.filter isSubnet
                   (optionsOf (Extra (snd (RemoveEDNS0FromOPT q2 EDNS0PADDING)))) = [ecs]).
    { rewrite RemoveEDNS0FromOPT_optionsOf, filter_filter_keep by now intros [].
      apply Hecs. }
    split; [cbn; tauto|]. split; [exact Hk|now apply Hfind].
  - split; [cbn; tauto|]. split; [apply Hecs|apply Hfind, Hecs].
Qed.

End StageSynthesis.

Lemma stage_synthesizes_for_ipv4_peer_witness :
  exists st,
    dohserver.stage (dohserver.mkConfig false false 0 0) examples.query23 "24/64"
      "192.0.2.7:51234" = Ok st
    /\ In dohserver.evECSv4Synth (dohserver.evs st)
    /\ List.filter dnsutil.isSubnet (dnsutil.optionsOf (dns.Extra (dohserver.query st)))
       = [dns.EDNS0_SUBNET dns.EDNS0SUBNET 1 24 0 (net.v4InV6Prefix ++ [xc0; x00; x02; x07])]
    /\ option_map snd (dnsutil.FindECS (dohserver.query st))
       = Some (dns.EDNS0_SUBNET dns.EDNS0SUBNET 1 24 0
                 (net.v4InV6Prefix ++ [xc0; x00; x02; x07])).
Proof.
  apply (stage_synthesizes_for_ipv4_peer (dohserver.mkConfig false false 0 0)
           examples.query23 24 64 192 0 2 7 "51234");
    [reflexivity|lia|lia|lia|lia|lia|lia|reflexivity].
Defined.

Lemma stage_padding_is_hop_by_hop_witness :
  dnsutil.FindPadding examples.paddedQuery = 2
  /\ exists st,
       dohserver.stage (dohserver.mkConfig false false 0 0) examples.paddedQuery ""
         "192.0.2.7:51234" = Ok st
       /\ In dohserver.evPadding (dohserver.evs st)
       /\ dohserver.addServerPadding st = dnsutil.FindPadding examples.paddedQuery
       /\ dnsutil.FindPadding (dohserver.query st) = -1.
Proof.
  split; [reflexivity|].
  eexists. split; [vm_compute; reflexivity|].
  split; [cbn; tauto|].
  apply (proj2 (stage_padding_is_hop_by_hop (dohserver.mkConfig false false 0 0)
                  examples.paddedQuery "" "192.0.2.7:51234"));
    reflexivity.
Defined.

(** ** The request handler of the DoH server *)

Section HandlerFacts.
Import dohhandler.
Context {lib : dns.Library}.
Context {L EL : Type} {localResolver : resolver.Resolver L EL}.
Variable cfg : dohserver.config.
Variable newId : Z.
Variable Write : list byte -> bool.
Variable duration : Z.

Local Abbreviation handle := (dohhandler.handle cfg newId Write duration).
Local Abbreviation serveDoH := (dohhandler.serveDoH cfg newId Write duration).

(** The body of the handler ends in one call of one of the two statistics
    functions: [addSuccessStats] when the reply has been written, else
    [addFailureStats]. *)
Lemma handle_stats (t : server L) (r : Request) :
  (exists out evs,
     answered (handle t r) = Written out
     /\ statsAfter (handle t r) = addSuccessStats (st t) duration evs)
  \/ (exists hsc serx evs,
        answered (handle t r) = Refused hsc
        /\ statsAfter (handle t r) = addFailureStats (st t) serx evs).
Proof.
  unfold dohhandler.handle, failed.
  destruct (validateRequest r) as [[serx hsc]|body0]; [right; eauto|].
  destruct (if String.eqb (Method r) MethodGet then decodeQueryParam r else Ok body0)
    as [serx|body]; [right; eauto|].
  destruct (dns.Unpack body) as [dnsQ0|]; [|right; eauto]. cbv zeta.
  destruct (dohserver.stage _ _ _ _) as [[serx e]|sg]; [right; eauto|].
  destruct (resolver.Resolve _ _ _) as [[res q'] l'].
  destruct res as [e|[dnsR0 meta]]; [right; eauto|].
  match goal with
  | |- context [match ?p with Err _ => _ | Ok _ => _ end] => destruct p as [e|out]
  end; [right; eauto|].
  destruct (Write out); [left; eauto|right; eauto].
Qed.

Lemma errs_sum_from (l : list Z) (acc : Z) :
  Forall (fun v => 0 <= v) l -> 0 <= acc -> acc + fold_right Z.add 0 l < 2 ^ 63 ->
  fold_left (fun a v => int64_of (a + v)) l acc = acc + fold_right Z.add 0 l.
Proof.
  intros H. revert acc. induction H as [|v l Hv Hl IH]; intros acc Hacc Hsum; cbn.
  - lia.
  - cbn in Hsum. pose proof (sum_nonneg l Hl).
    rewrite int64_of_small by lia. rewrite IH by lia. lia.
Qed.

Lemma counted_true (n : Z) (s : stats) :
  counted n s = true
  <-> length (failureCounters s) = serArraySize
      /\ Forall (fun v => 0 <= v) (failureCounters s)
      /\ 0 <= successCount s
      /\ successCount s + fold_right Z.add 0 (failureCounters s) <= n.
Proof.
  unfold counted. rewrite !andb_true_iff, Nat.eqb_eq, !Z.leb_le, forallb_forall.
  rewrite List.Forall_forall.
  split; intros (((H1 & H2) & H3) & H4) || intros (H1 & H2 & H3 & H4); repeat split; auto;
    intros x Hx; specialize (H2 x Hx); lia.
Qed.

Lemma errs_sum (n : Z) (s : stats) :
  counted n s = true -> n < 2 ^ 63 -> errs s = fold_right Z.add 0 (failureCounters s).
Proof.
  intros Hc Hn. apply counted_true in Hc as (_ & Hpos & Hok & Hsum). unfold errs.
  pose proof (sum_nonneg _ Hpos). rewrite errs_sum_from by (auto; lia). lia.
Qed.

Lemma req_sum (n : Z) (s : stats) :
  counted n s = true -> n < 2 ^ 63 ->
  req s = successCount s + fold_right Z.add 0 (failureCounters s).
Proof.
  intros Hc Hn. unfold req. rewrite (errs_sum n s Hc Hn).
  apply counted_true in Hc as (_ & Hpos & Hok & Hsum). pose proof (sum_nonneg _ Hpos).
  apply int64_of_small. lia.
Qed.

Lemma counted_success (n : Z) (s : stats) (latency : Z) (evs : list dohserver.evIndex) :
  counted n s = true -> n + 1 < 2 ^ 63 ->
  counted (n + 1) (addSuccessStats s latency evs) = true
  /\ successCount (addSuccessStats s latency evs) = successCount s + 1
  /\ failureCounters (addSuccessStats s latency evs) = failureCounters s.
Proof.
  intros Hc Hn. apply counted_true in Hc as (Hlen & Hpos & Hok & Hsum).
  pose proof (sum_nonneg _ Hpos). rewrite counted_true.
  unfold addSuccessStats. cbn [successCount failureCounters].
  rewrite int64_of_small by lia. repeat split; auto; lia.
Qed.

Lemma counted_failure (n : Z) (s : stats) (ix : dohserver.serFailureIndex)
    (evs : list dohserver.evIndex) :
  counted n s = true -> n + 1 < 2 ^ 63 ->
  counted (n + 1) (addFailureStats s ix evs) = true
  /\ successCount (addFailureStats s ix evs) = successCount s
  /\ fold_right Z.add 0 (failureCounters (addFailureStats s ix evs))
     = fold_right Z.add 0 (failureCounters s) + 1.
Proof.
  intros Hc Hn. apply counted_true in Hc as (Hlen & Hpos & Hok & Hsum).
  pose proof (sum_nonneg _ Hpos). rewrite counted_true.
  unfold addFailureStats. cbn [successCount failureCounters].
  destruct (failureCounters s !! serIx ix) as [x|] eqn:Hx.
  2:{ apply lookup_ge_None in Hx. rewrite Hlen in Hx. unfold serArraySize in Hx.
      destruct ix; cbn in Hx; lia. }
  pose proof (sum_bound _ _ _ Hpos Hx) as Hb.
  change (default 0 (Some x)) with x. rewrite int64_of_small by lia.
  rewrite (sum_insert _ _ x) by exact Hx.
  repeat split; try lia.
  - now rewrite length_insert.
  - apply Forall_insert; [exact Hpos|lia].
Qed.

(** X22: every request that [serveDoH] handles is counted exactly once, as
    long as fewer than 2^63 have been: as a success when the reply has been
    written, else under one of the twelve failures.  So the number that
    [Report] prints as req goes up by one, ok goes up for a written reply and
    errs for a refusal. *)
Theorem serveDoH_counts_each_request_once (n : Z) (t t' : server L) (r : Request)
    (h : handled L) :
  counted n (st t) = true -> n + 1 < 2 ^ 63 ->
  serveDoH t r = Some (h, t') ->
  counted (n + 1) (st t') = true
  /\ req (st t') = req (st t) + 1
  /\ successCount (st t')
     = successCount (st t) + (if isWritten (answered h) then 1 else 0)
  /\ errs (st t') = errs (st t) + (if isWritten (answered h) then 0 else 1).
Proof.
  intros Hc Hn. unfold dohhandler.serveDoH.
  destruct (concurrencytracker.Done _) as [cc2|]; [|discriminate].
  intros [= <- <-]. cbn [st].
  assert (Hc' : counted (n + 1) (statsAfter (handle t r)) = true
                /\ successCount (statsAfter (handle t r))
                   = successCount (st t) + (if isWritten (answered (handle t r)) then 1 else 0)
                /\ fold_right Z.add 0 (failureCounters (statsAfter (handle t r)))
                   = fold_right Z.add 0 (failureCounters (st t))
                     + (if isWritten (answered (handle t r)) then 0 else 1)).
  { destruct (handle_stats t r) as [(out & evs & -> & ->)|(hsc & serx & evs & -> & ->)];
      cbn [isWritten].
    - destruct (counted_success n (st t) duration evs Hc Hn) as (H1 & H2 & H3).
      split; [exact H1|]. rewrite H3. split; lia.
    - destruct (counted_failure n (st t) serx evs Hc Hn) as (H1 & H2 & H3).
      split; [exact H1|]. split; lia. }
  destruct Hc' as (H1 & H2 & H3). split; [exact H1|].
  rewrite (req_sum (n + 1) _ H1), (req_sum n _ Hc) by lia.
  rewrite (errs_sum (n + 1) _ H1), (errs_sum n _ Hc) by lia.
  rewrite H2, H3. destruct (isWritten _); repeat split; lia.
Qed.

Lemma validateRequest_Ok (r : Request) (body : list byte) :
  validateRequest r = Ok body ->
  (Method r = MethodPost \/ Method r = MethodGet)
  /\ doh.headerGet (Header r) consts.ContentTypeHeader = consts.Rfc8484AcceptValue
  /\ Body r = Some body.
Proof.
  unfold validateRequest.
  destruct (String.eqb_spec (Method r) MethodPost) as [Hp|Hp];
    destruct (String.eqb_spec (Method r) MethodGet) as [Hg|Hg]; cbn [negb andb];
    try discriminate;
    (destruct (String.eqb_spec (doh.headerGet (Header r) consts.ContentTypeHeader)
                 consts.Rfc8484AcceptValue) as [Hc|Hc]; cbn [negb]; [|discriminate]);
    (destruct (Body r) as [b|]; [|discriminate]); intros [= ->]; auto.
Qed.

(** [RemoveEDNS0FromOPT] and [CreateECS] keep the header and the question. *)
Lemma RemoveEDNS0FromOPT_envelope (m : dns.Msg) (code : Z) :
  dns.Hdr (snd (dnsutil.RemoveEDNS0FromOPT m code)) = dns.Hdr m
  /\ dns.Question (snd (dnsutil.RemoveEDNS0FromOPT m code)) = dns.Question m.
Proof.
  unfold dnsutil.RemoveEDNS0FromOPT.
  destruct (dnsutil.removeLoop _ _) as [out removed]. now destruct removed.
Qed.

Lemma CreateECS_envelope (m : dns.Msg) (fam plen : Z) (ip : list byte) :
  dns.Hdr (snd (dnsutil.CreateECS m fam plen ip)) = dns.Hdr m
  /\ dns.Question (snd (dnsutil.CreateECS m fam plen ip)) = dns.Question m.
Proof.
  destruct (CreateECS_shape m fam plen ip) as (rrs & ix & h & opts & _ & ->).
  now cbn.
Qed.

Lemma stage_envelope (dnsQ : dns.Msg) (hdr remote : string) (sg : dohserver.staged) :
  dohserver.stage cfg dnsQ hdr remote = Ok sg ->
  dns.Hdr (dohserver.query sg) = dns.Hdr dnsQ
  /\ dns.Question (dohserver.query sg) = dns.Question dnsQ.
Proof.
  destruct (dns.IsTsig dnsQ) as [rr|] eqn:Htsig.
  - unfold dohserver.stage.
    replace (bool_decide (dns.IsTsig dnsQ = None)) with false
      by (symmetry; apply bool_decide_eq_false; congruence).
    now intros [= <-].
  - intros Hst. destruct (stage_mutable _ _ _ _ _ Htsig Hst) as (q2 & Hq2 & _ & Hq).
    cbv zeta in Hq2.
    assert (H1 : dns.Hdr q2 = dns.Hdr dnsQ /\ dns.Question q2 = dns.Question dnsQ).
    { assert (H0 : forall b : bool,
                dns.Hdr (if b then snd (dnsutil.RemoveEDNS0FromOPT dnsQ dns.EDNS0SUBNET)
                         else dnsQ) = dns.Hdr dnsQ
                /\ dns.Question (if b then snd (dnsutil.RemoveEDNS0FromOPT dnsQ dns.EDNS0SUBNET)
                                 else dnsQ) = dns.Question dnsQ).
      { intros []; [apply RemoveEDNS0FromOPT_envelope|auto]. }
      destruct Hq2 as [->|(fam & plen & ip & _ & _ & _ & ->)]; [apply H0|].
      destruct (CreateECS_envelope
                  (if dohserver.ecsRemove cfg || (0 <? gostd.strlen hdr) || dohserver.ecsSet cfg
                   then snd (dnsutil.RemoveEDNS0FromOPT dnsQ dns.EDNS0SUBNET) else dnsQ)
                  fam plen ip) as [-> ->].
      apply H0. }
    rewrite Hq. destruct (0 <=? _); [|exact H1].
    destruct (RemoveEDNS0FromOPT_envelope q2 dns.EDNS0PADDING) as [-> ->]. exact H1.
Qed.

(** The handler, read from the query that it hands to the resolver. *)
Lemma handle_asked (t : server L) (r : Request) (q : dns.Msg) :
  asked (handle t r) = Some q ->
  exists body0 body dnsQ0 sg,
    validateRequest r = Ok body0
    /\ (if String.eqb (Method r) MethodGet then decodeQueryParam r else Ok body0) = Ok body
    /\ dns.Unpack body = Some dnsQ0
    /\ dohserver.stage cfg
         (if dns.Id (dns.Hdr dnsQ0) =? 0 then dns.set_Id dnsQ0 newId else dnsQ0)
         (doh.headerGet (Header r) consts.TrustySynthesizeECSRequestHeader)
         (RemoteAddr r) = Ok sg
    /\ q = dohserver.query sg
    /\ localAfter (handle t r)
       = snd (resolver.Resolve (local t) q (resolver.mkQueryMeta (Scheme r)))
    /\ match fst (fst (resolver.Resolve (local t) q (resolver.mkQueryMeta (Scheme r)))) with
       | Err _ => answered (handle t r) = Refused StatusServiceUnavailable
       | Ok (dnsR0, _) =>
           let dnsR := dns.set_Id dnsR0 (dns.Id (dns.Hdr dnsQ0)) in
           let packed :=
             if bool_decide (dns.IsTsig dnsQ0 = None) && (0 <=? dohserver.addServerPadding sg)
             then fst (dnsutil.PadAndPack dnsR consts.Rfc8467ServerPadModulo)
             else match dns.Pack dnsR with
                  | Some b => Ok b
                  | None => Err dnsutil.PackFailed
                  end in
           match packed with
           | Err _ => answered (handle t r) = Refused StatusServiceUnavailable
           | Ok out =>
               answered (handle t r)
               = if Write out then Written out else Refused StatusServiceUnavailable
           end
       end.
Proof.
  unfold dohhandler.handle, failed.
  destruct (validateRequest r) as [[serx hsc]|body0]; [discriminate|].
  destruct (if String.eqb (Method r) MethodGet then decodeQueryParam r else Ok body0)
    as [serx|body] eqn:Hbody; [discriminate|].
  destruct (dns.Unpack body) as [dnsQ0|] eqn:Hun; [|discriminate]. cbv zeta.
  assert (Hts : dns.IsTsig (if dns.Id (dns.Hdr dnsQ0) =? 0 then dns.set_Id dnsQ0 newId else dnsQ0)
                = dns.IsTsig dnsQ0) by (now destruct (_ =? 0)).
  rewrite Hts.
  destruct (dohserver.stage _ _ _ _) as [[serx e]|sg] eqn:Hst; [discriminate|].
  destruct (resolver.Resolve _ _ _) as [[res q'] l'] eqn:Hres.
  destruct res as [e|[dnsR0 meta]].
  - intros [= <-]. exists body0, body, dnsQ0, sg. rewrite Hres. cbn. repeat split; auto.
  - match goal with
    | |- context [match ?p with Err _ => _ | Ok _ => _ end] => destruct p as [e|out] eqn:Hp
    end.
    + intros [= <-]. exists body0, body, dnsQ0, sg. rewrite Hres. cbn [fst snd].
      cbv zeta. rewrite Hp. repeat split; auto.
    + destruct (Write out) eqn:Hw; intros [= <-]; exists body0, body, dnsQ0, sg;
        rewrite Hres; cbn [fst snd]; cbv zeta; rewrite Hp, Hw; repeat split; auto.
Qed.

Lemma handle_not_asked (t : server L) (r : Request) :
  asked (handle t r) = None ->
  localAfter (handle t r) = local t
  /\ match validateRequest r with
     | Err (_, hsc) => answered (handle t r) = Refused hsc
     | Ok _ => answered (handle t r) = Refused StatusBadRequest
     end.
Proof.
  unfold dohhandler.handle, failed.
  destruct (validateRequest r) as [[serx hsc]|body0]; [auto|].
  destruct (if String.eqb (Method r) MethodGet then decodeQueryParam r else Ok body0)
    as [serx|body]; [auto|].
  destruct (dns.Unpack body) as [dnsQ0|]; [|auto]. cbv zeta.
  destruct (dohserver.stage _ _ _ _) as [[serx e]|sg]; [auto|].
  destruct (resolver.Resolve _ _ _) as [[res q'] l'].
  destruct res as [e|[dnsR0 meta]]; [discriminate|].
  match goal with
  | |- context [match ?p with Err _ => _ | Ok _ => _ end] => destruct p as [e|out]
  end; [discriminate|].
  destruct (Write out); discriminate.
Qed.

(** X23: which requests reach the resolver.  A request with a method other
    than POST and GET is refused with status 405, and one whose Content-Type
    is not application/dns-message with 415, GET included.  A request is
    refused with 405, 415 or 400 without the resolver being called; once
    the resolver has been called the request is answered with the reply or
    refused with 503. *)
Theorem serveDoH_refuses_before_resolving (t : server L) (r : Request) :
  (Method r <> MethodPost -> Method r <> MethodGet ->
   answered (handle t r) = Refused StatusMethodNotAllowed)
  /\ (Method r = MethodPost \/ Method r = MethodGet ->
      doh.headerGet (Header r) consts.ContentTypeHeader <> consts.Rfc8484AcceptValue ->
      answered (handle t r) = Refused StatusUnsupportedMediaType)
  /\ (asked (handle t r) = None ->
      localAfter (handle t r) = local t
      /\ (answered (handle t r) = Refused StatusMethodNotAllowed
          \/ answered (handle t r) = Refused StatusUnsupportedMediaType
          \/ answered (handle t r) = Refused StatusBadRequest))
  /\ (forall q, asked (handle t r) = Some q ->
      localAfter (handle t r)
      = snd (resolver.Resolve (local t) q (resolver.mkQueryMeta (Scheme r)))
      /\ (isWritten (answered (handle t r)) = true
          \/ answered (handle t r) = Refused StatusServiceUnavailable)).
Proof.
  split; [|split; [|split]].
  - intros Hp Hg. unfold dohhandler.handle, validateRequest.
    apply String.eqb_neq in Hp, Hg. now rewrite Hp, Hg.
  - intros Hm Hc. unfold dohhandler.handle, validateRequest.
    apply String.eqb_neq in Hc. rewrite Hc.
    destruct Hm as [->| ->]; reflexivity.
  - intros Hn. destruct (handle_not_asked t r Hn) as [Hl Ha]. split; [exact Hl|].
    revert Ha. unfold validateRequest.
    destruct (_ && _); [auto|]. destruct (negb _); [auto|].
    destruct (Body r); auto.
  - intros q Hq.
    destruct (handle_asked t r q Hq) as (body0 & body & dnsQ0 & sg & _ & _ & _ & _ & _ & Hl & Ha).
    split; [exact Hl|].
    destruct (fst (fst _)) as [e|[dnsR0 meta]]; [auto|]. cbv zeta in Ha.
    match type of Ha with
    | match ?p with Err _ => _ | Ok _ => _ end => destruct p as [e|out]
    end; [auto|].
    rewrite Ha. destruct (Write out); auto.
Qed.

Lemma handle_written (t : server L) (r : Request) (out : list byte) :
  answered (handle t r) = Written out -> exists q, asked (handle t r) = Some q.
Proof.
  intros Hw. destruct (asked (handle t r)) as [q|] eqn:Ha; [eauto|].
  destruct (handle_not_asked t r Ha) as [_ H]. rewrite Hw in H.
  destruct (validateRequest r) as [[? ?]|?]; discriminate.
Qed.

Lemma PadAndPack_divides (msg msg' : dns.Msg) (M : Z) (packed : list byte) :
  dnsutil.PadAndPack msg M = (Ok packed, msg') ->
  dns.Pack msg' = Some packed /\ (M | len packed).
Proof.
  intros H. pose proof (PadAndPack_range _ _ _ _ H) as Hrange.
  revert H. unfold dnsutil.PadAndPack, consts.MaximumViableDNSMessage.
  destruct (M <? 1) eqn:Hlo; [discriminate|].
  destruct (65535 <? M) eqn:Hhi; [discriminate|]. cbn [orb].
  repeat match goal with
         | |- context [let '(_, _) := ?x in _] => destruct x as [[? ?] ?]
         end.
  match goal with
  | |- context [dns.Pack ?m] => destruct (dns.Pack m) as [p|] eqn:Hpack
  end; [|discriminate].
  destruct (len p mod M =? 0) eqn:Hmod; cbn [negb]; [|discriminate].
  intros [= <- <-]. split; [exact Hpack|].
  apply Z.eqb_eq in Hmod. apply Z.mod_divide; lia.
Qed.

Lemma stage_padding_of (dnsQ0 : dns.Msg) (hdr remote : string) (sg : dohserver.staged) :
  dohserver.stage cfg
    (if dns.Id (dns.Hdr dnsQ0) =? 0 then dns.set_Id dnsQ0 newId else dnsQ0) hdr remote
  = Ok sg ->
  bool_decide (dns.IsTsig dnsQ0 = None) && (0 <=? dohserver.addServerPadding sg)
  = bool_decide (dns.IsTsig dnsQ0 = None) && (0 <=? dnsutil.FindPadding dnsQ0).
Proof.
  intros Hst.
  assert (Hts : dns.IsTsig (if dns.Id (dns.Hdr dnsQ0) =? 0 then dns.set_Id dnsQ0 newId else dnsQ0)
                = dns.IsTsig dnsQ0) by (now destruct (_ =? 0)).
  assert (Hfp : dnsutil.FindPadding
                  (if dns.Id (dns.Hdr dnsQ0) =? 0 then dns.set_Id dnsQ0 newId else dnsQ0)
                = dnsutil.FindPadding dnsQ0) by (now destruct (_ =? 0)).
  rewrite <- Hts. clear Hts.
  destruct (dns.IsTsig (if dns.Id (dns.Hdr dnsQ0) =? 0 then dns.set_Id dnsQ0 newId else dnsQ0))
    as [rr|] eqn:Htsig.
  - replace (bool_decide (Some rr = None)) with false
      by (symmetry; now apply bool_decide_eq_false). reflexivity.
  - destruct (stage_FindPadding _ _ _ _ _ Htsig Hst) as [-> _]. now rewrite Hfp.
Qed.

(** X24: the reply that [serveDoH] writes.  It is the packed form of the
    message that the resolver returned for the query handed to it, with the
    ID of the query as the client sent it (zero when the client sent zero).
    When the client's query carried a padding sub-option and no TSIG, the
    reply is padded by [PadAndPack] and its length is a multiple of 468;
    otherwise it is packed as it is. *)
Theorem serveDoH_reply (t : server L) (r : Request) (out : list byte) :
  answered (handle t r) = Written out ->
  exists body dnsQ0 q dnsR0 meta,
    (if String.eqb (Method r) MethodGet then decodeQueryParam r = Ok body
     else Body r = Some body)
    /\ dns.Unpack body = Some dnsQ0
    /\ asked (handle t r) = Some q
    /\ fst (fst (resolver.Resolve (local t) q (resolver.mkQueryMeta (Scheme r))))
       = Ok (dnsR0, meta)
    /\ if bool_decide (dns.IsTsig dnsQ0 = None) && (0 <=? dnsutil.FindPadding dnsQ0)
       then exists padded,
              dnsutil.PadAndPack (dns.set_Id dnsR0 (dns.Id (dns.Hdr dnsQ0)))
                consts.Rfc8467ServerPadModulo = (Ok out, padded)
              /\ dns.Pack padded = Some out
              /\ dns.Id (dns.Hdr padded) = dns.Id (dns.Hdr dnsQ0)
              /\ (468 | len out)
       else dns.Pack (dns.set_Id dnsR0 (dns.Id (dns.Hdr dnsQ0))) = Some out.
Proof.
  intros Hw. destruct (handle_written t r out Hw) as [q Hq].
  destruct (handle_asked t r q Hq)
    as (body0 & body & dnsQ0 & sg & Hv & Hbody & Hun & Hst & -> & _ & Ha).
  destruct (fst (fst _)) as [e|[dnsR0 meta]] eqn:Hres; [rewrite Hw in Ha; discriminate|].
  exists body, dnsQ0, (dohserver.query sg), dnsR0, meta.
  apply validateRequest_Ok in Hv as (_ & _ & Hb).
  split; [revert Hbody; destruct (String.eqb (Method r) MethodGet); intros Hbody; [exact Hbody|congruence]|].
  split; [exact Hun|]. split; [exact Hq|]. split; [exact Hres|].
  cbv zeta in Ha. rewrite (stage_padding_of _ _ _ _ Hst) in Ha.
  destruct (_ && _).
  - destruct (dnsutil.PadAndPack _ _) as [[e|out'] padded] eqn:Hp; cbn [fst] in Ha;
      [rewrite Hw in Ha; discriminate|].
    rewrite Hw in Ha. destruct (Write out'); [|discriminate]. injection Ha as ->.
    exists padded. split; [reflexivity|].
    destruct (PadAndPack_divides _ _ _ _ Hp) as [Hpk Hdiv].
    split; [exact Hpk|]. split; [|exact Hdiv].
    pose proof (PadAndPack_fields (dns.set_Id dnsR0 (dns.Id (dns.Hdr dnsQ0)))
                  consts.Rfc8467ServerPadModulo) as (Hh & _).
    rewrite Hp in Hh. cbn [snd] in Hh. now rewrite Hh.
  - destruct (dns.Pack _) as [b|]; [|rewrite Hw in Ha; discriminate].
    rewrite Hw in Ha. destruct (Write b); [|discriminate]. now injection Ha as ->.
Qed.

(** X25: the query that [serveDoH] hands to the resolver.  It has the
    question of the client's query and its ID, or the fresh ID when the
    client sent zero.  A query with TSIG is handed on as it is; from any
    other the padding is taken out, whatever the configuration. *)
Theorem serveDoH_query_for_resolver (t : server L) (r : Request) (q : dns.Msg) :
  asked (handle t r) = Some q ->
  exists body dnsQ0,
    (if String.eqb (Method r) MethodGet then decodeQueryParam r = Ok body
     else Body r = Some body)
    /\ dns.Unpack body = Some dnsQ0
    /\ dns.Question q = dns.Question dnsQ0
    /\ dns.Id (dns.Hdr q)
       = (if dns.Id (dns.Hdr dnsQ0) =? 0 then newId else dns.Id (dns.Hdr dnsQ0))
    /\ (dns.IsTsig dnsQ0 = None -> dnsutil.FindPadding q = -1)
    /\ (dns.IsTsig dnsQ0 <> None ->
        q = if dns.Id (dns.Hdr dnsQ0) =? 0 then dns.set_Id dnsQ0 newId else dnsQ0).
Proof.
  intros Hq.
  destruct (handle_asked t r q Hq)
    as (body0 & body & dnsQ0 & sg & Hv & Hbody & Hun & Hst & -> & _ & _).
  exists body, dnsQ0.
  apply validateRequest_Ok in Hv as (_ & _ & Hb).
  split; [revert Hbody; destruct (String.eqb (Method r) MethodGet); intros Hbody; [exact Hbody|congruence]|].
  split; [exact Hun|].
  destruct (stage_envelope _ _ _ _ Hst) as [Hh Hqq].
  assert (Hts : dns.IsTsig (if dns.Id (dns.Hdr dnsQ0) =? 0 then dns.set_Id dnsQ0 newId else dnsQ0)
                = dns.IsTsig dnsQ0) by (now destruct (_ =? 0)).
  split; [rewrite Hqq; now destruct (_ =? 0)|].
  split; [rewrite Hh; now destruct (_ =? 0)|].
  split.
  - intros Hmut. rewrite <- Hts in Hmut.
    now destruct (stage_FindPadding _ _ _ _ _ Hmut Hst).
  - intros Htsig. rewrite <- Hts in Htsig. revert Hst. unfold dohserver.stage.
    replace (bool_decide (dns.IsTsig _ = None)) with false
      by (symmetry; now apply bool_decide_eq_false).
    now intros [= <-].
Qed.

End HandlerFacts.

Section Base64.

Lemma byte_of_Z_of_byte (b : byte) : net.byte_of (net.Z_of_byte b) = b.
Proof. destruct b; reflexivity. Qed.

Lemma byte_of_eq (e : Z) (b : byte) : e = net.Z_of_byte b -> net.byte_of e = b.
Proof. intros ->. apply byte_of_Z_of_byte. Qed.

Lemma Z_of_byte_range (b : byte) : 0 <= net.Z_of_byte b < 256.
Proof. destruct b; cbn; lia. Qed.

Lemma b64value_b64char (v : Z) :
  0 <= v < 64 ->
  gostd.b64value (gostd.b64char v) = Some v
  /\ Ascii.eqb (gostd.b64char v) "=" = false.
Proof.
  intros Hv.
  assert (H : forallb (fun v => match gostd.b64value (gostd.b64char v) with
                                | Some w => w =? v
                                | None => false
                                end && negb (Ascii.eqb (gostd.b64char v) "="))
                (map Z.of_nat (seq 0 64)) = true) by (vm_compute; reflexivity).
  pose proof (forallb_range _ 64 H v ltac:(lia)) as Hx. cbv beta in Hx.
  apply andb_true_iff in Hx as [H1 H2]. apply negb_true_iff in H2.
  destruct (gostd.b64value _) as [w|]; [|discriminate].
  apply Z.eqb_eq in H1. now subst.
Qed.

Lemma b64decode_b64encode_upto (n : nat) (bs : list byte) :
  (length bs <= n)%nat -> gostd.b64decode (gostd.b64encode bs) = Some bs.
Proof.
  revert bs. induction n as [|n IH]; intros bs Hn.
  - destruct bs; [reflexivity|cbn in Hn; lia].
  - destruct bs as [|a [|b [|c tl]]]; [reflexivity| | |].
    + pose proof (Z_of_byte_range a) as Ha.
      cbn [gostd.b64encode gostd.b64decode]. cbv zeta.
      destruct (b64value_b64char (net.Z_of_byte a / 4)) as [-> _];
        [Z.div_mod_to_equations; lia|].
      destruct (b64value_b64char (net.Z_of_byte a mod 4 * 16)) as [-> _];
        [Z.div_mod_to_equations; lia|].
      cbn. rewrite (byte_of_eq _ a) by (Z.div_mod_to_equations; lia). reflexivity.
    + pose proof (Z_of_byte_range a) as Ha. pose proof (Z_of_byte_range b) as Hb.
      cbn [gostd.b64encode gostd.b64decode]. cbv zeta.
      destruct (b64value_b64char (net.Z_of_byte a / 4)) as [-> _];
        [Z.div_mod_to_equations; lia|].
      destruct (b64value_b64char (net.Z_of_byte a mod 4 * 16 + net.Z_of_byte b / 16))
        as [-> _]; [Z.div_mod_to_equations; lia|].
      destruct (b64value_b64char (net.Z_of_byte b mod 16 * 4)) as [-> ->];
        [Z.div_mod_to_equations; lia|].
      cbn. rewrite (byte_of_eq _ a) by (Z.div_mod_to_equations; lia).
      rewrite (byte_of_eq _ b) by (Z.div_mod_to_equations; lia). reflexivity.
    + pose proof (Z_of_byte_range a) as Ha. pose proof (Z_of_byte_range b) as Hb.
      pose proof (Z_of_byte_range c) as Hc.
      cbn [gostd.b64encode gostd.b64decode]. cbv zeta.
      destruct (b64value_b64char (net.Z_of_byte a / 4)) as [-> _];
        [Z.div_mod_to_equations; lia|].
      destruct (b64value_b64char (net.Z_of_byte a mod 4 * 16 + net.Z_of_byte b / 16))
        as [-> _]; [Z.div_mod_to_equations; lia|].
      destruct (b64value_b64char (net.Z_of_byte b mod 16 * 4 + net.Z_of_byte c / 64))
        as [-> ->]; [Z.div_mod_to_equations; lia|].
      destruct (b64value_b64char (net.Z_of_byte c mod 64)) as [-> ->];
        [Z.div_mod_to_equations; lia|].
      rewrite IH by (cbn in Hn; lia).
      rewrite (byte_of_eq _ a) by (Z.div_mod_to_equations; lia).
      rewrite (byte_of_eq _ b) by (Z.div_mod_to_equations; lia).
      rewrite (byte_of_eq _ c) by (Z.div_mod_to_equations; lia). reflexivity.
Qed.

Lemma DecodeString_EncodeToString (bs : list byte) :
  gostd.DecodeString (gostd.EncodeToString bs) = Some bs.
Proof.
  unfold gostd.DecodeString, gostd.EncodeToString.
  rewrite list_ascii_of_string_of_list_ascii.
  now apply (b64decode_b64encode_upto (length bs)).
Qed.

(** X26: the [dns] parameter of a GET request.  What the DoH resolver puts
    in the URL for a packed query - the URL of the server, ?dns= and the
    query in [base64.URLEncoding] - is decoded by [decodeQueryParam] of the
    server to the same octets, when [dns] is the only parameter of the
    request.  A request without the parameter, or with any other parameter
    beside it, is refused as serQueryParamMissing. *)
Theorem GET_query_parameter (t : doh.remote) (url : string) (binary : list byte)
    (f : doh.ecsFlags) (msgIsMutable : bool) (r : dohhandler.Request) :
  (doh.httpMethod t = doh.MethodGet ->
   doh.URL (doh.buildRequest t url binary f msgIsMutable)
   = url +:+ "?dns=" +:+ gostd.EncodeToString binary
   /\ doh.ReqBody (doh.buildRequest t url binary f msgIsMutable) = None)
  /\ (forall others,
        dohhandler.Query r = {[ "dns" := (gostd.EncodeToString binary, others) ]} ->
        dohhandler.decodeQueryParam r = Ok binary)
  /\ (dohhandler.Query r !! "dns" = None \/ size (dohhandler.Query r) <> 1%nat ->
      dohhandler.decodeQueryParam r = Err dohserver.serQueryParamMissing).
Proof.
  split; [|split].
  - intros Hget. unfold doh.buildRequest. rewrite Hget. cbn. auto.
  - intros others Hq. unfold dohhandler.decodeQueryParam, consts.Rfc8484QueryParam.
    rewrite Hq, lookup_singleton_eq, map_size_singleton. cbn [negb Nat.eqb].
    now rewrite DecodeString_EncodeToString.
  - unfold dohhandler.decodeQueryParam, consts.Rfc8484QueryParam.
    intros [->|Hsz]; [reflexivity|].
    destruct (_ !! _) as [[first rest]|]; [|reflexivity].
    apply Nat.eqb_neq in Hsz. now rewrite Hsz.
Qed.

End Base64.

Lemma serveDoH_counts_each_request_once_witness :
  exists h t',
    examples.serveExample (examples.dohServer (examples.replyWith 0 false 9))
      (examples.postRequest examples.query23) = Some (h, t')
    /\ dohhandler.counted (0 + 1) (dohhandler.st t') = true
    /\ dohhandler.req (dohhandler.st t')
       = dohhandler.req
           (dohhandler.st (examples.dohServer (examples.replyWith 0 false 9))) + 1
    /\ dohhandler.successCount (dohhandler.st t')
       = dohhandler.successCount
           (dohhandler.st (examples.dohServer (examples.replyWith 0 false 9)))
         + (if dohhandler.isWritten (dohhandler.answered h) then 1 else 0)
    /\ dohhandler.errs (dohhandler.st t')
       = dohhandler.errs
           (dohhandler.st (examples.dohServer (examples.replyWith 0 false 9)))
         + (if dohhandler.isWritten (dohhandler.answered h) then 0 else 1).
Proof.
  eexists _, _. split; [vm_compute; reflexivity|].
  apply (serveDoH_counts_each_request_once (lib := miekg.reference)
           (localResolver := examples.mockResolve) examples.plainServer 4242 (fun _ => true)
           examples.millisecond 0
           (examples.dohServer (examples.replyWith 0 false 9)) _
           (examples.postRequest examples.query23) _);
    [reflexivity|lia|vm_compute; reflexivity].
Defined.

Lemma serveDoH_refuses_before_resolving_witness :
  dohhandler.answered
    (examples.handleExample (examples.dohServer (examples.replyWith 0 false 9))
       (examples.requestWith "PUT" examples.query23))
  = dohhandler.Refused 405.
Proof.
  apply (proj1 (serveDoH_refuses_before_resolving (lib := miekg.reference)
                  (localResolver := examples.mockResolve) examples.plainServer 4242 (fun _ => true)
                  examples.millisecond
                  (examples.dohServer (examples.replyWith 0 false 9))
                  (examples.requestWith "PUT" examples.query23)));
    discriminate.
Defined.

Lemma serveDoH_reply_witness :
  exists body dnsQ0 q dnsR0 meta,
    Some body = miekg.packMsg examples.paddedQuery
    /\ miekg.unpackMsg body = Some dnsQ0
    /\ dohhandler.asked
         (examples.handleExample (examples.dohServer (examples.replyWith 0 false 9))
            (examples.postRequest examples.paddedQuery)) = Some q
    /\ fst (fst (@resolver.Resolve _ _ examples.mockResolve
                   (dohhandler.local (examples.dohServer (examples.replyWith 0 false 9)))
                   q (resolver.mkQueryMeta "https")))
       = Ok (dnsR0, meta)
    /\ dns.Id (dns.Hdr dnsQ0) = 23.
Proof.
  destruct (serveDoH_reply (lib := miekg.reference) (localResolver := examples.mockResolve)
              examples.plainServer 4242 (fun _ => true) examples.millisecond
              (examples.dohServer (examples.replyWith 0 false 9))
              (examples.postRequest examples.paddedQuery)
              (default [] (@dns.Pack miekg.reference
                 (snd (@dnsutil.PadAndPack miekg.reference
                         (dns.set_Id (examples.replyWith 0 false 9) 23) 468)))))
    as (body & dnsQ0 & q & dnsR0 & meta & Hb & Hu & Ha & Hr & _);
    [vm_compute; reflexivity|].
  exists body, dnsQ0, q, dnsR0, meta.
  cbn [String.eqb Ascii.eqb Bool.eqb dohhandler.Method examples.postRequest examples.requestWith
       dohhandler.MethodGet] in Hb.
  split; [symmetry; exact Hb|]. split; [exact Hu|]. split; [exact Ha|]. split; [exact Hr|].
  assert (He : miekg.packMsg examples.paddedQuery = Some body) by exact Hb.
  vm_compute in He. injection He as <-. vm_compute in Hu. injection Hu as <-. reflexivity.
Defined.

Lemma serveDoH_query_for_resolver_witness :
  exists q body dnsQ0,
    dohhandler.asked
      (examples.handleExample (examples.dohServer (examples.replyWith 0 false 9))
         (examples.postRequest examples.paddedQuery)) = Some q
    /\ miekg.packMsg examples.paddedQuery = Some body
    /\ miekg.unpackMsg body = Some dnsQ0
    /\ dns.Question q = dns.Question dnsQ0
    /\ dnsutil.FindPadding q = -1.
Proof.
  destruct (serveDoH_query_for_resolver (lib := miekg.reference)
              (localResolver := examples.mockResolve)
              examples.plainServer 4242 (fun _ => true) examples.millisecond
              (examples.dohServer (examples.replyWith 0 false 9))
              (examples.postRequest examples.paddedQuery)
              examples.query23)
    as (body & dnsQ0 & Hb & Hu & Hq & _ & Hpad & _);
    [vm_compute; reflexivity|].
  exists examples.query23, body, dnsQ0.
  split; [vm_compute; reflexivity|]. split; [exact Hb|]. split; [exact Hu|].
  split; [exact Hq|]. apply Hpad.
  assert (He : miekg.packMsg examples.paddedQuery = Some body) by exact Hb.
  vm_compute in He. injection He as <-. vm_compute in Hu. injection Hu as <-. reflexivity.
Defined.

Lemma GET_query_parameter_witness :
  dohhandler.decodeQueryParam
    (dohhandler.mkRequest "GET" [] None
       {[ "dns" := (gostd.EncodeToString [x00; x17; x01], []) ]} "192.0.2.7:51234" "https")
  = Ok [x00; x17; x01].
Proof.
  apply (proj1 (proj2 (GET_query_parameter
                         (examples.remoteOf examples.getConfig examples.echo)
                         examples.serverURL [x00; x17; x01] doh.noFlags true
                         (dohhandler.mkRequest "GET" [] None
                            {[ "dns" := (gostd.EncodeToString [x00; x17; x01], []) ]}
                            "192.0.2.7:51234" "https")))
           []).
  reflexivity.
Defined.

(** ** ECS in the queries that the DoH resolver sends *)

Section DohECS.
Import dns dnsutil.
Context {lib : dns.Library}.
Variable NewRequestOk : string -> string -> bool.
Variable ParseDuration : string -> option Z.
Variable startTime endTime : Z.

Local Abbreviation Resolve := (doh.Resolve NewRequestOk ParseDuration startTime endTime).

(** The query as [Resolve] leaves it is the query as it was serialised. *)
Lemma Resolve_query_after (t : doh.remote) (dnsQ : Msg) (qm : resolver.QueryMetaData) :
  snd (fst (Resolve t dnsQ qm))
  = snd (doh.serialise t (fst (doh.prepare t dnsQ)) (bool_decide (IsTsig dnsQ = None))).
Proof.
  unfold doh.Resolve.
  destruct (doh.prepare t dnsQ) as [q1 f]. cbn [fst].
  destruct (doh.serialise t q1 _) as [[e|binary] q2]; [reflexivity|].
  destruct (bestserver.Best _) as [[bestURL bsix]|]; [|reflexivity].
  destruct (negb (NewRequestOk _ _)); [reflexivity|].
  destruct (doh.httpClient t _) as [e|r].
  { destruct (bestserver.Result _ _ _ _ _). reflexivity. }
  destruct (bestserver.Result _ _ _ _ _) as [found bs].
  destruct (negb (doh.StatusCode r =? doh.StatusOK)); [reflexivity|].
  destruct (doh.Body r) as [body|]; [|reflexivity].
  destruct (negb (String.eqb _ _)); [reflexivity|].
  destruct (len body <? _); [reflexivity|].
  destruct (Unpack body) as [httpR0|]; [|reflexivity].
  destruct (doh.postProcess t f _ r httpR0) as [httpR ecsReturned]. reflexivity.
Qed.

Lemma subnets_none (q : Msg) :
  FindECS q = None -> List.filter isSubnet (optionsOf (Extra q)) = [].
Proof.
  intros H. pose proof (findECSIn_optionsOf (Extra q)) as Hf.
  unfold FindECS in H. rewrite H, firstSubnet_head in Hf. cbn in Hf.
  destruct (List.filter _ _); [reflexivity|discriminate].
Qed.

Lemma subnets_removed (q : Msg) :
  List.filter isSubnet (optionsOf (Extra (snd (RemoveEDNS0FromOPT q EDNS0SUBNET)))) = [].
Proof.
  rewrite RemoveEDNS0FromOPT_optionsOf.
  induction (optionsOf (Extra q)) as [|o l IH]; [reflexivity|].
  cbn. destruct o; cbn; auto. destruct (hasCode _ _) eqn:E; cbn; auto.
Qed.

Lemma subnets_created (q : Msg) (fam plen : Z) (ip : list byte) :
  List.filter isSubnet (optionsOf (Extra q)) = [] ->
  List.filter isSubnet (optionsOf (Extra (snd (CreateECS q fam plen ip))))
  = [EDNS0_SUBNET EDNS0SUBNET (uint16_of fam) (uint8_of plen) 0 ip].
Proof.
  intros Hq. destruct (CreateECS_optionsOf q fam plen ip) as (a & b & H1 & H2).
  rewrite H1, List.filter_app in Hq. apply app_eq_nil in Hq as [Ha Hb].
  now rewrite H2, !List.filter_app, Ha, Hb.
Qed.

Lemma subnets_serialised (t : doh.remote) (q : Msg) (msgIsMutable : bool) :
  List.filter isSubnet (optionsOf (Extra (snd (doh.serialise t q msgIsMutable))))
  = List.filter isSubnet (optionsOf (Extra q)).
Proof.
  unfold doh.serialise. destruct (_ && _).
  - rewrite <- (filter_filter_keep isSubnet (hasCode EDNS0PADDING)
                  (optionsOf (Extra (snd (PadAndPack q consts.Rfc8467ClientPadModulo)))))
      by now intros [].
    rewrite PadAndPack_optionsOf. apply filter_filter_keep. now intros [].
  - now destruct (Pack q).
Qed.

Lemma ecsRules_subnets (t : doh.remote) (dnsQ : Msg) :
  doh.ECSRemove (doh.config t) = true ->
  List.filter isSubnet (optionsOf (Extra (fst (doh.ecsRules t dnsQ))))
  = if bool_decide (is_Some (doh.ECSSetCIDR (doh.config t)))
    then [EDNS0_SUBNET EDNS0SUBNET (uint16_of (doh.ecsFamily t))
            (uint8_of (doh.ecsPrefixLength t)) 0 (doh.ecsIP t)]
    else [].
Proof.
  intros Hrem.
  assert (Hq1 : List.filter isSubnet
                  (optionsOf (Extra (if bool_decide (is_Some (FindECS dnsQ))
                                     then snd (RemoveEDNS0FromOPT dnsQ EDNS0SUBNET)
                                     else dnsQ))) = []).
  { destruct (FindECS dnsQ) as [x|] eqn:Hf.
    - rewrite bool_decide_eq_true_2 by eauto. apply subnets_removed.
    - rewrite bool_decide_eq_false_2 by (intros [? ?]; discriminate).
      now apply subnets_none. }
  unfold doh.ecsRules. cbv zeta. rewrite Hrem. cbn [andb].
  revert Hq1. destruct (bool_decide (is_Some (FindECS dnsQ))) eqn:Hp;
    [destruct (RemoveEDNS0FromOPT dnsQ EDNS0SUBNET) as [removed q]|];
    cbn [snd fst doh.ecsPresent negb]; intros Hq1;
    destruct (bool_decide (is_Some (doh.ECSSetCIDR (doh.config t))));
    cbn [andb doh.ecsPresent negb]; destruct (_ && _); cbn [fst];
    first [exact Hq1 | now apply subnets_created].
Qed.

(** X27: ECS in what the DoH resolver sends for an ordinary query (opcode
    QUERY, one question of class IN, no TSIG) when it is configured with
    [ECSRemove].  The query as it is serialised, which is also what [Resolve]
    leaves in the caller's message, holds no ECS sub-option of the client:
    none at all without [ECSSetCIDR], and with it exactly the one that [New]
    prepared from the CIDR. *)
Theorem Resolve_removes_client_ECS (t : doh.remote) (dnsQ : Msg)
    (qm : resolver.QueryMetaData) :
  doh.ECSRemove (doh.config t) = true ->
  doh.isINQuery dnsQ = true ->
  IsTsig dnsQ = None ->
  let sent := snd (fst (Resolve t dnsQ qm)) in
  sent = snd (doh.serialise t (fst (doh.prepare t dnsQ)) true)
  /\ (doh.ECSSetCIDR (doh.config t) = None ->
      List.filter isSubnet (optionsOf (Extra sent)) = [] /\ FindECS sent = None)
  /\ (doh.ECSSetCIDR (doh.config t) <> None ->
      List.filter isSubnet (optionsOf (Extra sent))
      = [EDNS0_SUBNET EDNS0SUBNET (uint16_of (doh.ecsFamily t))
           (uint8_of (doh.ecsPrefixLength t)) 0 (doh.ecsIP t)]).
Proof.
  intros Hrem Hin Hmut sent. subst sent. rewrite Resolve_query_after.
  rewrite (IsTsig_mutable _ Hmut). split; [reflexivity|].
  assert (Hprep : Extra (fst (doh.prepare t dnsQ)) = Extra (fst (doh.ecsRules t dnsQ))).
  { unfold doh.prepare. rewrite Hin, (IsTsig_mutable _ Hmut). cbn [andb].
    destruct (doh.ecsRules t dnsQ) as [q1 f]. cbn [fst].
    now destruct (String.eqb _ _). }
  assert (Hsub : List.filter isSubnet
                   (optionsOf (Extra (snd (doh.serialise t (fst (doh.prepare t dnsQ)) true))))
                 = if bool_decide (is_Some (doh.ECSSetCIDR (doh.config t)))
                   then [EDNS0_SUBNET EDNS0SUBNET (uint16_of (doh.ecsFamily t))
                           (uint8_of (doh.ecsPrefixLength t)) 0 (doh.ecsIP t)]
                   else []).
  { rewrite subnets_serialised, Hprep. now apply ecsRules_subnets. }
  split.
  - intros Hnone. rewrite Hnone in Hsub.
    rewrite (bool_decide_eq_false_2 (is_Some None)) in Hsub by (intros [? ?]; discriminate).
    split; [exact Hsub|]. unfold FindECS. apply findECSIn_None.
    revert Hsub. generalize (optionsOf (Extra (snd (doh.serialise t (fst (doh.prepare t dnsQ)) true)))).
    intros l. induction l as [|o l IH]; [reflexivity|].
    cbn. destruct (isSubnet o); [discriminate|]. cbn. auto.
  - intros Hsome. destruct (doh.ECSSetCIDR (doh.config t)) as [cidr|]; [|congruence].
    now rewrite (bool_decide_eq_true_2 (is_Some (Some cidr))) in Hsub by eauto.
Qed.

End DohECS.

Lemma Resolve_removes_client_ECS_witness :
  dnsutil.FindECS
    (snd (fst (@doh.Resolve miekg.reference (fun _ _ => true) (fun _ => None) 0 1000000
                 (examples.remoteOf
                    (doh.mkConfig false true false true 0 0 None examples.noLatencyConfig
                       [examples.serverURL]) examples.echo)
                 (snd (dnsutil.CreateECS examples.query23 1 24 [xcb; x00; x71; x09]))
                 (resolver.mkQueryMeta "udp"))))
  = None.
Proof.
  apply (Resolve_removes_client_ECS (lib := miekg.reference) (fun _ _ => true) (fun _ => None)
           0 1000000
           (examples.remoteOf
              (doh.mkConfig false true false true 0 0 None examples.noLatencyConfig
                 [examples.serverURL]) examples.echo)
           (snd (dnsutil.CreateECS examples.query23 1 24 [xcb; x00; x71; x09]))
           (resolver.mkQueryMeta "udp"));
    reflexivity.
Defined.

(** ** The replies of the local resolver *)

Section LocalReplies.
Context {lib : dns.Library}.
Variable W : Type.
Variable Exchange : string -> dns.Msg -> string -> W -> result unit dns.Msg * Z * W.
Variable Now : W -> Z.

Local Abbreviation exchange := (local.exchange W Exchange).
Local Abbreviation attempt := (local.attempt W Exchange Now).
Local Abbreviation attempts := (local.attempts W Exchange Now).
Local Abbreviation Resolve := (local.Resolve W Exchange Now).

(** The metadata of one exchange: one query more, or two with the
    fallback; the transport is TCP only for a success over TCP. *)
Lemma exchange_counts (q : dns.Msg) (server : string) (m : resolver.ResponseMetaData)
    (w : W) :
  let x := exchange q server m w in
  resolver.ServerTries (local.metaAfter _ x) = resolver.ServerTries m
  /\ resolver.QueryTries m + 1 <= resolver.QueryTries (local.metaAfter _ x)
     <= resolver.QueryTries m + 2
  /\ resolver.TransportDuration (local.metaAfter _ x) = resolver.TransportDuration m
  /\ (resolver.TransportType (local.metaAfter _ x) = resolver.DNSTransportUDP
      \/ resolver.TransportType (local.metaAfter _ x) = resolver.DNSTransportTCP
         /\ local.isSuccessReply (local.kept _ x) = true).
Proof.
  unfold local.exchange. cbv zeta.
  destruct (Exchange "" q server w) as [[r rtt0] w1].
  destruct (local.isTruncatedSuccess r).
  - destruct (Exchange "tcp" q server w1) as [[tcpReply tcpRtt] w2].
    destruct (local.isSuccessReply tcpReply) eqn:Hs; cbn; repeat split; auto; lia.
  - cbn. repeat split; auto; lia.
Qed.

Lemma iterateOf_false (r : dns.Msg) :
  local.iterateOf (Ok r) = false ->
  dns.Rcode (dns.Hdr r) <> dns.RcodeServerFailure
  /\ dns.Rcode (dns.Hdr r) <> dns.RcodeRefused
  /\ dns.Rcode (dns.Hdr r) <> dns.RcodeNotImplemented.
Proof.
  unfold local.iterateOf, local.classify, dns.RcodeSuccess, dns.RcodeFormatError,
    dns.RcodeServerFailure, dns.RcodeNameError, dns.RcodeRefused, dns.RcodeNotImplemented.
  destruct (Z.eqb_spec (dns.Rcode (dns.Hdr r)) 0); [cbn; lia|].
  destruct (Z.eqb_spec (dns.Rcode (dns.Hdr r)) 1); [cbn; lia|].
  destruct (Z.eqb_spec (dns.Rcode (dns.Hdr r)) 2); [discriminate|].
  destruct (Z.eqb_spec (dns.Rcode (dns.Hdr r)) 3); [cbn; lia|].
  destruct (Z.eqb_spec (dns.Rcode (dns.Hdr r)) 5); [discriminate|].
  destruct (Z.eqb_spec (dns.Rcode (dns.Hdr r)) 4); [discriminate|].
  cbn. lia.
Qed.

(** One iteration, started after [s] servers have been tried. *)
Lemma attempt_counts (q : dns.Msg) (tA : Z) (st st' : local.loopState W)
    (o : local.outcome) (s : Z) :
  resolver.ServerTries (local.respMeta _ st) = s ->
  s <= resolver.QueryTries (local.respMeta _ st) <= 2 * s ->
  resolver.TransportDuration (local.respMeta _ st) = 1 ->
  attempt q tA st = (o, st') ->
  match o with
  | local.Returned r meta =>
      local.iterateOf (Ok r) = false
      /\ resolver.ServerTries meta = s + 1
      /\ s + 1 <= resolver.QueryTries meta <= 2 * (s + 1)
      /\ resolver.PayloadSize meta = dns.Len r
      /\ resolver.TransportDuration meta = 1
      /\ (resolver.TransportType meta = resolver.DNSTransportUDP
          \/ resolver.TransportType meta = resolver.DNSTransportTCP
             /\ dns.Rcode (dns.Hdr r) = dns.RcodeSuccess)
  | local.Failed _ => True
  | local.Next =>
      resolver.ServerTries (local.respMeta _ st') = s + 1
      /\ s + 1 <= resolver.QueryTries (local.respMeta _ st') <= 2 * (s + 1)
      /\ resolver.TransportDuration (local.respMeta _ st') = 1
  end.
Proof.
  intros Hs Hq Hd. unfold local.attempt.
  destruct (bestserver.Best _) as [[server bsix]|]; [|now intros [= <- <-]].
  unfold local.exchangeOf.
  pose proof (exchange_counts q (bestserver.Name server)
                (local.countServer (local.respMeta _ st)) (local.world _ st)) as Hx.
  cbv zeta in Hx. cbn [local.countServer resolver.ServerTries resolver.QueryTries
                       resolver.TransportDuration] in Hx.
  destruct Hx as (H1 & H2 & H3 & H4).
  set (x := exchange q (bestserver.Name server) (local.countServer (local.respMeta _ st))
              (local.world _ st)) in *.
  destruct (bestserver.Result _ _ _ _ _) as [found bs].
  destruct (local.kept _ x) as [e|r] eqn:Hk.
  - destruct (tA <? _); intros [= <- <-]; [exact I|]. cbn. repeat split; lia.
  - destruct (local.iterateOf (Ok r)) eqn:Hit; cbn [negb].
    + destruct (tA <? _); intros [= <- <-]; [exact I|]. cbn. repeat split; lia.
    + intros [= <- <-]. cbn. split; [exact Hit|]. repeat split; try lia.
      destruct H4 as [H4|[H4 H5]]; [now left|right]. split; [exact H4|].
      cbn in H5. now apply Z.eqb_eq in H5.
Qed.

Lemma attempts_counts (q : dns.Msg) (tA : Z) (n : nat) :
  forall (st st' : local.loopState W) (s : Z) (r : dns.Msg)
         (meta : resolver.ResponseMetaData),
    resolver.ServerTries (local.respMeta _ st) = s ->
    s <= resolver.QueryTries (local.respMeta _ st) <= 2 * s ->
    resolver.TransportDuration (local.respMeta _ st) = 1 ->
    attempts q tA n st = (Ok (r, meta), st') ->
    local.iterateOf (Ok r) = false
    /\ s + 1 <= resolver.ServerTries meta <= s + Z.of_nat n
    /\ resolver.ServerTries meta <= resolver.QueryTries meta
       <= 2 * resolver.ServerTries meta
    /\ resolver.PayloadSize meta = dns.Len r
    /\ resolver.TransportDuration meta = 1
    /\ (resolver.TransportType meta = resolver.DNSTransportUDP
        \/ resolver.TransportType meta = resolver.DNSTransportTCP
           /\ dns.Rcode (dns.Hdr r) = dns.RcodeSuccess).
Proof.
  induction n as [|n IH]; intros st st' s r meta Hs Hq Hd; [discriminate|].
  cbn [local.attempts].
  destruct (attempt q tA st) as [o st1] eqn:Ha.
  pose proof (attempt_counts q tA st st1 o s Hs Hq Hd Ha) as Hc.
  destruct o as [r1 meta1|e|].
  - intros [= <- <- <-]. destruct Hc as (H1 & H2 & H3 & H4 & H5 & H6).
    repeat split; auto; lia.
  - discriminate.
  - intros Hrest. destruct Hc as (H1 & H2 & H3).
    destruct (IH st1 st' (s + 1) r meta H1 H2 H3 Hrest) as (K1 & K2 & K3 & K4 & K5 & K6).
    repeat split; auto; lia.
Qed.

(** X28: what the local resolver returns.  A reply that [Resolve] returns
    never has the rcode SERVFAIL, REFUSED or NOTIMP: after such a reply the
    next server is tried, or an error is returned.  The metadata counts at
    least one server and no more than the smaller of the configured attempts
    and the number of servers, and for each server one query or two; the
    payload size is that of the reply, and the transport is TCP only for a
    reply with rcode 0. *)
Theorem local_Resolve_reply (t t' : local.local) (q r : dns.Msg)
    (qMeta : resolver.QueryMetaData) (meta : resolver.ResponseMetaData) (w w' : W) :
  Resolve t q qMeta w = (Ok (r, meta), t', w') ->
  (dns.Rcode (dns.Hdr r) <> dns.RcodeServerFailure
   /\ dns.Rcode (dns.Hdr r) <> dns.RcodeRefused
   /\ dns.Rcode (dns.Hdr r) <> dns.RcodeNotImplemented)
  /\ 1 <= resolver.ServerTries meta <= local.maxAttemptsOf t
  /\ resolver.ServerTries meta <= local.Attempts (local.resolverConfig t)
  /\ resolver.ServerTries meta <= bestserver.Len (local.bestServer t)
  /\ resolver.ServerTries meta <= resolver.QueryTries meta
     <= 2 * resolver.ServerTries meta
  /\ resolver.PayloadSize meta = dns.Len r
  /\ resolver.TransportDuration meta = 1
  /\ (resolver.TransportType meta = resolver.DNSTransportUDP
      \/ resolver.TransportType meta = resolver.DNSTransportTCP
         /\ dns.Rcode (dns.Hdr r) = dns.RcodeSuccess).
Proof.
  unfold local.Resolve.
  destruct (attempts q _ _ _) as [res st] eqn:Ha. intros [= -> <- <-].
  apply (attempts_counts q _ _ _ _ 0) in Ha; [|reflexivity|cbn; lia|reflexivity].
  destruct Ha as (K1 & K2 & K3 & K4 & K5 & K6).
  split; [now apply iterateOf_false|].
  assert (Hm : resolver.ServerTries meta <= local.maxAttemptsOf t) by lia.
  split; [lia|].
  assert (Hb : local.maxAttemptsOf t <= local.Attempts (local.resolverConfig t)
               /\ local.maxAttemptsOf t <= bestserver.Len (local.bestServer t)).
  { unfold local.maxAttemptsOf. destruct (Z.ltb_spec (bestserver.Len (local.bestServer t))
                                            (local.Attempts (local.resolverConfig t))); lia. }
  repeat split; auto; lia.
Qed.

End LocalReplies.

Lemma local_Resolve_reply_witness :
  exists r meta t' w',
    examples.resolveLocal (examples.localOf 5) examples.fallbackOnSecond
    = (Ok (r, meta), t', w')
    /\ dns.Rcode (dns.Hdr r) <> dns.RcodeServerFailure
    /\ resolver.ServerTries meta <= 2.
Proof.
  eexists _, _, _, _. split; [vm_compute; reflexivity|].
  pose proof (local_Resolve_reply (lib := miekg.reference) examples.network examples.scripted
                (fun _ => 0) (examples.localOf 5) _ examples.query23 _
                (resolver.mkQueryMeta resolver.DNSTransportUDP) _ examples.fallbackOnSecond _
                ltac:(vm_compute; reflexivity)) as (H1 & H2 & H3 & _).
  split; [apply H1|exact H3].
Defined.

(** ** Replies that the proxy passes on as they are *)

Section ProxyPassThrough.
Context {lib : dns.Library}.
Context {R L ER EL : Type} {remoteResolver : resolver.Resolver R ER}
        {localResolver : resolver.Resolver L EL}.
Variable WriteMsg : dns.Msg -> bool.
Variable duration : Z.

Local Abbreviation ServeDNS := (proxy.ServeDNS WriteMsg duration).

Lemma limitOf_floor (query : dns.Msg) : consts.DNSTruncateThreshold <= proxy.limitOf query.
Proof.
  unfold proxy.limitOf. destruct (dns.IsEdns0 query) as [opt|]; [|lia].
  destruct (Z.ltb_spec consts.DNSTruncateThreshold (dns.UDPSize opt)); lia.
Qed.

Lemma truncation_none (transport_ : string) (query resp : dns.Msg)
    (respMeta : resolver.ResponseMetaData) :
  transport_ <> consts.DNSUDPTransport
  \/ resolver.PayloadSize respMeta <= proxy.limitOf query ->
  proxy.truncation transport_ query resp respMeta = (resp, false).
Proof.
  intros H. unfold proxy.truncation.
  destruct (String.eqb_spec transport_ consts.DNSUDPTransport) as [Hu|Hu]; [|reflexivity].
  destruct H as [H|H]; [contradiction|]. cbn [andb].
  destruct (consts.DNSTruncateThreshold <? _); [|reflexivity].
  cbv zeta. now replace (proxy.limitOf query <? resolver.PayloadSize respMeta) with false
    by (symmetry; apply Z.ltb_ge; lia).
Qed.

(** X29: what [ServeDNS] writes to the DNS client.  When the resolver
    returns an error nothing is written at all and the failure is counted as
    serNoResponse.  Otherwise one message is handed to [WriteMsg]; it is the
    resolver's reply, unchanged, when the transport is not UDP or the payload
    size that the resolver reports is within the limit of the query, which
    is never below 512; replies over TCP are never truncated. *)
Theorem ServeDNS_passes_reply_through (t : proxy.server R L) (query : dns.Msg) :
  match proxy.resolved t query with
  | None =>
      proxy.written (ServeDNS t query) = None
      /\ proxy.stat (ServeDNS t query)
         = proxy.addFailureStats proxy.serNoResponse (proxy.mkEvents false false)
  | Some (resp, respMeta) =>
      exists out,
        proxy.written (ServeDNS t query) = Some out
        /\ 512 <= proxy.limitOf (proxy.queryAfter (ServeDNS t query))
        /\ (proxy.transport t <> consts.DNSUDPTransport
            \/ resolver.PayloadSize respMeta
               <= proxy.limitOf (proxy.queryAfter (ServeDNS t query)) ->
            out = resp
            /\ proxy.stat (ServeDNS t query)
               = if WriteMsg resp
                 then proxy.addSuccessStats duration
                        (proxy.mkEvents (dns.Truncated (dns.Hdr resp)) false)
                 else proxy.addFailureStats proxy.serDNSWriteFailed
                        (proxy.mkEvents (dns.Truncated (dns.Hdr resp)) false))
  end.
Proof.
  assert (Hfin : forall (t' : proxy.server R L) q' resp respMeta,
            proxy.transport t' = proxy.transport t ->
            exists out,
              proxy.written (proxy.finish WriteMsg duration t' q' resp respMeta) = Some out
              /\ 512 <= proxy.limitOf
                          (proxy.queryAfter (proxy.finish WriteMsg duration t' q' resp respMeta))
              /\ (proxy.transport t <> consts.DNSUDPTransport
                  \/ resolver.PayloadSize respMeta
                     <= proxy.limitOf
                          (proxy.queryAfter (proxy.finish WriteMsg duration t' q' resp respMeta)) ->
                  out = resp
                  /\ proxy.stat (proxy.finish WriteMsg duration t' q' resp respMeta)
                     = if WriteMsg resp
                       then proxy.addSuccessStats duration
                              (proxy.mkEvents (dns.Truncated (dns.Hdr resp)) false)
                       else proxy.addFailureStats proxy.serDNSWriteFailed
                              (proxy.mkEvents (dns.Truncated (dns.Hdr resp)) false))).
  { intros t' q' resp respMeta Ht.
    assert (Hq : proxy.queryAfter (proxy.finish WriteMsg duration t' q' resp respMeta) = q').
    { unfold proxy.finish. destruct (proxy.truncation _ _ _ _) as [out o].
      now destruct (WriteMsg out). }
    rewrite Hq. eexists. split; [apply finish_written|].
    split; [apply (limitOf_floor q')|].
    intros H. rewrite <- Ht in H. unfold proxy.finish.
    rewrite (truncation_none _ _ _ _ H). cbn [fst]. split; [reflexivity|].
    now destruct (WriteMsg resp). }
  unfold proxy.resolved, proxy.ServeDNS.
  destruct (proxy.useLocal t query) as [l|].
  - destruct (resolver.Resolve l query _) as [[r q'] l'].
    cbn [fst]. destruct r as [e|[resp0 meta0]]; [now split|]. now apply Hfin.
  - destruct (resolver.Resolve (proxy.remote t) query _) as [[r q'] r'].
    cbn [fst]. destruct r as [e|[resp0 meta0]]; [now split|]. now apply Hfin.
Qed.

End ProxyPassThrough.

Lemma ServeDNS_passes_reply_through_witness :
  proxy.written
    (@proxy.ServeDNS miekg.reference _ _ _ _ examples.mockResolve examples.mockResolve
       (fun _ => true) 1000000
       (proxy.mkServer
          (examples.mkMock false (examples.bigResponse false)
             (examples.metaOf (examples.bigResponse false)) false)
          None consts.DNSTCPTransport)
       examples.query23)
  = Some (examples.bigResponse false).
Proof.
  pose proof (ServeDNS_passes_reply_through (lib := miekg.reference)
                (remoteResolver := examples.mockResolve)
                (localResolver := examples.mockResolve) (fun _ => true) 1000000
                (proxy.mkServer
                   (examples.mkMock false (examples.bigResponse false)
                      (examples.metaOf (examples.bigResponse false)) false)
                   None consts.DNSTCPTransport)
                examples.query23) as H.
  change (proxy.resolved _ _)
    with (Some (examples.bigResponse false, examples.metaOf (examples.bigResponse false))) in H.
  destruct H as (out & Hw & _ & Hout). rewrite Hw. f_equal. apply Hout. left. discriminate.
Defined.

(** ** The wait until the next status report *)

(** X30: [nextInterval], the time that the main loop of the server and of
    the proxy waits before a status report.  For a positive interval it is
    more than zero and at most the interval, and it ends at the next instant
    that is a whole multiple of the interval counted from the zero time (a
    full interval away when now is such an instant).  For an interval of zero
    it is zero. *)
Theorem nextInterval_next_tick (now interval : Z) :
  0 <= now -> 0 <= interval < 2 ^ 63 ->
  (interval = 0 -> statusloop.nextInterval now interval = 0)
  /\ (0 < interval ->
      0 < statusloop.nextInterval now interval <= interval
      /\ (interval | now + statusloop.nextInterval now interval)
      /\ forall t, now < t -> (interval | t) ->
                   now + statusloop.nextInterval now interval <= t).
Proof.
  intros Hnow Hi. unfold statusloop.nextInterval, statusloop.Truncate, statusloop.Add,
    connectiontracker.Sub.
  split.
  - intros ->. cbn [Z.leb Z.compare]. lia.
  - intros Hpos. replace (interval <=? 0) with false by (symmetry; apply Z.leb_gt; lia).
    pose proof (Z.mod_pos_bound now interval Hpos) as Hm.
    replace (now - now mod interval + interval - now) with (interval - now mod interval)
      by lia.
    rewrite Z.min_r, Z.max_r by lia.
    split; [lia|]. split.
    + exists (now / interval + 1). pose proof (Z.div_mod now interval ltac:(lia)). nia.
    + intros t Ht [k Hk]. subst t.
      pose proof (Z.div_mod now interval ltac:(lia)) as Hd.
      assert (now / interval < k) by nia. nia.
Qed.

Lemma nextInterval_next_tick_witness :
  0 < statusloop.nextInterval 77000000000 900000000000 <= 900000000000
  /\ (900000000000 | 77000000000 + statusloop.nextInterval 77000000000 900000000000).
Proof.
  destruct (nextInterval_next_tick 77000000000 900000000000) as [_ H]; [lia|lia|].
  destruct H as (H1 & H2 & _); [lia|]. split; [exact H1|exact H2].
Defined.

(** ** The shape of the X-trustydns-Synth header *)

Section PrefixLengths.

Lemma digit_isDigit (c : ascii) (d : Z) :
  net.digit c = Some d
  <-> gostd.isDigit c = true /\ d = Z.of_nat (nat_of_ascii c) - 48.
Proof.
  unfold net.digit, gostd.isDigit. cbv zeta.
  destruct (_ && _).
  - split; [intros [= <-]; auto|intros [_ ->]; reflexivity].
  - split; [discriminate|intros [H _]; discriminate].
Qed.

Lemma number_decimal (cs : list ascii) :
  forall acc n,
    net.number net.digit 10 cs acc = Some n
    <-> forallb gostd.isDigit cs = true
        /\ n = fold_left (fun a c => a * 10 + (Z.of_nat (nat_of_ascii c) - 48)) cs acc.
Proof.
  induction cs as [|c cs IH]; intros acc n; cbn.
  - split; [intros [= <-]; auto|intros [_ ->]; reflexivity].
  - destruct (net.digit c) as [d|] eqn:Hd.
    + apply digit_isDigit in Hd as [Hc ->]. rewrite Hc. cbn [andb]. apply IH.
    + split; [discriminate|]. intros [H _]. apply andb_true_iff in H as [Hc _].
      assert (Hsome : net.digit c = Some (Z.of_nat (nat_of_ascii c) - 48))
        by (apply digit_isDigit; auto).
      congruence.
Qed.

Lemma splitOn_not_nil (sep : ascii) (s cur : list ascii) : net.splitOn sep s cur <> [].
Proof.
  revert cur. induction s as [|c s IH]; intros cur; cbn; [discriminate|].
  destruct (Ascii.eqb c sep); [discriminate|apply IH].
Qed.

Lemma splitOn_one (sep : ascii) (s cur : list ascii) (y : list ascii) :
  net.splitOn sep s cur = [y] ->
  forallb (fun ch => negb (Ascii.eqb ch sep)) s = true /\ y = rev cur ++ s.
Proof.
  revert cur. induction s as [|c s IH]; intros cur; cbn.
  - intros [= <-]. now rewrite app_nil_r.
  - destruct (Ascii.eqb c sep) eqn:E.
    + intros [= _ H]. now apply splitOn_not_nil in H.
    + intros H. apply IH in H as [Hs ->]. cbn. split; [exact Hs|].
      now rewrite <- app_assoc.
Qed.

Lemma splitOn_two (sep : ascii) (s cur : list ascii) (x y : list ascii) :
  net.splitOn sep s cur = [x; y] ->
  exists a b,
    s = a ++ sep :: b
    /\ forallb (fun ch => negb (Ascii.eqb ch sep)) a = true
    /\ forallb (fun ch => negb (Ascii.eqb ch sep)) b = true
    /\ x = rev cur ++ a /\ y = b.
Proof.
  revert cur. induction s as [|c s IH]; intros cur; cbn; [discriminate|].
  destruct (Ascii.eqb c sep) eqn:E.
  - intros [= <- H]. apply splitOn_one in H as [Hs ->].
    apply Ascii.eqb_eq in E. subst c.
    exists [], s. cbn. now rewrite app_nil_r.
  - intros H. apply IH in H as (a & b & -> & Ha & Hb & -> & ->).
    exists (c :: a), b. cbn. rewrite E, Ha. cbn. repeat split; auto.
    now rewrite <- app_assoc.
Qed.

Lemma string_of_list_ascii_inj (s : string) (l : list ascii) :
  list_ascii_of_string s = l -> s = string_of_list_ascii l.
Proof. intros <-. now rewrite string_of_list_ascii_of_string. Qed.

Lemma digits_no_slash (l : list ascii) :
  forallb gostd.isDigit l = true ->
  forallb (fun ch => negb (Ascii.eqb ch "/")) l = true.
Proof.
  apply forallb_weaken. intros c Hc.
  destruct (Ascii.eqb_spec c "/") as [->|]; [discriminate Hc|reflexivity].
Qed.

(** [strconv.ParseUint] with base 10 and 8 bits reads a string exactly when
    it is a non-empty string of decimal digits that writes a number below
    256, and gives that number. *)
Lemma ParseUint_decimal (p : string) (n : Z) :
  gostd.ParseUint p 8 = Some n
  <-> p <> "" /\ forallb gostd.isDigit (list_ascii_of_string p) = true
      /\ n = gostd.decimal p /\ n < 256.
Proof.
  unfold gostd.ParseUint, gostd.decimal.
  destruct p as [|c p]; [split; [discriminate|intros [H _]; now contradiction H]|].
  cbn [list_ascii_of_string].
  destruct (net.number net.digit 10 (c :: list_ascii_of_string p) 0) as [m|] eqn:Hm.
  - apply number_decimal in Hm as [Hd ->].
    change (2 ^ 8) with 256.
    destruct (Z.ltb_spec (fold_left (fun a c0 => a * 10 + (Z.of_nat (nat_of_ascii c0) - 48))
                            (c :: list_ascii_of_string p) 0) 256).
    + split; [intros [= <-]; repeat split; auto; discriminate|].
      intros (_ & _ & -> & _). reflexivity.
    + split; [discriminate|]. intros (_ & _ & -> & Hlt). lia.
  - split; [discriminate|]. intros (_ & Hd & -> & _).
    assert (Hn : net.number net.digit 10 (c :: list_ascii_of_string p) 0
                 = Some (fold_left (fun a c0 => a * 10 + (Z.of_nat (nat_of_ascii c0) - 48))
                           (c :: list_ascii_of_string p) 0))
      by (apply number_decimal; auto).
    congruence.
Qed.

Lemma Split_two (s p0 p1 : string) :
  gostd.Split s "/" = [p0; p1]
  <-> s = p0 +:+ "/" +:+ p1
      /\ forallb (fun ch => negb (Ascii.eqb ch "/")) (list_ascii_of_string p0) = true
      /\ forallb (fun ch => negb (Ascii.eqb ch "/")) (list_ascii_of_string p1) = true.
Proof.
  unfold gostd.Split. split.
  - intros H.
    destruct (net.splitOn "/" (list_ascii_of_string s) []) as [|x [|y [|z l]]] eqn:Hs;
      try discriminate H.
    injection H as <- <-.
    apply splitOn_two in Hs as (a & b & Hab & Ha & Hb & -> & ->). cbn [rev app].
    rewrite !list_ascii_of_string_of_list_ascii. split; [|auto].
    apply string_of_list_ascii_inj in Hab. rewrite Hab.
    symmetry. apply string_of_list_ascii_inj.
    rewrite !list_ascii_app, !list_ascii_of_string_of_list_ascii. reflexivity.
  - intros (-> & H0 & H1).
    rewrite !list_ascii_app. cbn [list_ascii_of_string app].
    rewrite (splitOn_app "/" _ _ [] H0), (splitOn_none "/" _ [] H1). cbn [rev app map].
    now rewrite !string_of_list_ascii_of_string.
Qed.

(** X17: [extractPrefixLengths] accepts exactly the strings made of two
    fields with one slash between them, each field a non-empty string of
    decimal digits, of which the first writes a number of at most 32 and the
    second a number of at most 128; it returns these two numbers.  So what
    it returns lies within 0..32 and 0..128; and the value that the DoH
    resolver built by [New] puts in the X-trustydns-Synth header is read back
    by it as the two prefix lengths of the resolver's configuration. *)
Theorem extractPrefixLengths_reads_header :
  (forall s a b,
      dohserver.extractPrefixLengths s = Ok (a, b)
      <-> exists p0 p1,
            s = p0 +:+ "/" +:+ p1
            /\ p0 <> "" /\ p1 <> ""
            /\ forallb gostd.isDigit (list_ascii_of_string p0) = true
            /\ forallb gostd.isDigit (list_ascii_of_string p1) = true
            /\ a = gostd.decimal p0 /\ b = gostd.decimal p1
            /\ a <= 32 /\ b <= 128)
  /\ (forall s a b, dohserver.extractPrefixLengths s = Ok (a, b) ->
                    0 <= a <= 32 /\ 0 <= b <= 128)
  /\ (forall c client r, doh.New c client = Ok r ->
        dohserver.extractPrefixLengths (doh.ecsRequestData r)
        = Ok (doh.ECSRequestIPv4PrefixLen c, doh.ECSRequestIPv6PrefixLen c)).
Proof.
  split; [|split].
  - intros s a b. unfold dohserver.extractPrefixLengths. split.
    + destruct (gostd.Split s "/") as [|p0 [|p1 [|? ?]]] eqn:Hs; try discriminate.
      apply Split_two in Hs as (-> & _ & _).
      destruct (gostd.ParseUint p0 8) as [x|] eqn:E0; [|discriminate].
      destruct (gostd.ParseUint p1 8) as [y|] eqn:E1; [|discriminate].
      destruct (Z.ltb_spec 32 x); [discriminate|].
      destruct (Z.ltb_spec 128 y); [discriminate|].
      intros [= <- <-].
      apply ParseUint_decimal in E0 as (N0 & D0 & V0 & _).
      apply ParseUint_decimal in E1 as (N1 & D1 & V1 & _).
      exists p0, p1. repeat split; auto.
    + intros (p0 & p1 & -> & N0 & N1 & D0 & D1 & -> & -> & Ha & Hb).
      assert (Hs : gostd.Split (p0 +:+ "/" +:+ p1) "/" = [p0; p1]).
      { apply Split_two. split; [reflexivity|]. split; now apply digits_no_slash. }
      rewrite Hs.
      assert (E0 : gostd.ParseUint p0 8 = Some (gostd.decimal p0))
        by (apply ParseUint_decimal; repeat split; auto; lia).
      assert (E1 : gostd.ParseUint p1 8 = Some (gostd.decimal p1))
        by (apply ParseUint_decimal; repeat split; auto; lia).
      rewrite E0, E1.
      replace (32 <? gostd.decimal p0) with false by (symmetry; apply Z.ltb_ge; lia).
      replace (128 <? gostd.decimal p1) with false by (symmetry; apply Z.ltb_ge; lia).
      reflexivity.
  - intros s a b. unfold dohserver.extractPrefixLengths.
    destruct (gostd.Split s "/") as [|p0 [|p1 [|? ?]]]; try discriminate.
    destruct (gostd.ParseUint p0 8) as [x|] eqn:E0; [|discriminate].
    destruct (gostd.ParseUint p1 8) as [y|] eqn:E1; [|discriminate].
    destruct (Z.ltb_spec 32 x); [discriminate|].
    destruct (Z.ltb_spec 128 y); [discriminate|].
    intros [= <- <-]. apply ParseUint_nonneg in E0, E1. lia.
  - intros c client r. unfold doh.New. cbv zeta.
    destruct (doh.UseGetMethod c && _); [discriminate|].
    match goal with
    | |- match ?e with Err _ => _ | Ok _ => _ end = _ -> _ => destruct e as [e0|[[fam plen] ip]]
    end; [discriminate|].
    destruct ((doh.ECSRequestIPv4PrefixLen c <? 0) || _) eqn:E4; [discriminate|].
    destruct ((doh.ECSRequestIPv6PrefixLen c <? 0) || _) eqn:E6; [discriminate|].
    destruct (bestserver.NewLatency _ _); [discriminate|].
    intros [= <-]. cbn [doh.ecsRequestData].
    apply orb_false_iff in E4 as [E4a E4b]. apply orb_false_iff in E6 as [E6a E6b].
    apply Z.ltb_ge in E4a, E4b, E6a, E6b.
    pose proof (readsBack_all (doh.ECSRequestIPv4PrefixLen c) (doh.ECSRequestIPv6PrefixLen c)
                  ltac:(lia) ltac:(lia)) as H.
    unfold dohserver.readsBack in H.
    destruct (dohserver.extractPrefixLengths _) as [e|[x y]]; [discriminate|].
    apply andb_true_iff in H as [Hx Hy]. apply Z.eqb_eq in Hx, Hy. now subst.
Qed.

End PrefixLengths.

Lemma extractPrefixLengths_reads_header_witness :
  dohserver.extractPrefixLengths "24/64" = Ok (24, 64)
  /\ dohserver.extractPrefixLengths
       (doh.ecsRequestData
          (examples.remoteOf
             (doh.mkConfig false false false false 24 64 None examples.noLatencyConfig
                [examples.serverURL]) examples.echo))
     = Ok (24, 64).
Proof.
  split.
  - apply (proj1 extractPrefixLengths_reads_header "24/64" 24 64).
    exists "24", "64". repeat split; try reflexivity; try discriminate; lia.
  - apply (proj2 (proj2 extractPrefixLengths_reads_header)
             (doh.mkConfig false false false false 24 64 None examples.noLatencyConfig
                [examples.serverURL]) examples.echo).
    reflexivity.
Defined.
